(** * Front Light Management: the safety control plane

    A shallow embedding of the five software components (SwitchEvent,
    LightRequest, FLM application, Headlight, SafetyMonitor) and of the
    E2E Profile 01 library they rest on.  Every C++ function that the
    properties below speak about is rendered as a function on an explicit
    state record; fixed-width unsigned integers are integers with the
    wrap-around of each operation written out; arrays are lists read and
    written by index. *)

From Stdlib Require Import ZArith Bool Lia.
From stdpp Require Import base list.

Local Open Scope Z_scope.

(** ** Fixed-width arithmetic *)

Definition wrap8 (x : Z) : Z := x mod 256.
Definition wrap16 (x : Z) : Z := x mod 65536.
Definition wrap32 (x : Z) : Z := x mod 4294967296.

(** [a[i]] for an array of unsigned integers; the index is in range in
    every call the sources make. *)
Definition rd (a : list Z) (i : Z) : Z := default 0 (a !! Z.to_nat i).

(** [a[i] = v]. *)
Definition wr (a : list Z) (i : Z) (v : Z) : list Z := <[Z.to_nat i := v]> a.

(** ** Shared enumerations and records (Rte_Type.h, ComStack_Types.h) *)

Inductive FLM_StateType : Set :=
  | FLM_STATE_INIT | FLM_STATE_NORMAL | FLM_STATE_DEGRADED | FLM_STATE_SAFE.

Inductive E2E_P01CheckStatusType : Set :=
  | E2E_P01STATUS_OK | E2E_P01STATUS_NONEWDATA | E2E_P01STATUS_WRONGCRC
  | E2E_P01STATUS_SYNC | E2E_P01STATUS_INITIAL | E2E_P01STATUS_REPEATED
  | E2E_P01STATUS_OKSOMELOST | E2E_P01STATUS_WRONGSEQUENCE.

Inductive E2E_SMStateType : Set :=
  | E2E_SM_VALID | E2E_SM_DEINIT | E2E_SM_NODATA | E2E_SM_INIT | E2E_SM_INVALID.

Inductive WdgM_GlobalStatusType : Set :=
  | WDGM_GLOBAL_STATUS_OK | WDGM_GLOBAL_STATUS_FAILED | WDGM_GLOBAL_STATUS_EXPIRED
  | WDGM_GLOBAL_STATUS_STOPPED | WDGM_GLOBAL_STATUS_DEACTIVATED.

Inductive LightSwitchCmd : Set :=
  | LIGHT_SWITCH_OFF | LIGHT_SWITCH_LOW_BEAM | LIGHT_SWITCH_HIGH_BEAM | LIGHT_SWITCH_AUTO.

Inductive SignalStatus : Set :=
  | SIGNAL_STATUS_VALID | SIGNAL_STATUS_INVALID | SIGNAL_STATUS_TIMEOUT
  | SIGNAL_STATUS_OPEN_CIRCUIT | SIGNAL_STATUS_SHORT_CIRCUIT | SIGNAL_STATUS_PLAUSIBILITY.

Inductive HeadlightCommand : Set :=
  | HEADLIGHT_CMD_OFF | HEADLIGHT_CMD_LOW_BEAM | HEADLIGHT_CMD_HIGH_BEAM.

Inductive HeadlightFaultStatus : Set :=
  | HEADLIGHT_FAULT_NONE | HEADLIGHT_FAULT_OPEN_LOAD | HEADLIGHT_FAULT_SHORT
  | HEADLIGHT_FAULT_OVERCURRENT.

Inductive SafetyStatusType : Set :=
  | SAFETY_STATUS_OK | SAFETY_STATUS_WARNING | SAFETY_STATUS_DEGRADED
  | SAFETY_STATUS_SAFE_STATE.

Inductive SafeStateReason : Set :=
  | SAFE_STATE_REASON_NONE | SAFE_STATE_REASON_E2E_FAILURE
  | SAFE_STATE_REASON_WDGM_FAILURE | SAFE_STATE_REASON_MULTI_FAULT
  | SAFE_STATE_REASON_TIMEOUT | SAFE_STATE_REASON_MANUAL.

Inductive Std_ReturnType : Set := E_OK | E_NOT_OK.

Definition FLM_StateType_eqb (a b : FLM_StateType) : bool :=
  match a, b with
  | FLM_STATE_INIT, FLM_STATE_INIT | FLM_STATE_NORMAL, FLM_STATE_NORMAL
  | FLM_STATE_DEGRADED, FLM_STATE_DEGRADED | FLM_STATE_SAFE, FLM_STATE_SAFE => true
  | _, _ => false
  end.

Definition HeadlightCommand_eqb (a b : HeadlightCommand) : bool :=
  match a, b with
  | HEADLIGHT_CMD_OFF, HEADLIGHT_CMD_OFF
  | HEADLIGHT_CMD_LOW_BEAM, HEADLIGHT_CMD_LOW_BEAM
  | HEADLIGHT_CMD_HIGH_BEAM, HEADLIGHT_CMD_HIGH_BEAM => true
  | _, _ => false
  end.

Module LightSwitchStatus.

Record t : Type := mk {
  command : LightSwitchCmd;
  isValid : bool;
  e2eStatus : Z  (* uint8_t *)
}.

End LightSwitchStatus.

Module AmbientLightLevel.

Record t : Type := mk {
  adcValue : Z;  (* uint16_t, 0..4095 *)
  luxValue : Z;  (* uint16_t *)
  isValid : bool
}.

End AmbientLightLevel.

(** ** Configuration constants (FLM_Config.h and the component headers) *)

Definition FLM_MAIN_FUNCTION_PERIOD_MS : Z := 10.
Definition FLM_AMBIENT_LIGHT_PERIOD_MS : Z := 20.
Definition FLM_SAFETY_MONITOR_PERIOD_MS : Z := 5.
Definition FLM_CAN_TIMEOUT_MS : Z := 50.
Definition FLM_E2E_TIMEOUT_MS : Z := 100.
Definition FLM_FTTI_MS : Z := 200.
Definition FLM_SAFE_STATE_TRANSITION_MS : Z := 100.
Definition FLM_AMBIENT_THRESHOLD_ON : Z := 800.
Definition FLM_AMBIENT_THRESHOLD_OFF : Z := 1000.
Definition FLM_AMBIENT_RATE_LIMIT : Z := 500.
Definition FLM_AMBIENT_OPEN_CIRCUIT : Z := 100.
Definition FLM_AMBIENT_SHORT_CIRCUIT : Z := 3995.
Definition FLM_ADC_SAMPLES : Z := 4.
Definition FLM_HEADLIGHT_FAULT_DETECT_MS : Z := 20.
Definition FLM_HEADLIGHT_MIN_CURRENT_MA : Z := 100.
Definition FLM_HEADLIGHT_MAX_CURRENT_MA : Z := 15000.
Definition FLM_HEADLIGHT_OPEN_LOAD_MA : Z := 50.
Definition FLM_HEADLIGHT_CURRENT_FACTOR : Z := 10.
Definition FLM_E2E_LIGHTSWITCH_DATA_LENGTH : Z := 32.
Definition FLM_E2E_LIGHTSWITCH_DATA_ID : Z := 0x0100.
Definition FLM_E2E_MAX_DELTA_COUNTER : Z := 2.
Definition FLM_E2E_MAX_NO_NEW_DATA : Z := 5.
Definition FLM_E2E_SYNC_COUNTER : Z := 2.
Definition FLM_E2E_COUNTER_OFFSET : Z := 8.
Definition FLM_E2E_CRC_OFFSET : Z := 0.
Definition FLM_CAN_LIGHTSWITCH_MSG_LEN : Z := 4.
Definition FLM_MAX_CONSECUTIVE_ERRORS : Z := 3.
Definition COM_LIGHTSWITCH_CMD_BYTE : Z := 2.

(** ** E2E Profile 01 (BSW/E2E/E2E_P01.cpp) *)

Module E2E.

Definition E2E_P01_CRC_INITIAL_VALUE : Z := 0xFF.
Definition E2E_P01_CRC_XOR_VALUE : Z := 0xFF.
Definition E2E_P01_COUNTER_MAX : Z := 14.
Definition E2E_P01_COUNTER_WRAP : Z := 15.
Definition E2E_P01_MAX_DELTA_COUNTER_DEFAULT : Z := 1.
Definition E2E_P01_HIGH_NIBBLE_MASK : Z := 0xF0.
Definition E2E_P01_LOW_NIBBLE_MASK : Z := 0x0F.

Definition E2E_P01_CRC8_Table : list Z :=
  [
   0x00; 0x1D; 0x3A; 0x27; 0x74; 0x69; 0x4E; 0x53;
   0xE8; 0xF5; 0xD2; 0xCF; 0x9C; 0x81; 0xA6; 0xBB;
   0xCD; 0xD0; 0xF7; 0xEA; 0xB9; 0xA4; 0x83; 0x9E;
   0x25; 0x38; 0x1F; 0x02; 0x51; 0x4C; 0x6B; 0x76;
   0x87; 0x9A; 0xBD; 0xA0; 0xF3; 0xEE; 0xC9; 0xD4;
   0x6F; 0x72; 0x55; 0x48; 0x1B; 0x06; 0x21; 0x3C;
   0x4A; 0x57; 0x70; 0x6D; 0x3E; 0x23; 0x04; 0x19;
   0xA2; 0xBF; 0x98; 0x85; 0xD6; 0xCB; 0xEC; 0xF1;
   0x13; 0x0E; 0x29; 0x34; 0x67; 0x7A; 0x5D; 0x40;
   0xFB; 0xE6; 0xC1; 0xDC; 0x8F; 0x92; 0xB5; 0xA8;
   0xDE; 0xC3; 0xE4; 0xF9; 0xAA; 0xB7; 0x90; 0x8D;
   0x36; 0x2B; 0x0C; 0x11; 0x42; 0x5F; 0x78; 0x65;
   0x94; 0x89; 0xAE; 0xB3; 0xE0; 0xFD; 0xDA; 0xC7;
   0x7C; 0x61; 0x46; 0x5B; 0x08; 0x15; 0x32; 0x2F;
   0x59; 0x44; 0x63; 0x7E; 0x2D; 0x30; 0x17; 0x0A;
   0xB1; 0xAC; 0x8B; 0x96; 0xC5; 0xD8; 0xFF; 0xE2;
   0x26; 0x3B; 0x1C; 0x01; 0x52; 0x4F; 0x68; 0x75;
   0xCE; 0xD3; 0xF4; 0xE9; 0xBA; 0xA7; 0x80; 0x9D;
   0xEB; 0xF6; 0xD1; 0xCC; 0x9F; 0x82; 0xA5; 0xB8;
   0x03; 0x1E; 0x39; 0x24; 0x77; 0x6A; 0x4D; 0x50;
   0xA1; 0xBC; 0x9B; 0x86; 0xD5; 0xC8; 0xEF; 0xF2;
   0x49; 0x54; 0x73; 0x6E; 0x3D; 0x20; 0x07; 0x1A;
   0x6C; 0x71; 0x56; 0x4B; 0x18; 0x05; 0x22; 0x3F;
   0x84; 0x99; 0xBE; 0xA3; 0xF0; 0xED; 0xCA; 0xD7;
   0x35; 0x28; 0x0F; 0x12; 0x41; 0x5C; 0x7B; 0x66;
   0xDD; 0xC0; 0xE7; 0xFA; 0xA9; 0xB4; 0x93; 0x8E;
   0xF8; 0xE5; 0xC2; 0xDF; 0x8C; 0x91; 0xB6; 0xAB;
   0x10; 0x0D; 0x2A; 0x37; 0x64; 0x79; 0x5E; 0x43;
   0xB2; 0xAF; 0x88; 0x95; 0xC6; 0xDB; 0xFC; 0xE1;
   0x5A; 0x47; 0x60; 0x7D; 0x2E; 0x33; 0x14; 0x09;
   0x7F; 0x62; 0x45; 0x58; 0x0B; 0x16; 0x31; 0x2C;
   0x97; 0x8A; 0xAD; 0xB0; 0xE3; 0xFE; 0xD9; 0xC4
  ].

Record E2E_P01ConfigType : Type := Build_E2E_P01ConfigType {
  DataLength : Z;  (* uint16_t, data length in bits *)
  DataID : Z;  (* uint16_t *)
  MaxDeltaCounter : Z;  (* uint8_t *)
  MaxNoNewOrRepeatedData : Z;  (* uint16_t *)
  SyncCounter : Z;  (* uint16_t *)
  CounterOffset : Z;  (* uint16_t, bit position of the counter *)
  CRCOffset : Z;  (* uint16_t, bit position of the CRC *)
  DataIDNibbleOffset : Z;  (* uint16_t *)
  DataIDMode : bool
}.

Record E2E_P01ProtectStateType : Type := Build_E2E_P01ProtectStateType {
  Counter : Z  (* uint8_t, 0..14 *)
}.

Record E2E_P01CheckStateType : Type := Build_E2E_P01CheckStateType {
  LastValidCounter : Z;  (* uint8_t *)
  StMaxDeltaCounter : Z;  (* uint8_t MaxDeltaCounter of the check state *)
  WaitForFirstData : bool;
  NewDataAvailable : bool;
  LostData : Z;  (* uint16_t *)
  Status : E2E_P01CheckStatusType;
  NoNewOrRepeatedDataCounter : Z;  (* uint16_t *)
  StSyncCounter : Z  (* uint16_t SyncCounter of the check state *)
}.

Definition set_LastValidCounter (v : Z) (s : E2E_P01CheckStateType) : E2E_P01CheckStateType :=
  {| LastValidCounter := v; StMaxDeltaCounter := StMaxDeltaCounter s;
     WaitForFirstData := WaitForFirstData s;
     NewDataAvailable := NewDataAvailable s; LostData := LostData s;
     Status := Status s;
     NoNewOrRepeatedDataCounter := NoNewOrRepeatedDataCounter s;
     StSyncCounter := StSyncCounter s |}.

Definition set_WaitForFirstData (v : bool) (s : E2E_P01CheckStateType) : E2E_P01CheckStateType :=
  {| LastValidCounter := LastValidCounter s;
     StMaxDeltaCounter := StMaxDeltaCounter s; WaitForFirstData := v;
     NewDataAvailable := NewDataAvailable s; LostData := LostData s;
     Status := Status s;
     NoNewOrRepeatedDataCounter := NoNewOrRepeatedDataCounter s;
     StSyncCounter := StSyncCounter s |}.

Definition set_LostData (v : Z) (s : E2E_P01CheckStateType) : E2E_P01CheckStateType :=
  {| LastValidCounter := LastValidCounter s;
     StMaxDeltaCounter := StMaxDeltaCounter s;
     WaitForFirstData := WaitForFirstData s;
     NewDataAvailable := NewDataAvailable s; LostData := v;
     Status := Status s;
     NoNewOrRepeatedDataCounter := NoNewOrRepeatedDataCounter s;
     StSyncCounter := StSyncCounter s |}.

Definition set_Status (v : E2E_P01CheckStatusType) (s : E2E_P01CheckStateType) : E2E_P01CheckStateType :=
  {| LastValidCounter := LastValidCounter s;
     StMaxDeltaCounter := StMaxDeltaCounter s;
     WaitForFirstData := WaitForFirstData s;
     NewDataAvailable := NewDataAvailable s; LostData := LostData s;
     Status := v; NoNewOrRepeatedDataCounter := NoNewOrRepeatedDataCounter s;
     StSyncCounter := StSyncCounter s |}.

Definition set_NoNewOrRepeatedDataCounter (v : Z) (s : E2E_P01CheckStateType) : E2E_P01CheckStateType :=
  {| LastValidCounter := LastValidCounter s;
     StMaxDeltaCounter := StMaxDeltaCounter s;
     WaitForFirstData := WaitForFirstData s;
     NewDataAvailable := NewDataAvailable s; LostData := LostData s;
     Status := Status s; NoNewOrRepeatedDataCounter := v;
     StSyncCounter := StSyncCounter s |}.

Record E2E_SMConfigType : Type := Build_E2E_SMConfigType {
  WindowSize : Z;  (* uint8_t *)
  MinOkStateInit : Z;
  MaxErrorStateInit : Z;
  MinOkStateValid : Z;
  MinOkStateInvalid : Z;
  MaxErrorStateValid : Z;
  MaxErrorStateInvalid : Z
}.

Record E2E_SMCheckStateType : Type := Build_E2E_SMCheckStateType {
  OkCount : Z;  (* uint8_t *)
  ErrorCount : Z;  (* uint8_t *)
  SMState : E2E_SMStateType
}.

Definition set_OkCount (v : Z) (s : E2E_SMCheckStateType) : E2E_SMCheckStateType :=
  {| OkCount := v; ErrorCount := ErrorCount s; SMState := SMState s |}.

Definition set_ErrorCount (v : Z) (s : E2E_SMCheckStateType) : E2E_SMCheckStateType :=
  {| OkCount := OkCount s; ErrorCount := v; SMState := SMState s |}.

Definition set_SMState (v : E2E_SMStateType) (s : E2E_SMCheckStateType) : E2E_SMCheckStateType :=
  {| OkCount := OkCount s; ErrorCount := ErrorCount s; SMState := v |}.

(** The body of the table-driven loop of [E2E_P01_CalculateCRC8]:
    [crc = E2E_P01_CRC8_Table[crc ^ data[i]]] for each byte in turn. *)
Fixpoint crc8_loop (crc : Z) (data : list Z) : Z :=
  match data with
  | [] => crc
  | b :: rest => crc8_loop (rd E2E_P01_CRC8_Table (Z.lxor crc b)) rest
  end.

(** [data] is the [length] bytes the pointer argument designates, or
    [None] for a null pointer. *)
Definition E2E_P01_CalculateCRC8
    (data : option (list Z)) (startValue : Z) (isFirstCall : bool) : Z :=
  match data with
  | None => 0xFF
  | Some bytes =>
      let crc := if isFirstCall then E2E_P01_CRC_INITIAL_VALUE else startValue in
      Z.lxor (crc8_loop crc bytes) E2E_P01_CRC_XOR_VALUE
  end.

Definition E2E_P01_IncrementCounter (counter : Z) : Z :=
  let newCounter := wrap8 (counter + 1) in
  if E2E_P01_COUNTER_MAX <? newCounter then 0 else newCounter.

Definition E2E_P01_DeltaCounter (receivedCounter lastValidCounter : Z) : Z :=
  if lastValidCounter <=? receivedCounter
  then receivedCounter - lastValidCounter
  else E2E_P01_COUNTER_WRAP - lastValidCounter + receivedCounter + 1.

Definition E2E_P01_GetCounter (data : list Z) (config : E2E_P01ConfigType) : Z :=
  let byteOffset := CounterOffset config / 8 in
  Z.land (rd data byteOffset) E2E_P01_LOW_NIBBLE_MASK.

Definition E2E_P01_SetCounter
    (data : list Z) (config : E2E_P01ConfigType) (counter : Z) : list Z :=
  let byteOffset := CounterOffset config / 8 in
  wr data byteOffset
     (Z.lor (Z.land (rd data byteOffset) E2E_P01_HIGH_NIBBLE_MASK)
            (Z.land counter E2E_P01_LOW_NIBBLE_MASK)).

Definition E2E_P01_GetCRC (data : list Z) (config : E2E_P01ConfigType) : Z :=
  rd data (CRCOffset config / 8).

Definition E2E_P01_SetCRC
    (data : list Z) (config : E2E_P01ConfigType) (crc : Z) : list Z :=
  wr data (CRCOffset config / 8) crc.

Definition E2E_P01ProtectInit : E2E_P01ProtectStateType := {| Counter := 0 |}.

(** The CRC both [E2E_P01Protect] and [E2E_P01Check] compute: first over
    the two DataID bytes (high byte first), then over the bytes before the
    CRC byte, then over the bytes after it. *)
Definition frame_crc (config : E2E_P01ConfigType) (data : list Z) (length : Z) : Z :=
  let crcByteOffset := CRCOffset config / 8 in
  let dataIdBytes :=
    [wrap8 (Z.shiftr (DataID config) 8); wrap8 (Z.land (DataID config) 0xFF)] in
  let crc := E2E_P01_CalculateCRC8 (Some dataIdBytes) 0 true in
  let crc :=
    if 0 <? crcByteOffset
    then E2E_P01_CalculateCRC8 (Some (take (Z.to_nat crcByteOffset) data)) crc false
    else crc in
  if crcByteOffset <? length - 1
  then E2E_P01_CalculateCRC8
         (Some (take (Z.to_nat (wrap16 (length - crcByteOffset - 1)))
                     (drop (Z.to_nat (crcByteOffset + 1)) data)))
         crc false
  else crc.

(** [config] and [state] are passed by value, so their null checks do not
    arise; [data] is the caller's buffer, which is never null in a call the
    components make. *)
Definition E2E_P01Protect
    (config : E2E_P01ConfigType) (state : E2E_P01ProtectStateType)
    (data : list Z) (length : Z)
    : Std_ReturnType * E2E_P01ProtectStateType * list Z :=
  if length =? 0 then (E_NOT_OK, state, data)
  else
    let data := E2E_P01_SetCounter data config (Counter state) in
    let crc := frame_crc config data length in
    let data := E2E_P01_SetCRC data config crc in
    (E_OK, {| Counter := E2E_P01_IncrementCounter (Counter state) |}, data).

Definition E2E_P01CheckInit : E2E_P01CheckStateType :=
  {| LastValidCounter := 0;
     StMaxDeltaCounter := E2E_P01_MAX_DELTA_COUNTER_DEFAULT;
     WaitForFirstData := true;
     NewDataAvailable := false;
     LostData := 0;
     Status := E2E_P01STATUS_INITIAL;
     NoNewOrRepeatedDataCounter := 0;
     StSyncCounter := 0 |}.

(** [data] is [None] for a null pointer.  The result is the updated check
    state together with the returned status. *)
Definition E2E_P01Check
    (config : E2E_P01ConfigType) (state : E2E_P01CheckStateType)
    (data : option (list Z)) (length : Z)
    : E2E_P01CheckStateType * E2E_P01CheckStatusType :=
  match data, length =? 0 with
  | Some data, false =>
      let receivedCrc := E2E_P01_GetCRC data config in
      let receivedCounter := E2E_P01_GetCounter data config in
      let calculatedCrc := frame_crc config data length in
      if negb (receivedCrc =? calculatedCrc) then
        let state := set_Status E2E_P01STATUS_WRONGCRC state in
        (state, Status state)
      else
        let state := set_NoNewOrRepeatedDataCounter 0 state in
        let state :=
          if WaitForFirstData state then
            set_Status E2E_P01STATUS_INITIAL
              (set_LastValidCounter receivedCounter
                 (set_WaitForFirstData false state))
          else
            let deltaCounter :=
              E2E_P01_DeltaCounter receivedCounter (LastValidCounter state) in
            if deltaCounter =? 0 then
              set_Status E2E_P01STATUS_REPEATED state
            else if deltaCounter =? 1 then
              set_Status E2E_P01STATUS_OK
                (set_LastValidCounter receivedCounter state)
            else if (1 <? deltaCounter) && (deltaCounter <=? MaxDeltaCounter config) then
              set_Status E2E_P01STATUS_OKSOMELOST
                (set_LastValidCounter receivedCounter
                   (set_LostData (wrap16 (LostData state + wrap16 (deltaCounter - 1)))
                      state))
            else
              set_Status E2E_P01STATUS_WRONGSEQUENCE state in
        (state, Status state)
  | _, _ =>
      let state :=
        set_NoNewOrRepeatedDataCounter
          (wrap16 (NoNewOrRepeatedDataCounter state + 1)) state in
      let state :=
        if MaxNoNewOrRepeatedData config <=? NoNewOrRepeatedDataCounter state
        then set_Status E2E_P01STATUS_NONEWDATA state
        else state in
      (state, Status state)
  end.

Definition E2E_SMCheckInit : E2E_SMCheckStateType :=
  {| OkCount := 0; ErrorCount := 0; SMState := E2E_SM_DEINIT |}.

(** Both counters to zero, as every state change to Valid or Invalid does. *)
Definition sm_enter (target : E2E_SMStateType) (state : E2E_SMCheckStateType)
    : E2E_SMCheckStateType :=
  set_ErrorCount 0 (set_OkCount 0 (set_SMState target state)).

Definition E2E_SMCheck
    (config : E2E_SMConfigType) (state : E2E_SMCheckStateType)
    (profileStatus : E2E_P01CheckStatusType)
    : E2E_SMCheckStateType * E2E_SMStateType :=
  let isOk :=
    match profileStatus with
    | E2E_P01STATUS_OK | E2E_P01STATUS_OKSOMELOST | E2E_P01STATUS_INITIAL => true
    | _ => false
    end in
  (* Update counters *)
  let state :=
    if isOk then
      let state :=
        if OkCount state <? 0xFF then set_OkCount (OkCount state + 1) state
        else state in
      set_ErrorCount 0 state
    else
      let state :=
        if ErrorCount state <? 0xFF then set_ErrorCount (ErrorCount state + 1) state
        else state in
      match profileStatus with
      | E2E_P01STATUS_REPEATED => state
      | _ => set_OkCount 0 state
      end in
  (* State machine transitions *)
  let state :=
    match SMState state with
    | E2E_SM_DEINIT => set_SMState E2E_SM_NODATA state
    | E2E_SM_NODATA =>
        match profileStatus with
        | E2E_P01STATUS_NONEWDATA => state
        | _ => set_SMState E2E_SM_INIT state
        end
    | E2E_SM_INIT =>
        if MinOkStateInit config <=? OkCount state then sm_enter E2E_SM_VALID state
        else if MaxErrorStateInit config <=? ErrorCount state
             then sm_enter E2E_SM_INVALID state
        else state
    | E2E_SM_VALID =>
        if MaxErrorStateValid config <=? ErrorCount state
        then sm_enter E2E_SM_INVALID state
        else state
    | E2E_SM_INVALID =>
        if MinOkStateInvalid config <=? OkCount state
        then sm_enter E2E_SM_VALID state
        else state
    end in
  (state, SMState state).

End E2E.

(** Numeric code of an E2E check status, as [static_cast<uint8_t>] yields it. *)
Definition E2E_P01CheckStatus_code (s : E2E_P01CheckStatusType) : Z :=
  match s with
  | E2E_P01STATUS_OK => 0 | E2E_P01STATUS_NONEWDATA => 1
  | E2E_P01STATUS_WRONGCRC => 2 | E2E_P01STATUS_SYNC => 3
  | E2E_P01STATUS_INITIAL => 4 | E2E_P01STATUS_REPEATED => 5
  | E2E_P01STATUS_OKSOMELOST => 6 | E2E_P01STATUS_WRONGSEQUENCE => 7
  end.

(** [static_cast<LightSwitchCmd>(command)]; the source only converts codes
    that passed [SwitchEvent_IsCommandValid], i.e. 0..3. *)
Definition LightSwitchCmd_of_code (command : Z) : LightSwitchCmd :=
  if command =? 0 then LIGHT_SWITCH_OFF
  else if command =? 1 then LIGHT_SWITCH_LOW_BEAM
  else if command =? 2 then LIGHT_SWITCH_HIGH_BEAM
  else LIGHT_SWITCH_AUTO.

Definition LightSwitchCmd_code (c : LightSwitchCmd) : Z :=
  match c with
  | LIGHT_SWITCH_OFF => 0 | LIGHT_SWITCH_LOW_BEAM => 1
  | LIGHT_SWITCH_HIGH_BEAM => 2 | LIGHT_SWITCH_AUTO => 3
  end.

(** ** SwitchEvent (Application/SwitchEvent/SwitchEvent.cpp) *)

Module SwitchEvent.

Definition SWITCHEVENT_TIMEOUT_CYCLES : Z :=
  FLM_CAN_TIMEOUT_MS / FLM_MAIN_FUNCTION_PERIOD_MS.
Definition SWITCHEVENT_E2E_TIMEOUT_CYCLES : Z :=
  FLM_E2E_TIMEOUT_MS / FLM_MAIN_FUNCTION_PERIOD_MS.
Definition SWITCHEVENT_MAX_E2E_ERRORS : Z := 5.

Record SwitchEvent_StateType : Type := Build_SwitchEvent_StateType {
  isInitialized : bool;
  e2eConfig : E2E.E2E_P01ConfigType;
  e2eCheckState : E2E.E2E_P01CheckStateType;
  e2eSmState : E2E.E2E_SMCheckStateType;
  e2eSmConfig : E2E.E2E_SMConfigType;
  lightSwitchStatus : LightSwitchStatus.t;
  e2eStatus : E2E_P01CheckStatusType;
  e2eSmStatus : E2E_SMStateType;
  timeoutCounter : Z;  (* uint16_t *)
  e2eTimeoutCounter : Z;  (* uint16_t *)
  lastValidTimestamp : Z;  (* uint32_t *)
  currentTimestamp : Z;  (* uint32_t *)
  consecutiveE2EErrors : Z;  (* uint8_t *)
  consecutiveTimeouts : Z;  (* uint8_t *)
  e2eFailureActive : bool;
  timeoutActive : bool;
  lastMessageData : list Z;  (* uint8_t[FLM_CAN_LIGHTSWITCH_MSG_LEN] *)
  newMessageReceived : bool
}.

Definition set_e2eCheckState (v : E2E.E2E_P01CheckStateType) (s : SwitchEvent_StateType) : SwitchEvent_StateType :=
  {| isInitialized := isInitialized s; e2eConfig := e2eConfig s;
     e2eCheckState := v; e2eSmState := e2eSmState s;
     e2eSmConfig := e2eSmConfig s; lightSwitchStatus := lightSwitchStatus s;
     e2eStatus := e2eStatus s; e2eSmStatus := e2eSmStatus s;
     timeoutCounter := timeoutCounter s;
     e2eTimeoutCounter := e2eTimeoutCounter s;
     lastValidTimestamp := lastValidTimestamp s;
     currentTimestamp := currentTimestamp s;
     consecutiveE2EErrors := consecutiveE2EErrors s;
     consecutiveTimeouts := consecutiveTimeouts s;
     e2eFailureActive := e2eFailureActive s;
     timeoutActive := timeoutActive s; lastMessageData := lastMessageData s;
     newMessageReceived := newMessageReceived s |}.

Definition set_e2eSmState (v : E2E.E2E_SMCheckStateType) (s : SwitchEvent_StateType) : SwitchEvent_StateType :=
  {| isInitialized := isInitialized s; e2eConfig := e2eConfig s;
     e2eCheckState := e2eCheckState s; e2eSmState := v;
     e2eSmConfig := e2eSmConfig s; lightSwitchStatus := lightSwitchStatus s;
     e2eStatus := e2eStatus s; e2eSmStatus := e2eSmStatus s;
     timeoutCounter := timeoutCounter s;
     e2eTimeoutCounter := e2eTimeoutCounter s;
     lastValidTimestamp := lastValidTimestamp s;
     currentTimestamp := currentTimestamp s;
     consecutiveE2EErrors := consecutiveE2EErrors s;
     consecutiveTimeouts := consecutiveTimeouts s;
     e2eFailureActive := e2eFailureActive s;
     timeoutActive := timeoutActive s; lastMessageData := lastMessageData s;
     newMessageReceived := newMessageReceived s |}.

Definition set_lightSwitchStatus (v : LightSwitchStatus.t) (s : SwitchEvent_StateType) : SwitchEvent_StateType :=
  {| isInitialized := isInitialized s; e2eConfig := e2eConfig s;
     e2eCheckState := e2eCheckState s; e2eSmState := e2eSmState s;
     e2eSmConfig := e2eSmConfig s; lightSwitchStatus := v;
     e2eStatus := e2eStatus s; e2eSmStatus := e2eSmStatus s;
     timeoutCounter := timeoutCounter s;
     e2eTimeoutCounter := e2eTimeoutCounter s;
     lastValidTimestamp := lastValidTimestamp s;
     currentTimestamp := currentTimestamp s;
     consecutiveE2EErrors := consecutiveE2EErrors s;
     consecutiveTimeouts := consecutiveTimeouts s;
     e2eFailureActive := e2eFailureActive s;
     timeoutActive := timeoutActive s; lastMessageData := lastMessageData s;
     newMessageReceived := newMessageReceived s |}.

Definition set_e2eStatus (v : E2E_P01CheckStatusType) (s : SwitchEvent_StateType) : SwitchEvent_StateType :=
  {| isInitialized := isInitialized s; e2eConfig := e2eConfig s;
     e2eCheckState := e2eCheckState s; e2eSmState := e2eSmState s;
     e2eSmConfig := e2eSmConfig s; lightSwitchStatus := lightSwitchStatus s;
     e2eStatus := v; e2eSmStatus := e2eSmStatus s;
     timeoutCounter := timeoutCounter s;
     e2eTimeoutCounter := e2eTimeoutCounter s;
     lastValidTimestamp := lastValidTimestamp s;
     currentTimestamp := currentTimestamp s;
     consecutiveE2EErrors := consecutiveE2EErrors s;
     consecutiveTimeouts := consecutiveTimeouts s;
     e2eFailureActive := e2eFailureActive s;
     timeoutActive := timeoutActive s; lastMessageData := lastMessageData s;
     newMessageReceived := newMessageReceived s |}.

Definition set_e2eSmStatus (v : E2E_SMStateType) (s : SwitchEvent_StateType) : SwitchEvent_StateType :=
  {| isInitialized := isInitialized s; e2eConfig := e2eConfig s;
     e2eCheckState := e2eCheckState s; e2eSmState := e2eSmState s;
     e2eSmConfig := e2eSmConfig s; lightSwitchStatus := lightSwitchStatus s;
     e2eStatus := e2eStatus s; e2eSmStatus := v;
     timeoutCounter := timeoutCounter s;
     e2eTimeoutCounter := e2eTimeoutCounter s;
     lastValidTimestamp := lastValidTimestamp s;
     currentTimestamp := currentTimestamp s;
     consecutiveE2EErrors := consecutiveE2EErrors s;
     consecutiveTimeouts := consecutiveTimeouts s;
     e2eFailureActive := e2eFailureActive s;
     timeoutActive := timeoutActive s; lastMessageData := lastMessageData s;
     newMessageReceived := newMessageReceived s |}.

Definition set_timeoutCounter (v : Z) (s : SwitchEvent_StateType) : SwitchEvent_StateType :=
  {| isInitialized := isInitialized s; e2eConfig := e2eConfig s;
     e2eCheckState := e2eCheckState s; e2eSmState := e2eSmState s;
     e2eSmConfig := e2eSmConfig s; lightSwitchStatus := lightSwitchStatus s;
     e2eStatus := e2eStatus s; e2eSmStatus := e2eSmStatus s;
     timeoutCounter := v; e2eTimeoutCounter := e2eTimeoutCounter s;
     lastValidTimestamp := lastValidTimestamp s;
     currentTimestamp := currentTimestamp s;
     consecutiveE2EErrors := consecutiveE2EErrors s;
     consecutiveTimeouts := consecutiveTimeouts s;
     e2eFailureActive := e2eFailureActive s;
     timeoutActive := timeoutActive s; lastMessageData := lastMessageData s;
     newMessageReceived := newMessageReceived s |}.

Definition set_e2eTimeoutCounter (v : Z) (s : SwitchEvent_StateType) : SwitchEvent_StateType :=
  {| isInitialized := isInitialized s; e2eConfig := e2eConfig s;
     e2eCheckState := e2eCheckState s; e2eSmState := e2eSmState s;
     e2eSmConfig := e2eSmConfig s; lightSwitchStatus := lightSwitchStatus s;
     e2eStatus := e2eStatus s; e2eSmStatus := e2eSmStatus s;
     timeoutCounter := timeoutCounter s; e2eTimeoutCounter := v;
     lastValidTimestamp := lastValidTimestamp s;
     currentTimestamp := currentTimestamp s;
     consecutiveE2EErrors := consecutiveE2EErrors s;
     consecutiveTimeouts := consecutiveTimeouts s;
     e2eFailureActive := e2eFailureActive s;
     timeoutActive := timeoutActive s; lastMessageData := lastMessageData s;
     newMessageReceived := newMessageReceived s |}.

Definition set_lastValidTimestamp (v : Z) (s : SwitchEvent_StateType) : SwitchEvent_StateType :=
  {| isInitialized := isInitialized s; e2eConfig := e2eConfig s;
     e2eCheckState := e2eCheckState s; e2eSmState := e2eSmState s;
     e2eSmConfig := e2eSmConfig s; lightSwitchStatus := lightSwitchStatus s;
     e2eStatus := e2eStatus s; e2eSmStatus := e2eSmStatus s;
     timeoutCounter := timeoutCounter s;
     e2eTimeoutCounter := e2eTimeoutCounter s; lastValidTimestamp := v;
     currentTimestamp := currentTimestamp s;
     consecutiveE2EErrors := consecutiveE2EErrors s;
     consecutiveTimeouts := consecutiveTimeouts s;
     e2eFailureActive := e2eFailureActive s;
     timeoutActive := timeoutActive s; lastMessageData := lastMessageData s;
     newMessageReceived := newMessageReceived s |}.

Definition set_currentTimestamp (v : Z) (s : SwitchEvent_StateType) : SwitchEvent_StateType :=
  {| isInitialized := isInitialized s; e2eConfig := e2eConfig s;
     e2eCheckState := e2eCheckState s; e2eSmState := e2eSmState s;
     e2eSmConfig := e2eSmConfig s; lightSwitchStatus := lightSwitchStatus s;
     e2eStatus := e2eStatus s; e2eSmStatus := e2eSmStatus s;
     timeoutCounter := timeoutCounter s;
     e2eTimeoutCounter := e2eTimeoutCounter s;
     lastValidTimestamp := lastValidTimestamp s; currentTimestamp := v;
     consecutiveE2EErrors := consecutiveE2EErrors s;
     consecutiveTimeouts := consecutiveTimeouts s;
     e2eFailureActive := e2eFailureActive s;
     timeoutActive := timeoutActive s; lastMessageData := lastMessageData s;
     newMessageReceived := newMessageReceived s |}.

Definition set_consecutiveE2EErrors (v : Z) (s : SwitchEvent_StateType) : SwitchEvent_StateType :=
  {| isInitialized := isInitialized s; e2eConfig := e2eConfig s;
     e2eCheckState := e2eCheckState s; e2eSmState := e2eSmState s;
     e2eSmConfig := e2eSmConfig s; lightSwitchStatus := lightSwitchStatus s;
     e2eStatus := e2eStatus s; e2eSmStatus := e2eSmStatus s;
     timeoutCounter := timeoutCounter s;
     e2eTimeoutCounter := e2eTimeoutCounter s;
     lastValidTimestamp := lastValidTimestamp s;
     currentTimestamp := currentTimestamp s; consecutiveE2EErrors := v;
     consecutiveTimeouts := consecutiveTimeouts s;
     e2eFailureActive := e2eFailureActive s;
     timeoutActive := timeoutActive s; lastMessageData := lastMessageData s;
     newMessageReceived := newMessageReceived s |}.

Definition set_consecutiveTimeouts (v : Z) (s : SwitchEvent_StateType) : SwitchEvent_StateType :=
  {| isInitialized := isInitialized s; e2eConfig := e2eConfig s;
     e2eCheckState := e2eCheckState s; e2eSmState := e2eSmState s;
     e2eSmConfig := e2eSmConfig s; lightSwitchStatus := lightSwitchStatus s;
     e2eStatus := e2eStatus s; e2eSmStatus := e2eSmStatus s;
     timeoutCounter := timeoutCounter s;
     e2eTimeoutCounter := e2eTimeoutCounter s;
     lastValidTimestamp := lastValidTimestamp s;
     currentTimestamp := currentTimestamp s;
     consecutiveE2EErrors := consecutiveE2EErrors s;
     consecutiveTimeouts := v; e2eFailureActive := e2eFailureActive s;
     timeoutActive := timeoutActive s; lastMessageData := lastMessageData s;
     newMessageReceived := newMessageReceived s |}.

Definition set_e2eFailureActive (v : bool) (s : SwitchEvent_StateType) : SwitchEvent_StateType :=
  {| isInitialized := isInitialized s; e2eConfig := e2eConfig s;
     e2eCheckState := e2eCheckState s; e2eSmState := e2eSmState s;
     e2eSmConfig := e2eSmConfig s; lightSwitchStatus := lightSwitchStatus s;
     e2eStatus := e2eStatus s; e2eSmStatus := e2eSmStatus s;
     timeoutCounter := timeoutCounter s;
     e2eTimeoutCounter := e2eTimeoutCounter s;
     lastValidTimestamp := lastValidTimestamp s;
     currentTimestamp := currentTimestamp s;
     consecutiveE2EErrors := consecutiveE2EErrors s;
     consecutiveTimeouts := consecutiveTimeouts s; e2eFailureActive := v;
     timeoutActive := timeoutActive s; lastMessageData := lastMessageData s;
     newMessageReceived := newMessageReceived s |}.

Definition set_timeoutActive (v : bool) (s : SwitchEvent_StateType) : SwitchEvent_StateType :=
  {| isInitialized := isInitialized s; e2eConfig := e2eConfig s;
     e2eCheckState := e2eCheckState s; e2eSmState := e2eSmState s;
     e2eSmConfig := e2eSmConfig s; lightSwitchStatus := lightSwitchStatus s;
     e2eStatus := e2eStatus s; e2eSmStatus := e2eSmStatus s;
     timeoutCounter := timeoutCounter s;
     e2eTimeoutCounter := e2eTimeoutCounter s;
     lastValidTimestamp := lastValidTimestamp s;
     currentTimestamp := currentTimestamp s;
     consecutiveE2EErrors := consecutiveE2EErrors s;
     consecutiveTimeouts := consecutiveTimeouts s;
     e2eFailureActive := e2eFailureActive s; timeoutActive := v;
     lastMessageData := lastMessageData s;
     newMessageReceived := newMessageReceived s |}.

Definition set_lastMessageData (v : list Z) (s : SwitchEvent_StateType) : SwitchEvent_StateType :=
  {| isInitialized := isInitialized s; e2eConfig := e2eConfig s;
     e2eCheckState := e2eCheckState s; e2eSmState := e2eSmState s;
     e2eSmConfig := e2eSmConfig s; lightSwitchStatus := lightSwitchStatus s;
     e2eStatus := e2eStatus s; e2eSmStatus := e2eSmStatus s;
     timeoutCounter := timeoutCounter s;
     e2eTimeoutCounter := e2eTimeoutCounter s;
     lastValidTimestamp := lastValidTimestamp s;
     currentTimestamp := currentTimestamp s;
     consecutiveE2EErrors := consecutiveE2EErrors s;
     consecutiveTimeouts := consecutiveTimeouts s;
     e2eFailureActive := e2eFailureActive s;
     timeoutActive := timeoutActive s; lastMessageData := v;
     newMessageReceived := newMessageReceived s |}.

Definition set_newMessageReceived (v : bool) (s : SwitchEvent_StateType) : SwitchEvent_StateType :=
  {| isInitialized := isInitialized s; e2eConfig := e2eConfig s;
     e2eCheckState := e2eCheckState s; e2eSmState := e2eSmState s;
     e2eSmConfig := e2eSmConfig s; lightSwitchStatus := lightSwitchStatus s;
     e2eStatus := e2eStatus s; e2eSmStatus := e2eSmStatus s;
     timeoutCounter := timeoutCounter s;
     e2eTimeoutCounter := e2eTimeoutCounter s;
     lastValidTimestamp := lastValidTimestamp s;
     currentTimestamp := currentTimestamp s;
     consecutiveE2EErrors := consecutiveE2EErrors s;
     consecutiveTimeouts := consecutiveTimeouts s;
     e2eFailureActive := e2eFailureActive s;
     timeoutActive := timeoutActive s; lastMessageData := lastMessageData s;
     newMessageReceived := v |}.

(** The file-scope variables of the component. *)
Record Globals : Type := mkGlobals {
  SwitchEvent_State : SwitchEvent_StateType;
  SwitchEvent_SystemTime : Z  (* uint32_t *)
}.

Definition set_isValid (v : bool) (l : LightSwitchStatus.t) : LightSwitchStatus.t :=
  {| LightSwitchStatus.command := LightSwitchStatus.command l;
     LightSwitchStatus.isValid := v;
     LightSwitchStatus.e2eStatus := LightSwitchStatus.e2eStatus l |}.

Definition set_command (v : LightSwitchCmd) (l : LightSwitchStatus.t) : LightSwitchStatus.t :=
  {| LightSwitchStatus.command := v;
     LightSwitchStatus.isValid := LightSwitchStatus.isValid l;
     LightSwitchStatus.e2eStatus := LightSwitchStatus.e2eStatus l |}.

Definition set_report_e2eStatus (v : Z) (l : LightSwitchStatus.t) : LightSwitchStatus.t :=
  {| LightSwitchStatus.command := LightSwitchStatus.command l;
     LightSwitchStatus.isValid := LightSwitchStatus.isValid l;
     LightSwitchStatus.e2eStatus := v |}.

(** The variables as they stand at power-on, before any call: statics are
    zero-initialised. *)
Definition power_on : Globals :=
  {| SwitchEvent_State :=
       {| isInitialized := false;
          e2eConfig :=
            {| E2E.DataLength := 0; E2E.DataID := 0; E2E.MaxDeltaCounter := 0;
               E2E.MaxNoNewOrRepeatedData := 0; E2E.SyncCounter := 0;
               E2E.CounterOffset := 0; E2E.CRCOffset := 0;
               E2E.DataIDNibbleOffset := 0; E2E.DataIDMode := false |};
          e2eCheckState :=
            {| E2E.LastValidCounter := 0; E2E.StMaxDeltaCounter := 0;
               E2E.WaitForFirstData := false; E2E.NewDataAvailable := false;
               E2E.LostData := 0; E2E.Status := E2E_P01STATUS_OK;
               E2E.NoNewOrRepeatedDataCounter := 0; E2E.StSyncCounter := 0 |};
          e2eSmState :=
            {| E2E.OkCount := 0; E2E.ErrorCount := 0; E2E.SMState := E2E_SM_VALID |};
          e2eSmConfig :=
            {| E2E.WindowSize := 0; E2E.MinOkStateInit := 0;
               E2E.MaxErrorStateInit := 0; E2E.MinOkStateValid := 0;
               E2E.MinOkStateInvalid := 0; E2E.MaxErrorStateValid := 0;
               E2E.MaxErrorStateInvalid := 0 |};
          lightSwitchStatus :=
            {| LightSwitchStatus.command := LIGHT_SWITCH_OFF;
               LightSwitchStatus.isValid := false;
               LightSwitchStatus.e2eStatus := 0 |};
          e2eStatus := E2E_P01STATUS_OK;
          e2eSmStatus := E2E_SM_VALID;
          timeoutCounter := 0; e2eTimeoutCounter := 0;
          lastValidTimestamp := 0; currentTimestamp := 0;
          consecutiveE2EErrors := 0; consecutiveTimeouts := 0;
          e2eFailureActive := false; timeoutActive := false;
          lastMessageData := [0; 0; 0; 0];
          newMessageReceived := false |};
     SwitchEvent_SystemTime := 0 |}.

Definition SwitchEvent_InitE2E_config : E2E.E2E_P01ConfigType :=
  {| E2E.DataLength := FLM_E2E_LIGHTSWITCH_DATA_LENGTH;
     E2E.DataID := FLM_E2E_LIGHTSWITCH_DATA_ID;
     E2E.MaxDeltaCounter := FLM_E2E_MAX_DELTA_COUNTER;
     E2E.MaxNoNewOrRepeatedData := FLM_E2E_MAX_NO_NEW_DATA;
     E2E.SyncCounter := FLM_E2E_SYNC_COUNTER;
     E2E.CounterOffset := FLM_E2E_COUNTER_OFFSET;
     E2E.CRCOffset := FLM_E2E_CRC_OFFSET;
     E2E.DataIDNibbleOffset := 0;
     E2E.DataIDMode := false |}.

Definition SwitchEvent_InitE2E_smConfig : E2E.E2E_SMConfigType :=
  {| E2E.WindowSize := 5;
     E2E.MinOkStateInit := 2;
     E2E.MaxErrorStateInit := 2;
     E2E.MinOkStateValid := 2;
     E2E.MinOkStateInvalid := 3;
     E2E.MaxErrorStateValid := 2;
     E2E.MaxErrorStateInvalid := 3 |}.

(** [memset] to zero, [SwitchEvent_InitE2E], then the explicit
    assignments.  A zeroed status is [E2E_P01STATUS_OK] and a zeroed
    supervisor status is [E2E_SM_VALID] (both have code 0).  The system
    time is not touched. *)
Definition SwitchEvent_Init (g : Globals) : Globals :=
  {| SwitchEvent_State :=
       {| isInitialized := true;
          e2eConfig := SwitchEvent_InitE2E_config;
          e2eCheckState := E2E.E2E_P01CheckInit;
          e2eSmState := E2E.E2E_SMCheckInit;
          e2eSmConfig := SwitchEvent_InitE2E_smConfig;
          lightSwitchStatus :=
            {| LightSwitchStatus.command := LIGHT_SWITCH_OFF;
               LightSwitchStatus.isValid := false;
               LightSwitchStatus.e2eStatus := 0 |};
          e2eStatus := E2E_P01STATUS_OK;
          e2eSmStatus := E2E_SM_VALID;
          timeoutCounter := 0;
          e2eTimeoutCounter := 0;
          lastValidTimestamp := 0;
          currentTimestamp := 0;
          consecutiveE2EErrors := 0;
          consecutiveTimeouts := 0;
          e2eFailureActive := false;
          timeoutActive := false;
          lastMessageData := [0; 0; 0; 0];
          newMessageReceived := false |};
     SwitchEvent_SystemTime := SwitchEvent_SystemTime g |}.

Definition SwitchEvent_IsCommandValid (command : Z) : bool :=
  command <=? LightSwitchCmd_code LIGHT_SWITCH_AUTO.

Definition SwitchEvent_ExtractLightSwitchCommand
    (data : list Z) (s : SwitchEvent_StateType) : SwitchEvent_StateType :=
  let command := rd data COM_LIGHTSWITCH_CMD_BYTE in
  if SwitchEvent_IsCommandValid command then
    set_lightSwitchStatus
      (set_command (LightSwitchCmd_of_code command) (lightSwitchStatus s)) s
  else
    (* Invalid command - keep previous valid command, mark as invalid *)
    set_lightSwitchStatus (set_isValid false (lightSwitchStatus s)) s.

Definition SwitchEvent_PerformE2ECheck (s : SwitchEvent_StateType)
    : SwitchEvent_StateType :=
  if newMessageReceived s then
    let '(cs, st) :=
      E2E.E2E_P01Check (e2eConfig s) (e2eCheckState s)
        (Some (lastMessageData s)) FLM_CAN_LIGHTSWITCH_MSG_LEN in
    let s := set_e2eStatus st (set_e2eCheckState cs s) in
    let '(sm, smst) := E2E.E2E_SMCheck (e2eSmConfig s) (e2eSmState s) (e2eStatus s) in
    let s := set_e2eSmStatus smst (set_e2eSmState sm s) in
    let s :=
      match e2eStatus s with
      | E2E_P01STATUS_OK | E2E_P01STATUS_OKSOMELOST | E2E_P01STATUS_INITIAL =>
          let s := SwitchEvent_ExtractLightSwitchCommand (lastMessageData s) s in
          let s := set_consecutiveE2EErrors 0 s in
          let s := set_lastValidTimestamp (currentTimestamp s) s in
          let s := set_timeoutCounter 0 s in
          set_e2eFailureActive false s
      | _ =>
          let s := set_consecutiveE2EErrors (wrap8 (consecutiveE2EErrors s + 1)) s in
          if SWITCHEVENT_MAX_E2E_ERRORS <=? consecutiveE2EErrors s then
            set_lightSwitchStatus (set_isValid false (lightSwitchStatus s))
              (set_e2eFailureActive true s)
          else s
      end in
    set_newMessageReceived false s
  else
    let '(cs, st) := E2E.E2E_P01Check (e2eConfig s) (e2eCheckState s) None 0 in
    let s := set_e2eStatus st (set_e2eCheckState cs s) in
    let '(sm, smst) := E2E.E2E_SMCheck (e2eSmConfig s) (e2eSmState s) (e2eStatus s) in
    set_e2eSmStatus smst (set_e2eSmState sm s).

Definition SwitchEvent_UpdateTimeoutStatus (s : SwitchEvent_StateType)
    : SwitchEvent_StateType :=
  let s :=
    if negb (newMessageReceived s)
    then set_timeoutCounter (wrap16 (timeoutCounter s + 1)) s
    else s in
  let s :=
    if SWITCHEVENT_TIMEOUT_CYCLES <=? timeoutCounter s then
      set_lightSwitchStatus (set_isValid false (lightSwitchStatus s))
        (set_consecutiveTimeouts (wrap8 (consecutiveTimeouts s + 1))
           (set_timeoutActive true s))
    else
      set_consecutiveTimeouts 0 (set_timeoutActive false s) in
  match e2eSmStatus s with
  | E2E_SM_VALID => set_e2eTimeoutCounter 0 s
  | _ =>
      let s := set_e2eTimeoutCounter (wrap16 (e2eTimeoutCounter s + 1)) s in
      if SWITCHEVENT_E2E_TIMEOUT_CYCLES <=? e2eTimeoutCounter s
      then set_e2eFailureActive true s
      else s
  end.

(** One 10 ms tick.  The watchdog checkpoint and the diagnostic events are
    calls to stubs that return [RTE_E_OK] and touch nothing. *)
Definition SwitchEvent_MainFunction (g : Globals) : Globals :=
  let s := SwitchEvent_State g in
  if negb (isInitialized s) then g
  else
    let s := set_currentTimestamp (SwitchEvent_SystemTime g) s in
    let time := wrap32 (SwitchEvent_SystemTime g + FLM_MAIN_FUNCTION_PERIOD_MS) in
    let s := SwitchEvent_PerformE2ECheck s in
    let s := SwitchEvent_UpdateTimeoutStatus s in
    (* Determine overall validity *)
    let s :=
      match e2eSmStatus s with
      | E2E_SM_VALID =>
          if negb (timeoutActive s)
          then set_lightSwitchStatus (set_isValid true (lightSwitchStatus s)) s
          else set_lightSwitchStatus (set_isValid false (lightSwitchStatus s)) s
      | _ => set_lightSwitchStatus (set_isValid false (lightSwitchStatus s)) s
      end in
    let s :=
      set_lightSwitchStatus
        (set_report_e2eStatus (E2E_P01CheckStatus_code (e2eStatus s))
           (lightSwitchStatus s)) s in
    {| SwitchEvent_State := s; SwitchEvent_SystemTime := time |}.

(** [data] is [None] for a null pointer; [length] is the length the caller
    announces for it. *)
Definition SwitchEvent_ProcessCanMessage
    (data : option (list Z)) (length : Z) (g : Globals) : Globals :=
  match data with
  | Some bytes =>
      if negb (length =? FLM_CAN_LIGHTSWITCH_MSG_LEN) then g
      else
        {| SwitchEvent_State :=
             set_newMessageReceived true
               (set_lastMessageData (take (Z.to_nat length) bytes)
                  (SwitchEvent_State g));
           SwitchEvent_SystemTime := SwitchEvent_SystemTime g |}
  | None => g
  end.

Definition SwitchEvent_GetE2EStatus (g : Globals) : E2E_P01CheckStatusType :=
  e2eStatus (SwitchEvent_State g).
Definition SwitchEvent_GetLightRequest (g : Globals) : LightSwitchStatus.t :=
  lightSwitchStatus (SwitchEvent_State g).
Definition SwitchEvent_GetE2ESmStatus (g : Globals) : E2E_SMStateType :=
  e2eSmStatus (SwitchEvent_State g).
Definition SwitchEvent_IsTimeoutActive (g : Globals) : bool :=
  timeoutActive (SwitchEvent_State g).

End SwitchEvent.

(** ** LightRequest (Application/LightRequest/LightRequest.cpp) *)

Module LightRequest.

Definition LIGHTREQUEST_RATE_CHECK_CYCLES : Z := 5.
Definition LIGHTREQUEST_PLAUSIBILITY_DEBOUNCE : Z := 3.
Definition LIGHTREQUEST_ADC_BUFFER_SIZE : Z := 8.

Record LightRequest_StateType : Type := Build_LightRequest_StateType {
  isInitialized : bool;
  adcBuffer : list Z;  (* uint16_t[LIGHTREQUEST_ADC_BUFFER_SIZE] *)
  adcBufferIndex : Z;  (* uint8_t *)
  adcSampleCount : Z;  (* uint8_t *)
  adcFilteredValue : Z;  (* uint16_t *)
  adcRawValue : Z;  (* uint16_t *)
  previousFilteredValue : Z;  (* uint16_t *)
  rateOfChange : Z;  (* uint16_t *)
  rateCheckCounter : Z;  (* uint8_t *)
  ambientLight : AmbientLightLevel.t;
  signalStatus : SignalStatus;
  plausibilityErrorCount : Z;  (* uint8_t *)
  plausibilityFault : bool;
  currentTimestamp : Z;  (* uint32_t *)
  conversionPending : bool
}.

Definition set_adcBuffer (v : list Z) (s : LightRequest_StateType) : LightRequest_StateType :=
  {| isInitialized := isInitialized s; adcBuffer := v;
     adcBufferIndex := adcBufferIndex s; adcSampleCount := adcSampleCount s;
     adcFilteredValue := adcFilteredValue s; adcRawValue := adcRawValue s;
     previousFilteredValue := previousFilteredValue s;
     rateOfChange := rateOfChange s; rateCheckCounter := rateCheckCounter s;
     ambientLight := ambientLight s; signalStatus := signalStatus s;
     plausibilityErrorCount := plausibilityErrorCount s;
     plausibilityFault := plausibilityFault s;
     currentTimestamp := currentTimestamp s;
     conversionPending := conversionPending s |}.

Definition set_adcBufferIndex (v : Z) (s : LightRequest_StateType) : LightRequest_StateType :=
  {| isInitialized := isInitialized s; adcBuffer := adcBuffer s;
     adcBufferIndex := v; adcSampleCount := adcSampleCount s;
     adcFilteredValue := adcFilteredValue s; adcRawValue := adcRawValue s;
     previousFilteredValue := previousFilteredValue s;
     rateOfChange := rateOfChange s; rateCheckCounter := rateCheckCounter s;
     ambientLight := ambientLight s; signalStatus := signalStatus s;
     plausibilityErrorCount := plausibilityErrorCount s;
     plausibilityFault := plausibilityFault s;
     currentTimestamp := currentTimestamp s;
     conversionPending := conversionPending s |}.

Definition set_adcSampleCount (v : Z) (s : LightRequest_StateType) : LightRequest_StateType :=
  {| isInitialized := isInitialized s; adcBuffer := adcBuffer s;
     adcBufferIndex := adcBufferIndex s; adcSampleCount := v;
     adcFilteredValue := adcFilteredValue s; adcRawValue := adcRawValue s;
     previousFilteredValue := previousFilteredValue s;
     rateOfChange := rateOfChange s; rateCheckCounter := rateCheckCounter s;
     ambientLight := ambientLight s; signalStatus := signalStatus s;
     plausibilityErrorCount := plausibilityErrorCount s;
     plausibilityFault := plausibilityFault s;
     currentTimestamp := currentTimestamp s;
     conversionPending := conversionPending s |}.

Definition set_adcFilteredValue (v : Z) (s : LightRequest_StateType) : LightRequest_StateType :=
  {| isInitialized := isInitialized s; adcBuffer := adcBuffer s;
     adcBufferIndex := adcBufferIndex s; adcSampleCount := adcSampleCount s;
     adcFilteredValue := v; adcRawValue := adcRawValue s;
     previousFilteredValue := previousFilteredValue s;
     rateOfChange := rateOfChange s; rateCheckCounter := rateCheckCounter s;
     ambientLight := ambientLight s; signalStatus := signalStatus s;
     plausibilityErrorCount := plausibilityErrorCount s;
     plausibilityFault := plausibilityFault s;
     currentTimestamp := currentTimestamp s;
     conversionPending := conversionPending s |}.

Definition set_adcRawValue (v : Z) (s : LightRequest_StateType) : LightRequest_StateType :=
  {| isInitialized := isInitialized s; adcBuffer := adcBuffer s;
     adcBufferIndex := adcBufferIndex s; adcSampleCount := adcSampleCount s;
     adcFilteredValue := adcFilteredValue s; adcRawValue := v;
     previousFilteredValue := previousFilteredValue s;
     rateOfChange := rateOfChange s; rateCheckCounter := rateCheckCounter s;
     ambientLight := ambientLight s; signalStatus := signalStatus s;
     plausibilityErrorCount := plausibilityErrorCount s;
     plausibilityFault := plausibilityFault s;
     currentTimestamp := currentTimestamp s;
     conversionPending := conversionPending s |}.

Definition set_previousFilteredValue (v : Z) (s : LightRequest_StateType) : LightRequest_StateType :=
  {| isInitialized := isInitialized s; adcBuffer := adcBuffer s;
     adcBufferIndex := adcBufferIndex s; adcSampleCount := adcSampleCount s;
     adcFilteredValue := adcFilteredValue s; adcRawValue := adcRawValue s;
     previousFilteredValue := v; rateOfChange := rateOfChange s;
     rateCheckCounter := rateCheckCounter s; ambientLight := ambientLight s;
     signalStatus := signalStatus s;
     plausibilityErrorCount := plausibilityErrorCount s;
     plausibilityFault := plausibilityFault s;
     currentTimestamp := currentTimestamp s;
     conversionPending := conversionPending s |}.

Definition set_rateOfChange (v : Z) (s : LightRequest_StateType) : LightRequest_StateType :=
  {| isInitialized := isInitialized s; adcBuffer := adcBuffer s;
     adcBufferIndex := adcBufferIndex s; adcSampleCount := adcSampleCount s;
     adcFilteredValue := adcFilteredValue s; adcRawValue := adcRawValue s;
     previousFilteredValue := previousFilteredValue s; rateOfChange := v;
     rateCheckCounter := rateCheckCounter s; ambientLight := ambientLight s;
     signalStatus := signalStatus s;
     plausibilityErrorCount := plausibilityErrorCount s;
     plausibilityFault := plausibilityFault s;
     currentTimestamp := currentTimestamp s;
     conversionPending := conversionPending s |}.

Definition set_rateCheckCounter (v : Z) (s : LightRequest_StateType) : LightRequest_StateType :=
  {| isInitialized := isInitialized s; adcBuffer := adcBuffer s;
     adcBufferIndex := adcBufferIndex s; adcSampleCount := adcSampleCount s;
     adcFilteredValue := adcFilteredValue s; adcRawValue := adcRawValue s;
     previousFilteredValue := previousFilteredValue s;
     rateOfChange := rateOfChange s; rateCheckCounter := v;
     ambientLight := ambientLight s; signalStatus := signalStatus s;
     plausibilityErrorCount := plausibilityErrorCount s;
     plausibilityFault := plausibilityFault s;
     currentTimestamp := currentTimestamp s;
     conversionPending := conversionPending s |}.

Definition set_ambientLight (v : AmbientLightLevel.t) (s : LightRequest_StateType) : LightRequest_StateType :=
  {| isInitialized := isInitialized s; adcBuffer := adcBuffer s;
     adcBufferIndex := adcBufferIndex s; adcSampleCount := adcSampleCount s;
     adcFilteredValue := adcFilteredValue s; adcRawValue := adcRawValue s;
     previousFilteredValue := previousFilteredValue s;
     rateOfChange := rateOfChange s; rateCheckCounter := rateCheckCounter s;
     ambientLight := v; signalStatus := signalStatus s;
     plausibilityErrorCount := plausibilityErrorCount s;
     plausibilityFault := plausibilityFault s;
     currentTimestamp := currentTimestamp s;
     conversionPending := conversionPending s |}.

Definition set_signalStatus (v : SignalStatus) (s : LightRequest_StateType) : LightRequest_StateType :=
  {| isInitialized := isInitialized s; adcBuffer := adcBuffer s;
     adcBufferIndex := adcBufferIndex s; adcSampleCount := adcSampleCount s;
     adcFilteredValue := adcFilteredValue s; adcRawValue := adcRawValue s;
     previousFilteredValue := previousFilteredValue s;
     rateOfChange := rateOfChange s; rateCheckCounter := rateCheckCounter s;
     ambientLight := ambientLight s; signalStatus := v;
     plausibilityErrorCount := plausibilityErrorCount s;
     plausibilityFault := plausibilityFault s;
     currentTimestamp := currentTimestamp s;
     conversionPending := conversionPending s |}.

Definition set_plausibilityErrorCount (v : Z) (s : LightRequest_StateType) : LightRequest_StateType :=
  {| isInitialized := isInitialized s; adcBuffer := adcBuffer s;
     adcBufferIndex := adcBufferIndex s; adcSampleCount := adcSampleCount s;
     adcFilteredValue := adcFilteredValue s; adcRawValue := adcRawValue s;
     previousFilteredValue := previousFilteredValue s;
     rateOfChange := rateOfChange s; rateCheckCounter := rateCheckCounter s;
     ambientLight := ambientLight s; signalStatus := signalStatus s;
     plausibilityErrorCount := v; plausibilityFault := plausibilityFault s;
     currentTimestamp := currentTimestamp s;
     conversionPending := conversionPending s |}.

Definition set_plausibilityFault (v : bool) (s : LightRequest_StateType) : LightRequest_StateType :=
  {| isInitialized := isInitialized s; adcBuffer := adcBuffer s;
     adcBufferIndex := adcBufferIndex s; adcSampleCount := adcSampleCount s;
     adcFilteredValue := adcFilteredValue s; adcRawValue := adcRawValue s;
     previousFilteredValue := previousFilteredValue s;
     rateOfChange := rateOfChange s; rateCheckCounter := rateCheckCounter s;
     ambientLight := ambientLight s; signalStatus := signalStatus s;
     plausibilityErrorCount := plausibilityErrorCount s;
     plausibilityFault := v; currentTimestamp := currentTimestamp s;
     conversionPending := conversionPending s |}.

Definition set_currentTimestamp (v : Z) (s : LightRequest_StateType) : LightRequest_StateType :=
  {| isInitialized := isInitialized s; adcBuffer := adcBuffer s;
     adcBufferIndex := adcBufferIndex s; adcSampleCount := adcSampleCount s;
     adcFilteredValue := adcFilteredValue s; adcRawValue := adcRawValue s;
     previousFilteredValue := previousFilteredValue s;
     rateOfChange := rateOfChange s; rateCheckCounter := rateCheckCounter s;
     ambientLight := ambientLight s; signalStatus := signalStatus s;
     plausibilityErrorCount := plausibilityErrorCount s;
     plausibilityFault := plausibilityFault s; currentTimestamp := v;
     conversionPending := conversionPending s |}.

(** The file-scope variables of the component. *)
Record Globals : Type := mkGlobals {
  LightRequest_State : LightRequest_StateType;
  LightRequest_SystemTime : Z;  (* uint32_t *)
  LightRequest_SimAdcValue : Z;  (* uint16_t *)
  LightRequest_SimAdcEnabled : bool
}.

Definition set_isValid (v : bool) (a : AmbientLightLevel.t) : AmbientLightLevel.t :=
  {| AmbientLightLevel.adcValue := AmbientLightLevel.adcValue a;
     AmbientLightLevel.luxValue := AmbientLightLevel.luxValue a;
     AmbientLightLevel.isValid := v |}.

Definition set_adcValue (v : Z) (a : AmbientLightLevel.t) : AmbientLightLevel.t :=
  {| AmbientLightLevel.adcValue := v;
     AmbientLightLevel.luxValue := AmbientLightLevel.luxValue a;
     AmbientLightLevel.isValid := AmbientLightLevel.isValid a |}.

Definition set_luxValue (v : Z) (a : AmbientLightLevel.t) : AmbientLightLevel.t :=
  {| AmbientLightLevel.adcValue := AmbientLightLevel.adcValue a;
     AmbientLightLevel.luxValue := v;
     AmbientLightLevel.isValid := AmbientLightLevel.isValid a |}.

(** The variables as they stand at power-on, before any call. *)
Definition power_on : Globals :=
  {| LightRequest_State :=
       {| isInitialized := false;
          adcBuffer := replicate (Z.to_nat LIGHTREQUEST_ADC_BUFFER_SIZE) 0;
          adcBufferIndex := 0; adcSampleCount := 0; adcFilteredValue := 0;
          adcRawValue := 0; previousFilteredValue := 0; rateOfChange := 0;
          rateCheckCounter := 0;
          ambientLight :=
            {| AmbientLightLevel.adcValue := 0; AmbientLightLevel.luxValue := 0;
               AmbientLightLevel.isValid := false |};
          signalStatus := SIGNAL_STATUS_VALID;
          plausibilityErrorCount := 0; plausibilityFault := false;
          currentTimestamp := 0; conversionPending := false |};
     LightRequest_SystemTime := 0;
     LightRequest_SimAdcValue := 2000;
     LightRequest_SimAdcEnabled := false |}.

Definition LightRequest_Init (g : Globals) : Globals :=
  {| LightRequest_State :=
       {| isInitialized := true;
          adcBuffer := replicate (Z.to_nat LIGHTREQUEST_ADC_BUFFER_SIZE) 0;
          adcBufferIndex := 0; adcSampleCount := 0; adcFilteredValue := 0;
          adcRawValue := 0; previousFilteredValue := 0; rateOfChange := 0;
          rateCheckCounter := 0;
          ambientLight :=
            {| AmbientLightLevel.adcValue := 0; AmbientLightLevel.luxValue := 0;
               AmbientLightLevel.isValid := false |};
          signalStatus := SIGNAL_STATUS_INVALID;
          plausibilityErrorCount := 0; plausibilityFault := false;
          currentTimestamp := 0; conversionPending := false |};
     LightRequest_SystemTime := LightRequest_SystemTime g;
     LightRequest_SimAdcValue := LightRequest_SimAdcValue g;
     LightRequest_SimAdcEnabled := LightRequest_SimAdcEnabled g |}.

Definition LightRequest_SimSetAdcValue (value : Z) (g : Globals) : Globals :=
  {| LightRequest_State := LightRequest_State g;
     LightRequest_SystemTime := LightRequest_SystemTime g;
     LightRequest_SimAdcValue := value;
     LightRequest_SimAdcEnabled := true |}.

(** [adc] is what [Adc_ReadGroup] delivers after the conversion was
    started: a value on [E_OK], nothing otherwise (the previous raw value is
    then kept).  It is consulted only when no simulated value is enabled. *)
Definition LightRequest_ReadAdc
    (simEnabled : bool) (simValue : Z) (adc : option Z)
    (s : LightRequest_StateType) : LightRequest_StateType :=
  if simEnabled then set_adcRawValue simValue s
  else
    match adc with
    | Some adcValue => set_adcRawValue adcValue s
    | None => s
    end.

(** [sum += adcBuffer[i]] for [i] from [0] to [count - 1]. *)
Fixpoint buffer_sum (buffer : list Z) (count : nat) : Z :=
  match count with
  | O => 0
  | S n => buffer_sum buffer n + rd buffer (Z.of_nat n)
  end.

Definition LightRequest_ApplyFilter (s : LightRequest_StateType)
    : LightRequest_StateType :=
  let s := set_adcBuffer (wr (adcBuffer s) (adcBufferIndex s) (adcRawValue s)) s in
  let s := set_adcBufferIndex (wrap8 ((adcBufferIndex s + 1) mod FLM_ADC_SAMPLES)) s in
  let s :=
    if adcSampleCount s <? FLM_ADC_SAMPLES
    then set_adcSampleCount (wrap8 (adcSampleCount s + 1)) s
    else s in
  let count := adcSampleCount s in
  let sum := wrap32 (buffer_sum (adcBuffer s) (Z.to_nat count)) in
  set_adcFilteredValue (wrap16 (sum / count)) s.

Definition LightRequest_CheckOpenCircuit (s : LightRequest_StateType)
    : LightRequest_StateType :=
  if adcFilteredValue s <? FLM_AMBIENT_OPEN_CIRCUIT then
    set_ambientLight (set_isValid false (ambientLight s))
      (set_signalStatus SIGNAL_STATUS_OPEN_CIRCUIT s)
  else s.

Definition LightRequest_CheckShortCircuit (s : LightRequest_StateType)
    : LightRequest_StateType :=
  if FLM_AMBIENT_SHORT_CIRCUIT <? adcFilteredValue s then
    set_ambientLight (set_isValid false (ambientLight s))
      (set_signalStatus SIGNAL_STATUS_SHORT_CIRCUIT s)
  else s.

Definition LightRequest_CheckPlausibility (s : LightRequest_StateType)
    : LightRequest_StateType :=
  let s := set_rateCheckCounter (wrap8 (rateCheckCounter s + 1)) s in
  if LIGHTREQUEST_RATE_CHECK_CYCLES <=? rateCheckCounter s then
    let s := set_rateCheckCounter 0 s in
    let delta := adcFilteredValue s - previousFilteredValue s in
    let delta := if delta <? 0 then - delta else delta in
    let s := set_rateOfChange (wrap16 delta) s in
    let s :=
      if FLM_AMBIENT_RATE_LIMIT <? rateOfChange s then
        let s :=
          if plausibilityErrorCount s <? LIGHTREQUEST_PLAUSIBILITY_DEBOUNCE
          then set_plausibilityErrorCount (wrap8 (plausibilityErrorCount s + 1)) s
          else s in
        if LIGHTREQUEST_PLAUSIBILITY_DEBOUNCE <=? plausibilityErrorCount s then
          set_ambientLight (set_isValid false (ambientLight s))
            (set_signalStatus SIGNAL_STATUS_PLAUSIBILITY
               (set_plausibilityFault true s))
        else s
      else
        set_plausibilityFault false (set_plausibilityErrorCount 0 s) in
    set_previousFilteredValue (adcFilteredValue s) s
  else s.

Definition LightRequest_AdcToLux (adcValue : Z) : Z := adcValue / 4.

Definition LightRequest_UpdateOutput (s : LightRequest_StateType)
    : LightRequest_StateType :=
  let s :=
    match signalStatus s with
    | SIGNAL_STATUS_OPEN_CIRCUIT | SIGNAL_STATUS_SHORT_CIRCUIT
    | SIGNAL_STATUS_PLAUSIBILITY => s
    | _ =>
        if FLM_ADC_SAMPLES <=? adcSampleCount s then
          set_ambientLight (set_isValid true (ambientLight s))
            (set_signalStatus SIGNAL_STATUS_VALID s)
        else
          set_ambientLight (set_isValid false (ambientLight s))
            (set_signalStatus SIGNAL_STATUS_INVALID s)
    end in
  let s := set_ambientLight (set_adcValue (adcFilteredValue s) (ambientLight s)) s in
  set_ambientLight
    (set_luxValue (LightRequest_AdcToLux (adcFilteredValue s)) (ambientLight s)) s.

(** One 20 ms tick.  The diagnostic events go to a stub that touches
    nothing. *)
Definition LightRequest_MainFunction (adc : option Z) (g : Globals) : Globals :=
  let s := LightRequest_State g in
  if negb (isInitialized s) then g
  else
    let s := set_currentTimestamp (LightRequest_SystemTime g) s in
    let time := wrap32 (LightRequest_SystemTime g + FLM_AMBIENT_LIGHT_PERIOD_MS) in
    let s :=
      LightRequest_ReadAdc (LightRequest_SimAdcEnabled g)
        (LightRequest_SimAdcValue g) adc s in
    let s := LightRequest_ApplyFilter s in
    let s := LightRequest_CheckOpenCircuit s in
    let s := LightRequest_CheckShortCircuit s in
    let s := LightRequest_CheckPlausibility s in
    let s := LightRequest_UpdateOutput s in
    {| LightRequest_State := s;
       LightRequest_SystemTime := time;
       LightRequest_SimAdcValue := LightRequest_SimAdcValue g;
       LightRequest_SimAdcEnabled := LightRequest_SimAdcEnabled g |}.

Definition LightRequest_GetAmbientLight (g : Globals) : AmbientLightLevel.t :=
  ambientLight (LightRequest_State g).
Definition LightRequest_GetSignalStatus (g : Globals) : SignalStatus :=
  signalStatus (LightRequest_State g).

End LightRequest.

(** ** FLM application (Application/FLM/FLM_Application.cpp) *)

Module FLM.

Record FLM_Application_StateType : Type := Build_FLM_Application_StateType {
  isInitialized : bool;
  currentState : FLM_StateType;
  previousState : FLM_StateType;
  stateEntryTime : Z;  (* uint32_t *)
  lightSwitch : LightSwitchStatus.t;
  ambientLight : AmbientLightLevel.t;
  switchSignalStatus : SignalStatus;
  ambientSignalStatus : SignalStatus;
  e2eStatus : E2E_P01CheckStatusType;
  headlightCommand : HeadlightCommand;
  lightsCurrentlyOn : bool;
  hysteresisActive : bool;
  consecutiveErrors : Z;  (* uint8_t *)
  e2eErrorStartTime : Z;  (* uint32_t *)
  e2eTimeoutActive : bool;
  degradedEntryTime : Z;  (* uint32_t *)
  currentTime : Z  (* uint32_t *)
}.

Definition set_currentState (v : FLM_StateType) (s : FLM_Application_StateType) : FLM_Application_StateType :=
  {| isInitialized := isInitialized s; currentState := v;
     previousState := previousState s; stateEntryTime := stateEntryTime s;
     lightSwitch := lightSwitch s; ambientLight := ambientLight s;
     switchSignalStatus := switchSignalStatus s;
     ambientSignalStatus := ambientSignalStatus s; e2eStatus := e2eStatus s;
     headlightCommand := headlightCommand s;
     lightsCurrentlyOn := lightsCurrentlyOn s;
     hysteresisActive := hysteresisActive s;
     consecutiveErrors := consecutiveErrors s;
     e2eErrorStartTime := e2eErrorStartTime s;
     e2eTimeoutActive := e2eTimeoutActive s;
     degradedEntryTime := degradedEntryTime s;
     currentTime := currentTime s |}.

Definition set_previousState (v : FLM_StateType) (s : FLM_Application_StateType) : FLM_Application_StateType :=
  {| isInitialized := isInitialized s; currentState := currentState s;
     previousState := v; stateEntryTime := stateEntryTime s;
     lightSwitch := lightSwitch s; ambientLight := ambientLight s;
     switchSignalStatus := switchSignalStatus s;
     ambientSignalStatus := ambientSignalStatus s; e2eStatus := e2eStatus s;
     headlightCommand := headlightCommand s;
     lightsCurrentlyOn := lightsCurrentlyOn s;
     hysteresisActive := hysteresisActive s;
     consecutiveErrors := consecutiveErrors s;
     e2eErrorStartTime := e2eErrorStartTime s;
     e2eTimeoutActive := e2eTimeoutActive s;
     degradedEntryTime := degradedEntryTime s;
     currentTime := currentTime s |}.

Definition set_stateEntryTime (v : Z) (s : FLM_Application_StateType) : FLM_Application_StateType :=
  {| isInitialized := isInitialized s; currentState := currentState s;
     previousState := previousState s; stateEntryTime := v;
     lightSwitch := lightSwitch s; ambientLight := ambientLight s;
     switchSignalStatus := switchSignalStatus s;
     ambientSignalStatus := ambientSignalStatus s; e2eStatus := e2eStatus s;
     headlightCommand := headlightCommand s;
     lightsCurrentlyOn := lightsCurrentlyOn s;
     hysteresisActive := hysteresisActive s;
     consecutiveErrors := consecutiveErrors s;
     e2eErrorStartTime := e2eErrorStartTime s;
     e2eTimeoutActive := e2eTimeoutActive s;
     degradedEntryTime := degradedEntryTime s;
     currentTime := currentTime s |}.

Definition set_lightSwitch (v : LightSwitchStatus.t) (s : FLM_Application_StateType) : FLM_Application_StateType :=
  {| isInitialized := isInitialized s; currentState := currentState s;
     previousState := previousState s; stateEntryTime := stateEntryTime s;
     lightSwitch := v; ambientLight := ambientLight s;
     switchSignalStatus := switchSignalStatus s;
     ambientSignalStatus := ambientSignalStatus s; e2eStatus := e2eStatus s;
     headlightCommand := headlightCommand s;
     lightsCurrentlyOn := lightsCurrentlyOn s;
     hysteresisActive := hysteresisActive s;
     consecutiveErrors := consecutiveErrors s;
     e2eErrorStartTime := e2eErrorStartTime s;
     e2eTimeoutActive := e2eTimeoutActive s;
     degradedEntryTime := degradedEntryTime s;
     currentTime := currentTime s |}.

Definition set_ambientLight (v : AmbientLightLevel.t) (s : FLM_Application_StateType) : FLM_Application_StateType :=
  {| isInitialized := isInitialized s; currentState := currentState s;
     previousState := previousState s; stateEntryTime := stateEntryTime s;
     lightSwitch := lightSwitch s; ambientLight := v;
     switchSignalStatus := switchSignalStatus s;
     ambientSignalStatus := ambientSignalStatus s; e2eStatus := e2eStatus s;
     headlightCommand := headlightCommand s;
     lightsCurrentlyOn := lightsCurrentlyOn s;
     hysteresisActive := hysteresisActive s;
     consecutiveErrors := consecutiveErrors s;
     e2eErrorStartTime := e2eErrorStartTime s;
     e2eTimeoutActive := e2eTimeoutActive s;
     degradedEntryTime := degradedEntryTime s;
     currentTime := currentTime s |}.

Definition set_switchSignalStatus (v : SignalStatus) (s : FLM_Application_StateType) : FLM_Application_StateType :=
  {| isInitialized := isInitialized s; currentState := currentState s;
     previousState := previousState s; stateEntryTime := stateEntryTime s;
     lightSwitch := lightSwitch s; ambientLight := ambientLight s;
     switchSignalStatus := v; ambientSignalStatus := ambientSignalStatus s;
     e2eStatus := e2eStatus s; headlightCommand := headlightCommand s;
     lightsCurrentlyOn := lightsCurrentlyOn s;
     hysteresisActive := hysteresisActive s;
     consecutiveErrors := consecutiveErrors s;
     e2eErrorStartTime := e2eErrorStartTime s;
     e2eTimeoutActive := e2eTimeoutActive s;
     degradedEntryTime := degradedEntryTime s;
     currentTime := currentTime s |}.

Definition set_ambientSignalStatus (v : SignalStatus) (s : FLM_Application_StateType) : FLM_Application_StateType :=
  {| isInitialized := isInitialized s; currentState := currentState s;
     previousState := previousState s; stateEntryTime := stateEntryTime s;
     lightSwitch := lightSwitch s; ambientLight := ambientLight s;
     switchSignalStatus := switchSignalStatus s; ambientSignalStatus := v;
     e2eStatus := e2eStatus s; headlightCommand := headlightCommand s;
     lightsCurrentlyOn := lightsCurrentlyOn s;
     hysteresisActive := hysteresisActive s;
     consecutiveErrors := consecutiveErrors s;
     e2eErrorStartTime := e2eErrorStartTime s;
     e2eTimeoutActive := e2eTimeoutActive s;
     degradedEntryTime := degradedEntryTime s;
     currentTime := currentTime s |}.

Definition set_e2eStatus (v : E2E_P01CheckStatusType) (s : FLM_Application_StateType) : FLM_Application_StateType :=
  {| isInitialized := isInitialized s; currentState := currentState s;
     previousState := previousState s; stateEntryTime := stateEntryTime s;
     lightSwitch := lightSwitch s; ambientLight := ambientLight s;
     switchSignalStatus := switchSignalStatus s;
     ambientSignalStatus := ambientSignalStatus s; e2eStatus := v;
     headlightCommand := headlightCommand s;
     lightsCurrentlyOn := lightsCurrentlyOn s;
     hysteresisActive := hysteresisActive s;
     consecutiveErrors := consecutiveErrors s;
     e2eErrorStartTime := e2eErrorStartTime s;
     e2eTimeoutActive := e2eTimeoutActive s;
     degradedEntryTime := degradedEntryTime s;
     currentTime := currentTime s |}.

Definition set_headlightCommand (v : HeadlightCommand) (s : FLM_Application_StateType) : FLM_Application_StateType :=
  {| isInitialized := isInitialized s; currentState := currentState s;
     previousState := previousState s; stateEntryTime := stateEntryTime s;
     lightSwitch := lightSwitch s; ambientLight := ambientLight s;
     switchSignalStatus := switchSignalStatus s;
     ambientSignalStatus := ambientSignalStatus s; e2eStatus := e2eStatus s;
     headlightCommand := v; lightsCurrentlyOn := lightsCurrentlyOn s;
     hysteresisActive := hysteresisActive s;
     consecutiveErrors := consecutiveErrors s;
     e2eErrorStartTime := e2eErrorStartTime s;
     e2eTimeoutActive := e2eTimeoutActive s;
     degradedEntryTime := degradedEntryTime s;
     currentTime := currentTime s |}.

Definition set_lightsCurrentlyOn (v : bool) (s : FLM_Application_StateType) : FLM_Application_StateType :=
  {| isInitialized := isInitialized s; currentState := currentState s;
     previousState := previousState s; stateEntryTime := stateEntryTime s;
     lightSwitch := lightSwitch s; ambientLight := ambientLight s;
     switchSignalStatus := switchSignalStatus s;
     ambientSignalStatus := ambientSignalStatus s; e2eStatus := e2eStatus s;
     headlightCommand := headlightCommand s; lightsCurrentlyOn := v;
     hysteresisActive := hysteresisActive s;
     consecutiveErrors := consecutiveErrors s;
     e2eErrorStartTime := e2eErrorStartTime s;
     e2eTimeoutActive := e2eTimeoutActive s;
     degradedEntryTime := degradedEntryTime s;
     currentTime := currentTime s |}.

Definition set_hysteresisActive (v : bool) (s : FLM_Application_StateType) : FLM_Application_StateType :=
  {| isInitialized := isInitialized s; currentState := currentState s;
     previousState := previousState s; stateEntryTime := stateEntryTime s;
     lightSwitch := lightSwitch s; ambientLight := ambientLight s;
     switchSignalStatus := switchSignalStatus s;
     ambientSignalStatus := ambientSignalStatus s; e2eStatus := e2eStatus s;
     headlightCommand := headlightCommand s;
     lightsCurrentlyOn := lightsCurrentlyOn s; hysteresisActive := v;
     consecutiveErrors := consecutiveErrors s;
     e2eErrorStartTime := e2eErrorStartTime s;
     e2eTimeoutActive := e2eTimeoutActive s;
     degradedEntryTime := degradedEntryTime s;
     currentTime := currentTime s |}.

Definition set_consecutiveErrors (v : Z) (s : FLM_Application_StateType) : FLM_Application_StateType :=
  {| isInitialized := isInitialized s; currentState := currentState s;
     previousState := previousState s; stateEntryTime := stateEntryTime s;
     lightSwitch := lightSwitch s; ambientLight := ambientLight s;
     switchSignalStatus := switchSignalStatus s;
     ambientSignalStatus := ambientSignalStatus s; e2eStatus := e2eStatus s;
     headlightCommand := headlightCommand s;
     lightsCurrentlyOn := lightsCurrentlyOn s;
     hysteresisActive := hysteresisActive s; consecutiveErrors := v;
     e2eErrorStartTime := e2eErrorStartTime s;
     e2eTimeoutActive := e2eTimeoutActive s;
     degradedEntryTime := degradedEntryTime s;
     currentTime := currentTime s |}.

Definition set_degradedEntryTime (v : Z) (s : FLM_Application_StateType) : FLM_Application_StateType :=
  {| isInitialized := isInitialized s; currentState := currentState s;
     previousState := previousState s; stateEntryTime := stateEntryTime s;
     lightSwitch := lightSwitch s; ambientLight := ambientLight s;
     switchSignalStatus := switchSignalStatus s;
     ambientSignalStatus := ambientSignalStatus s; e2eStatus := e2eStatus s;
     headlightCommand := headlightCommand s;
     lightsCurrentlyOn := lightsCurrentlyOn s;
     hysteresisActive := hysteresisActive s;
     consecutiveErrors := consecutiveErrors s;
     e2eErrorStartTime := e2eErrorStartTime s;
     e2eTimeoutActive := e2eTimeoutActive s; degradedEntryTime := v;
     currentTime := currentTime s |}.

Definition set_currentTime (v : Z) (s : FLM_Application_StateType) : FLM_Application_StateType :=
  {| isInitialized := isInitialized s; currentState := currentState s;
     previousState := previousState s; stateEntryTime := stateEntryTime s;
     lightSwitch := lightSwitch s; ambientLight := ambientLight s;
     switchSignalStatus := switchSignalStatus s;
     ambientSignalStatus := ambientSignalStatus s; e2eStatus := e2eStatus s;
     headlightCommand := headlightCommand s;
     lightsCurrentlyOn := lightsCurrentlyOn s;
     hysteresisActive := hysteresisActive s;
     consecutiveErrors := consecutiveErrors s;
     e2eErrorStartTime := e2eErrorStartTime s;
     e2eTimeoutActive := e2eTimeoutActive s;
     degradedEntryTime := degradedEntryTime s; currentTime := v |}.

(** The file-scope variables of the component. *)
Record Globals : Type := mkGlobals {
  FLM_State : FLM_Application_StateType;
  FLM_SystemTime : Z;  (* uint32_t *)
  FLM_ExternalSafeStateTrigger : bool;
  FLM_SafeStateReason : SafeStateReason
}.

Definition with_State (s : FLM_Application_StateType) (g : Globals) : Globals :=
  {| FLM_State := s;
     FLM_SystemTime := FLM_SystemTime g;
     FLM_ExternalSafeStateTrigger := FLM_ExternalSafeStateTrigger g;
     FLM_SafeStateReason := FLM_SafeStateReason g |}.

(** The variables as they stand at power-on, before any call. *)
Definition power_on : Globals :=
  {| FLM_State :=
       {| isInitialized := false;
          currentState := FLM_STATE_INIT; previousState := FLM_STATE_INIT;
          stateEntryTime := 0;
          lightSwitch :=
            {| LightSwitchStatus.command := LIGHT_SWITCH_OFF;
               LightSwitchStatus.isValid := false;
               LightSwitchStatus.e2eStatus := 0 |};
          ambientLight :=
            {| AmbientLightLevel.adcValue := 0; AmbientLightLevel.luxValue := 0;
               AmbientLightLevel.isValid := false |};
          switchSignalStatus := SIGNAL_STATUS_VALID;
          ambientSignalStatus := SIGNAL_STATUS_VALID;
          e2eStatus := E2E_P01STATUS_OK;
          headlightCommand := HEADLIGHT_CMD_OFF;
          lightsCurrentlyOn := false; hysteresisActive := false;
          consecutiveErrors := 0; e2eErrorStartTime := 0;
          e2eTimeoutActive := false; degradedEntryTime := 0;
          currentTime := 0 |};
     FLM_SystemTime := 0;
     FLM_ExternalSafeStateTrigger := false;
     FLM_SafeStateReason := SAFE_STATE_REASON_NONE |}.

Definition FLM_Init (g : Globals) : Globals :=
  {| FLM_State :=
       {| isInitialized := true;
          currentState := FLM_STATE_INIT; previousState := FLM_STATE_INIT;
          stateEntryTime := 0;
          lightSwitch :=
            {| LightSwitchStatus.command := LIGHT_SWITCH_OFF;
               LightSwitchStatus.isValid := false;
               LightSwitchStatus.e2eStatus := 0 |};
          ambientLight :=
            {| AmbientLightLevel.adcValue := 0; AmbientLightLevel.luxValue := 0;
               AmbientLightLevel.isValid := false |};
          switchSignalStatus := SIGNAL_STATUS_INVALID;
          ambientSignalStatus := SIGNAL_STATUS_INVALID;
          e2eStatus := E2E_P01STATUS_OK;
          headlightCommand := HEADLIGHT_CMD_OFF;
          lightsCurrentlyOn := false; hysteresisActive := false;
          consecutiveErrors := 0; e2eErrorStartTime := 0;
          e2eTimeoutActive := false; degradedEntryTime := 0;
          currentTime := 0 |};
     FLM_SystemTime := FLM_SystemTime g;
     FLM_ExternalSafeStateTrigger := false;
     FLM_SafeStateReason := SAFE_STATE_REASON_NONE |}.

Definition FLM_TriggerSafeState (reason : SafeStateReason) (g : Globals) : Globals :=
  {| FLM_State := FLM_State g;
     FLM_SystemTime := FLM_SystemTime g;
     FLM_ExternalSafeStateTrigger := true;
     FLM_SafeStateReason := reason |}.

(** The getters of SwitchEvent and LightRequest are read on their current
    variables. *)
Definition FLM_ReadInputs
    (sw : SwitchEvent.Globals) (lr : LightRequest.Globals)
    (s : FLM_Application_StateType) : FLM_Application_StateType :=
  let s := set_lightSwitch (SwitchEvent.SwitchEvent_GetLightRequest sw) s in
  let s := set_e2eStatus (SwitchEvent.SwitchEvent_GetE2EStatus sw) s in
  let s :=
    if LightSwitchStatus.isValid (lightSwitch s)
    then set_switchSignalStatus SIGNAL_STATUS_VALID s
    else if SwitchEvent.SwitchEvent_IsTimeoutActive sw
    then set_switchSignalStatus SIGNAL_STATUS_TIMEOUT s
    else set_switchSignalStatus SIGNAL_STATUS_INVALID s in
  let s := set_ambientLight (LightRequest.LightRequest_GetAmbientLight lr) s in
  set_ambientSignalStatus (LightRequest.LightRequest_GetSignalStatus lr) s.

Definition FLM_AreAllInputsValid (s : FLM_Application_StateType) : bool :=
  LightSwitchStatus.isValid (lightSwitch s)
  && AmbientLightLevel.isValid (ambientLight s).

Definition FLM_IsAnyInputInvalid (s : FLM_Application_StateType) : bool :=
  negb (LightSwitchStatus.isValid (lightSwitch s))
  || negb (AmbientLightLevel.isValid (ambientLight s)).

Definition FLM_IsCriticalFault (trigger : bool) (s : FLM_Application_StateType) : bool :=
  if e2eTimeoutActive s then true
  else if trigger then true
  else false.

Definition FLM_StateInit (trigger : bool) (s : FLM_Application_StateType)
    : FLM_Application_StateType :=
  if trigger then set_currentState FLM_STATE_SAFE s
  else
    let s :=
      if FLM_AreAllInputsValid s
      then set_consecutiveErrors 0 (set_currentState FLM_STATE_NORMAL s)
      else s in
    set_headlightCommand HEADLIGHT_CMD_OFF s.

Definition FLM_StateNormal (trigger : bool) (s : FLM_Application_StateType)
    : FLM_Application_StateType :=
  if trigger then set_currentState FLM_STATE_SAFE s
  else if FLM_IsCriticalFault trigger s then set_currentState FLM_STATE_SAFE s
  else if FLM_IsAnyInputInvalid s then
    let s := set_consecutiveErrors (wrap8 (consecutiveErrors s + 1)) s in
    if FLM_MAX_CONSECUTIVE_ERRORS <=? consecutiveErrors s
    then set_degradedEntryTime (currentTime s)
           (set_currentState FLM_STATE_DEGRADED s)
    else s
  else set_consecutiveErrors 0 s.

Definition FLM_StateDegraded (trigger : bool) (s : FLM_Application_StateType)
    : FLM_Application_StateType :=
  if trigger then set_currentState FLM_STATE_SAFE s
  else if FLM_AreAllInputsValid s
  then set_consecutiveErrors 0 (set_currentState FLM_STATE_NORMAL s)
  else if FLM_IsCriticalFault trigger s then set_currentState FLM_STATE_SAFE s
  else
    let timeInDegraded := wrap32 (currentTime s - degradedEntryTime s) in
    if FLM_FTTI_MS - FLM_SAFE_STATE_TRANSITION_MS <? timeInDegraded
    then set_currentState FLM_STATE_SAFE s
    else s.

Definition FLM_StateSafe (s : FLM_Application_StateType) : FLM_Application_StateType :=
  if AmbientLightLevel.isValid (ambientLight s) then
    if AmbientLightLevel.adcValue (ambientLight s) <? FLM_AMBIENT_THRESHOLD_ON
    then set_headlightCommand HEADLIGHT_CMD_LOW_BEAM s
    else set_headlightCommand HEADLIGHT_CMD_OFF s
  else set_headlightCommand HEADLIGHT_CMD_LOW_BEAM s.

(** The [default] branch of the switch is not reachable for a value of the
    four-valued state type. *)
Definition FLM_ProcessStateMachine (trigger : bool) (s : FLM_Application_StateType)
    : FLM_Application_StateType :=
  let s := set_previousState (currentState s) s in
  let s :=
    match currentState s with
    | FLM_STATE_INIT => FLM_StateInit trigger s
    | FLM_STATE_NORMAL => FLM_StateNormal trigger s
    | FLM_STATE_DEGRADED => FLM_StateDegraded trigger s
    | FLM_STATE_SAFE => FLM_StateSafe s
    end in
  if negb (FLM_StateType_eqb (currentState s) (previousState s))
  then set_stateEntryTime (currentTime s) s
  else s.

Definition FLM_ApplyAutoMode (s : FLM_Application_StateType) : FLM_Application_StateType :=
  if negb (AmbientLightLevel.isValid (ambientLight s)) then s
  else if lightsCurrentlyOn s then
    if FLM_AMBIENT_THRESHOLD_OFF <? AmbientLightLevel.adcValue (ambientLight s) then
      set_hysteresisActive false
        (set_lightsCurrentlyOn false (set_headlightCommand HEADLIGHT_CMD_OFF s))
    else
      set_hysteresisActive true (set_headlightCommand HEADLIGHT_CMD_LOW_BEAM s)
  else
    if AmbientLightLevel.adcValue (ambientLight s) <? FLM_AMBIENT_THRESHOLD_ON then
      set_hysteresisActive true
        (set_lightsCurrentlyOn true (set_headlightCommand HEADLIGHT_CMD_LOW_BEAM s))
    else
      set_hysteresisActive false (set_headlightCommand HEADLIGHT_CMD_OFF s).

(** The [default] branch of the command switch is not reachable for a
    value of the four-valued command type. *)
Definition FLM_DetermineHeadlightCommand (s : FLM_Application_StateType)
    : FLM_Application_StateType :=
  match currentState s with
  | FLM_STATE_SAFE => s  (* Already handled in FLM_StateSafe *)
  | FLM_STATE_INIT => set_headlightCommand HEADLIGHT_CMD_OFF s
  | _ =>
      let s :=
        match LightSwitchStatus.command (lightSwitch s) with
        | LIGHT_SWITCH_OFF =>
            set_lightsCurrentlyOn false (set_headlightCommand HEADLIGHT_CMD_OFF s)
        | LIGHT_SWITCH_LOW_BEAM =>
            set_lightsCurrentlyOn true (set_headlightCommand HEADLIGHT_CMD_LOW_BEAM s)
        | LIGHT_SWITCH_HIGH_BEAM =>
            set_lightsCurrentlyOn true (set_headlightCommand HEADLIGHT_CMD_HIGH_BEAM s)
        | LIGHT_SWITCH_AUTO => FLM_ApplyAutoMode s
        end in
      match currentState s with
      | FLM_STATE_DEGRADED =>
          if negb (LightSwitchStatus.isValid (lightSwitch s))
          then FLM_ApplyAutoMode s
          else s
      | _ => s
      end
  end.

(** One 10 ms tick.  The watchdog checkpoints and the diagnostic event go
    to stubs that touch nothing. *)
Definition FLM_MainFunction
    (sw : SwitchEvent.Globals) (lr : LightRequest.Globals) (g : Globals) : Globals :=
  let s := FLM_State g in
  if negb (isInitialized s) then g
  else
    let s := set_currentTime (FLM_SystemTime g) s in
    let time := wrap32 (FLM_SystemTime g + FLM_MAIN_FUNCTION_PERIOD_MS) in
    let s := FLM_ReadInputs sw lr s in
    let s := FLM_ProcessStateMachine (FLM_ExternalSafeStateTrigger g) s in
    let s := FLM_DetermineHeadlightCommand s in
    {| FLM_State := s;
       FLM_SystemTime := time;
       FLM_ExternalSafeStateTrigger := FLM_ExternalSafeStateTrigger g;
       FLM_SafeStateReason := FLM_SafeStateReason g |}.

Definition FLM_GetHeadlightCommand (g : Globals) : HeadlightCommand :=
  headlightCommand (FLM_State g).
Definition FLM_GetCurrentState (g : Globals) : FLM_StateType :=
  currentState (FLM_State g).
Definition FLM_IsInSafeState (g : Globals) : bool :=
  match currentState (FLM_State g) with FLM_STATE_SAFE => true | _ => false end.

End FLM.

(** ** Digital outputs (MCAL/Dio/Dio.cpp), as far as the headlight driver
    uses them *)

Module Dio.

Definition DIO_NUM_CHANNELS : Z := 16.
Definition STD_LOW : Z := 0.
Definition STD_HIGH : Z := 1.
Definition DIO_CHANNEL_LOW_BEAM : Z := 0.
Definition DIO_CHANNEL_HIGH_BEAM : Z := 1.
Definition DIO_CHANNEL_STATUS_LED : Z := 3.
Definition DIO_CHANNEL_ERROR_LED : Z := 4.

Record Globals : Type := mkGlobals {
  Dio_OutputLevels : list Z;        (* Dio_LevelType[DIO_NUM_CHANNELS] *)
  Dio_ChannelDirection : list bool  (* TRUE for an output channel *)
}.

Definition Dio_Init : Globals :=
  {| Dio_OutputLevels := replicate (Z.to_nat DIO_NUM_CHANNELS) STD_LOW;
     Dio_ChannelDirection :=
       <[Z.to_nat DIO_CHANNEL_ERROR_LED := true]>
         (<[Z.to_nat DIO_CHANNEL_STATUS_LED := true]>
            (<[Z.to_nat DIO_CHANNEL_HIGH_BEAM := true]>
               (<[Z.to_nat DIO_CHANNEL_LOW_BEAM := true]>
                  (replicate (Z.to_nat DIO_NUM_CHANNELS) false)))) |}.

Definition Dio_WriteChannel (ChannelId Level : Z) (d : Globals) : Globals :=
  if DIO_NUM_CHANNELS <=? ChannelId then d
  else if default false (Dio_ChannelDirection d !! Z.to_nat ChannelId) then
    {| Dio_OutputLevels :=
         wr (Dio_OutputLevels d) ChannelId
            (if negb (Level =? STD_LOW) then STD_HIGH else STD_LOW);
       Dio_ChannelDirection := Dio_ChannelDirection d |}
  else d.

Definition level (d : Globals) (ChannelId : Z) : Z := rd (Dio_OutputLevels d) ChannelId.

End Dio.

(** ** Headlight (Application/Headlight/Headlight.cpp) *)

Module Headlight.

Definition HEADLIGHT_FAULT_CONFIRM_CYCLES : Z :=
  FLM_HEADLIGHT_FAULT_DETECT_MS / FLM_MAIN_FUNCTION_PERIOD_MS.
Definition HEADLIGHT_DIO_LOW_BEAM : Z := 0.
Definition HEADLIGHT_DIO_HIGH_BEAM : Z := 1.

Record Headlight_StateType : Type := Build_Headlight_StateType {
  isInitialized : bool;
  currentCommand : HeadlightCommand;
  requestedCommand : HeadlightCommand;
  lowBeamOutput : bool;
  highBeamOutput : bool;
  feedbackCurrent : Z;  (* uint16_t, mA *)
  feedbackState : bool;
  faultStatus : HeadlightFaultStatus;
  openLoadCounter : Z;  (* uint8_t *)
  shortCircuitCounter : Z;  (* uint8_t *)
  faultDetectStartTime : Z;  (* uint32_t *)
  faultConfirmed : bool;
  commandChangeTime : Z;  (* uint32_t *)
  currentTime : Z  (* uint32_t *)
}.

Definition set_currentCommand (v : HeadlightCommand) (s : Headlight_StateType) : Headlight_StateType :=
  {| isInitialized := isInitialized s; currentCommand := v;
     requestedCommand := requestedCommand s;
     lowBeamOutput := lowBeamOutput s; highBeamOutput := highBeamOutput s;
     feedbackCurrent := feedbackCurrent s; feedbackState := feedbackState s;
     faultStatus := faultStatus s; openLoadCounter := openLoadCounter s;
     shortCircuitCounter := shortCircuitCounter s;
     faultDetectStartTime := faultDetectStartTime s;
     faultConfirmed := faultConfirmed s;
     commandChangeTime := commandChangeTime s;
     currentTime := currentTime s |}.

Definition set_requestedCommand (v : HeadlightCommand) (s : Headlight_StateType) : Headlight_StateType :=
  {| isInitialized := isInitialized s; currentCommand := currentCommand s;
     requestedCommand := v; lowBeamOutput := lowBeamOutput s;
     highBeamOutput := highBeamOutput s;
     feedbackCurrent := feedbackCurrent s; feedbackState := feedbackState s;
     faultStatus := faultStatus s; openLoadCounter := openLoadCounter s;
     shortCircuitCounter := shortCircuitCounter s;
     faultDetectStartTime := faultDetectStartTime s;
     faultConfirmed := faultConfirmed s;
     commandChangeTime := commandChangeTime s;
     currentTime := currentTime s |}.

Definition set_lowBeamOutput (v : bool) (s : Headlight_StateType) : Headlight_StateType :=
  {| isInitialized := isInitialized s; currentCommand := currentCommand s;
     requestedCommand := requestedCommand s; lowBeamOutput := v;
     highBeamOutput := highBeamOutput s;
     feedbackCurrent := feedbackCurrent s; feedbackState := feedbackState s;
     faultStatus := faultStatus s; openLoadCounter := openLoadCounter s;
     shortCircuitCounter := shortCircuitCounter s;
     faultDetectStartTime := faultDetectStartTime s;
     faultConfirmed := faultConfirmed s;
     commandChangeTime := commandChangeTime s;
     currentTime := currentTime s |}.

Definition set_highBeamOutput (v : bool) (s : Headlight_StateType) : Headlight_StateType :=
  {| isInitialized := isInitialized s; currentCommand := currentCommand s;
     requestedCommand := requestedCommand s;
     lowBeamOutput := lowBeamOutput s; highBeamOutput := v;
     feedbackCurrent := feedbackCurrent s; feedbackState := feedbackState s;
     faultStatus := faultStatus s; openLoadCounter := openLoadCounter s;
     shortCircuitCounter := shortCircuitCounter s;
     faultDetectStartTime := faultDetectStartTime s;
     faultConfirmed := faultConfirmed s;
     commandChangeTime := commandChangeTime s;
     currentTime := currentTime s |}.

Definition set_feedbackCurrent (v : Z) (s : Headlight_StateType) : Headlight_StateType :=
  {| isInitialized := isInitialized s; currentCommand := currentCommand s;
     requestedCommand := requestedCommand s;
     lowBeamOutput := lowBeamOutput s; highBeamOutput := highBeamOutput s;
     feedbackCurrent := v; feedbackState := feedbackState s;
     faultStatus := faultStatus s; openLoadCounter := openLoadCounter s;
     shortCircuitCounter := shortCircuitCounter s;
     faultDetectStartTime := faultDetectStartTime s;
     faultConfirmed := faultConfirmed s;
     commandChangeTime := commandChangeTime s;
     currentTime := currentTime s |}.

Definition set_feedbackState (v : bool) (s : Headlight_StateType) : Headlight_StateType :=
  {| isInitialized := isInitialized s; currentCommand := currentCommand s;
     requestedCommand := requestedCommand s;
     lowBeamOutput := lowBeamOutput s; highBeamOutput := highBeamOutput s;
     feedbackCurrent := feedbackCurrent s; feedbackState := v;
     faultStatus := faultStatus s; openLoadCounter := openLoadCounter s;
     shortCircuitCounter := shortCircuitCounter s;
     faultDetectStartTime := faultDetectStartTime s;
     faultConfirmed := faultConfirmed s;
     commandChangeTime := commandChangeTime s;
     currentTime := currentTime s |}.

Definition set_faultStatus (v : HeadlightFaultStatus) (s : Headlight_StateType) : Headlight_StateType :=
  {| isInitialized := isInitialized s; currentCommand := currentCommand s;
     requestedCommand := requestedCommand s;
     lowBeamOutput := lowBeamOutput s; highBeamOutput := highBeamOutput s;
     feedbackCurrent := feedbackCurrent s; feedbackState := feedbackState s;
     faultStatus := v; openLoadCounter := openLoadCounter s;
     shortCircuitCounter := shortCircuitCounter s;
     faultDetectStartTime := faultDetectStartTime s;
     faultConfirmed := faultConfirmed s;
     commandChangeTime := commandChangeTime s;
     currentTime := currentTime s |}.

Definition set_openLoadCounter (v : Z) (s : Headlight_StateType) : Headlight_StateType :=
  {| isInitialized := isInitialized s; currentCommand := currentCommand s;
     requestedCommand := requestedCommand s;
     lowBeamOutput := lowBeamOutput s; highBeamOutput := highBeamOutput s;
     feedbackCurrent := feedbackCurrent s; feedbackState := feedbackState s;
     faultStatus := faultStatus s; openLoadCounter := v;
     shortCircuitCounter := shortCircuitCounter s;
     faultDetectStartTime := faultDetectStartTime s;
     faultConfirmed := faultConfirmed s;
     commandChangeTime := commandChangeTime s;
     currentTime := currentTime s |}.

Definition set_shortCircuitCounter (v : Z) (s : Headlight_StateType) : Headlight_StateType :=
  {| isInitialized := isInitialized s; currentCommand := currentCommand s;
     requestedCommand := requestedCommand s;
     lowBeamOutput := lowBeamOutput s; highBeamOutput := highBeamOutput s;
     feedbackCurrent := feedbackCurrent s; feedbackState := feedbackState s;
     faultStatus := faultStatus s; openLoadCounter := openLoadCounter s;
     shortCircuitCounter := v;
     faultDetectStartTime := faultDetectStartTime s;
     faultConfirmed := faultConfirmed s;
     commandChangeTime := commandChangeTime s;
     currentTime := currentTime s |}.

Definition set_faultConfirmed (v : bool) (s : Headlight_StateType) : Headlight_StateType :=
  {| isInitialized := isInitialized s; currentCommand := currentCommand s;
     requestedCommand := requestedCommand s;
     lowBeamOutput := lowBeamOutput s; highBeamOutput := highBeamOutput s;
     feedbackCurrent := feedbackCurrent s; feedbackState := feedbackState s;
     faultStatus := faultStatus s; openLoadCounter := openLoadCounter s;
     shortCircuitCounter := shortCircuitCounter s;
     faultDetectStartTime := faultDetectStartTime s; faultConfirmed := v;
     commandChangeTime := commandChangeTime s;
     currentTime := currentTime s |}.

Definition set_commandChangeTime (v : Z) (s : Headlight_StateType) : Headlight_StateType :=
  {| isInitialized := isInitialized s; currentCommand := currentCommand s;
     requestedCommand := requestedCommand s;
     lowBeamOutput := lowBeamOutput s; highBeamOutput := highBeamOutput s;
     feedbackCurrent := feedbackCurrent s; feedbackState := feedbackState s;
     faultStatus := faultStatus s; openLoadCounter := openLoadCounter s;
     shortCircuitCounter := shortCircuitCounter s;
     faultDetectStartTime := faultDetectStartTime s;
     faultConfirmed := faultConfirmed s; commandChangeTime := v;
     currentTime := currentTime s |}.

Definition set_currentTime (v : Z) (s : Headlight_StateType) : Headlight_StateType :=
  {| isInitialized := isInitialized s; currentCommand := currentCommand s;
     requestedCommand := requestedCommand s;
     lowBeamOutput := lowBeamOutput s; highBeamOutput := highBeamOutput s;
     feedbackCurrent := feedbackCurrent s; feedbackState := feedbackState s;
     faultStatus := faultStatus s; openLoadCounter := openLoadCounter s;
     shortCircuitCounter := shortCircuitCounter s;
     faultDetectStartTime := faultDetectStartTime s;
     faultConfirmed := faultConfirmed s;
     commandChangeTime := commandChangeTime s; currentTime := v |}.

(** The file-scope variables of the component, together with the digital
    output driver it writes to. *)
Record Globals : Type := mkGlobals {
  Headlight_State : Headlight_StateType;
  Headlight_SystemTime : Z;  (* uint32_t *)
  Headlight_SimCurrent : Z;  (* uint16_t *)
  Headlight_SimCurrentEnabled : bool;
  dio : Dio.Globals
}.

(** The variables as they stand at power-on, before any call. *)
Definition power_on (d : Dio.Globals) : Globals :=
  {| Headlight_State :=
       {| isInitialized := false;
          currentCommand := HEADLIGHT_CMD_OFF; requestedCommand := HEADLIGHT_CMD_OFF;
          lowBeamOutput := false; highBeamOutput := false;
          feedbackCurrent := 0; feedbackState := false;
          faultStatus := HEADLIGHT_FAULT_NONE;
          openLoadCounter := 0; shortCircuitCounter := 0;
          faultDetectStartTime := 0; faultConfirmed := false;
          commandChangeTime := 0; currentTime := 0 |};
     Headlight_SystemTime := 0;
     Headlight_SimCurrent := 0;
     Headlight_SimCurrentEnabled := false;
     dio := d |}.

Definition Headlight_Init (g : Globals) : Globals :=
  {| Headlight_State :=
       {| isInitialized := true;
          currentCommand := HEADLIGHT_CMD_OFF; requestedCommand := HEADLIGHT_CMD_OFF;
          lowBeamOutput := false; highBeamOutput := false;
          feedbackCurrent := 0; feedbackState := false;
          faultStatus := HEADLIGHT_FAULT_NONE;
          openLoadCounter := 0; shortCircuitCounter := 0;
          faultDetectStartTime := 0; faultConfirmed := false;
          commandChangeTime := 0; currentTime := 0 |};
     Headlight_SystemTime := Headlight_SystemTime g;
     Headlight_SimCurrent := Headlight_SimCurrent g;
     Headlight_SimCurrentEnabled := Headlight_SimCurrentEnabled g;
     dio :=
       Dio.Dio_WriteChannel HEADLIGHT_DIO_HIGH_BEAM Dio.STD_LOW
         (Dio.Dio_WriteChannel HEADLIGHT_DIO_LOW_BEAM Dio.STD_LOW (dio g)) |}.

Definition Headlight_SimSetFeedbackCurrent (current : Z) (g : Globals) : Globals :=
  {| Headlight_State := Headlight_State g;
     Headlight_SystemTime := Headlight_SystemTime g;
     Headlight_SimCurrent := current;
     Headlight_SimCurrentEnabled := true;
     dio := dio g |}.

(** The functions below work on the state record and the output driver
    together. *)
Definition St : Type := (Headlight_StateType * Dio.Globals)%type.

Definition write_lines (low high : Z) (d : Dio.Globals) : Dio.Globals :=
  Dio.Dio_WriteChannel HEADLIGHT_DIO_HIGH_BEAM high
    (Dio.Dio_WriteChannel HEADLIGHT_DIO_LOW_BEAM low d).

(** The [default] branch of the switch is not reachable for a value of the
    three-valued command type. *)
Definition Headlight_SetOutputs (sd : St) : St :=
  let '(s, d) := sd in
  let '(s, d) :=
    match requestedCommand s with
    | HEADLIGHT_CMD_OFF =>
        (set_highBeamOutput false (set_lowBeamOutput false s),
         write_lines Dio.STD_LOW Dio.STD_LOW d)
    | HEADLIGHT_CMD_LOW_BEAM =>
        (set_highBeamOutput false (set_lowBeamOutput true s),
         write_lines Dio.STD_HIGH Dio.STD_LOW d)
    | HEADLIGHT_CMD_HIGH_BEAM =>
        (set_highBeamOutput true (set_lowBeamOutput true s),
         write_lines Dio.STD_HIGH Dio.STD_HIGH d)
    end in
  if negb (HeadlightCommand_eqb (requestedCommand s) (currentCommand s))
  then (set_commandChangeTime (currentTime s) s, d)
  else (s, d).

(** [adc] is what [Adc_ReadGroup] delivers for the current-sense group: a
    value on [E_OK], nothing otherwise (the previous current is then
    kept). *)
Definition Headlight_ReadFeedback
    (simEnabled : bool) (simCurrent : Z) (adc : option Z)
    (s : Headlight_StateType) : Headlight_StateType :=
  let s :=
    if simEnabled then set_feedbackCurrent simCurrent s
    else
      match adc with
      | Some adcValue =>
          set_feedbackCurrent (wrap16 (adcValue * FLM_HEADLIGHT_CURRENT_FACTOR)) s
      | None => s
      end in
  set_feedbackState (FLM_HEADLIGHT_MIN_CURRENT_MA <=? feedbackCurrent s) s.

Definition Headlight_IsOutputCommanded (s : Headlight_StateType) : bool :=
  negb (HeadlightCommand_eqb (requestedCommand s) HEADLIGHT_CMD_OFF).

Definition Headlight_CheckOpenLoad (s : Headlight_StateType) : Headlight_StateType :=
  if negb (Headlight_IsOutputCommanded s) then set_openLoadCounter 0 s
  else
    let timeSinceCommand := wrap32 (currentTime s - commandChangeTime s) in
    if timeSinceCommand <? FLM_HEADLIGHT_FAULT_DETECT_MS then s
    else if feedbackCurrent s <? FLM_HEADLIGHT_OPEN_LOAD_MA then
      let s := set_openLoadCounter (wrap8 (openLoadCounter s + 1)) s in
      if HEADLIGHT_FAULT_CONFIRM_CYCLES <=? openLoadCounter s
      then set_faultConfirmed true (set_faultStatus HEADLIGHT_FAULT_OPEN_LOAD s)
      else s
    else set_openLoadCounter 0 s.

Definition Headlight_CheckShortCircuit (sd : St) : St :=
  let '(s, d) := sd in
  if FLM_HEADLIGHT_MAX_CURRENT_MA <? feedbackCurrent s then
    let s := set_shortCircuitCounter (wrap8 (shortCircuitCounter s + 1)) s in
    if HEADLIGHT_FAULT_CONFIRM_CYCLES <=? shortCircuitCounter s then
      let s := set_faultConfirmed true (set_faultStatus HEADLIGHT_FAULT_SHORT s) in
      (* Immediately turn off outputs for protection *)
      let d := write_lines Dio.STD_LOW Dio.STD_LOW d in
      (set_highBeamOutput false (set_lowBeamOutput false s), d)
    else (s, d)
  else (set_shortCircuitCounter 0 s, d).

Definition Headlight_UpdateFaultStatus (s : Headlight_StateType) : Headlight_StateType :=
  if (openLoadCounter s =? 0) && (shortCircuitCounter s =? 0) then
    if negb (faultConfirmed s) then set_faultStatus HEADLIGHT_FAULT_NONE s
    else s  (* Confirmed faults remain until reset *)
  else s.

(** One 10 ms tick.  The requested command is read from the FLM
    application; the diagnostic events go to a stub that touches nothing. *)
Definition Headlight_MainFunction
    (flm : FLM.Globals) (adc : option Z) (g : Globals) : Globals :=
  let s := Headlight_State g in
  if negb (isInitialized s) then g
  else
    let s := set_currentTime (Headlight_SystemTime g) s in
    let time := wrap32 (Headlight_SystemTime g + FLM_MAIN_FUNCTION_PERIOD_MS) in
    let s := set_requestedCommand (FLM.FLM_GetHeadlightCommand flm) s in
    let '(s, d) := Headlight_SetOutputs (s, dio g) in
    let s :=
      Headlight_ReadFeedback (Headlight_SimCurrentEnabled g)
        (Headlight_SimCurrent g) adc s in
    let s := Headlight_CheckOpenLoad s in
    let '(s, d) := Headlight_CheckShortCircuit (s, d) in
    let s := Headlight_UpdateFaultStatus s in
    let s := set_currentCommand (requestedCommand s) s in
    {| Headlight_State := s;
       Headlight_SystemTime := time;
       Headlight_SimCurrent := Headlight_SimCurrent g;
       Headlight_SimCurrentEnabled := Headlight_SimCurrentEnabled g;
       dio := d |}.

Definition Headlight_GetFaultStatus (g : Globals) : HeadlightFaultStatus :=
  faultStatus (Headlight_State g).

End Headlight.

(** ** SafetyMonitor (Application/SafetyMonitor/SafetyMonitor.cpp) *)

Module SafetyMonitor.

Definition SAFETYMONITOR_FTTI_MS : Z := 200.
Definition SAFETYMONITOR_E2E_TIMEOUT_MS : Z := 100.
Definition SAFETYMONITOR_MAX_FAULT_COUNT : Z := 3.
Definition SAFETYMONITOR_DAY_THRESHOLD : Z := 1500.

Record SafetyMonitor_StateType : Type := Build_SafetyMonitor_StateType {
  isInitialized : bool;
  inSafeState : bool;
  switchEventFault : bool;
  lightRequestFault : bool;
  flmFault : bool;
  headlightFault : bool;
  wdgmFault : bool;
  e2eStatus : E2E_P01CheckStatusType;
  e2eSmStatus : E2E_SMStateType;
  e2eFailureStartTime : Z;  (* uint32_t *)
  e2eTimeoutActive : bool;
  headlightStatus : HeadlightFaultStatus;
  flmState : FLM_StateType;
  wdgmGlobalStatus : WdgM_GlobalStatusType;
  totalFaultCount : Z;  (* uint8_t *)
  firstFaultTime : Z;  (* uint32_t *)
  fttiActive : bool;
  safeStateReason : SafeStateReason;
  safeStateEntryTime : Z;  (* uint32_t *)
  safeStateCommand : HeadlightCommand;
  lastAmbientLight : AmbientLightLevel.t;
  isDaytime : bool;
  globalStatus : SafetyStatusType;
  currentTime : Z  (* uint32_t *)
}.

Definition set_inSafeState (v : bool) (s : SafetyMonitor_StateType) : SafetyMonitor_StateType :=
  {| isInitialized := isInitialized s; inSafeState := v;
     switchEventFault := switchEventFault s;
     lightRequestFault := lightRequestFault s; flmFault := flmFault s;
     headlightFault := headlightFault s; wdgmFault := wdgmFault s;
     e2eStatus := e2eStatus s; e2eSmStatus := e2eSmStatus s;
     e2eFailureStartTime := e2eFailureStartTime s;
     e2eTimeoutActive := e2eTimeoutActive s;
     headlightStatus := headlightStatus s; flmState := flmState s;
     wdgmGlobalStatus := wdgmGlobalStatus s;
     totalFaultCount := totalFaultCount s;
     firstFaultTime := firstFaultTime s; fttiActive := fttiActive s;
     safeStateReason := safeStateReason s;
     safeStateEntryTime := safeStateEntryTime s;
     safeStateCommand := safeStateCommand s;
     lastAmbientLight := lastAmbientLight s; isDaytime := isDaytime s;
     globalStatus := globalStatus s; currentTime := currentTime s |}.

Definition set_switchEventFault (v : bool) (s : SafetyMonitor_StateType) : SafetyMonitor_StateType :=
  {| isInitialized := isInitialized s; inSafeState := inSafeState s;
     switchEventFault := v; lightRequestFault := lightRequestFault s;
     flmFault := flmFault s; headlightFault := headlightFault s;
     wdgmFault := wdgmFault s; e2eStatus := e2eStatus s;
     e2eSmStatus := e2eSmStatus s;
     e2eFailureStartTime := e2eFailureStartTime s;
     e2eTimeoutActive := e2eTimeoutActive s;
     headlightStatus := headlightStatus s; flmState := flmState s;
     wdgmGlobalStatus := wdgmGlobalStatus s;
     totalFaultCount := totalFaultCount s;
     firstFaultTime := firstFaultTime s; fttiActive := fttiActive s;
     safeStateReason := safeStateReason s;
     safeStateEntryTime := safeStateEntryTime s;
     safeStateCommand := safeStateCommand s;
     lastAmbientLight := lastAmbientLight s; isDaytime := isDaytime s;
     globalStatus := globalStatus s; currentTime := currentTime s |}.

Definition set_lightRequestFault (v : bool) (s : SafetyMonitor_StateType) : SafetyMonitor_StateType :=
  {| isInitialized := isInitialized s; inSafeState := inSafeState s;
     switchEventFault := switchEventFault s; lightRequestFault := v;
     flmFault := flmFault s; headlightFault := headlightFault s;
     wdgmFault := wdgmFault s; e2eStatus := e2eStatus s;
     e2eSmStatus := e2eSmStatus s;
     e2eFailureStartTime := e2eFailureStartTime s;
     e2eTimeoutActive := e2eTimeoutActive s;
     headlightStatus := headlightStatus s; flmState := flmState s;
     wdgmGlobalStatus := wdgmGlobalStatus s;
     totalFaultCount := totalFaultCount s;
     firstFaultTime := firstFaultTime s; fttiActive := fttiActive s;
     safeStateReason := safeStateReason s;
     safeStateEntryTime := safeStateEntryTime s;
     safeStateCommand := safeStateCommand s;
     lastAmbientLight := lastAmbientLight s; isDaytime := isDaytime s;
     globalStatus := globalStatus s; currentTime := currentTime s |}.

Definition set_flmFault (v : bool) (s : SafetyMonitor_StateType) : SafetyMonitor_StateType :=
  {| isInitialized := isInitialized s; inSafeState := inSafeState s;
     switchEventFault := switchEventFault s;
     lightRequestFault := lightRequestFault s; flmFault := v;
     headlightFault := headlightFault s; wdgmFault := wdgmFault s;
     e2eStatus := e2eStatus s; e2eSmStatus := e2eSmStatus s;
     e2eFailureStartTime := e2eFailureStartTime s;
     e2eTimeoutActive := e2eTimeoutActive s;
     headlightStatus := headlightStatus s; flmState := flmState s;
     wdgmGlobalStatus := wdgmGlobalStatus s;
     totalFaultCount := totalFaultCount s;
     firstFaultTime := firstFaultTime s; fttiActive := fttiActive s;
     safeStateReason := safeStateReason s;
     safeStateEntryTime := safeStateEntryTime s;
     safeStateCommand := safeStateCommand s;
     lastAmbientLight := lastAmbientLight s; isDaytime := isDaytime s;
     globalStatus := globalStatus s; currentTime := currentTime s |}.

Definition set_headlightFault (v : bool) (s : SafetyMonitor_StateType) : SafetyMonitor_StateType :=
  {| isInitialized := isInitialized s; inSafeState := inSafeState s;
     switchEventFault := switchEventFault s;
     lightRequestFault := lightRequestFault s; flmFault := flmFault s;
     headlightFault := v; wdgmFault := wdgmFault s; e2eStatus := e2eStatus s;
     e2eSmStatus := e2eSmStatus s;
     e2eFailureStartTime := e2eFailureStartTime s;
     e2eTimeoutActive := e2eTimeoutActive s;
     headlightStatus := headlightStatus s; flmState := flmState s;
     wdgmGlobalStatus := wdgmGlobalStatus s;
     totalFaultCount := totalFaultCount s;
     firstFaultTime := firstFaultTime s; fttiActive := fttiActive s;
     safeStateReason := safeStateReason s;
     safeStateEntryTime := safeStateEntryTime s;
     safeStateCommand := safeStateCommand s;
     lastAmbientLight := lastAmbientLight s; isDaytime := isDaytime s;
     globalStatus := globalStatus s; currentTime := currentTime s |}.

Definition set_wdgmFault (v : bool) (s : SafetyMonitor_StateType) : SafetyMonitor_StateType :=
  {| isInitialized := isInitialized s; inSafeState := inSafeState s;
     switchEventFault := switchEventFault s;
     lightRequestFault := lightRequestFault s; flmFault := flmFault s;
     headlightFault := headlightFault s; wdgmFault := v;
     e2eStatus := e2eStatus s; e2eSmStatus := e2eSmStatus s;
     e2eFailureStartTime := e2eFailureStartTime s;
     e2eTimeoutActive := e2eTimeoutActive s;
     headlightStatus := headlightStatus s; flmState := flmState s;
     wdgmGlobalStatus := wdgmGlobalStatus s;
     totalFaultCount := totalFaultCount s;
     firstFaultTime := firstFaultTime s; fttiActive := fttiActive s;
     safeStateReason := safeStateReason s;
     safeStateEntryTime := safeStateEntryTime s;
     safeStateCommand := safeStateCommand s;
     lastAmbientLight := lastAmbientLight s; isDaytime := isDaytime s;
     globalStatus := globalStatus s; currentTime := currentTime s |}.

Definition set_e2eStatus (v : E2E_P01CheckStatusType) (s : SafetyMonitor_StateType) : SafetyMonitor_StateType :=
  {| isInitialized := isInitialized s; inSafeState := inSafeState s;
     switchEventFault := switchEventFault s;
     lightRequestFault := lightRequestFault s; flmFault := flmFault s;
     headlightFault := headlightFault s; wdgmFault := wdgmFault s;
     e2eStatus := v; e2eSmStatus := e2eSmStatus s;
     e2eFailureStartTime := e2eFailureStartTime s;
     e2eTimeoutActive := e2eTimeoutActive s;
     headlightStatus := headlightStatus s; flmState := flmState s;
     wdgmGlobalStatus := wdgmGlobalStatus s;
     totalFaultCount := totalFaultCount s;
     firstFaultTime := firstFaultTime s; fttiActive := fttiActive s;
     safeStateReason := safeStateReason s;
     safeStateEntryTime := safeStateEntryTime s;
     safeStateCommand := safeStateCommand s;
     lastAmbientLight := lastAmbientLight s; isDaytime := isDaytime s;
     globalStatus := globalStatus s; currentTime := currentTime s |}.

Definition set_e2eSmStatus (v : E2E_SMStateType) (s : SafetyMonitor_StateType) : SafetyMonitor_StateType :=
  {| isInitialized := isInitialized s; inSafeState := inSafeState s;
     switchEventFault := switchEventFault s;
     lightRequestFault := lightRequestFault s; flmFault := flmFault s;
     headlightFault := headlightFault s; wdgmFault := wdgmFault s;
     e2eStatus := e2eStatus s; e2eSmStatus := v;
     e2eFailureStartTime := e2eFailureStartTime s;
     e2eTimeoutActive := e2eTimeoutActive s;
     headlightStatus := headlightStatus s; flmState := flmState s;
     wdgmGlobalStatus := wdgmGlobalStatus s;
     totalFaultCount := totalFaultCount s;
     firstFaultTime := firstFaultTime s; fttiActive := fttiActive s;
     safeStateReason := safeStateReason s;
     safeStateEntryTime := safeStateEntryTime s;
     safeStateCommand := safeStateCommand s;
     lastAmbientLight := lastAmbientLight s; isDaytime := isDaytime s;
     globalStatus := globalStatus s; currentTime := currentTime s |}.

Definition set_e2eFailureStartTime (v : Z) (s : SafetyMonitor_StateType) : SafetyMonitor_StateType :=
  {| isInitialized := isInitialized s; inSafeState := inSafeState s;
     switchEventFault := switchEventFault s;
     lightRequestFault := lightRequestFault s; flmFault := flmFault s;
     headlightFault := headlightFault s; wdgmFault := wdgmFault s;
     e2eStatus := e2eStatus s; e2eSmStatus := e2eSmStatus s;
     e2eFailureStartTime := v; e2eTimeoutActive := e2eTimeoutActive s;
     headlightStatus := headlightStatus s; flmState := flmState s;
     wdgmGlobalStatus := wdgmGlobalStatus s;
     totalFaultCount := totalFaultCount s;
     firstFaultTime := firstFaultTime s; fttiActive := fttiActive s;
     safeStateReason := safeStateReason s;
     safeStateEntryTime := safeStateEntryTime s;
     safeStateCommand := safeStateCommand s;
     lastAmbientLight := lastAmbientLight s; isDaytime := isDaytime s;
     globalStatus := globalStatus s; currentTime := currentTime s |}.

Definition set_e2eTimeoutActive (v : bool) (s : SafetyMonitor_StateType) : SafetyMonitor_StateType :=
  {| isInitialized := isInitialized s; inSafeState := inSafeState s;
     switchEventFault := switchEventFault s;
     lightRequestFault := lightRequestFault s; flmFault := flmFault s;
     headlightFault := headlightFault s; wdgmFault := wdgmFault s;
     e2eStatus := e2eStatus s; e2eSmStatus := e2eSmStatus s;
     e2eFailureStartTime := e2eFailureStartTime s; e2eTimeoutActive := v;
     headlightStatus := headlightStatus s; flmState := flmState s;
     wdgmGlobalStatus := wdgmGlobalStatus s;
     totalFaultCount := totalFaultCount s;
     firstFaultTime := firstFaultTime s; fttiActive := fttiActive s;
     safeStateReason := safeStateReason s;
     safeStateEntryTime := safeStateEntryTime s;
     safeStateCommand := safeStateCommand s;
     lastAmbientLight := lastAmbientLight s; isDaytime := isDaytime s;
     globalStatus := globalStatus s; currentTime := currentTime s |}.

Definition set_headlightStatus (v : HeadlightFaultStatus) (s : SafetyMonitor_StateType) : SafetyMonitor_StateType :=
  {| isInitialized := isInitialized s; inSafeState := inSafeState s;
     switchEventFault := switchEventFault s;
     lightRequestFault := lightRequestFault s; flmFault := flmFault s;
     headlightFault := headlightFault s; wdgmFault := wdgmFault s;
     e2eStatus := e2eStatus s; e2eSmStatus := e2eSmStatus s;
     e2eFailureStartTime := e2eFailureStartTime s;
     e2eTimeoutActive := e2eTimeoutActive s; headlightStatus := v;
     flmState := flmState s; wdgmGlobalStatus := wdgmGlobalStatus s;
     totalFaultCount := totalFaultCount s;
     firstFaultTime := firstFaultTime s; fttiActive := fttiActive s;
     safeStateReason := safeStateReason s;
     safeStateEntryTime := safeStateEntryTime s;
     safeStateCommand := safeStateCommand s;
     lastAmbientLight := lastAmbientLight s; isDaytime := isDaytime s;
     globalStatus := globalStatus s; currentTime := currentTime s |}.

Definition set_flmState (v : FLM_StateType) (s : SafetyMonitor_StateType) : SafetyMonitor_StateType :=
  {| isInitialized := isInitialized s; inSafeState := inSafeState s;
     switchEventFault := switchEventFault s;
     lightRequestFault := lightRequestFault s; flmFault := flmFault s;
     headlightFault := headlightFault s; wdgmFault := wdgmFault s;
     e2eStatus := e2eStatus s; e2eSmStatus := e2eSmStatus s;
     e2eFailureStartTime := e2eFailureStartTime s;
     e2eTimeoutActive := e2eTimeoutActive s;
     headlightStatus := headlightStatus s; flmState := v;
     wdgmGlobalStatus := wdgmGlobalStatus s;
     totalFaultCount := totalFaultCount s;
     firstFaultTime := firstFaultTime s; fttiActive := fttiActive s;
     safeStateReason := safeStateReason s;
     safeStateEntryTime := safeStateEntryTime s;
     safeStateCommand := safeStateCommand s;
     lastAmbientLight := lastAmbientLight s; isDaytime := isDaytime s;
     globalStatus := globalStatus s; currentTime := currentTime s |}.

Definition set_wdgmGlobalStatus (v : WdgM_GlobalStatusType) (s : SafetyMonitor_StateType) : SafetyMonitor_StateType :=
  {| isInitialized := isInitialized s; inSafeState := inSafeState s;
     switchEventFault := switchEventFault s;
     lightRequestFault := lightRequestFault s; flmFault := flmFault s;
     headlightFault := headlightFault s; wdgmFault := wdgmFault s;
     e2eStatus := e2eStatus s; e2eSmStatus := e2eSmStatus s;
     e2eFailureStartTime := e2eFailureStartTime s;
     e2eTimeoutActive := e2eTimeoutActive s;
     headlightStatus := headlightStatus s; flmState := flmState s;
     wdgmGlobalStatus := v; totalFaultCount := totalFaultCount s;
     firstFaultTime := firstFaultTime s; fttiActive := fttiActive s;
     safeStateReason := safeStateReason s;
     safeStateEntryTime := safeStateEntryTime s;
     safeStateCommand := safeStateCommand s;
     lastAmbientLight := lastAmbientLight s; isDaytime := isDaytime s;
     globalStatus := globalStatus s; currentTime := currentTime s |}.

Definition set_totalFaultCount (v : Z) (s : SafetyMonitor_StateType) : SafetyMonitor_StateType :=
  {| isInitialized := isInitialized s; inSafeState := inSafeState s;
     switchEventFault := switchEventFault s;
     lightRequestFault := lightRequestFault s; flmFault := flmFault s;
     headlightFault := headlightFault s; wdgmFault := wdgmFault s;
     e2eStatus := e2eStatus s; e2eSmStatus := e2eSmStatus s;
     e2eFailureStartTime := e2eFailureStartTime s;
     e2eTimeoutActive := e2eTimeoutActive s;
     headlightStatus := headlightStatus s; flmState := flmState s;
     wdgmGlobalStatus := wdgmGlobalStatus s; totalFaultCount := v;
     firstFaultTime := firstFaultTime s; fttiActive := fttiActive s;
     safeStateReason := safeStateReason s;
     safeStateEntryTime := safeStateEntryTime s;
     safeStateCommand := safeStateCommand s;
     lastAmbientLight := lastAmbientLight s; isDaytime := isDaytime s;
     globalStatus := globalStatus s; currentTime := currentTime s |}.

Definition set_firstFaultTime (v : Z) (s : SafetyMonitor_StateType) : SafetyMonitor_StateType :=
  {| isInitialized := isInitialized s; inSafeState := inSafeState s;
     switchEventFault := switchEventFault s;
     lightRequestFault := lightRequestFault s; flmFault := flmFault s;
     headlightFault := headlightFault s; wdgmFault := wdgmFault s;
     e2eStatus := e2eStatus s; e2eSmStatus := e2eSmStatus s;
     e2eFailureStartTime := e2eFailureStartTime s;
     e2eTimeoutActive := e2eTimeoutActive s;
     headlightStatus := headlightStatus s; flmState := flmState s;
     wdgmGlobalStatus := wdgmGlobalStatus s;
     totalFaultCount := totalFaultCount s; firstFaultTime := v;
     fttiActive := fttiActive s; safeStateReason := safeStateReason s;
     safeStateEntryTime := safeStateEntryTime s;
     safeStateCommand := safeStateCommand s;
     lastAmbientLight := lastAmbientLight s; isDaytime := isDaytime s;
     globalStatus := globalStatus s; currentTime := currentTime s |}.

Definition set_fttiActive (v : bool) (s : SafetyMonitor_StateType) : SafetyMonitor_StateType :=
  {| isInitialized := isInitialized s; inSafeState := inSafeState s;
     switchEventFault := switchEventFault s;
     lightRequestFault := lightRequestFault s; flmFault := flmFault s;
     headlightFault := headlightFault s; wdgmFault := wdgmFault s;
     e2eStatus := e2eStatus s; e2eSmStatus := e2eSmStatus s;
     e2eFailureStartTime := e2eFailureStartTime s;
     e2eTimeoutActive := e2eTimeoutActive s;
     headlightStatus := headlightStatus s; flmState := flmState s;
     wdgmGlobalStatus := wdgmGlobalStatus s;
     totalFaultCount := totalFaultCount s;
     firstFaultTime := firstFaultTime s; fttiActive := v;
     safeStateReason := safeStateReason s;
     safeStateEntryTime := safeStateEntryTime s;
     safeStateCommand := safeStateCommand s;
     lastAmbientLight := lastAmbientLight s; isDaytime := isDaytime s;
     globalStatus := globalStatus s; currentTime := currentTime s |}.

Definition set_safeStateReason (v : SafeStateReason) (s : SafetyMonitor_StateType) : SafetyMonitor_StateType :=
  {| isInitialized := isInitialized s; inSafeState := inSafeState s;
     switchEventFault := switchEventFault s;
     lightRequestFault := lightRequestFault s; flmFault := flmFault s;
     headlightFault := headlightFault s; wdgmFault := wdgmFault s;
     e2eStatus := e2eStatus s; e2eSmStatus := e2eSmStatus s;
     e2eFailureStartTime := e2eFailureStartTime s;
     e2eTimeoutActive := e2eTimeoutActive s;
     headlightStatus := headlightStatus s; flmState := flmState s;
     wdgmGlobalStatus := wdgmGlobalStatus s;
     totalFaultCount := totalFaultCount s;
     firstFaultTime := firstFaultTime s; fttiActive := fttiActive s;
     safeStateReason := v; safeStateEntryTime := safeStateEntryTime s;
     safeStateCommand := safeStateCommand s;
     lastAmbientLight := lastAmbientLight s; isDaytime := isDaytime s;
     globalStatus := globalStatus s; currentTime := currentTime s |}.

Definition set_safeStateEntryTime (v : Z) (s : SafetyMonitor_StateType) : SafetyMonitor_StateType :=
  {| isInitialized := isInitialized s; inSafeState := inSafeState s;
     switchEventFault := switchEventFault s;
     lightRequestFault := lightRequestFault s; flmFault := flmFault s;
     headlightFault := headlightFault s; wdgmFault := wdgmFault s;
     e2eStatus := e2eStatus s; e2eSmStatus := e2eSmStatus s;
     e2eFailureStartTime := e2eFailureStartTime s;
     e2eTimeoutActive := e2eTimeoutActive s;
     headlightStatus := headlightStatus s; flmState := flmState s;
     wdgmGlobalStatus := wdgmGlobalStatus s;
     totalFaultCount := totalFaultCount s;
     firstFaultTime := firstFaultTime s; fttiActive := fttiActive s;
     safeStateReason := safeStateReason s; safeStateEntryTime := v;
     safeStateCommand := safeStateCommand s;
     lastAmbientLight := lastAmbientLight s; isDaytime := isDaytime s;
     globalStatus := globalStatus s; currentTime := currentTime s |}.

Definition set_safeStateCommand (v : HeadlightCommand) (s : SafetyMonitor_StateType) : SafetyMonitor_StateType :=
  {| isInitialized := isInitialized s; inSafeState := inSafeState s;
     switchEventFault := switchEventFault s;
     lightRequestFault := lightRequestFault s; flmFault := flmFault s;
     headlightFault := headlightFault s; wdgmFault := wdgmFault s;
     e2eStatus := e2eStatus s; e2eSmStatus := e2eSmStatus s;
     e2eFailureStartTime := e2eFailureStartTime s;
     e2eTimeoutActive := e2eTimeoutActive s;
     headlightStatus := headlightStatus s; flmState := flmState s;
     wdgmGlobalStatus := wdgmGlobalStatus s;
     totalFaultCount := totalFaultCount s;
     firstFaultTime := firstFaultTime s; fttiActive := fttiActive s;
     safeStateReason := safeStateReason s;
     safeStateEntryTime := safeStateEntryTime s; safeStateCommand := v;
     lastAmbientLight := lastAmbientLight s; isDaytime := isDaytime s;
     globalStatus := globalStatus s; currentTime := currentTime s |}.

Definition set_lastAmbientLight (v : AmbientLightLevel.t) (s : SafetyMonitor_StateType) : SafetyMonitor_StateType :=
  {| isInitialized := isInitialized s; inSafeState := inSafeState s;
     switchEventFault := switchEventFault s;
     lightRequestFault := lightRequestFault s; flmFault := flmFault s;
     headlightFault := headlightFault s; wdgmFault := wdgmFault s;
     e2eStatus := e2eStatus s; e2eSmStatus := e2eSmStatus s;
     e2eFailureStartTime := e2eFailureStartTime s;
     e2eTimeoutActive := e2eTimeoutActive s;
     headlightStatus := headlightStatus s; flmState := flmState s;
     wdgmGlobalStatus := wdgmGlobalStatus s;
     totalFaultCount := totalFaultCount s;
     firstFaultTime := firstFaultTime s; fttiActive := fttiActive s;
     safeStateReason := safeStateReason s;
     safeStateEntryTime := safeStateEntryTime s;
     safeStateCommand := safeStateCommand s; lastAmbientLight := v;
     isDaytime := isDaytime s; globalStatus := globalStatus s;
     currentTime := currentTime s |}.

Definition set_isDaytime (v : bool) (s : SafetyMonitor_StateType) : SafetyMonitor_StateType :=
  {| isInitialized := isInitialized s; inSafeState := inSafeState s;
     switchEventFault := switchEventFault s;
     lightRequestFault := lightRequestFault s; flmFault := flmFault s;
     headlightFault := headlightFault s; wdgmFault := wdgmFault s;
     e2eStatus := e2eStatus s; e2eSmStatus := e2eSmStatus s;
     e2eFailureStartTime := e2eFailureStartTime s;
     e2eTimeoutActive := e2eTimeoutActive s;
     headlightStatus := headlightStatus s; flmState := flmState s;
     wdgmGlobalStatus := wdgmGlobalStatus s;
     totalFaultCount := totalFaultCount s;
     firstFaultTime := firstFaultTime s; fttiActive := fttiActive s;
     safeStateReason := safeStateReason s;
     safeStateEntryTime := safeStateEntryTime s;
     safeStateCommand := safeStateCommand s;
     lastAmbientLight := lastAmbientLight s; isDaytime := v;
     globalStatus := globalStatus s; currentTime := currentTime s |}.

Definition set_globalStatus (v : SafetyStatusType) (s : SafetyMonitor_StateType) : SafetyMonitor_StateType :=
  {| isInitialized := isInitialized s; inSafeState := inSafeState s;
     switchEventFault := switchEventFault s;
     lightRequestFault := lightRequestFault s; flmFault := flmFault s;
     headlightFault := headlightFault s; wdgmFault := wdgmFault s;
     e2eStatus := e2eStatus s; e2eSmStatus := e2eSmStatus s;
     e2eFailureStartTime := e2eFailureStartTime s;
     e2eTimeoutActive := e2eTimeoutActive s;
     headlightStatus := headlightStatus s; flmState := flmState s;
     wdgmGlobalStatus := wdgmGlobalStatus s;
     totalFaultCount := totalFaultCount s;
     firstFaultTime := firstFaultTime s; fttiActive := fttiActive s;
     safeStateReason := safeStateReason s;
     safeStateEntryTime := safeStateEntryTime s;
     safeStateCommand := safeStateCommand s;
     lastAmbientLight := lastAmbientLight s; isDaytime := isDaytime s;
     globalStatus := v; currentTime := currentTime s |}.

Definition set_currentTime (v : Z) (s : SafetyMonitor_StateType) : SafetyMonitor_StateType :=
  {| isInitialized := isInitialized s; inSafeState := inSafeState s;
     switchEventFault := switchEventFault s;
     lightRequestFault := lightRequestFault s; flmFault := flmFault s;
     headlightFault := headlightFault s; wdgmFault := wdgmFault s;
     e2eStatus := e2eStatus s; e2eSmStatus := e2eSmStatus s;
     e2eFailureStartTime := e2eFailureStartTime s;
     e2eTimeoutActive := e2eTimeoutActive s;
     headlightStatus := headlightStatus s; flmState := flmState s;
     wdgmGlobalStatus := wdgmGlobalStatus s;
     totalFaultCount := totalFaultCount s;
     firstFaultTime := firstFaultTime s; fttiActive := fttiActive s;
     safeStateReason := safeStateReason s;
     safeStateEntryTime := safeStateEntryTime s;
     safeStateCommand := safeStateCommand s;
     lastAmbientLight := lastAmbientLight s; isDaytime := isDaytime s;
     globalStatus := globalStatus s; currentTime := v |}.

(** The file-scope variables of the component. *)
Record Globals : Type := mkGlobals {
  SafetyMonitor_State : SafetyMonitor_StateType;
  SafetyMonitor_SystemTime : Z;  (* uint32_t *)
  SafetyMonitor_SimWdgmStatus : WdgM_GlobalStatusType;
  SafetyMonitor_SimWdgmEnabled : bool
}.

(** The variables as they stand at power-on, before any call. *)
Definition power_on : Globals :=
  {| SafetyMonitor_State :=
       {| isInitialized := false; inSafeState := false;
          switchEventFault := false; lightRequestFault := false;
          flmFault := false; headlightFault := false; wdgmFault := false;
          e2eStatus := E2E_P01STATUS_OK; e2eSmStatus := E2E_SM_VALID;
          e2eFailureStartTime := 0; e2eTimeoutActive := false;
          headlightStatus := HEADLIGHT_FAULT_NONE;
          flmState := FLM_STATE_INIT;
          wdgmGlobalStatus := WDGM_GLOBAL_STATUS_OK;
          totalFaultCount := 0; firstFaultTime := 0; fttiActive := false;
          safeStateReason := SAFE_STATE_REASON_NONE; safeStateEntryTime := 0;
          safeStateCommand := HEADLIGHT_CMD_OFF;
          lastAmbientLight :=
            {| AmbientLightLevel.adcValue := 0; AmbientLightLevel.luxValue := 0;
               AmbientLightLevel.isValid := false |};
          isDaytime := false;
          globalStatus := SAFETY_STATUS_OK;
          currentTime := 0 |};
     SafetyMonitor_SystemTime := 0;
     SafetyMonitor_SimWdgmStatus := WDGM_GLOBAL_STATUS_OK;
     SafetyMonitor_SimWdgmEnabled := false |}.

Definition SafetyMonitor_Init (g : Globals) : Globals :=
  {| SafetyMonitor_State :=
       {| isInitialized := true; inSafeState := false;
          switchEventFault := false; lightRequestFault := false;
          flmFault := false; headlightFault := false; wdgmFault := false;
          e2eStatus := E2E_P01STATUS_OK; e2eSmStatus := E2E_SM_VALID;
          e2eFailureStartTime := 0; e2eTimeoutActive := false;
          headlightStatus := HEADLIGHT_FAULT_NONE;
          flmState := FLM_STATE_INIT;
          wdgmGlobalStatus := WDGM_GLOBAL_STATUS_OK;
          totalFaultCount := 0; firstFaultTime := 0; fttiActive := false;
          safeStateReason := SAFE_STATE_REASON_NONE; safeStateEntryTime := 0;
          safeStateCommand := HEADLIGHT_CMD_OFF;
          lastAmbientLight :=
            {| AmbientLightLevel.adcValue := 0; AmbientLightLevel.luxValue := 0;
               AmbientLightLevel.isValid := false |};
          isDaytime := true;
          globalStatus := SAFETY_STATUS_OK;
          currentTime := 0 |};
     SafetyMonitor_SystemTime := SafetyMonitor_SystemTime g;
     SafetyMonitor_SimWdgmStatus := SafetyMonitor_SimWdgmStatus g;
     SafetyMonitor_SimWdgmEnabled := SafetyMonitor_SimWdgmEnabled g |}.

Definition SafetyMonitor_SimSetWdgmStatus (status : WdgM_GlobalStatusType) (g : Globals)
    : Globals :=
  {| SafetyMonitor_State := SafetyMonitor_State g;
     SafetyMonitor_SystemTime := SafetyMonitor_SystemTime g;
     SafetyMonitor_SimWdgmStatus := status;
     SafetyMonitor_SimWdgmEnabled := true |}.

(** The monitor's state record together with the variables of the FLM
    application, which [SafetyMonitor_TriggerSafeState] writes through
    [FLM_TriggerSafeState]. *)
Definition St : Type := (SafetyMonitor_StateType * FLM.Globals)%type.

Definition SafetyMonitor_TriggerSafeState (reason : SafeStateReason) (sf : St) : St :=
  let '(s, flm) := sf in
  if negb (inSafeState s) then
    let s := set_inSafeState true s in
    let s := set_safeStateReason reason s in
    let s := set_safeStateEntryTime (currentTime s) s in
    let s := set_globalStatus SAFETY_STATUS_SAFE_STATE s in
    (s, FLM.FLM_TriggerSafeState reason flm)
  else (s, flm).

Definition SafetyMonitor_ReadComponentStatus
    (sw : SwitchEvent.Globals) (lr : LightRequest.Globals) (flm : FLM.Globals)
    (hl : Headlight.Globals) (simEnabled : bool) (simStatus : WdgM_GlobalStatusType)
    (s : SafetyMonitor_StateType) : SafetyMonitor_StateType :=
  let switchStatus := SwitchEvent.SwitchEvent_GetLightRequest sw in
  let s := set_switchEventFault (negb (LightSwitchStatus.isValid switchStatus)) s in
  let s := set_e2eStatus (SwitchEvent.SwitchEvent_GetE2EStatus sw) s in
  let s := set_e2eSmStatus (SwitchEvent.SwitchEvent_GetE2ESmStatus sw) s in
  let ambientLevel := LightRequest.LightRequest_GetAmbientLight lr in
  let s := set_lastAmbientLight ambientLevel s in
  let s := set_lightRequestFault (negb (AmbientLightLevel.isValid ambientLevel)) s in
  let s :=
    if AmbientLightLevel.isValid ambientLevel
    then set_isDaytime
           (SAFETYMONITOR_DAY_THRESHOLD <? AmbientLightLevel.adcValue ambientLevel) s
    else s in
  let s := set_flmState (FLM.FLM_GetCurrentState flm) s in
  let s := set_flmFault (FLM_StateType_eqb (flmState s) FLM_STATE_SAFE) s in
  let s := set_headlightStatus (Headlight.Headlight_GetFaultStatus hl) s in
  let s :=
    set_headlightFault
      (match headlightStatus s with HEADLIGHT_FAULT_NONE => false | _ => true end) s in
  let s :=
    if simEnabled then set_wdgmGlobalStatus simStatus s
    else set_wdgmGlobalStatus WDGM_GLOBAL_STATUS_OK s in
  set_wdgmFault
    (match wdgmGlobalStatus s with WDGM_GLOBAL_STATUS_OK => false | _ => true end) s.

(** The number of the four fault flags that are set. *)
Definition count_faults (s : SafetyMonitor_StateType) : Z :=
  (if switchEventFault s then 1 else 0) + (if lightRequestFault s then 1 else 0)
  + (if headlightFault s then 1 else 0) + (if wdgmFault s then 1 else 0).

Definition SafetyMonitor_AggregrateFaults (sf : St) : St :=
  let '(s, flm) := sf in
  let faultCount := count_faults s in
  let s :=
    if (0 <? faultCount) && (totalFaultCount s =? 0)
    then set_fttiActive true (set_firstFaultTime (currentTime s) s)
    else s in
  let s := if faultCount =? 0 then set_fttiActive false s else s in
  let s := set_totalFaultCount faultCount s in
  if SAFETYMONITOR_MAX_FAULT_COUNT <=? faultCount
  then SafetyMonitor_TriggerSafeState SAFE_STATE_REASON_MULTI_FAULT (s, flm)
  else (s, flm).

Definition SafetyMonitor_CheckE2ETimeout (sf : St) : St :=
  let '(s, flm) := sf in
  match e2eSmStatus s with
  | E2E_SM_VALID => (set_e2eTimeoutActive false s, flm)
  | _ =>
      if negb (e2eTimeoutActive s) then
        (set_e2eTimeoutActive true (set_e2eFailureStartTime (currentTime s) s), flm)
      else
        let elapsed := wrap32 (currentTime s - e2eFailureStartTime s) in
        if SAFETYMONITOR_E2E_TIMEOUT_MS <=? elapsed
        then SafetyMonitor_TriggerSafeState SAFE_STATE_REASON_E2E_FAILURE (s, flm)
        else (s, flm)
  end.

Definition SafetyMonitor_CheckWdgMStatus (sf : St) : St :=
  let '(s, flm) := sf in
  match wdgmGlobalStatus s with
  | WDGM_GLOBAL_STATUS_FAILED | WDGM_GLOBAL_STATUS_EXPIRED =>
      SafetyMonitor_TriggerSafeState SAFE_STATE_REASON_WDGM_FAILURE (s, flm)
  | _ => (s, flm)
  end.

Definition SafetyMonitor_CheckFTTI (sf : St) : St :=
  let '(s, flm) := sf in
  if negb (fttiActive s) then (s, flm)
  else
    let elapsed := wrap32 (currentTime s - firstFaultTime s) in
    if SAFETYMONITOR_FTTI_MS <=? elapsed
    then SafetyMonitor_TriggerSafeState SAFE_STATE_REASON_TIMEOUT (s, flm)
    else (s, flm).

Definition SafetyMonitor_UpdateGlobalStatus (s : SafetyMonitor_StateType)
    : SafetyMonitor_StateType :=
  if inSafeState s then set_globalStatus SAFETY_STATUS_SAFE_STATE s
  else if 0 <? totalFaultCount s then
    if 2 <=? totalFaultCount s
    then set_globalStatus SAFETY_STATUS_DEGRADED s
    else set_globalStatus SAFETY_STATUS_WARNING s
  else set_globalStatus SAFETY_STATUS_OK s.

Definition SafetyMonitor_DetermineSafeStateCommand (s : SafetyMonitor_StateType)
    : SafetyMonitor_StateType :=
  if isDaytime s then set_safeStateCommand HEADLIGHT_CMD_OFF s
  else set_safeStateCommand HEADLIGHT_CMD_LOW_BEAM s.

(** One 5 ms tick.  It reads the other four components and may raise the
    external safe-state trigger of the FLM application; the watchdog
    checkpoints and the diagnostic events go to stubs that touch nothing. *)
Definition SafetyMonitor_MainFunction
    (sw : SwitchEvent.Globals) (lr : LightRequest.Globals) (hl : Headlight.Globals)
    (gf : Globals * FLM.Globals) : Globals * FLM.Globals :=
  let '(g, flm) := gf in
  let s := SafetyMonitor_State g in
  if negb (isInitialized s) then (g, flm)
  else
    let s := set_currentTime (SafetyMonitor_SystemTime g) s in
    let time := wrap32 (SafetyMonitor_SystemTime g + FLM_SAFETY_MONITOR_PERIOD_MS) in
    let s :=
      SafetyMonitor_ReadComponentStatus sw lr flm hl
        (SafetyMonitor_SimWdgmEnabled g) (SafetyMonitor_SimWdgmStatus g) s in
    let sf := SafetyMonitor_AggregrateFaults (s, flm) in
    let sf := SafetyMonitor_CheckE2ETimeout sf in
    let sf := SafetyMonitor_CheckWdgMStatus sf in
    let '(s, flm) := SafetyMonitor_CheckFTTI sf in
    let s := SafetyMonitor_UpdateGlobalStatus s in
    let s := if inSafeState s then SafetyMonitor_DetermineSafeStateCommand s else s in
    ({| SafetyMonitor_State := s;
        SafetyMonitor_SystemTime := time;
        SafetyMonitor_SimWdgmStatus := SafetyMonitor_SimWdgmStatus g;
        SafetyMonitor_SimWdgmEnabled := SafetyMonitor_SimWdgmEnabled g |}, flm).

End SafetyMonitor.

(** ** Sequences of ticks *)

Module Schedule.

(** What the FLM application meets in one tick: the variables of
    SwitchEvent and LightRequest as they stand when it runs, and whether
    [FLM_TriggerSafeState] was called since its previous tick. *)
Record FlmTick : Type := mkFlmTick {
  flm_sw : SwitchEvent.Globals;
  flm_lr : LightRequest.Globals;
  flm_trigger : option SafeStateReason
}.

Definition flm_step (g : FLM.Globals) (t : FlmTick) : FLM.Globals :=
  let g :=
    match flm_trigger t with
    | Some reason => FLM.FLM_TriggerSafeState reason g
    | None => g
    end in
  FLM.FLM_MainFunction (flm_sw t) (flm_lr t) g.

Definition flm_run (g : FLM.Globals) (ticks : list FlmTick) : FLM.Globals :=
  fold_left flm_step ticks g.

(** What the headlight driver meets in one tick: the variables of the FLM
    application (for the requested command), a new simulated current if
    [Headlight_SimSetFeedbackCurrent] was called since its previous tick,
    and the outcome of the current-sense conversion. *)
Record HeadlightTick : Type := mkHeadlightTick {
  hl_flm : FLM.Globals;
  hl_sim : option Z;
  hl_adc : option Z
}.

Definition hl_step (g : Headlight.Globals) (t : HeadlightTick) : Headlight.Globals :=
  let g :=
    match hl_sim t with
    | Some current => Headlight.Headlight_SimSetFeedbackCurrent current g
    | None => g
    end in
  Headlight.Headlight_MainFunction (hl_flm t) (hl_adc t) g.

Definition hl_run (g : Headlight.Globals) (ticks : list HeadlightTick)
    : Headlight.Globals :=
  fold_left hl_step ticks g.

(** Protect each frame with the sender state and check it at once with the
    receiver state; the verdicts in order. *)
Fixpoint protect_check_run
    (config : E2E.E2E_P01ConfigType) (frames : list (list Z))
    (ps : E2E.E2E_P01ProtectStateType) (cs : E2E.E2E_P01CheckStateType)
    : list E2E_P01CheckStatusType :=
  match frames with
  | [] => []
  | data :: rest =>
      let '(_, ps, data) := E2E.E2E_P01Protect config ps data 4 in
      let '(cs, verdict) := E2E.E2E_P01Check config cs (Some data) 4 in
      verdict :: protect_check_run config rest ps cs
  end.

End Schedule.

(** ** The fixture of the unit tests (test/test_FLM.cpp,
    test/test_SwitchEvent.cpp) *)

Module Bench.

Record System : Type := mkSystem {
  e2eProtectState : E2E.E2E_P01ProtectStateType;
  sw : SwitchEvent.Globals;
  lr : LightRequest.Globals;
  flm : FLM.Globals
}.

(** [SetUp]: the components are initialised and a simulated ambient value
    of 2000 is set. *)
Definition SetUp : System :=
  {| e2eProtectState := E2E.E2E_P01ProtectInit;
     sw := SwitchEvent.SwitchEvent_Init SwitchEvent.power_on;
     lr := LightRequest.LightRequest_SimSetAdcValue 2000
             (LightRequest.LightRequest_Init LightRequest.power_on);
     flm := FLM.FLM_Init FLM.power_on |}.

(** A frame [{0, 0, code, 0}] is protected by the sender and handed to
    SwitchEvent. *)
Definition SendMessage (code : Z) (y : System) : System :=
  let '(_, ps, data) :=
    E2E.E2E_P01Protect SwitchEvent.SwitchEvent_InitE2E_config
      (e2eProtectState y) [0; 0; code; 0] 4 in
  {| e2eProtectState := ps;
     sw := SwitchEvent.SwitchEvent_ProcessCanMessage (Some data) 4 (sw y);
     lr := lr y;
     flm := flm y |}.

Definition SendValidMessage (cmd : LightSwitchCmd) (y : System) : System :=
  SendMessage (LightSwitchCmd_code cmd) y.

Definition RunAllTasks (y : System) : System :=
  let sw := SwitchEvent.SwitchEvent_MainFunction (sw y) in
  let lr := LightRequest.LightRequest_MainFunction None (lr y) in
  {| e2eProtectState := e2eProtectState y;
     sw := sw;
     lr := lr;
     flm := FLM.FLM_MainFunction sw lr (flm y) |}.

Definition TriggerSafeState (reason : SafeStateReason) (y : System) : System :=
  {| e2eProtectState := e2eProtectState y;
     sw := sw y;
     lr := lr y;
     flm := FLM.FLM_TriggerSafeState reason (flm y) |}.

Definition SimSetAdcValue (value : Z) (y : System) : System :=
  {| e2eProtectState := e2eProtectState y;
     sw := sw y;
     lr := LightRequest.LightRequest_SimSetAdcValue value (lr y);
     flm := flm y |}.

(** [n] rounds of [SendMessage code; RunAllTasks]. *)
Fixpoint rounds (n : nat) (code : Z) (y : System) : System :=
  match n with
  | O => y
  | S n => rounds n code (RunAllTasks (SendMessage code y))
  end.

End Bench.

(** ** Conditions the properties speak about *)

Module Conditions.

(** Ok, OkSomeLost and Initial are the positive statuses of the E2E
    supervisor. *)
Definition positive_status (p : E2E_P01CheckStatusType) : bool :=
  match p with
  | E2E_P01STATUS_OK | E2E_P01STATUS_OKSOMELOST | E2E_P01STATUS_INITIAL => true
  | _ => false
  end.

(** A supervisor step resets the window when it takes the supervisor from
    Init, Valid or Invalid to another state. *)
Definition resets_window (before after : E2E_SMStateType) : bool :=
  match before, after with
  | E2E_SM_INIT, E2E_SM_VALID | E2E_SM_INIT, E2E_SM_INVALID
  | E2E_SM_VALID, E2E_SM_INVALID | E2E_SM_INVALID, E2E_SM_VALID => true
  | _, _ => false
  end.

(** The watchdog status the SafetyMonitor reads in a tick. *)
Definition wdgm_status (g : SafetyMonitor.Globals) : WdgM_GlobalStatusType :=
  if SafetyMonitor.SafetyMonitor_SimWdgmEnabled g
  then SafetyMonitor.SafetyMonitor_SimWdgmStatus g
  else WDGM_GLOBAL_STATUS_OK.

(** The number of active faults [F] a tick of the SafetyMonitor counts:
    switch report invalid, ambient reading invalid, output fault other than
    None, watchdog status other than Ok. *)
Definition fault_count
    (sw : SwitchEvent.Globals) (lr : LightRequest.Globals) (hl : Headlight.Globals)
    (g : SafetyMonitor.Globals) : Z :=
  (if LightSwitchStatus.isValid (SwitchEvent.SwitchEvent_GetLightRequest sw)
   then 0 else 1)
  + (if AmbientLightLevel.isValid (LightRequest.LightRequest_GetAmbientLight lr)
     then 0 else 1)
  + (match Headlight.Headlight_GetFaultStatus hl with
     | HEADLIGHT_FAULT_NONE => 0
     | _ => 1
     end)
  + (match wdgm_status g with WDGM_GLOBAL_STATUS_OK => 0 | _ => 1 end).

Definition multi_fault_condition
    (sw : SwitchEvent.Globals) (lr : LightRequest.Globals) (hl : Headlight.Globals)
    (g : SafetyMonitor.Globals) : bool :=
  SafetyMonitor.SAFETYMONITOR_MAX_FAULT_COUNT <=? fault_count sw lr hl g.

(** Watchdog global status Failed or Expired. *)
Definition wdgm_condition (g : SafetyMonitor.Globals) : bool :=
  match wdgm_status g with
  | WDGM_GLOBAL_STATUS_FAILED | WDGM_GLOBAL_STATUS_EXPIRED => true
  | _ => false
  end.

(** The E2E supervisor is not Valid in this tick, the monitor has been
    tracking that since an earlier tick, and at least [E2eTimeout] have
    passed since it started tracking. *)
Definition e2e_condition (sw : SwitchEvent.Globals) (g : SafetyMonitor.Globals) : bool :=
  match SwitchEvent.SwitchEvent_GetE2ESmStatus sw with
  | E2E_SM_VALID => false
  | _ =>
      SafetyMonitor.e2eTimeoutActive (SafetyMonitor.SafetyMonitor_State g)
      && (SafetyMonitor.SAFETYMONITOR_E2E_TIMEOUT_MS
          <=? wrap32 (SafetyMonitor.SafetyMonitor_SystemTime g
                      - SafetyMonitor.e2eFailureStartTime
                          (SafetyMonitor.SafetyMonitor_State g)))
  end.

(** Safe state is latched with [reason], and the FLM application has been
    told so. *)
Definition latched (reason : SafeStateReason) (sf : SafetyMonitor.St) : Prop :=
  SafetyMonitor.inSafeState (fst sf) = true
  /\ SafetyMonitor.safeStateReason (fst sf) = reason
  /\ FLM.FLM_ExternalSafeStateTrigger (snd sf) = true
  /\ FLM.FLM_SafeStateReason (snd sf) = reason.

(** OpenCircuit, ShortCircuit and Plausibility are the fault statuses of
    the ambient signal. *)
Definition fault_status (st : SignalStatus) : bool :=
  match st with
  | SIGNAL_STATUS_OPEN_CIRCUIT | SIGNAL_STATUS_SHORT_CIRCUIT
  | SIGNAL_STATUS_PLAUSIBILITY => true
  | _ => false
  end.

(** A screen of the ambient signal keeps the filtered value and the
    sample count, can only move the status to a fault status, and can only
    take validity away. *)
Definition screen_like
    (f : LightRequest.LightRequest_StateType -> LightRequest.LightRequest_StateType)
    : Prop :=
  forall s,
    LightRequest.adcFilteredValue (f s) = LightRequest.adcFilteredValue s
    /\ LightRequest.adcSampleCount (f s) = LightRequest.adcSampleCount s
    /\ (fault_status (LightRequest.signalStatus s) = true ->
        fault_status (LightRequest.signalStatus (f s)) = true)
    /\ (AmbientLightLevel.isValid (LightRequest.ambientLight s) = false ->
        AmbientLightLevel.isValid (LightRequest.ambientLight (f s)) = false).

(** The output table: which lines a headlight command energises. *)
Definition low_line (cmd : HeadlightCommand) : bool :=
  match cmd with HEADLIGHT_CMD_OFF => false | _ => true end.

Definition high_line (cmd : HeadlightCommand) : bool :=
  match cmd with HEADLIGHT_CMD_HIGH_BEAM => true | _ => false end.

Definition line_level (energised : bool) : Z :=
  if energised then Dio.STD_HIGH else Dio.STD_LOW.

(** Channel [ChannelId] is configured as an output and has a level. *)
Definition is_output (d : Dio.Globals) (ChannelId : Z) : bool :=
  default false (Dio.Dio_ChannelDirection d !! Z.to_nat ChannelId)
  && (Z.of_nat (length (Dio.Dio_OutputLevels d)) >? ChannelId).

(** Both headlight lines are outputs. *)
Definition drives_headlights (d : Dio.Globals) : Prop :=
  is_output d Headlight.HEADLIGHT_DIO_LOW_BEAM = true
  /\ is_output d Headlight.HEADLIGHT_DIO_HIGH_BEAM = true.

(** A step of the headlight driver that leaves the outputs, the requested
    command and the short-circuit counter alone and never clears a
    confirmed fault. *)
Definition keeps_outputs
    (f : Headlight.Headlight_StateType -> Headlight.Headlight_StateType) : Prop :=
  forall s,
    Headlight.lowBeamOutput (f s) = Headlight.lowBeamOutput s
    /\ Headlight.highBeamOutput (f s) = Headlight.highBeamOutput s
    /\ Headlight.requestedCommand (f s) = Headlight.requestedCommand s
    /\ Headlight.shortCircuitCounter (f s) = Headlight.shortCircuitCounter s
    /\ (Headlight.faultConfirmed s = true -> Headlight.faultConfirmed (f s) = true).

(** The verdict a synchronised receiver gives to a frame with the given
    counter when the sender has not skipped a frame: Ok, except on the
    frame after the wrap, whose counter is 0. *)
Definition wrap_verdict (counter : Z) : E2E_P01CheckStatusType :=
  if counter =? 0 then E2E_P01STATUS_OKSOMELOST else E2E_P01STATUS_OK.

Fixpoint synced_verdicts (n : nat) (counter : Z) : list E2E_P01CheckStatusType :=
  match n with
  | O => []
  | S n =>
      wrap_verdict counter :: synced_verdicts n (E2E.E2E_P01_IncrementCounter counter)
  end.

(** Sender and receiver are in step: the receiver has seen a frame, and
    the last counter it accepted is the one before the sender's next. *)
Definition in_step
    (ps : E2E.E2E_P01ProtectStateType) (cs : E2E.E2E_P01CheckStateType) : Prop :=
  0 <= E2E.Counter ps <= 14
  /\ E2E.WaitForFirstData cs = false
  /\ E2E.LastValidCounter cs = (E2E.Counter ps + 14) mod 15.

End Conditions.

(** ** Concrete situations used in the examples below *)

Module Cases.

Import Bench.

(** The fixture after five rounds with a protected HighBeam frame each:
    the FLM application is in Normal and commands HighBeam. *)
Definition cruising_high_beam : System :=
  rounds 5 (LightSwitchCmd_code LIGHT_SWITCH_HIGH_BEAM) SetUp.

(** The safe-state trigger is raised while cruising and another HighBeam
    frame arrives; then SwitchEvent and LightRequest run their tick. *)
Definition triggered : System :=
  SendValidMessage LIGHT_SWITCH_HIGH_BEAM
    (TriggerSafeState SAFE_STATE_REASON_MANUAL cruising_high_beam).

Definition triggered_sw : SwitchEvent.Globals :=
  SwitchEvent.SwitchEvent_MainFunction (sw triggered).

Definition triggered_lr : LightRequest.Globals :=
  LightRequest.LightRequest_MainFunction None (lr triggered).

(** The whole round, the tick of the FLM application included. *)
Definition safe_entry_from_normal : System := RunAllTasks triggered.

(** The safe-state trigger is raised right after start-up, before any
    frame arrived and before the ambient signal became valid. *)
Definition safe_entry_from_init : System :=
  RunAllTasks (TriggerSafeState SAFE_STATE_REASON_MANUAL SetUp).

(** Two further ticks as the FLM application sees them, the second with a
    renewed trigger. *)
Definition later_ticks : list Schedule.FlmTick :=
  [ {| Schedule.flm_sw := sw cruising_high_beam;
       Schedule.flm_lr := lr cruising_high_beam;
       Schedule.flm_trigger := None |};
    {| Schedule.flm_sw := sw SetUp;
       Schedule.flm_lr := lr SetUp;
       Schedule.flm_trigger := Some SAFE_STATE_REASON_TIMEOUT |} ].

(** SwitchEvent after one tick without any frame: the supervisor is in
    NoData and the switch report is invalid. *)
Definition sw_no_frames : SwitchEvent.Globals :=
  SwitchEvent.SwitchEvent_MainFunction (SwitchEvent.SwitchEvent_Init SwitchEvent.power_on).

(** LightRequest with a valid ambient reading of 2000. *)
Definition lr_valid : LightRequest.Globals := lr cruising_high_beam.

(** The headlight driver right after initialisation: no output fault. *)
Definition hl_ok : Headlight.Globals :=
  Headlight.Headlight_Init (Headlight.power_on Dio.Dio_Init).

Fixpoint monitor_ticks (n : nat)
    (gf : SafetyMonitor.Globals * FLM.Globals) : SafetyMonitor.Globals * FLM.Globals :=
  match n with
  | O => gf
  | S n =>
      monitor_ticks n
        (SafetyMonitor.SafetyMonitor_MainFunction sw_no_frames lr_valid hl_ok gf)
  end.

(** The monitor after twenty ticks (100 ms) in which the supervisor was
    never Valid; then the watchdog reports Failed. *)
Definition monitor_e2e_overdue : SafetyMonitor.Globals * FLM.Globals :=
  monitor_ticks 20
    (SafetyMonitor.SafetyMonitor_Init SafetyMonitor.power_on, FLM.FLM_Init FLM.power_on).

Definition monitor_wdgm_failed : SafetyMonitor.Globals * FLM.Globals :=
  (SafetyMonitor.SafetyMonitor_SimSetWdgmStatus WDGM_GLOBAL_STATUS_FAILED
     (fst monitor_e2e_overdue),
   snd monitor_e2e_overdue).

(** The FLM application commanding LowBeam. *)
Definition flm_low_beam : FLM.Globals :=
  flm (rounds 5 (LightSwitchCmd_code LIGHT_SWITCH_LOW_BEAM) SetUp).

(** The headlight driver after one tick with LowBeam requested and a
    simulated current of 20000 mA, and after the second such tick, which
    confirms the short circuit. *)
Definition hl_overcurrent_once : Headlight.Globals :=
  Schedule.hl_step hl_ok
    {| Schedule.hl_flm := flm_low_beam; Schedule.hl_sim := Some 20000;
       Schedule.hl_adc := None |}.

Definition hl_shorted : Headlight.Globals :=
  Schedule.hl_step hl_overcurrent_once
    {| Schedule.hl_flm := flm_low_beam; Schedule.hl_sim := None;
       Schedule.hl_adc := None |}.

(** The next tick: the current is gone, LowBeam is still requested. *)
Definition hl_after_short : Headlight.Globals :=
  Schedule.hl_step hl_shorted
    {| Schedule.hl_flm := flm_low_beam; Schedule.hl_sim := Some 0;
       Schedule.hl_adc := None |}.

(** One more tick without current: the open-load check confirms. *)
Definition hl_open_after_short : Headlight.Globals :=
  Schedule.hl_step hl_after_short
    {| Schedule.hl_flm := flm_low_beam; Schedule.hl_sim := None;
       Schedule.hl_adc := None |}.

(** [n] ticks from initialisation with LowBeam requested and a simulated
    current of 20000 mA throughout. *)
Definition hl_short_persists (n : nat) : Headlight.Globals :=
  Nat.iter n
    (fun g =>
       Schedule.hl_step g
         {| Schedule.hl_flm := flm_low_beam; Schedule.hl_sim := Some 20000;
            Schedule.hl_adc := None |})
    hl_ok.

(** LightRequest ticks with the simulated value as set. *)
Fixpoint lr_ticks (n : nat) (g : LightRequest.Globals) : LightRequest.Globals :=
  match n with
  | O => g
  | S n => lr_ticks n (LightRequest.LightRequest_MainFunction None g)
  end.

(** One tick at 50 (below the open-circuit threshold), then eight ticks
    at 2000. *)
Definition lr_recovered : LightRequest.Globals :=
  lr_ticks 8
    (LightRequest.LightRequest_SimSetAdcValue 2000
       (lr_ticks 1
          (LightRequest.LightRequest_SimSetAdcValue 50
             (LightRequest.LightRequest_Init LightRequest.power_on)))).

(** After the tick at 50, with the simulated value set to 2000. *)
Definition lr_open_circuit : LightRequest.Globals :=
  LightRequest.LightRequest_SimSetAdcValue 2000
    (lr_ticks 1
       (LightRequest.LightRequest_SimSetAdcValue 50
          (LightRequest.LightRequest_Init LightRequest.power_on))).

(** Sixteen frames with changing command bytes. *)
Definition sixteen_frames : list (list Z) :=
  map (fun code => [0; 0; code; 0]) [1; 1; 2; 2; 3; 3; 0; 0; 1; 1; 2; 2; 3; 3; 0; 1].

(** Three protected LowBeam frames, then a protected frame whose command
    byte is 4: SwitchEvent alone, as in test/test_SwitchEvent.cpp. *)
Definition sw_established : System :=
  rounds 3 (LightSwitchCmd_code LIGHT_SWITCH_LOW_BEAM) SetUp.

Definition sw_bad_code_pending : SwitchEvent.Globals :=
  sw (SendMessage 4 sw_established).

End Cases.


(** ** Analogue inputs (MCAL/Adc/Adc.cpp) *)

Module Adc.

Definition ADC_NUM_CHANNELS : Z := 8.
Definition ADC_RESOLUTION_BITS : Z := 12.
Definition ADC_MAX_VALUE : Z := Z.shiftl 1 ADC_RESOLUTION_BITS - 1.
Definition ADC_SIM_DEFAULT_AMBIENT : Z := 2000.
Definition ADC_SIM_DEFAULT_CURRENT : Z := 500.

Inductive Adc_StatusType : Set :=
  | ADC_IDLE | ADC_BUSY | ADC_COMPLETED | ADC_STREAM_COMPLETED.

(** The file-scope variables of the driver.  The configuration pointer is
    kept as the flag whether it is set; the driver never reads through
    it. *)
Record Globals : Type := mkGlobals {
  Adc_Initialized : bool;
  Adc_ConfigPtr : bool;
  Adc_SimValues : list Z;  (* Adc_ValueGroupType[ADC_NUM_CHANNELS], uint16_t *)
  Adc_GroupStatus : list Adc_StatusType;  (* [ADC_NUM_CHANNELS] *)
  Adc_GroupResults : list Z  (* Adc_ValueGroupType[ADC_NUM_CHANNELS] *)
}.

(** The variables as they stand at power-on: statics are
    zero-initialised. *)
Definition power_on : Globals :=
  {| Adc_Initialized := false;
     Adc_ConfigPtr := false;
     Adc_SimValues := replicate (Z.to_nat ADC_NUM_CHANNELS) 0;
     Adc_GroupStatus := replicate (Z.to_nat ADC_NUM_CHANNELS) ADC_IDLE;
     Adc_GroupResults := replicate (Z.to_nat ADC_NUM_CHANNELS) 0 |}.

Definition status (a : Globals) (Group : Z) : Adc_StatusType :=
  default ADC_IDLE (Adc_GroupStatus a !! Z.to_nat Group).

(** [ConfigPtr] is [false] for a null pointer. *)
Definition Adc_Init (ConfigPtr : bool) (a : Globals) : Globals :=
  if negb ConfigPtr then a
  else
    {| Adc_Initialized := true;
       Adc_ConfigPtr := true;
       Adc_SimValues :=
         wr (wr (replicate (Z.to_nat ADC_NUM_CHANNELS) 0) 0 ADC_SIM_DEFAULT_AMBIENT)
            1 ADC_SIM_DEFAULT_CURRENT;
       Adc_GroupStatus := replicate (Z.to_nat ADC_NUM_CHANNELS) ADC_IDLE;
       Adc_GroupResults := replicate (Z.to_nat ADC_NUM_CHANNELS) 0 |}.

Definition Adc_DeInit (a : Globals) : Globals :=
  if negb (Adc_Initialized a) then a
  else
    {| Adc_Initialized := false;
       Adc_ConfigPtr := false;
       Adc_SimValues := replicate (Z.to_nat ADC_NUM_CHANNELS) 0;
       Adc_GroupStatus := replicate (Z.to_nat ADC_NUM_CHANNELS) ADC_IDLE;
       Adc_GroupResults := replicate (Z.to_nat ADC_NUM_CHANNELS) 0 |}.

(** In the simulation the conversion completes at once: the status goes
    through Busy to Completed within the call. *)
Definition Adc_StartGroupConversion (Group : Z) (a : Globals) : Globals :=
  if negb (Adc_Initialized a) then a
  else if ADC_NUM_CHANNELS <=? Group then a
  else
    {| Adc_Initialized := Adc_Initialized a;
       Adc_ConfigPtr := Adc_ConfigPtr a;
       Adc_SimValues := Adc_SimValues a;
       Adc_GroupStatus := <[Z.to_nat Group := ADC_COMPLETED]> (Adc_GroupStatus a);
       Adc_GroupResults := wr (Adc_GroupResults a) Group (rd (Adc_SimValues a) Group) |}.

Definition Adc_StopGroupConversion (Group : Z) (a : Globals) : Globals :=
  if negb (Adc_Initialized a) then a
  else if ADC_NUM_CHANNELS <=? Group then a
  else
    {| Adc_Initialized := Adc_Initialized a;
       Adc_ConfigPtr := Adc_ConfigPtr a;
       Adc_SimValues := Adc_SimValues a;
       Adc_GroupStatus := <[Z.to_nat Group := ADC_IDLE]> (Adc_GroupStatus a);
       Adc_GroupResults := Adc_GroupResults a |}.

(** [DataBufferPtr] is [false] for a null pointer.  The result is the
    return value, what was written through the pointer (if anything), and
    the driver's variables. *)
Definition Adc_ReadGroup (Group : Z) (DataBufferPtr : bool) (a : Globals)
    : Std_ReturnType * option Z * Globals :=
  if negb (Adc_Initialized a) then (E_NOT_OK, None, a)
  else if negb DataBufferPtr then (E_NOT_OK, None, a)
  else if ADC_NUM_CHANNELS <=? Group then (E_NOT_OK, None, a)
  else
    match status a Group with
    | ADC_COMPLETED =>
        (E_OK, Some (rd (Adc_GroupResults a) Group),
         {| Adc_Initialized := Adc_Initialized a;
            Adc_ConfigPtr := Adc_ConfigPtr a;
            Adc_SimValues := Adc_SimValues a;
            Adc_GroupStatus := <[Z.to_nat Group := ADC_IDLE]> (Adc_GroupStatus a);
            Adc_GroupResults := Adc_GroupResults a |})
    | _ => (E_NOT_OK, None, a)
    end.

Definition Adc_GetGroupStatus (Group : Z) (a : Globals) : Adc_StatusType :=
  if negb (Adc_Initialized a) then ADC_IDLE
  else if ADC_NUM_CHANNELS <=? Group then ADC_IDLE
  else status a Group.

Definition Adc_SimSetValue (Channel Value : Z) (a : Globals) : Globals :=
  if ADC_NUM_CHANNELS <=? Channel then a
  else
    let Value := if ADC_MAX_VALUE <? Value then ADC_MAX_VALUE else Value in
    {| Adc_Initialized := Adc_Initialized a;
       Adc_ConfigPtr := Adc_ConfigPtr a;
       Adc_SimValues := wr (Adc_SimValues a) Channel Value;
       Adc_GroupStatus := Adc_GroupStatus a;
       Adc_GroupResults := Adc_GroupResults a |}.

Definition Adc_SimGetValue (Channel : Z) (a : Globals) : Z :=
  if ADC_NUM_CHANNELS <=? Channel then 0 else rd (Adc_SimValues a) Channel.

Definition Adc_SimTriggerComplete (Group : Z) (a : Globals) : Globals :=
  if ADC_NUM_CHANNELS <=? Group then a
  else
    {| Adc_Initialized := Adc_Initialized a;
       Adc_ConfigPtr := Adc_ConfigPtr a;
       Adc_SimValues := Adc_SimValues a;
       Adc_GroupStatus := <[Z.to_nat Group := ADC_COMPLETED]> (Adc_GroupStatus a);
       Adc_GroupResults := wr (Adc_GroupResults a) Group (rd (Adc_SimValues a) Group) |}.

(** What [LightRequest_ReadAdc] and [Headlight_ReadFeedback] get from the
    driver when no simulated value is enabled: the group is started and
    read at once. *)
Definition convert (Group : Z) (a : Globals) : option Z * Globals :=
  let '(_, value, a) := Adc_ReadGroup Group true (Adc_StartGroupConversion Group a) in
  (value, a).

End Adc.

(** ** Communication module (BSW/Com/Com.cpp) *)

Module Com.

Definition COM_MAX_IPDU_COUNT : Z := 16.
Definition COM_MAX_SIGNAL_COUNT : Z := 32.
Definition COM_IPDU_LIGHTSWITCH_RX : Z := 0.
Definition COM_NUM_IPDUS : Z := 3.

Record Com_IpduDataType : Type := mkIpdu {
  data : list Z;  (* uint8_t[8] *)
  length : Z;  (* uint8_t *)
  newData : bool;
  rxTimestamp : Z;  (* uint32_t *)
  timeoutCounter : Z  (* uint16_t *)
}.

(** [PduInfoType]: the SDU pointer ([None] for a null pointer; the bytes
    it points to otherwise) and the SDU length.  The meta data pointer is
    not read. *)
Record PduInfoType : Type := mkPduInfo {
  SduDataPtr : option (list Z);
  SduLength : Z  (* PduLengthType, uint32_t *)
}.

(** The file-scope variables of the module. *)
Record Globals : Type := mkGlobals {
  Com_Initialized : bool;
  Com_IpduData : list Com_IpduDataType;  (* [COM_MAX_IPDU_COUNT] *)
  Com_SignalData : list Z;  (* uint32_t[COM_MAX_SIGNAL_COUNT] *)
  Com_TimeoutEnabled : bool
}.

Definition cleared : Com_IpduDataType :=
  {| data := replicate 8 0; length := 0; newData := false;
     rxTimestamp := 0; timeoutCounter := 0 |}.

(** The variables as they stand at power-on. *)
Definition power_on : Globals :=
  {| Com_Initialized := false;
     Com_IpduData := replicate (Z.to_nat COM_MAX_IPDU_COUNT) cleared;
     Com_SignalData := replicate (Z.to_nat COM_MAX_SIGNAL_COUNT) 0;
     Com_TimeoutEnabled := true |}.

(** [Com_IpduData[i]]. *)
Definition ipdu (c : Globals) (i : Z) : Com_IpduDataType :=
  default cleared (Com_IpduData c !! Z.to_nat i).

Definition set_ipdu (i : Z) (e : Com_IpduDataType) (c : Globals) : Globals :=
  {| Com_Initialized := Com_Initialized c;
     Com_IpduData := <[Z.to_nat i := e]> (Com_IpduData c);
     Com_SignalData := Com_SignalData c;
     Com_TimeoutEnabled := Com_TimeoutEnabled c |}.

Definition Com_Init (c : Globals) : Globals :=
  {| Com_Initialized := true;
     Com_IpduData := replicate (Z.to_nat COM_MAX_IPDU_COUNT) cleared;
     Com_SignalData := replicate (Z.to_nat COM_MAX_SIGNAL_COUNT) 0;
     Com_TimeoutEnabled := Com_TimeoutEnabled c |}.

Definition Com_DeInit (c : Globals) : Globals :=
  {| Com_Initialized := false;
     Com_IpduData := Com_IpduData c;
     Com_SignalData := Com_SignalData c;
     Com_TimeoutEnabled := Com_TimeoutEnabled c |}.

(** The body of the loop of [Com_MainFunctionRx] for I-PDU [i]; the
    light-switch I-PDU is forwarded to SwitchEvent. *)
Definition rx_ipdu (cs : Globals * SwitchEvent.Globals) (i : Z)
    : Globals * SwitchEvent.Globals :=
  let '(c, sw) := cs in
  let e := ipdu c i in
  if newData e then
    let e :=
      {| data := data e; length := length e; newData := false;
         rxTimestamp := rxTimestamp e; timeoutCounter := 0 |} in
    (set_ipdu i e c,
     if i =? COM_IPDU_LIGHTSWITCH_RX
     then SwitchEvent.SwitchEvent_ProcessCanMessage (Some (data e)) (length e) sw
     else sw)
  else if Com_TimeoutEnabled c then
    (set_ipdu i
       {| data := data e; length := length e; newData := newData e;
          rxTimestamp := rxTimestamp e;
          timeoutCounter := wrap16 (timeoutCounter e + 1) |} c,
     sw)
  else (c, sw).

Definition Com_MainFunctionRx (cs : Globals * SwitchEvent.Globals)
    : Globals * SwitchEvent.Globals :=
  if negb (Com_Initialized (fst cs)) then cs
  else fold_left rx_ipdu (map Z.of_nat (seq 0 (Z.to_nat COM_NUM_IPDUS))) cs.

(** [SignalDataPtr] is [None] for a null pointer, the 32-bit value it
    points to otherwise. *)
Definition Com_SendSignal (SignalId : Z) (SignalDataPtr : option Z) (c : Globals)
    : Std_ReturnType * Globals :=
  if negb (Com_Initialized c) then (E_NOT_OK, c)
  else
    match SignalDataPtr with
    | Some value =>
        if COM_MAX_SIGNAL_COUNT <=? SignalId then (E_NOT_OK, c)
        else
          (E_OK,
           {| Com_Initialized := Com_Initialized c;
              Com_IpduData := Com_IpduData c;
              Com_SignalData := wr (Com_SignalData c) SignalId value;
              Com_TimeoutEnabled := Com_TimeoutEnabled c |})
    | None => (E_NOT_OK, c)
    end.

(** [SignalDataPtr] is [false] for a null pointer; the result is the
    return value and what was written through the pointer. *)
Definition Com_ReceiveSignal (SignalId : Z) (SignalDataPtr : bool) (c : Globals)
    : Std_ReturnType * option Z :=
  if negb (Com_Initialized c) then (E_NOT_OK, None)
  else if (COM_MAX_SIGNAL_COUNT <=? SignalId) || negb SignalDataPtr then (E_NOT_OK, None)
  else (E_OK, Some (rd (Com_SignalData c) SignalId)).

(** [PduInfoPtr] is [None] for a null pointer.  [memcpy] copies the first
    [length] bytes of the SDU over the first [length] bytes of the
    buffer. *)
Definition Com_RxIndication (PduId : Z) (PduInfoPtr : option PduInfoType) (c : Globals)
    : Globals :=
  if negb (Com_Initialized c) then c
  else
    match PduInfoPtr with
    | Some info =>
        if COM_MAX_IPDU_COUNT <=? PduId then c
        else
          match SduDataPtr info with
          | Some sdu =>
              let length := if 8 <? SduLength info then 8 else wrap8 (SduLength info) in
              let e := ipdu c PduId in
              set_ipdu PduId
                {| data := take (Z.to_nat length) sdu ++ drop (Z.to_nat length) (data e);
                   length := length; newData := true;
                   rxTimestamp := rxTimestamp e;
                   timeoutCounter := timeoutCounter e |} c
          | None => c
          end
    | None => c
    end.

Definition Com_TriggerIPDUSend (PduId : Z) (c : Globals) : Std_ReturnType :=
  if negb (Com_Initialized c) then E_NOT_OK
  else if COM_MAX_IPDU_COUNT <=? PduId then E_NOT_OK
  else E_OK.

End Com.
(** ** Digital inputs and outputs, the whole driver (MCAL/Dio/Dio.cpp)

    [Dio.Globals] above holds the output levels and the directions, which
    is all the headlight driver touches; the driver as a whole also has the
    simulated input levels and its initialisation flag. *)

Module DioDriver.

Definition DIO_NUM_PORTS : Z := 2.
Definition DIO_CHANNELS_PER_PORT : Z := 8.
Definition DIO_CHANNEL_FEEDBACK : Z := 2.

Record Globals : Type := mkGlobals {
  Dio_Initialized : bool;
  pins : Dio.Globals;  (* Dio_OutputLevels, Dio_ChannelDirection *)
  Dio_SimInputLevels : list Z  (* Dio_LevelType[DIO_NUM_CHANNELS] *)
}.

(** The variables as they stand at power-on: statics are
    zero-initialised. *)
Definition power_on : Globals :=
  {| Dio_Initialized := false;
     pins :=
       {| Dio.Dio_OutputLevels := replicate (Z.to_nat Dio.DIO_NUM_CHANNELS) 0;
          Dio.Dio_ChannelDirection := replicate (Z.to_nat Dio.DIO_NUM_CHANNELS) false |};
     Dio_SimInputLevels := replicate (Z.to_nat Dio.DIO_NUM_CHANNELS) 0 |}.

Definition with_pins (p : Dio.Globals) (g : Globals) : Globals :=
  {| Dio_Initialized := Dio_Initialized g; pins := p;
     Dio_SimInputLevels := Dio_SimInputLevels g |}.

(** [Dio_ChannelDirection[ch]]. *)
Definition direction (g : Globals) (ch : Z) : bool :=
  default false (Dio.Dio_ChannelDirection (pins g) !! Z.to_nat ch).

(** The level of a channel as the reads take it: the output level of an
    output, the simulated input level of an input. *)
Definition channel_level (g : Globals) (ch : Z) : Z :=
  if direction g ch then rd (Dio.Dio_OutputLevels (pins g)) ch
  else rd (Dio_SimInputLevels g) ch.

(** Writing the feedback channel's direction last changes nothing: it is
    an input already. *)
Definition Dio_Init (g : Globals) : Globals :=
  {| Dio_Initialized := true;
     pins :=
       {| Dio.Dio_OutputLevels := Dio.Dio_OutputLevels Dio.Dio_Init;
          Dio.Dio_ChannelDirection :=
            <[Z.to_nat DIO_CHANNEL_FEEDBACK := false]>
              (Dio.Dio_ChannelDirection Dio.Dio_Init) |};
     Dio_SimInputLevels := replicate (Z.to_nat Dio.DIO_NUM_CHANNELS) Dio.STD_LOW |}.

Definition Dio_ReadChannel (ChannelId : Z) (g : Globals) : Z :=
  if Dio.DIO_NUM_CHANNELS <=? ChannelId then Dio.STD_LOW
  else channel_level g ChannelId.

Definition Dio_WriteChannel (ChannelId Level : Z) (g : Globals) : Globals :=
  with_pins (Dio.Dio_WriteChannel ChannelId Level (pins g)) g.

(** The result is the returned level and the driver's variables. *)
Definition Dio_FlipChannel (ChannelId : Z) (g : Globals) : Z * Globals :=
  if Dio.DIO_NUM_CHANNELS <=? ChannelId then (Dio.STD_LOW, g)
  else if negb (direction g ChannelId) then (rd (Dio_SimInputLevels g) ChannelId, g)
  else
    let currentLevel := rd (Dio.Dio_OutputLevels (pins g)) ChannelId in
    let newLevel := if currentLevel =? Dio.STD_LOW then Dio.STD_HIGH else Dio.STD_LOW in
    (newLevel,
     with_pins
       {| Dio.Dio_OutputLevels := wr (Dio.Dio_OutputLevels (pins g)) ChannelId newLevel;
          Dio.Dio_ChannelDirection := Dio.Dio_ChannelDirection (pins g) |} g).

(** The loop of [Dio_ReadPort] over [i] from [0] to [n - 1]. *)
Fixpoint read_bits (g : Globals) (baseChannel : Z) (n : nat) : Z :=
  match n with
  | O => 0
  | S k =>
      let portValue := read_bits g baseChannel k in
      let i := Z.of_nat k in
      let ch := wrap8 (baseChannel + i) in
      if ch <? Dio.DIO_NUM_CHANNELS then
        if negb (channel_level g ch =? Dio.STD_LOW)
        then wrap8 (Z.lor portValue (Z.shiftl 1 i))
        else portValue
      else portValue
  end.

Definition Dio_ReadPort (PortId : Z) (g : Globals) : Z :=
  if DIO_NUM_PORTS <=? PortId then 0
  else
    read_bits g (wrap8 (PortId * DIO_CHANNELS_PER_PORT)) (Z.to_nat DIO_CHANNELS_PER_PORT).

(** The loop of [Dio_WritePort] over [i] from [0] to [n - 1]. *)
Fixpoint write_bits (Level baseChannel : Z) (n : nat) (g : Globals) : Globals :=
  match n with
  | O => g
  | S k =>
      let g := write_bits Level baseChannel k g in
      let i := Z.of_nat k in
      let ch := wrap8 (baseChannel + i) in
      if (ch <? Dio.DIO_NUM_CHANNELS) && direction g ch then
        with_pins
          {| Dio.Dio_OutputLevels :=
               wr (Dio.Dio_OutputLevels (pins g)) ch
                  (if negb (Z.land Level (Z.shiftl 1 i) =? 0)
                   then Dio.STD_HIGH else Dio.STD_LOW);
             Dio.Dio_ChannelDirection := Dio.Dio_ChannelDirection (pins g) |} g
      else g
  end.

Definition Dio_WritePort (PortId Level : Z) (g : Globals) : Globals :=
  if DIO_NUM_PORTS <=? PortId then g
  else
    write_bits Level (wrap8 (PortId * DIO_CHANNELS_PER_PORT))
      (Z.to_nat DIO_CHANNELS_PER_PORT) g.

Record Dio_ChannelGroupType : Type := mkGroup {
  mask : Z;  (* uint8_t *)
  offset : Z;  (* uint8_t *)
  port : Z  (* Dio_PortType *)
}.

(** [ChannelGroupIdPtr] is [None] for a null pointer.  The operands are
    promoted to [int] before the shifts; the result is converted back to
    the 8-bit port level. *)
Definition Dio_ReadChannelGroup (ChannelGroupIdPtr : option Dio_ChannelGroupType)
    (g : Globals) : Z :=
  match ChannelGroupIdPtr with
  | None => 0
  | Some grp =>
      let portValue := Dio_ReadPort (port grp) g in
      wrap8 (Z.shiftr (Z.land portValue (mask grp)) (offset grp))
  end.

Definition Dio_WriteChannelGroup (ChannelGroupIdPtr : option Dio_ChannelGroupType)
    (Level : Z) (g : Globals) : Globals :=
  match ChannelGroupIdPtr with
  | None => g
  | Some grp =>
      let currentPort := Dio_ReadPort (port grp) g in
      let newValue :=
        wrap8 (Z.lor (Z.land currentPort (Z.lnot (mask grp)))
                     (Z.land (Z.shiftl Level (offset grp)) (mask grp))) in
      Dio_WritePort (port grp) newValue g
  end.

(** [Level] is not used. *)
Definition Dio_GetMaskedBits (PortId Level Mask : Z) (g : Globals) : Z :=
  if DIO_NUM_PORTS <=? PortId then 0
  else wrap8 (Z.land (Dio_ReadPort PortId g) Mask).

Definition Dio_SetMaskedBits (PortId Level Mask : Z) (g : Globals) : Globals :=
  if DIO_NUM_PORTS <=? PortId then g
  else
    let currentPort := Dio_ReadPort PortId g in
    let newValue :=
      wrap8 (Z.lor (Z.land currentPort (Z.lnot Mask)) (Z.land Level Mask)) in
    Dio_WritePort PortId newValue g.

Definition Dio_SimSetInput (ChannelId Level : Z) (g : Globals) : Globals :=
  if Dio.DIO_NUM_CHANNELS <=? ChannelId then g
  else
    {| Dio_Initialized := Dio_Initialized g; pins := pins g;
       Dio_SimInputLevels :=
         wr (Dio_SimInputLevels g) ChannelId
            (if negb (Level =? Dio.STD_LOW) then Dio.STD_HIGH else Dio.STD_LOW) |}.

Definition Dio_SimGetOutput (ChannelId : Z) (g : Globals) : Z :=
  if Dio.DIO_NUM_CHANNELS <=? ChannelId then Dio.STD_LOW
  else rd (Dio.Dio_OutputLevels (pins g)) ChannelId.

Definition Dio_SimSetDirection (ChannelId : Z) (IsOutput : bool) (g : Globals) : Globals :=
  if Dio.DIO_NUM_CHANNELS <=? ChannelId then g
  else
    with_pins
      {| Dio.Dio_OutputLevels := Dio.Dio_OutputLevels (pins g);
         Dio.Dio_ChannelDirection :=
           <[Z.to_nat ChannelId := IsOutput]> (Dio.Dio_ChannelDirection (pins g)) |} g.

(** The arrays of the driver have their declared sizes. *)
Definition well_sized (g : Globals) : Prop :=
  length (Dio.Dio_OutputLevels (pins g)) = Z.to_nat Dio.DIO_NUM_CHANNELS
  /\ length (Dio.Dio_ChannelDirection (pins g)) = Z.to_nat Dio.DIO_NUM_CHANNELS
  /\ length (Dio_SimInputLevels g) = Z.to_nat Dio.DIO_NUM_CHANNELS.

End DioDriver.


(** ** Sequences of calls the further properties speak about *)

Module Runs.

(** A value of a [uint8_t]. *)
Definition is_byte (b : Z) : Prop := 0 <= b <= 255.

(** [n] calls of [E2E_P01Check] in a row with nothing received: [data]
    is a null pointer or the announced [length] is zero. *)
Definition check_silent
    (config : E2E.E2E_P01ConfigType) (data : option (list Z)) (length : Z)
    (n : nat) (cs : E2E.E2E_P01CheckStateType) : E2E.E2E_P01CheckStateType :=
  Nat.iter n (fun cs => fst (E2E.E2E_P01Check config cs data length)) cs.

(** The supervisor fed with profile statuses, one [E2E_SMCheck] each. *)
Definition sm_run
    (config : E2E.E2E_SMConfigType) (st : E2E.E2E_SMCheckStateType)
    (statuses : list E2E_P01CheckStatusType) : E2E.E2E_SMCheckStateType :=
  fold_left (fun st p => fst (E2E.E2E_SMCheck config st p)) statuses st.

(** [n] ticks of SwitchEvent with no frame handed over in between. *)
Definition sw_silent (n : nat) (g : SwitchEvent.Globals) : SwitchEvent.Globals :=
  Nat.iter n SwitchEvent.SwitchEvent_MainFunction g.

(** One round of the light-switch message: the sender protects the
    four-byte frame [data] with the configuration of the message, the
    frame is handed to SwitchEvent, and SwitchEvent runs one tick. *)
Definition sw_round
    (y : E2E.E2E_P01ProtectStateType * SwitchEvent.Globals) (data : list Z)
    : E2E.E2E_P01ProtectStateType * SwitchEvent.Globals :=
  let '(ps, g) := y in
  let '(_, ps, data) :=
    E2E.E2E_P01Protect SwitchEvent.SwitchEvent_InitE2E_config ps data 4 in
  (ps,
   SwitchEvent.SwitchEvent_MainFunction
     (SwitchEvent.SwitchEvent_ProcessCanMessage (Some data) 4 g)).

Definition sw_rounds
    (y : E2E.E2E_P01ProtectStateType * SwitchEvent.Globals) (frames : list (list Z))
    : E2E.E2E_P01ProtectStateType * SwitchEvent.Globals :=
  fold_left sw_round frames y.

(** SwitchEvent has been silent for long: it is initialised with the
    configuration of the light-switch message, no frame is pending, the
    receiver reports NoNewData, the supervisor is Invalid with a clear
    positive count, and the report is invalid. *)
Definition sw_silenced (s : SwitchEvent.SwitchEvent_StateType) : Prop :=
  SwitchEvent.isInitialized s = true
  /\ SwitchEvent.e2eConfig s = SwitchEvent.SwitchEvent_InitE2E_config
  /\ SwitchEvent.e2eSmConfig s = SwitchEvent.SwitchEvent_InitE2E_smConfig
  /\ SwitchEvent.newMessageReceived s = false
  /\ E2E.Status (SwitchEvent.e2eCheckState s) = E2E_P01STATUS_NONEWDATA
  /\ E2E.SMState (SwitchEvent.e2eSmState s) = E2E_SM_INVALID
  /\ E2E.OkCount (SwitchEvent.e2eSmState s) = 0
  /\ LightSwitchStatus.isValid (SwitchEvent.lightSwitchStatus s) = false.

(** SwitchEvent is established on a sender: it is initialised with the
    configuration of the light-switch message, its supervisor is Valid,
    and its receiver is in step with the sender. *)
Definition sw_established
    (ps : E2E.E2E_P01ProtectStateType) (s : SwitchEvent.SwitchEvent_StateType) : Prop :=
  SwitchEvent.isInitialized s = true
  /\ SwitchEvent.e2eConfig s = SwitchEvent.SwitchEvent_InitE2E_config
  /\ SwitchEvent.e2eSmConfig s = SwitchEvent.SwitchEvent_InitE2E_smConfig
  /\ E2E.SMState (SwitchEvent.e2eSmState s) = E2E_SM_VALID
  /\ Conditions.in_step ps (SwitchEvent.e2eCheckState s).

(** SwitchEvent listens to a sender: it is initialised with the
    configuration of the light-switch message, and its receiver either
    waits for its first frame or is in step with the sender. *)
Definition sw_listening
    (ps : E2E.E2E_P01ProtectStateType) (s : SwitchEvent.SwitchEvent_StateType) : Prop :=
  SwitchEvent.isInitialized s = true
  /\ SwitchEvent.e2eConfig s = SwitchEvent.SwitchEvent_InitE2E_config
  /\ SwitchEvent.e2eSmConfig s = SwitchEvent.SwitchEvent_InitE2E_smConfig
  /\ 0 <= E2E.Counter ps <= 14
  /\ (E2E.WaitForFirstData (SwitchEvent.e2eCheckState s) = true
      \/ Conditions.in_step ps (SwitchEvent.e2eCheckState s)).

(** The command a frame asks for: the command of its code when the code
    is in range, the command that stands otherwise. *)
Definition requested_command (data : list Z) (standing : LightSwitchCmd) : LightSwitchCmd :=
  if rd data COM_LIGHTSWITCH_CMD_BYTE <=? LightSwitchCmd_code LIGHT_SWITCH_AUTO
  then LightSwitchCmd_of_code (rd data COM_LIGHTSWITCH_CMD_BYTE)
  else standing.

(** A four-byte frame. *)
Definition is_frame (data : list Z) : Prop :=
  length data = 4%nat /\ Forall is_byte data.

(** What [LightRequest_ReadAdc] stores as the raw value in a tick: the
    simulated value when one is enabled, what the driver delivers
    otherwise. *)
Definition lr_raw (g : LightRequest.Globals) (adc : option Z) : option Z :=
  if LightRequest.LightRequest_SimAdcEnabled g
  then Some (LightRequest.LightRequest_SimAdcValue g)
  else adc.

(** LightRequest run tick by tick; [adcs] is what the driver delivers in
    each tick. *)
Definition lr_run (g : LightRequest.Globals) (adcs : list (option Z))
    : LightRequest.Globals :=
  fold_left (fun g adc => LightRequest.LightRequest_MainFunction adc g) adcs g.

(** LightRequest after [n] ticks from initialisation that all read the
    raw value [v]: the write position and the sample count follow [n], the
    samples taken so far are all [v], the rate check has run every fifth
    tick and never raised the plausibility fault, and the status is the
    one [v] and [n] call for. *)
Definition lr_settled (v n : Z) (s : LightRequest.LightRequest_StateType) : Prop :=
  LightRequest.isInitialized s = true
  /\ length (LightRequest.adcBuffer s) = Z.to_nat LightRequest.LIGHTREQUEST_ADC_BUFFER_SIZE
  /\ LightRequest.adcBufferIndex s = n mod FLM_ADC_SAMPLES
  /\ LightRequest.adcSampleCount s = Z.min n FLM_ADC_SAMPLES
  /\ (forall i, 0 <= i < Z.min n FLM_ADC_SAMPLES -> rd (LightRequest.adcBuffer s) i = v)
  /\ LightRequest.rateCheckCounter s = n mod LightRequest.LIGHTREQUEST_RATE_CHECK_CYCLES
  /\ LightRequest.previousFilteredValue s
     = (if n <? LightRequest.LIGHTREQUEST_RATE_CHECK_CYCLES then 0 else v)
  /\ 0 <= LightRequest.plausibilityErrorCount s
       <= (if n <? LightRequest.LIGHTREQUEST_RATE_CHECK_CYCLES then 0 else 1)
  /\ LightRequest.plausibilityFault s = false
  /\ LightRequest.signalStatus s
     = (if (1 <=? n) && (v <? FLM_AMBIENT_OPEN_CIRCUIT) then SIGNAL_STATUS_OPEN_CIRCUIT
        else if (1 <=? n) && (FLM_AMBIENT_SHORT_CIRCUIT <? v) then SIGNAL_STATUS_SHORT_CIRCUIT
        else if FLM_ADC_SAMPLES <=? n then SIGNAL_STATUS_VALID
        else SIGNAL_STATUS_INVALID)
  /\ AmbientLightLevel.isValid (LightRequest.ambientLight s)
     = (FLM_AMBIENT_OPEN_CIRCUIT <=? v) && (v <=? FLM_AMBIENT_SHORT_CIRCUIT)
       && (FLM_ADC_SAMPLES <=? n)
  /\ (1 <= n ->
      LightRequest.adcFilteredValue s = v
      /\ AmbientLightLevel.adcValue (LightRequest.ambientLight s) = v
      /\ AmbientLightLevel.luxValue (LightRequest.ambientLight s) = v / 4).

(** Both inputs the FLM application reads in a tick are flagged valid. *)
Definition flm_inputs_valid (t : Schedule.FlmTick) : bool :=
  LightSwitchStatus.isValid (SwitchEvent.SwitchEvent_GetLightRequest (Schedule.flm_sw t))
  && AmbientLightLevel.isValid (LightRequest.LightRequest_GetAmbientLight (Schedule.flm_lr t)).

(** A tick without a safe-state request in which an input is flagged
    invalid. *)
Definition flm_input_lost (t : Schedule.FlmTick) : Prop :=
  Schedule.flm_trigger t = None /\ flm_inputs_valid t = false.

(** The command of the Safe state: LowBeam unless the ambient reading is
    valid and at or above the switch-on threshold. *)
Definition safe_command (a : AmbientLightLevel.t) : HeadlightCommand :=
  if AmbientLightLevel.isValid a then
    if AmbientLightLevel.adcValue a <? FLM_AMBIENT_THRESHOLD_ON
    then HEADLIGHT_CMD_LOW_BEAM
    else HEADLIGHT_CMD_OFF
  else HEADLIGHT_CMD_LOW_BEAM.

(** Whether automatic mode has the lights on, by the ambient ADC value
    and whether they were on: switched on below the switch-on threshold,
    kept on up to the switch-off threshold. *)
Definition auto_lights_on (adc : Z) (on : bool) : bool :=
  (adc <? FLM_AMBIENT_THRESHOLD_ON) || (on && (adc <=? FLM_AMBIENT_THRESHOLD_OFF)).

(** The current [Headlight_ReadFeedback] stores in a tick: the simulated
    current when one is enabled, the converted current-sense value
    otherwise. *)
Definition hl_sensed (g : Headlight.Globals) (adc : option Z) : option Z :=
  if Headlight.Headlight_SimCurrentEnabled g
  then Some (Headlight.Headlight_SimCurrent g)
  else
    match adc with
    | Some adcValue => Some (wrap16 (adcValue * FLM_HEADLIGHT_CURRENT_FACTOR))
    | None => None
    end.

(** A tick of the headlight driver that leaves the simulated current as
    it is, asks for [cmd] and senses a current between [lo] and [hi]. *)
Definition hl_tick_senses
    (g : Headlight.Globals) (lo hi : Z) (t : Schedule.HeadlightTick) : Prop :=
  Schedule.hl_sim t = None
  /\ exists c, hl_sensed g (Schedule.hl_adc t) = Some c /\ lo <= c <= hi.

(** What the SafetyMonitor meets in one tick: the variables of
    SwitchEvent, LightRequest and the headlight driver as they stand when
    it runs. *)
Record MonitorTick : Type := mkMonitorTick {
  mon_sw : SwitchEvent.Globals;
  mon_lr : LightRequest.Globals;
  mon_hl : Headlight.Globals
}.

Definition mon_step
    (gf : SafetyMonitor.Globals * FLM.Globals) (t : MonitorTick)
    : SafetyMonitor.Globals * FLM.Globals :=
  SafetyMonitor.SafetyMonitor_MainFunction (mon_sw t) (mon_lr t) (mon_hl t) gf.

(** The SafetyMonitor run tick by tick; the variables of the FLM
    application are only written by the monitor in between. *)
Definition mon_run
    (gf : SafetyMonitor.Globals * FLM.Globals) (ticks : list MonitorTick)
    : SafetyMonitor.Globals * FLM.Globals :=
  fold_left mon_step ticks gf.

(** A tick in which no immediate trigger holds: the E2E supervisor is
    Valid, the watchdog is neither Failed nor Expired, and the number of
    active faults lies between [lo] and [hi]. *)
Definition mon_tick_quiet (g : SafetyMonitor.Globals) (lo hi : Z) (t : MonitorTick) : Prop :=
  SwitchEvent.SwitchEvent_GetE2ESmStatus (mon_sw t) = E2E_SM_VALID
  /\ Conditions.wdgm_condition g = false
  /\ lo <= Conditions.fault_count (mon_sw t) (mon_lr t) (mon_hl t) g <= hi.

End Runs.

(** ** Inputs the further properties are exercised on *)

Module Samples.

(** The configuration of the light-switch message. *)
Definition config : E2E.E2E_P01ConfigType := SwitchEvent.SwitchEvent_InitE2E_config.

(** The supervisor configuration of the light-switch message. *)
Definition sm_config : E2E.E2E_SMConfigType := SwitchEvent.SwitchEvent_InitE2E_smConfig.

(** The frame of a LowBeam request before protection. *)
Definition low_beam_payload : list Z := [0; 0; 1; 0].

(** The same frame as a freshly initialised sender protects it. *)
Definition low_beam_frame : list Z :=
  Eval vm_compute in
    snd (E2E.E2E_P01Protect config E2E.E2E_P01ProtectInit low_beam_payload 4).

(** A receiver that has accepted a frame with counter 0. *)
Definition receiver_in_step : E2E.E2E_P01CheckStateType :=
  fst (E2E.E2E_P01Check config E2E.E2E_P01CheckInit (Some low_beam_frame) 4).

(** A supervisor that is Valid, and one that is Invalid, each with clear
    counts. *)
Definition sm_valid : E2E.E2E_SMCheckStateType :=
  {| E2E.OkCount := 0; E2E.ErrorCount := 0; E2E.SMState := E2E_SM_VALID |}.

Definition sm_invalid : E2E.E2E_SMCheckStateType :=
  {| E2E.OkCount := 0; E2E.ErrorCount := 0; E2E.SMState := E2E_SM_INVALID |}.

(** The frame of a HighBeam request before protection. *)
Definition high_beam_payload : list Z := [0; 0; 2; 0].

(** SwitchEvent right after initialisation. *)
Definition sw_fresh : SwitchEvent.Globals :=
  SwitchEvent.SwitchEvent_Init SwitchEvent.power_on.

(** A sender and a SwitchEvent after three rounds with a LowBeam
    request. *)
Definition sw_after_three : E2E.E2E_P01ProtectStateType * SwitchEvent.Globals :=
  Runs.sw_rounds (E2E.E2E_P01ProtectInit, sw_fresh)
    [low_beam_payload; low_beam_payload; low_beam_payload].

(** The analogue driver and the communication module right after
    initialisation. *)
Definition adc_ready : Adc.Globals := Adc.Adc_Init true Adc.power_on.

Definition com_ready : Com.Globals := Com.Com_Init Com.power_on.

(** The digital driver right after initialisation. *)
Definition dio_ready : DioDriver.Globals := DioDriver.Dio_Init DioDriver.power_on.

(** The FLM application in Normal, commanding HighBeam. *)
Definition flm_cruising : FLM.Globals := Bench.flm Cases.cruising_high_beam.

(** A tick of the FLM application with a valid HighBeam request and a
    valid ambient reading, and one with no valid switch report. *)
Definition valid_tick : Schedule.FlmTick :=
  {| Schedule.flm_sw := Bench.sw Cases.cruising_high_beam;
     Schedule.flm_lr := Cases.lr_valid;
     Schedule.flm_trigger := None |}.

Definition lost_tick : Schedule.FlmTick :=
  {| Schedule.flm_sw := Cases.sw_no_frames;
     Schedule.flm_lr := Cases.lr_valid;
     Schedule.flm_trigger := None |}.

(** The FLM application after two ticks without a valid switch report. *)
Definition flm_two_lost : FLM.Globals :=
  Schedule.flm_run flm_cruising [lost_tick; lost_tick].

(** The headlight driver before initialisation, on an initialised digital
    driver and with no simulated current. *)
Definition hl_cold : Headlight.Globals := Headlight.power_on Dio.Dio_Init.

(** A tick of the headlight driver with LowBeam requested and a
    current-sense value of 500 (5000 mA), and one with a value of 0. *)
Definition hl_tick_lit : Schedule.HeadlightTick :=
  {| Schedule.hl_flm := Cases.flm_low_beam; Schedule.hl_sim := None;
     Schedule.hl_adc := Some 500 |}.

Definition hl_tick_dark : Schedule.HeadlightTick :=
  {| Schedule.hl_flm := Cases.flm_low_beam; Schedule.hl_sim := None;
     Schedule.hl_adc := Some 0 |}.

(** A tick of the SafetyMonitor with a valid switch report, an invalid
    ambient reading and no output fault: one active fault. *)
Definition mon_tick_one_fault : Runs.MonitorTick :=
  {| Runs.mon_sw := Bench.sw Cases.cruising_high_beam;
     Runs.mon_lr := LightRequest.LightRequest_Init LightRequest.power_on;
     Runs.mon_hl := Cases.hl_ok |}.


End Samples.
(** * Properties *)

(** ** Shared proof steps *)

(** Split on the scrutinee of the first conditional or match of the goal. *)
Ltac case_step :=
  match goal with
  | |- context [if ?b then _ else _] => destruct b eqn:?
  | |- context [match ?x with _ => _ end] => destruct x eqn:?
  end.

(** Split on an integer comparison of the goal, keeping its meaning as a
    hypothesis. *)
Ltac split_on cmp spec :=
  match goal with
  | |- context [cmp ?x ?y] => destruct (spec x y)
  end.

Ltac case_cmp :=
  first [ split_on Z.leb Z.leb_spec
        | split_on Z.ltb Z.ltb_spec
        | split_on Z.eqb Z.eqb_spec ].

(** ** FLM application: the Safe state *)

Section FlmSafe.

Import FLM Schedule.

(** Reading the inputs leaves the state-machine state alone. *)
Lemma FLM_ReadInputs_currentState sw lr s :
  currentState (FLM_ReadInputs sw lr s) = currentState s.
Proof.
  unfold FLM_ReadInputs. cbn.
  repeat case_step; reflexivity.
Qed.

(** The Safe branch only writes the headlight command. *)
Lemma FLM_StateSafe_currentState s :
  currentState (FLM_StateSafe s) = currentState s.
Proof.
  unfold FLM_StateSafe. repeat case_step; reflexivity.
Qed.

Lemma FLM_ProcessStateMachine_safe trigger s :
  currentState s = FLM_STATE_SAFE ->
  currentState (FLM_ProcessStateMachine trigger s) = FLM_STATE_SAFE.
Proof.
  intros Hsafe. unfold FLM_ProcessStateMachine. cbn.
  rewrite Hsafe.
  case_step; cbn; rewrite FLM_StateSafe_currentState; cbn; exact Hsafe.
Qed.

Lemma FLM_DetermineHeadlightCommand_safe s :
  currentState s = FLM_STATE_SAFE ->
  FLM_DetermineHeadlightCommand s = s.
Proof.
  intros Hsafe. unfold FLM_DetermineHeadlightCommand. now rewrite Hsafe.
Qed.

(** One tick started in Safe ends in Safe, whatever the inputs and whether
    or not the component is initialised. *)
Lemma FLM_MainFunction_safe sw lr g :
  currentState (FLM_State g) = FLM_STATE_SAFE ->
  currentState (FLM_State (FLM_MainFunction sw lr g)) = FLM_STATE_SAFE.
Proof.
  intros Hsafe. unfold FLM_MainFunction.
  destruct (isInitialized (FLM_State g)); cbn [negb]; [| exact Hsafe].
  cbn [FLM_State].
  rewrite FLM_DetermineHeadlightCommand_safe;
    apply FLM_ProcessStateMachine_safe;
    rewrite FLM_ReadInputs_currentState; exact Hsafe.
Qed.

Lemma flm_step_safe g t :
  currentState (FLM_State g) = FLM_STATE_SAFE ->
  currentState (FLM_State (flm_step g t)) = FLM_STATE_SAFE.
Proof.
  intros Hsafe. unfold flm_step.
  apply FLM_MainFunction_safe.
  destruct (flm_trigger t); exact Hsafe.
Qed.

(** C1. Safe is absorbing: from any state of the FLM application whose
    state-machine state is Safe, every sequence of further ticks, with any
    switch reports, ambient readings and external safe-state triggers, ends
    with the state-machine state still Safe. *)
Theorem flm_safe_absorbing (g : FLM.Globals) (ticks : list FlmTick) :
  currentState (FLM_State g) = FLM_STATE_SAFE ->
  currentState (FLM_State (flm_run g ticks)) = FLM_STATE_SAFE.
Proof.
  unfold flm_run. revert g.
  induction ticks as [| t ticks IH]; intros g Hsafe.
  - exact Hsafe.
  - cbn [fold_left]. apply IH. now apply flm_step_safe.
Qed.

End FlmSafe.
Lemma flm_safe_absorbing_witness :
  FLM.currentState (FLM.FLM_State (Bench.flm Cases.safe_entry_from_normal))
    = FLM_STATE_SAFE
  /\ FLM.currentState
       (FLM.FLM_State
          (Schedule.flm_run (Bench.flm Cases.safe_entry_from_normal) Cases.later_ticks))
     = FLM_STATE_SAFE.
Proof.
  split.
  - vm_compute. reflexivity.
  - apply (flm_safe_absorbing (Bench.flm Cases.safe_entry_from_normal) Cases.later_ticks).
    vm_compute. reflexivity.
Defined.

(** ** Uninitialised components *)

Section Uninitialised.

(** C10. While a component's [isInitialized] flag is false, its main
    function returns at once: the component's variables, the system-time
    counter among them, are what they were.  This holds for each of the
    five components (for the SafetyMonitor also the variables of the FLM
    application, which it may otherwise write, stay as they were). *)
Theorem main_functions_idle_before_init :
  (forall g,
      SwitchEvent.isInitialized (SwitchEvent.SwitchEvent_State g) = false ->
      SwitchEvent.SwitchEvent_MainFunction g = g)
  /\ (forall adc g,
      LightRequest.isInitialized (LightRequest.LightRequest_State g) = false ->
      LightRequest.LightRequest_MainFunction adc g = g)
  /\ (forall sw lr g,
      FLM.isInitialized (FLM.FLM_State g) = false ->
      FLM.FLM_MainFunction sw lr g = g)
  /\ (forall flm adc g,
      Headlight.isInitialized (Headlight.Headlight_State g) = false ->
      Headlight.Headlight_MainFunction flm adc g = g)
  /\ (forall sw lr hl g flm,
      SafetyMonitor.isInitialized (SafetyMonitor.SafetyMonitor_State g) = false ->
      SafetyMonitor.SafetyMonitor_MainFunction sw lr hl (g, flm) = (g, flm)).
Proof.
  repeat split; intros.
  - unfold SwitchEvent.SwitchEvent_MainFunction. now rewrite H.
  - unfold LightRequest.LightRequest_MainFunction. now rewrite H.
  - unfold FLM.FLM_MainFunction. now rewrite H.
  - unfold Headlight.Headlight_MainFunction. now rewrite H.
  - unfold SafetyMonitor.SafetyMonitor_MainFunction. now rewrite H.
Qed.

End Uninitialised.

Lemma main_functions_idle_before_init_witness :
  SwitchEvent.SwitchEvent_MainFunction SwitchEvent.power_on = SwitchEvent.power_on
  /\ LightRequest.LightRequest_MainFunction (Some 2000) LightRequest.power_on
     = LightRequest.power_on
  /\ FLM.FLM_MainFunction SwitchEvent.power_on LightRequest.power_on FLM.power_on
     = FLM.power_on
  /\ Headlight.Headlight_MainFunction FLM.power_on (Some 2000)
       (Headlight.power_on Dio.Dio_Init)
     = Headlight.power_on Dio.Dio_Init
  /\ SafetyMonitor.SafetyMonitor_MainFunction SwitchEvent.power_on
       LightRequest.power_on (Headlight.power_on Dio.Dio_Init)
       (SafetyMonitor.power_on, FLM.power_on)
     = (SafetyMonitor.power_on, FLM.power_on).
Proof.
  destruct main_functions_idle_before_init as (Hsw & Hlr & Hflm & Hhl & Hsm).
  split; [apply Hsw; reflexivity |].
  split; [apply Hlr; reflexivity |].
  split; [apply Hflm; reflexivity |].
  split; [apply Hhl; reflexivity | apply Hsm; reflexivity].
Defined.

(** ** E2E Profile 01: the check *)

Section E2ECheck.

Import E2E.

(** C8. A frame whose CRC byte differs from the CRC computed over the two
    DataID bytes and the bytes of the frame other than the CRC byte is
    answered with WrongCrc; of the check state only the status tag is
    written, so the last valid counter and every other field are what they
    were. *)
Theorem check_wrong_crc
    (config : E2E_P01ConfigType) (state : E2E_P01CheckStateType)
    (data : list Z) (length : Z) :
  length <> 0 ->
  E2E_P01_GetCRC data config <> frame_crc config data length ->
  let '(state', verdict) := E2E_P01Check config state (Some data) length in
  verdict = E2E_P01STATUS_WRONGCRC
  /\ Status state' = E2E_P01STATUS_WRONGCRC
  /\ LastValidCounter state' = LastValidCounter state
  /\ StMaxDeltaCounter state' = StMaxDeltaCounter state
  /\ WaitForFirstData state' = WaitForFirstData state
  /\ NewDataAvailable state' = NewDataAvailable state
  /\ LostData state' = LostData state
  /\ NoNewOrRepeatedDataCounter state' = NoNewOrRepeatedDataCounter state
  /\ StSyncCounter state' = StSyncCounter state.
Proof.
  intros Hlen Hcrc. unfold E2E_P01Check.
  apply Z.eqb_neq in Hlen. rewrite Hlen.
  apply Z.eqb_neq in Hcrc. rewrite Hcrc. cbn.
  repeat split.
Qed.

End E2ECheck.

(** The frame of the unit test [InvalidCRC_Detected]: a protected frame
    whose CRC byte was inverted afterwards, met by a fresh check state. *)
Lemma check_wrong_crc_witness :
  let config := SwitchEvent.SwitchEvent_InitE2E_config in
  let data := [0xC7; 0; 1; 0] in
  E2E.E2E_P01_GetCRC data config <> E2E.frame_crc config data 4
  /\ (let '(state', verdict) :=
        E2E.E2E_P01Check config E2E.E2E_P01CheckInit (Some data) 4 in
      verdict = E2E_P01STATUS_WRONGCRC
      /\ E2E.Status state' = E2E_P01STATUS_WRONGCRC
      /\ E2E.LastValidCounter state' = 0
      /\ E2E.StMaxDeltaCounter state' = 1
      /\ E2E.WaitForFirstData state' = true
      /\ E2E.NewDataAvailable state' = false
      /\ E2E.LostData state' = 0
      /\ E2E.NoNewOrRepeatedDataCounter state' = 0
      /\ E2E.StSyncCounter state' = 0).
Proof.
  intros config data. split.
  - vm_compute. lia.
  - apply (check_wrong_crc config E2E.E2E_P01CheckInit data 4).
    + lia.
    + vm_compute. lia.
Defined.

(** ** E2E supervisor: the counters *)

Section E2ESupervisor.

Import E2E Conditions.

(** C9, as the supervisor has it.  For counts within the range of their
    type, one step does the following.  If the step takes the supervisor
    from Init, Valid or Invalid to another state, both counts are zero
    afterwards.  Otherwise: a positive status (Ok, OkSomeLost, Initial)
    increments the positive count, saturating at 255, and clears the error
    count; Repeated leaves the positive count as it was and increments the
    error count, saturating at 255; any other status clears the positive
    count and increments the error count, saturating at 255. *)
Theorem sm_check_counters
    (config : E2E_SMConfigType) (state : E2E_SMCheckStateType)
    (profileStatus : E2E_P01CheckStatusType) :
  0 <= OkCount state <= 255 ->
  0 <= ErrorCount state <= 255 ->
  let state' := fst (E2E_SMCheck config state profileStatus) in
  if resets_window (SMState state) (SMState state') then
    OkCount state' = 0 /\ ErrorCount state' = 0
  else if positive_status profileStatus then
    OkCount state' = Z.min (OkCount state + 1) 255 /\ ErrorCount state' = 0
  else
    ErrorCount state' = Z.min (ErrorCount state + 1) 255
    /\ OkCount state' =
         match profileStatus with
         | E2E_P01STATUS_REPEATED => OkCount state
         | _ => 0
         end.
Proof.
  intros Hok Herr. destruct state as [ok err sm]. cbn in Hok, Herr.
  unfold E2E_SMCheck, sm_enter.
  destruct profileStatus, sm; cbn;
    repeat (case_cmp; cbn); split; try reflexivity; lia.
Qed.

End E2ESupervisor.

(** A supervisor in Valid that has seen one positive status, with the
    thresholds SwitchEvent configures. *)
Lemma sm_check_counters_witness :
  let state := {| E2E.OkCount := 1; E2E.ErrorCount := 0; E2E.SMState := E2E_SM_VALID |} in
  let state' :=
    fst (E2E.E2E_SMCheck SwitchEvent.SwitchEvent_InitE2E_smConfig state
           E2E_P01STATUS_REPEATED) in
  E2E.ErrorCount state' = 1 /\ E2E.OkCount state' = 1.
Proof.
  intros state state'.
  apply (sm_check_counters SwitchEvent.SwitchEvent_InitE2E_smConfig state
           E2E_P01STATUS_REPEATED); cbn; lia.
Defined.

(** C9 as stated fails on Repeated: the step increments the error count. *)
Lemma sm_check_repeated_counts_error :
  let state := {| E2E.OkCount := 1; E2E.ErrorCount := 0; E2E.SMState := E2E_SM_VALID |} in
  let state' :=
    fst (E2E.E2E_SMCheck SwitchEvent.SwitchEvent_InitE2E_smConfig state
           E2E_P01STATUS_REPEATED) in
  E2E.SMState state' = E2E_SM_VALID
  /\ E2E.OkCount state' = E2E.OkCount state
  /\ E2E.ErrorCount state' = E2E.ErrorCount state + 1
  /\ ~ (E2E.ErrorCount state' <= E2E.ErrorCount state).
Proof.
  vm_compute. repeat split; try reflexivity.
  intros H. apply H. reflexivity.
Qed.

(** ** SafetyMonitor: which reason is latched *)

Section SafeStateReasons.

Import SafetyMonitor Conditions.

Lemma trigger_latches reason s flm :
  inSafeState s = false ->
  latched reason (SafetyMonitor_TriggerSafeState reason (s, flm)).
Proof.
  intros Hnot. unfold SafetyMonitor_TriggerSafeState, latched.
  rewrite Hnot. cbn. repeat split.
Qed.

(** Triggering is idempotent: a second call changes nothing. *)
Lemma trigger_idempotent reason s flm :
  inSafeState s = true ->
  SafetyMonitor_TriggerSafeState reason (s, flm) = (s, flm).
Proof.
  intros Hin. unfold SafetyMonitor_TriggerSafeState. now rewrite Hin.
Qed.

Lemma CheckE2ETimeout_keeps reason sf :
  latched reason sf -> latched reason (SafetyMonitor_CheckE2ETimeout sf).
Proof.
  destruct sf as [s flm]. intros Hl. pose proof Hl as (Hin & _).
  cbn in Hin. unfold SafetyMonitor_CheckE2ETimeout.
  rewrite trigger_idempotent by exact Hin.
  destruct (e2eSmStatus s), (e2eTimeoutActive s); cbn [negb];
    try case_cmp; exact Hl.
Qed.

Lemma CheckWdgMStatus_keeps reason sf :
  latched reason sf -> latched reason (SafetyMonitor_CheckWdgMStatus sf).
Proof.
  destruct sf as [s flm]. intros Hl. pose proof Hl as (Hin & _).
  cbn in Hin. unfold SafetyMonitor_CheckWdgMStatus.
  rewrite trigger_idempotent by exact Hin.
  destruct (wdgmGlobalStatus s); exact Hl.
Qed.

Lemma CheckFTTI_keeps reason sf :
  latched reason sf -> latched reason (SafetyMonitor_CheckFTTI sf).
Proof.
  destruct sf as [s flm]. intros Hl. pose proof Hl as (Hin & _).
  cbn in Hin. unfold SafetyMonitor_CheckFTTI.
  rewrite trigger_idempotent by exact Hin.
  destruct (fttiActive s); cbn [negb]; try case_cmp; exact Hl.
Qed.

(** The two last steps of a tick write the global status and the safe
    command only. *)
Lemma finish_keeps reason s flm :
  latched reason (s, flm) ->
  let s1 := SafetyMonitor_UpdateGlobalStatus s in
  let s2 := if inSafeState s1 then SafetyMonitor_DetermineSafeStateCommand s1 else s1 in
  latched reason (s2, flm).
Proof.
  intros (Hin & Hreason & Hflm). cbn in Hin, Hreason.
  unfold SafetyMonitor_UpdateGlobalStatus, SafetyMonitor_DetermineSafeStateCommand.
  rewrite Hin. cbn. rewrite Hin.
  destruct (isDaytime s); cbn; repeat split; tauto.
Qed.

(** What the fault aggregation sees after the component status was read. *)
Lemma count_faults_read sw lr hl flm g s :
  count_faults
    (SafetyMonitor_ReadComponentStatus sw lr flm hl
       (SafetyMonitor_SimWdgmEnabled g) (SafetyMonitor_SimWdgmStatus g) s)
  = fault_count sw lr hl g.
Proof.
  unfold count_faults, fault_count, wdgm_status, SafetyMonitor_ReadComponentStatus.
  destruct (AmbientLightLevel.isValid (LightRequest.LightRequest_GetAmbientLight lr));
    destruct (SafetyMonitor_SimWdgmEnabled g); cbn;
    destruct (LightSwitchStatus.isValid (SwitchEvent.SwitchEvent_GetLightRequest sw));
    destruct (Headlight.Headlight_GetFaultStatus hl);
    try destruct (SafetyMonitor_SimWdgmStatus g); reflexivity.
Qed.

(** Reading the component status leaves the latch and the E2E timer alone
    and stores the supervisor and watchdog statuses it reads. *)
Lemma read_status_fields sw lr hl flm g s :
  let s' :=
    SafetyMonitor_ReadComponentStatus sw lr flm hl
      (SafetyMonitor_SimWdgmEnabled g) (SafetyMonitor_SimWdgmStatus g) s in
  inSafeState s' = inSafeState s
  /\ e2eSmStatus s' = SwitchEvent.SwitchEvent_GetE2ESmStatus sw
  /\ e2eTimeoutActive s' = e2eTimeoutActive s
  /\ e2eFailureStartTime s' = e2eFailureStartTime s
  /\ currentTime s' = currentTime s
  /\ wdgmGlobalStatus s' = wdgm_status g.
Proof.
  unfold SafetyMonitor_ReadComponentStatus, wdgm_status.
  destruct (AmbientLightLevel.isValid (LightRequest.LightRequest_GetAmbientLight lr));
    destruct (SafetyMonitor_SimWdgmEnabled g); cbn; repeat split.
Qed.

(** Below the fault limit the aggregation leaves the latch, the E2E timer
    and the statuses alone. *)
Lemma aggregate_below_limit s flm :
  count_faults s < SAFETYMONITOR_MAX_FAULT_COUNT ->
  let sf' := SafetyMonitor_AggregrateFaults (s, flm) in
  snd sf' = flm
  /\ inSafeState (fst sf') = inSafeState s
  /\ e2eSmStatus (fst sf') = e2eSmStatus s
  /\ e2eTimeoutActive (fst sf') = e2eTimeoutActive s
  /\ e2eFailureStartTime (fst sf') = e2eFailureStartTime s
  /\ currentTime (fst sf') = currentTime s
  /\ wdgmGlobalStatus (fst sf') = wdgmGlobalStatus s.
Proof.
  intros Hlow. unfold SafetyMonitor_AggregrateFaults.
  destruct (Z.leb_spec SAFETYMONITOR_MAX_FAULT_COUNT (count_faults s)); [lia |].
  destruct ((0 <? count_faults s) && (totalFaultCount s =? 0));
    destruct (count_faults s =? 0); cbn; repeat split.
Qed.

Lemma aggregate_at_limit s flm :
  SAFETYMONITOR_MAX_FAULT_COUNT <= count_faults s ->
  inSafeState s = false ->
  latched SAFE_STATE_REASON_MULTI_FAULT (SafetyMonitor_AggregrateFaults (s, flm)).
Proof.
  intros Hhigh Hnot. unfold SafetyMonitor_AggregrateFaults.
  destruct (Z.leb_spec SAFETYMONITOR_MAX_FAULT_COUNT (count_faults s)); [| lia].
  apply trigger_latches.
  destruct ((0 <? count_faults s) && (totalFaultCount s =? 0));
    destruct (count_faults s =? 0); cbn; exact Hnot.
Qed.

(** C7, as the monitor has it.  In a tick of an initialised monitor that
    has not latched safe state yet, the immediate triggers are tried in the
    order MultiFault, E2eFailure, WdgmFailure, and the first that holds
    latches safe state with its reason and raises the external trigger of
    the FLM application with the same reason.  In particular, when the
    watchdog condition and the E2E condition both hold and fewer than three
    faults are active, the latched reason is E2eFailure. *)
Theorem safe_state_reason_priority
    (sw : SwitchEvent.Globals) (lr : LightRequest.Globals) (hl : Headlight.Globals)
    (g : SafetyMonitor.Globals) (flm : FLM.Globals) :
  isInitialized (SafetyMonitor_State g) = true ->
  inSafeState (SafetyMonitor_State g) = false ->
  let gf' := SafetyMonitor_MainFunction sw lr hl (g, flm) in
  let now reason := latched reason (SafetyMonitor_State (fst gf'), snd gf') in
  (multi_fault_condition sw lr hl g = true -> now SAFE_STATE_REASON_MULTI_FAULT)
  /\ (multi_fault_condition sw lr hl g = false ->
      e2e_condition sw g = true -> now SAFE_STATE_REASON_E2E_FAILURE)
  /\ (multi_fault_condition sw lr hl g = false ->
      e2e_condition sw g = false ->
      wdgm_condition g = true -> now SAFE_STATE_REASON_WDGM_FAILURE).
Proof.
  intros Hinit Hnot gf' now.
  (* the state after the component status was read *)
  set (s0 := set_currentTime (SafetyMonitor_SystemTime g) (SafetyMonitor_State g)).
  set (s1 := SafetyMonitor_ReadComponentStatus sw lr flm hl
               (SafetyMonitor_SimWdgmEnabled g) (SafetyMonitor_SimWdgmStatus g) s0).
  assert (Hgf : (SafetyMonitor_State (fst gf'), snd gf')
                = (let '(s, f) :=
                     SafetyMonitor_CheckFTTI
                       (SafetyMonitor_CheckWdgMStatus
                          (SafetyMonitor_CheckE2ETimeout
                             (SafetyMonitor_AggregrateFaults (s1, flm)))) in
                   let s := SafetyMonitor_UpdateGlobalStatus s in
                   (if inSafeState s
                    then SafetyMonitor_DetermineSafeStateCommand s else s, f))).
  { subst gf'. unfold SafetyMonitor_MainFunction. rewrite Hinit. cbn [negb].
    fold s0. fold s1.
    destruct (SafetyMonitor_CheckFTTI _) as [s f]. reflexivity. }
  assert (Hfinish : forall reason,
             latched reason
               (SafetyMonitor_CheckFTTI
                  (SafetyMonitor_CheckWdgMStatus
                     (SafetyMonitor_CheckE2ETimeout
                        (SafetyMonitor_AggregrateFaults (s1, flm))))) ->
             now reason).
  { intros reason Hl. subst now. cbn beta. rewrite Hgf.
    destruct (SafetyMonitor_CheckFTTI _) as [s f]. now apply finish_keeps. }
  pose proof (count_faults_read sw lr hl flm g s0) as Hcount. fold s1 in Hcount.
  pose proof (read_status_fields sw lr hl flm g s0) as Hread.
  cbn zeta in Hread. fold s1 in Hread.
  destruct Hread as (Hin1 & Hsm1 & Hact1 & Hstart1 & Htime1 & Hwd1).
  assert (Hnot1 : inSafeState s1 = false) by (rewrite Hin1; exact Hnot).
  cbn [currentTime e2eTimeoutActive e2eFailureStartTime set_currentTime s0]
    in Hact1, Hstart1, Htime1.
  clearbody s1.
  unfold multi_fault_condition. rewrite <- Hcount.
  split; [| split].
  - (* MultiFault *)
    intros Hmulti. apply Z.leb_le in Hmulti. apply Hfinish.
    apply CheckFTTI_keeps, CheckWdgMStatus_keeps, CheckE2ETimeout_keeps.
    now apply aggregate_at_limit.
  - (* E2eFailure before WdgmFailure *)
    intros Hmulti He2e. apply Z.leb_gt in Hmulti. apply Hfinish.
    apply CheckFTTI_keeps, CheckWdgMStatus_keeps.
    pose proof (aggregate_below_limit s1 flm Hmulti) as Hagg. cbn zeta in Hagg.
    destruct (SafetyMonitor_AggregrateFaults (s1, flm)) as [s2 f2]. cbn in Hagg.
    destruct Hagg as (-> & Hin2 & Hsm2 & Hact2 & Hstart2 & Htime2 & Hwd2).
    unfold SafetyMonitor_CheckE2ETimeout.
    rewrite Hsm2, Hsm1, Hact2, Hact1, Hstart2, Hstart1, Htime2, Htime1.
    unfold e2e_condition in He2e.
    destruct (SwitchEvent.SwitchEvent_GetE2ESmStatus sw); try discriminate;
      apply andb_true_iff in He2e as [-> ->]; cbn [negb];
      apply trigger_latches; congruence.
  - (* WdgmFailure last *)
    intros Hmulti He2e Hwd. apply Z.leb_gt in Hmulti. apply Hfinish.
    apply CheckFTTI_keeps.
    pose proof (aggregate_below_limit s1 flm Hmulti) as Hagg. cbn zeta in Hagg.
    destruct (SafetyMonitor_AggregrateFaults (s1, flm)) as [s2 f2]. cbn in Hagg.
    destruct Hagg as (-> & Hin2 & Hsm2 & Hact2 & Hstart2 & Htime2 & Hwd2).
    assert (Hnot3 :
              inSafeState (fst (SafetyMonitor_CheckE2ETimeout (s2, flm))) = false
              /\ wdgmGlobalStatus (fst (SafetyMonitor_CheckE2ETimeout (s2, flm)))
                 = wdgm_status g
              /\ snd (SafetyMonitor_CheckE2ETimeout (s2, flm)) = flm).
    { unfold SafetyMonitor_CheckE2ETimeout.
      rewrite Hsm2, Hsm1, Hact2, Hact1, Hstart2, Hstart1, Htime2, Htime1.
      unfold e2e_condition in He2e.
      destruct (SwitchEvent.SwitchEvent_GetE2ESmStatus sw);
        try (cbn; repeat split; congruence);
        destruct (e2eTimeoutActive (SafetyMonitor_State g)); cbn [negb andb] in *;
        try (cbn; repeat split; congruence);
        rewrite He2e; cbn; repeat split; congruence. }
    destruct (SafetyMonitor_CheckE2ETimeout (s2, flm)) as [s3 f3]. cbn in Hnot3.
    destruct Hnot3 as (Hin3 & Hwd3 & ->).
    unfold SafetyMonitor_CheckWdgMStatus. rewrite Hwd3.
    unfold wdgm_condition in Hwd.
    destruct (wdgm_status g); try discriminate; now apply trigger_latches.
Qed.

End SafeStateReasons.

(** The watchdog fails in the tick in which the E2E timeout elapses, with
    two active faults: the monitor latches E2eFailure. *)
Lemma safe_state_reason_priority_witness :
  Conditions.latched SAFE_STATE_REASON_E2E_FAILURE
    (SafetyMonitor.SafetyMonitor_State
       (fst (SafetyMonitor.SafetyMonitor_MainFunction Cases.sw_no_frames
               Cases.lr_valid Cases.hl_ok Cases.monitor_wdgm_failed)),
     snd (SafetyMonitor.SafetyMonitor_MainFunction Cases.sw_no_frames
            Cases.lr_valid Cases.hl_ok Cases.monitor_wdgm_failed)).
Proof.
  pose proof (safe_state_reason_priority Cases.sw_no_frames Cases.lr_valid
                Cases.hl_ok (fst Cases.monitor_wdgm_failed)
                (snd Cases.monitor_wdgm_failed)) as H.
  cbn zeta in H.
  destruct H as (_ & H & _).
  - vm_compute. reflexivity.
  - vm_compute. reflexivity.
  - apply H.
    + vm_compute. reflexivity.
    + vm_compute. reflexivity.
Defined.

(** C7 as stated fails: with the watchdog condition and the E2E condition
    both holding in one tick and two active faults, the latched reason is
    E2eFailure, not WdgmFailure. *)
Lemma wdgm_and_e2e_latch_e2e :
  let g := fst Cases.monitor_wdgm_failed in
  let gf' :=
    SafetyMonitor.SafetyMonitor_MainFunction Cases.sw_no_frames Cases.lr_valid
      Cases.hl_ok Cases.monitor_wdgm_failed in
  SafetyMonitor.inSafeState (SafetyMonitor.SafetyMonitor_State g) = false
  /\ Conditions.fault_count Cases.sw_no_frames Cases.lr_valid Cases.hl_ok g = 2
  /\ Conditions.wdgm_condition g = true
  /\ Conditions.e2e_condition Cases.sw_no_frames g = true
  /\ SafetyMonitor.safeStateReason (SafetyMonitor.SafetyMonitor_State (fst gf'))
     = SAFE_STATE_REASON_E2E_FAILURE
  /\ SafetyMonitor.safeStateReason (SafetyMonitor.SafetyMonitor_State (fst gf'))
     <> SAFE_STATE_REASON_WDGM_FAILURE.
Proof.
  vm_compute. repeat split; discriminate.
Qed.

(** ** LightRequest: when the ambient signal is valid *)

Section AmbientValidity.

Import LightRequest Conditions.

(** Sampling and filtering leave the signal status, the validity flag and
    the plausibility flag alone. *)
Lemma sampling_keeps_status simEnabled simValue adc time s :
  let s' :=
    LightRequest_ApplyFilter
      (LightRequest_ReadAdc simEnabled simValue adc (set_currentTimestamp time s)) in
  signalStatus s' = signalStatus s
  /\ AmbientLightLevel.isValid (ambientLight s') = AmbientLightLevel.isValid (ambientLight s).
Proof.
  unfold LightRequest_ApplyFilter, LightRequest_ReadAdc.
  destruct simEnabled; [| destruct adc]; cbn; case_cmp; cbn; split; reflexivity.
Qed.

Lemma CheckOpenCircuit_in_range s :
  FLM_AMBIENT_OPEN_CIRCUIT <= adcFilteredValue s -> LightRequest_CheckOpenCircuit s = s.
Proof.
  intros H. unfold LightRequest_CheckOpenCircuit.
  destruct (Z.ltb_spec (adcFilteredValue s) FLM_AMBIENT_OPEN_CIRCUIT); [lia | reflexivity].
Qed.

Lemma CheckShortCircuit_in_range s :
  adcFilteredValue s <= FLM_AMBIENT_SHORT_CIRCUIT -> LightRequest_CheckShortCircuit s = s.
Proof.
  intros H. unfold LightRequest_CheckShortCircuit.
  destruct (Z.ltb_spec FLM_AMBIENT_SHORT_CIRCUIT (adcFilteredValue s)); [lia | reflexivity].
Qed.

Lemma CheckOpenCircuit_screen : screen_like LightRequest_CheckOpenCircuit.
Proof.
  intros s. unfold LightRequest_CheckOpenCircuit.
  case_cmp; cbn; repeat split; auto.
Qed.

Lemma CheckShortCircuit_screen : screen_like LightRequest_CheckShortCircuit.
Proof.
  intros s. unfold LightRequest_CheckShortCircuit.
  case_cmp; cbn; repeat split; auto.
Qed.

Lemma CheckPlausibility_screen : screen_like LightRequest_CheckPlausibility.
Proof.
  intros s. unfold LightRequest_CheckPlausibility. cbn.
  repeat (case_cmp; cbn); repeat split; auto.
Qed.

(** Unless the plausibility screen raises its fault in this tick, which
    leaves the plausibility flag set, it keeps the status and the validity
    flag. *)
Lemma CheckPlausibility_quiet s :
  plausibilityFault (LightRequest_CheckPlausibility s) = false ->
  signalStatus (LightRequest_CheckPlausibility s) = signalStatus s
  /\ AmbientLightLevel.isValid (ambientLight (LightRequest_CheckPlausibility s))
     = AmbientLightLevel.isValid (ambientLight s).
Proof.
  unfold LightRequest_CheckPlausibility. cbn.
  repeat (case_cmp; cbn); intros Hquiet; try discriminate; split; reflexivity.
Qed.

Lemma UpdateOutput_fields s :
  let s' := LightRequest_UpdateOutput s in
  adcFilteredValue s' = adcFilteredValue s
  /\ adcSampleCount s' = adcSampleCount s
  /\ plausibilityFault s' = plausibilityFault s
  /\ (fault_status (signalStatus s) = true ->
      signalStatus s' = signalStatus s
      /\ AmbientLightLevel.isValid (ambientLight s')
         = AmbientLightLevel.isValid (ambientLight s))
  /\ (fault_status (signalStatus s) = false ->
      FLM_ADC_SAMPLES <= adcSampleCount s ->
      signalStatus s' = SIGNAL_STATUS_VALID
      /\ AmbientLightLevel.isValid (ambientLight s') = true).
Proof.
  unfold LightRequest_UpdateOutput.
  destruct (signalStatus s) eqn:Hst; cbn; try case_cmp; cbn;
    repeat split; intros; try discriminate; try reflexivity; try lia; auto.
Qed.

(** The status and the validity flag at the end of a tick of an
    initialised component, by the status the tick started with. *)
Lemma MainFunction_status (adc : option Z) (g : Globals) :
  isInitialized (LightRequest_State g) = true ->
  let s := LightRequest_State g in
  let s' := LightRequest_State (LightRequest_MainFunction adc g) in
  (fault_status (signalStatus s) = false ->
   FLM_AMBIENT_OPEN_CIRCUIT <= adcFilteredValue s' <= FLM_AMBIENT_SHORT_CIRCUIT ->
   plausibilityFault s' = false ->
   FLM_ADC_SAMPLES <= adcSampleCount s' ->
   signalStatus s' = SIGNAL_STATUS_VALID
   /\ AmbientLightLevel.isValid (ambientLight s') = true)
  /\ (fault_status (signalStatus s) = true ->
      fault_status (signalStatus s') = true
      /\ (AmbientLightLevel.isValid (ambientLight s) = false ->
          AmbientLightLevel.isValid (ambientLight s') = false)).
Proof.
  intros Hinit s s'.
  set (s1 := LightRequest_ApplyFilter
               (LightRequest_ReadAdc (LightRequest_SimAdcEnabled g)
                  (LightRequest_SimAdcValue g) adc
                  (set_currentTimestamp (LightRequest_SystemTime g) s))).
  assert (Hs' : s' = LightRequest_UpdateOutput
                       (LightRequest_CheckPlausibility
                          (LightRequest_CheckShortCircuit
                             (LightRequest_CheckOpenCircuit s1)))).
  { subst s' s1 s. unfold LightRequest_MainFunction. rewrite Hinit. reflexivity. }
  destruct (sampling_keeps_status (LightRequest_SimAdcEnabled g)
              (LightRequest_SimAdcValue g) adc (LightRequest_SystemTime g) s)
    as (Hst1 & Hval1).
  fold s1 in Hst1, Hval1. clearbody s1 s'. subst s'.
  set (s2 := LightRequest_CheckOpenCircuit s1).
  set (s3 := LightRequest_CheckShortCircuit s2).
  set (s4 := LightRequest_CheckPlausibility s3).
  destruct (CheckOpenCircuit_screen s1) as (Hf2 & Hc2 & Hfs2 & Hv2). fold s2 in Hf2, Hc2, Hfs2, Hv2.
  destruct (CheckShortCircuit_screen s2) as (Hf3 & Hc3 & Hfs3 & Hv3). fold s3 in Hf3, Hc3, Hfs3, Hv3.
  destruct (CheckPlausibility_screen s3) as (Hf4 & Hc4 & Hfs4 & Hv4). fold s4 in Hf4, Hc4, Hfs4, Hv4.
  destruct (UpdateOutput_fields s4) as (Hf5 & Hc5 & Hp5 & Hkeep & Hvalid).
  split.
  - intros Hclean Hrange Hplaus Hcount.
    rewrite Hf5, Hf4, Hf3, Hf2 in Hrange. rewrite Hp5 in Hplaus. rewrite Hc5 in Hcount.
    assert (Hs2 : s2 = s1) by (apply CheckOpenCircuit_in_range; lia).
    assert (Hs3 : s3 = s1).
    { subst s3. rewrite Hs2. apply CheckShortCircuit_in_range. lia. }
    destruct (CheckPlausibility_quiet s3 Hplaus) as (Hst4 & _). fold s4 in Hst4.
    apply Hvalid; [| exact Hcount].
    rewrite Hst4, Hs3, Hst1. exact Hclean.
  - intros Hfault.
    assert (Hfault4 : fault_status (signalStatus s4) = true).
    { apply Hfs4, Hfs3, Hfs2. rewrite Hst1. exact Hfault. }
    destruct (Hkeep Hfault4) as (Hst5 & Hval5). split.
    + rewrite Hst5. exact Hfault4.
    + intros Hinvalid. rewrite Hval5. apply Hv4, Hv3, Hv2. rewrite Hval1. exact Hinvalid.
Qed.

(** A fault status carried over from the previous tick is kept as a fault
    status, and a cleared validity flag stays cleared with it. *)
Lemma fault_status_is_kept (adc : option Z) (g : Globals) :
  isInitialized (LightRequest_State g) = true ->
  fault_status (signalStatus (LightRequest_State g)) = true ->
  let s' := LightRequest_State (LightRequest_MainFunction adc g) in
  fault_status (signalStatus s') = true
  /\ (AmbientLightLevel.isValid (ambientLight (LightRequest_State g)) = false ->
      AmbientLightLevel.isValid (ambientLight s') = false).
Proof.
  intros Hinit Hfault. now apply (MainFunction_status adc g Hinit).
Qed.

(** Where the tick starts without a fault status the signal becomes valid
    as soon as the filtered value is in [100, 3995], the plausibility flag
    is clear and at least [AdcSamples] samples have been accumulated. *)
Lemma ambient_valid_without_fault_status (adc : option Z) (g : Globals) :
  isInitialized (LightRequest_State g) = true ->
  fault_status (signalStatus (LightRequest_State g)) = false ->
  let s' := LightRequest_State (LightRequest_MainFunction adc g) in
  FLM_AMBIENT_OPEN_CIRCUIT <= adcFilteredValue s' <= FLM_AMBIENT_SHORT_CIRCUIT ->
  plausibilityFault s' = false ->
  FLM_ADC_SAMPLES <= adcSampleCount s' ->
  signalStatus s' = SIGNAL_STATUS_VALID
  /\ AmbientLightLevel.isValid (ambientLight s') = true.
Proof.
  intros Hinit Hclean s' Hrange Hplaus Hcount.
  destruct (MainFunction_status adc g Hinit) as (Hvalid & _).
  now apply Hvalid.
Qed.

(** C6 on the code.  Once the ambient signal carries one of the fault
    statuses OpenCircuit, ShortCircuit, Plausibility (each is raised
    together with a cleared validity flag), no sequence of ticks clears
    it, whatever is read: after every further tick the status is still a
    fault status, never Valid, and the reading is still invalid - also
    when the filtered value is back in [100, 3995], the plausibility flag
    has been dropped again and four samples are accumulated.
    [LightRequest_UpdateOutput] tests the stored status, and no step of
    the tick resets it. *)
Theorem ambient_fault_status_never_clears (g : Globals) (adcs : list (option Z)) :
  fault_status (signalStatus (LightRequest_State g)) = true ->
  AmbientLightLevel.isValid (ambientLight (LightRequest_State g)) = false ->
  let s' := LightRequest_State (Runs.lr_run g adcs) in
  fault_status (signalStatus s') = true
  /\ signalStatus s' <> SIGNAL_STATUS_VALID
  /\ AmbientLightLevel.isValid (ambientLight s') = false.
Proof.
  intros Hfault Hinvalid s'.
  assert (Hrun : fault_status (signalStatus s') = true
                 /\ AmbientLightLevel.isValid (ambientLight s') = false).
  { subst s'. unfold Runs.lr_run. revert g Hfault Hinvalid.
    induction adcs as [| adc adcs IH]; intros g Hfault Hinvalid; [now split |].
    cbn [fold_left]. apply IH.
    - destruct (isInitialized (LightRequest_State g)) eqn:Hinit.
      + now apply (fault_status_is_kept adc g Hinit Hfault).
      + unfold LightRequest_MainFunction. rewrite Hinit. exact Hfault.
    - destruct (isInitialized (LightRequest_State g)) eqn:Hinit.
      + now apply (fault_status_is_kept adc g Hinit Hfault).
      + unfold LightRequest_MainFunction. rewrite Hinit. exact Hinvalid. }
  destruct Hrun as [Hf Hv]. split; [exact Hf |]. split; [| exact Hv].
  intros Heq. rewrite Heq in Hf. discriminate.
Qed.

End AmbientValidity.

(** One tick at 50 raises OpenCircuit; nine ticks at 2000 follow. *)
Lemma ambient_fault_status_never_clears_witness :
  let s' := LightRequest.LightRequest_State
              (Runs.lr_run Cases.lr_open_circuit (replicate 9 None)) in
  LightRequest.signalStatus (LightRequest.LightRequest_State Cases.lr_open_circuit)
  = SIGNAL_STATUS_OPEN_CIRCUIT
  /\ LightRequest.signalStatus s' <> SIGNAL_STATUS_VALID
  /\ AmbientLightLevel.isValid (LightRequest.ambientLight s') = false.
Proof.
  pose proof (ambient_fault_status_never_clears Cases.lr_open_circuit
                (replicate 9 None)) as H.
  cbv zeta in H. destruct H as (_ & Hst & Hval).
  - vm_compute. reflexivity.
  - vm_compute. reflexivity.
  - split; [vm_compute; reflexivity |]. split; [exact Hst | exact Hval].
Defined.

(** The same run evaluated: one tick at 50 raised OpenCircuit;
    after nine ticks at 2000 the filtered value is 2000, no plausibility
    fault is raised and four samples are accumulated, yet the status is
    still OpenCircuit and the reading invalid. *)
Lemma open_circuit_does_not_clear :
  let s' :=
    LightRequest.LightRequest_State
      (LightRequest.LightRequest_MainFunction None Cases.lr_recovered) in
  LightRequest.adcFilteredValue s' = 2000
  /\ LightRequest.plausibilityFault s' = false
  /\ LightRequest.adcSampleCount s' = 4
  /\ LightRequest.signalStatus s' = SIGNAL_STATUS_OPEN_CIRCUIT
  /\ AmbientLightLevel.isValid (LightRequest.ambientLight s') = false.
Proof.
  vm_compute. repeat split.
Qed.

(** ** Headlight: the output lines and the short-circuit check *)

Section ShortCircuit.

Import Headlight Conditions.

(** A write keeps every channel's direction and the number of levels. *)
Lemma Dio_write_is_output ch lvl d ch' :
  is_output (Dio.Dio_WriteChannel ch lvl d) ch' = is_output d ch'.
Proof.
  unfold Dio.Dio_WriteChannel, is_output, wr.
  destruct (Dio.DIO_NUM_CHANNELS <=? ch); [reflexivity |].
  destruct (default false (Dio.Dio_ChannelDirection d !! Z.to_nat ch)); [| reflexivity].
  cbn. now rewrite length_insert.
Qed.

(** A write to an output channel sets its level. *)
Lemma Dio_write_level ch lvl d :
  0 <= ch < Dio.DIO_NUM_CHANNELS ->
  is_output d ch = true ->
  Dio.level (Dio.Dio_WriteChannel ch lvl d) ch
  = if negb (lvl =? Dio.STD_LOW) then Dio.STD_HIGH else Dio.STD_LOW.
Proof.
  intros Hch Hout. unfold is_output in Hout.
  apply andb_true_iff in Hout as [Hdir Hlen]. apply Z.gtb_lt in Hlen.
  unfold Dio.Dio_WriteChannel, Dio.level, rd, wr.
  destruct (Z.leb_spec Dio.DIO_NUM_CHANNELS ch); [lia |].
  rewrite Hdir. cbn.
  rewrite list_lookup_insert_eq by lia. reflexivity.
Qed.

(** A write leaves the level of every other channel alone. *)
Lemma Dio_write_other ch lvl d ch' :
  Z.to_nat ch <> Z.to_nat ch' ->
  Dio.level (Dio.Dio_WriteChannel ch lvl d) ch' = Dio.level d ch'.
Proof.
  intros Hne. unfold Dio.Dio_WriteChannel, Dio.level, rd, wr.
  destruct (Dio.DIO_NUM_CHANNELS <=? ch); [reflexivity |].
  destruct (default false (Dio.Dio_ChannelDirection d !! Z.to_nat ch)); [| reflexivity].
  cbn. now rewrite list_lookup_insert_ne.
Qed.

Lemma line_level_norm b :
  (if negb (line_level b =? Dio.STD_LOW) then Dio.STD_HIGH else Dio.STD_LOW)
  = line_level b.
Proof. destruct b; reflexivity. Qed.

(** Writing both lines of a driver whose headlight channels are outputs
    sets their levels and keeps them outputs. *)
Lemma write_lines_levels d low high :
  drives_headlights d ->
  let d' := write_lines (line_level low) (line_level high) d in
  Dio.level d' HEADLIGHT_DIO_LOW_BEAM = line_level low
  /\ Dio.level d' HEADLIGHT_DIO_HIGH_BEAM = line_level high
  /\ drives_headlights d'.
Proof.
  intros [Hlow Hhigh]. unfold write_lines, drives_headlights.
  rewrite !Dio_write_is_output.
  rewrite Dio_write_other by (vm_compute; lia).
  rewrite !Dio_write_level, !line_level_norm;
    rewrite ?Dio_write_is_output; try (vm_compute; intuition congruence); auto.
Qed.

Lemma SetOutputs_table s d :
  let '(s', d') := Headlight_SetOutputs (s, d) in
  lowBeamOutput s' = low_line (requestedCommand s)
  /\ highBeamOutput s' = high_line (requestedCommand s)
  /\ requestedCommand s' = requestedCommand s
  /\ shortCircuitCounter s' = shortCircuitCounter s
  /\ faultConfirmed s' = faultConfirmed s
  /\ d' = write_lines (line_level (low_line (requestedCommand s)))
            (line_level (high_line (requestedCommand s))) d.
Proof.
  unfold Headlight_SetOutputs.
  destruct (requestedCommand s) eqn:Hcmd; cbn; rewrite Hcmd;
    destruct (currentCommand s); cbn; repeat split; assumption.
Qed.

Lemma ReadFeedback_keeps simEnabled simCurrent adc :
  keeps_outputs (Headlight_ReadFeedback simEnabled simCurrent adc).
Proof.
  intros s. unfold Headlight_ReadFeedback.
  destruct simEnabled; [| destruct adc]; cbn; repeat split; auto.
Qed.

Lemma CheckOpenLoad_keeps : keeps_outputs Headlight_CheckOpenLoad.
Proof.
  intros s. unfold Headlight_CheckOpenLoad, Headlight_IsOutputCommanded.
  destruct (HeadlightCommand_eqb (requestedCommand s) HEADLIGHT_CMD_OFF); cbn;
    repeat (case_cmp; cbn); repeat split; auto.
Qed.

(** The short-circuit check: at or above the confirmation count it has
    seen an over-current, cut both outputs and confirmed the fault Short;
    below it, it left outputs and driver alone. *)
Lemma CheckShortCircuit_cases s d :
  let '(s', d') := Headlight_CheckShortCircuit (s, d) in
  requestedCommand s' = requestedCommand s
  /\ feedbackCurrent s' = feedbackCurrent s
  /\ (faultConfirmed s = true -> faultConfirmed s' = true)
  /\ (if HEADLIGHT_FAULT_CONFIRM_CYCLES <=? shortCircuitCounter s' then
        FLM_HEADLIGHT_MAX_CURRENT_MA < feedbackCurrent s
        /\ lowBeamOutput s' = false /\ highBeamOutput s' = false
        /\ faultStatus s' = HEADLIGHT_FAULT_SHORT
        /\ faultConfirmed s' = true
        /\ d' = write_lines Dio.STD_LOW Dio.STD_LOW d
      else
        lowBeamOutput s' = lowBeamOutput s
        /\ highBeamOutput s' = highBeamOutput s
        /\ d' = d).
Proof.
  unfold Headlight_CheckShortCircuit.
  destruct (Z.ltb_spec FLM_HEADLIGHT_MAX_CURRENT_MA (feedbackCurrent s)) as [Hover | Hfine].
  - cbn.
    destruct (Z.leb_spec HEADLIGHT_FAULT_CONFIRM_CYCLES
                (wrap8 (shortCircuitCounter s + 1))) as [Hconf | Hlow]; cbn.
    + destruct (Z.leb_spec HEADLIGHT_FAULT_CONFIRM_CYCLES
                  (wrap8 (shortCircuitCounter s + 1))); [| lia].
      repeat split; auto.
    + destruct (Z.leb_spec HEADLIGHT_FAULT_CONFIRM_CYCLES
                  (wrap8 (shortCircuitCounter s + 1))); [lia |].
      repeat split; auto.
  - cbn. repeat split; auto.
Qed.

Lemma UpdateFaultStatus_fields s :
  let s' := Headlight_UpdateFaultStatus s in
  lowBeamOutput s' = lowBeamOutput s
  /\ highBeamOutput s' = highBeamOutput s
  /\ requestedCommand s' = requestedCommand s
  /\ shortCircuitCounter s' = shortCircuitCounter s
  /\ feedbackCurrent s' = feedbackCurrent s
  /\ faultConfirmed s' = faultConfirmed s
  /\ (faultConfirmed s = true -> faultStatus s' = faultStatus s).
Proof.
  unfold Headlight_UpdateFaultStatus.
  destruct ((openLoadCounter s =? 0) && (shortCircuitCounter s =? 0));
    destruct (faultConfirmed s) eqn:Hconf; cbn; repeat split; congruence.
Qed.

(** The state and the driver at the end of a tick, step by step. *)
Lemma MainFunction_steps flm adc g :
  isInitialized (Headlight_State g) = true ->
  let s0 :=
    set_requestedCommand (FLM.FLM_GetHeadlightCommand flm)
      (set_currentTime (Headlight_SystemTime g) (Headlight_State g)) in
  let sd1 := Headlight_SetOutputs (s0, dio g) in
  let s3 :=
    Headlight_CheckOpenLoad
      (Headlight_ReadFeedback (Headlight_SimCurrentEnabled g)
         (Headlight_SimCurrent g) adc (fst sd1)) in
  let sd4 := Headlight_CheckShortCircuit (s3, snd sd1) in
  let s5 := Headlight_UpdateFaultStatus (fst sd4) in
  Headlight_State (Headlight_MainFunction flm adc g)
    = set_currentCommand (requestedCommand s5) s5
  /\ dio (Headlight_MainFunction flm adc g) = snd sd4.
Proof.
  intros Hinit. unfold Headlight_MainFunction. rewrite Hinit. cbn [negb].
  destruct (Headlight_SetOutputs _) as [s1 d1]. cbn [fst snd].
  destruct (Headlight_CheckShortCircuit _) as [s4 d4]. cbn. split; reflexivity.
Qed.

(** A confirmed fault stays confirmed through a tick. *)
Lemma MainFunction_keeps_confirmed flm adc g :
  faultConfirmed (Headlight_State g) = true ->
  faultConfirmed (Headlight_State (Headlight_MainFunction flm adc g)) = true.
Proof.
  intros Hconf.
  destruct (isInitialized (Headlight_State g)) eqn:Hinit.
  - destruct (MainFunction_steps flm adc g Hinit) as (Hs & _).
    cbn zeta in Hs. rewrite Hs. clear Hs.
    set (s0 := set_requestedCommand (FLM.FLM_GetHeadlightCommand flm)
                 (set_currentTime (Headlight_SystemTime g) (Headlight_State g))).
    assert (Hc0 : faultConfirmed s0 = true) by exact Hconf.
    clearbody s0.
    pose proof (SetOutputs_table s0 (dio g)) as H1.
    destruct (Headlight_SetOutputs (s0, dio g)) as [s1 d1]. cbn [fst snd].
    destruct H1 as (_ & _ & _ & _ & Hc1 & _).
    pose proof (CheckShortCircuit_cases
                  (Headlight_CheckOpenLoad
                     (Headlight_ReadFeedback (Headlight_SimCurrentEnabled g)
                        (Headlight_SimCurrent g) adc s1)) d1) as H4.
    destruct (Headlight_CheckShortCircuit _) as [s4 d4]. cbn [fst snd].
    destruct H4 as (_ & _ & Hc4 & _).
    destruct (UpdateFaultStatus_fields s4) as (_ & _ & _ & _ & _ & Hc5 & _).
    cbn [faultConfirmed set_currentCommand]. rewrite Hc5.
    apply Hc4. apply CheckOpenLoad_keeps. apply ReadFeedback_keeps. congruence.
  - unfold Headlight_MainFunction. rewrite Hinit. exact Hconf.
Qed.

Lemma hl_run_keeps_confirmed g ticks :
  faultConfirmed (Headlight_State g) = true ->
  faultConfirmed (Headlight_State (Schedule.hl_run g ticks)) = true.
Proof.
  unfold Schedule.hl_run. revert g.
  induction ticks as [| t ticks IH]; intros g Hconf; [exact Hconf |].
  cbn [fold_left]. apply IH. unfold Schedule.hl_step.
  apply MainFunction_keeps_confirmed.
  destruct (Schedule.hl_sim t); exact Hconf.
Qed.

(** The outputs at the end of a tick of an initialised driver whose two
    headlight channels are outputs: cut with the fault Short confirmed when
    the short-circuit counter is at or above the confirmation count, as
    the output table has them for the requested command otherwise. *)
Lemma MainFunction_outputs
    (flm : FLM.Globals) (adc : option Z) (g : Globals) :
  isInitialized (Headlight_State g) = true ->
  drives_headlights (dio g) ->
  let g' := Headlight_MainFunction flm adc g in
  let s' := Headlight_State g' in
  let cmd := FLM.FLM_GetHeadlightCommand flm in
  if HEADLIGHT_FAULT_CONFIRM_CYCLES <=? shortCircuitCounter s' then
    FLM_HEADLIGHT_MAX_CURRENT_MA < feedbackCurrent s'
    /\ faultStatus s' = HEADLIGHT_FAULT_SHORT
    /\ lowBeamOutput s' = false /\ highBeamOutput s' = false
    /\ Dio.level (dio g') HEADLIGHT_DIO_LOW_BEAM = Dio.STD_LOW
    /\ Dio.level (dio g') HEADLIGHT_DIO_HIGH_BEAM = Dio.STD_LOW
    /\ forall ticks,
         faultConfirmed (Headlight_State (Schedule.hl_run g' ticks)) = true
  else
    lowBeamOutput s' = low_line cmd /\ highBeamOutput s' = high_line cmd
    /\ Dio.level (dio g') HEADLIGHT_DIO_LOW_BEAM = line_level (low_line cmd)
    /\ Dio.level (dio g') HEADLIGHT_DIO_HIGH_BEAM = line_level (high_line cmd).
Proof.
  intros Hinit Hdrv g' s' cmd.
  destruct (MainFunction_steps flm adc g Hinit) as (Hs' & Hd').
  fold g' in Hs', Hd'. fold s' in Hs'.
  assert (Hgs : Headlight_State g' = s') by reflexivity.
  clearbody s'.
  set (s0 := set_requestedCommand (FLM.FLM_GetHeadlightCommand flm)
               (set_currentTime (Headlight_SystemTime g) (Headlight_State g))) in *.
  pose proof (SetOutputs_table s0 (dio g)) as H1.
  destruct (Headlight_SetOutputs (s0, dio g)) as [s1 d1]. cbn [fst snd] in *.
  destruct H1 as (Hlow1 & Hhigh1 & Hcmd1 & _ & _ & Hd1).
  change (requestedCommand s0) with cmd in Hlow1, Hhigh1, Hcmd1, Hd1.
  destruct (write_lines_levels (dio g) (low_line cmd) (high_line cmd) Hdrv)
    as (Hl1 & Hh1 & Hdrv1).
  rewrite <- Hd1 in Hl1, Hh1, Hdrv1.
  set (s2 := Headlight_ReadFeedback (Headlight_SimCurrentEnabled g)
               (Headlight_SimCurrent g) adc s1) in *.
  destruct (ReadFeedback_keeps (Headlight_SimCurrentEnabled g)
              (Headlight_SimCurrent g) adc s1) as (Hlow2 & Hhigh2 & _).
  fold s2 in Hlow2, Hhigh2.
  destruct (CheckOpenLoad_keeps s2) as (Hlow3 & Hhigh3 & _).
  pose proof (CheckShortCircuit_cases (Headlight_CheckOpenLoad s2) d1) as H4.
  destruct (Headlight_CheckShortCircuit (Headlight_CheckOpenLoad s2, d1)) as [s4 d4].
  cbn [fst snd] in *.
  destruct H4 as (_ & Hcur4 & _ & H4).
  destruct (UpdateFaultStatus_fields s4) as (Hlow5 & Hhigh5 & _ & Hcnt5 & Hcur5 & Hconf5 & Hst5).
  assert (Hfields :
            lowBeamOutput s' = lowBeamOutput s4 /\ highBeamOutput s' = highBeamOutput s4
            /\ shortCircuitCounter s' = shortCircuitCounter s4
            /\ feedbackCurrent s' = feedbackCurrent s4
            /\ faultConfirmed s' = faultConfirmed s4
            /\ (faultConfirmed s4 = true -> faultStatus s' = faultStatus s4)).
  { rewrite Hs'. cbn. repeat split; auto. }
  destruct Hfields as (Hlow' & Hhigh' & Hcnt' & Hcur' & Hconf' & Hst').
  rewrite Hcnt'.
  destruct (HEADLIGHT_FAULT_CONFIRM_CYCLES <=? shortCircuitCounter s4).
  - destruct H4 as (Hover & Hl4 & Hh4 & Hst4 & Hc4 & Hd4).
    destruct (write_lines_levels d1 false false Hdrv1) as (Hl & Hh & _).
    cbn [line_level] in Hl, Hh. rewrite <- Hd4, <- Hd' in Hl, Hh.
    split; [congruence |].
    split; [rewrite Hst' by exact Hc4; exact Hst4 |].
    repeat (split; [congruence |]).
    intros ticks. apply hl_run_keeps_confirmed.
    rewrite Hgs. congruence.
  - destruct H4 as (Hl4 & Hh4 & Hd4).
    rewrite Hd', Hd4. repeat split; congruence.
Qed.

(** Below the confirmation count the output lines are as the output table
    has them for the command the FLM application requests in this tick. *)
Lemma outputs_follow_command_below_confirmation
    (flm : FLM.Globals) (adc : option Z) (g : Globals) :
  isInitialized (Headlight_State g) = true ->
  drives_headlights (dio g) ->
  let g' := Headlight_MainFunction flm adc g in
  let s' := Headlight_State g' in
  let cmd := FLM.FLM_GetHeadlightCommand flm in
  shortCircuitCounter s' < HEADLIGHT_FAULT_CONFIRM_CYCLES ->
  lowBeamOutput s' = low_line cmd /\ highBeamOutput s' = high_line cmd
  /\ Dio.level (dio g') HEADLIGHT_DIO_LOW_BEAM = line_level (low_line cmd)
  /\ Dio.level (dio g') HEADLIGHT_DIO_HIGH_BEAM = line_level (high_line cmd).
Proof.
  intros Hinit Hdrv g' s' cmd Hbelow.
  pose proof (MainFunction_outputs flm adc g Hinit Hdrv) as H. cbv zeta in H.
  fold g' in H. fold s' in H. fold cmd in H.
  destruct (Z.leb_spec HEADLIGHT_FAULT_CONFIRM_CYCLES (shortCircuitCounter s'));
    [lia | exact H].
Qed.

End ShortCircuit.

(** ** E2E Profile 01: protect, then check *)

Section ProtectCheck.

Import E2E Conditions.

Let config := SwitchEvent.SwitchEvent_InitE2E_config.

(** The counter nibble written by [E2E_P01_SetCounter] reads back. *)
Lemma counter_nibble_reads_back (x c : Z) :
  0 <= c <= 15 ->
  Z.land (Z.lor (Z.land x E2E_P01_HIGH_NIBBLE_MASK) (Z.land c E2E_P01_LOW_NIBBLE_MASK))
         E2E_P01_LOW_NIBBLE_MASK = c.
Proof.
  intros Hc. unfold E2E_P01_HIGH_NIBBLE_MASK, E2E_P01_LOW_NIBBLE_MASK.
  rewrite Z.land_lor_distr_l, <- !Z.land_assoc.
  change (Z.land 0xF0 0x0F) with 0. change (Z.land 0x0F 0x0F) with (Z.ones 4).
  rewrite Z.land_0_r, Z.lor_0_l, Z.land_ones by lia.
  apply Z.mod_small. change (2 ^ 4) with 16. lia.
Qed.

(** What a protected four-byte frame looks like to the receiver: its CRC
    byte is the CRC the receiver computes, and its counter nibble is the
    sender's counter. *)
Lemma protect_frame (ps : E2E_P01ProtectStateType) (data : list Z) :
  length data = 4%nat ->
  0 <= Counter ps <= 14 ->
  let '(_, ps', data') := E2E_P01Protect config ps data 4 in
  Counter ps' = E2E_P01_IncrementCounter (Counter ps)
  /\ E2E_P01_GetCRC data' config = frame_crc config data' 4
  /\ E2E_P01_GetCounter data' config = Counter ps.
Proof.
  intros Hlen Hc.
  destruct data as [| b0 [| b1 [| b2 [| b3 [| ? ?]]]]]; try discriminate.
  unfold E2E_P01Protect. cbn [Z.eqb].
  split; [reflexivity |]. split.
  - reflexivity.
  - unfold E2E_P01_GetCounter, E2E_P01_SetCRC, E2E_P01_SetCounter.
    change (CounterOffset config / 8) with 1. change (CRCOffset config / 8) with 0.
    cbn [rd wr Z.to_nat Pos.to_nat Pos.iter_op Nat.add list_insert lookup list_lookup
         default id].
    apply counter_nibble_reads_back. lia.
Qed.

(** The receiver's answer to a protected frame, case by case. *)
Lemma check_protected_frame
    (ps : E2E_P01ProtectStateType) (cs : E2E_P01CheckStateType) (data : list Z) :
  length data = 4%nat ->
  0 <= Counter ps <= 14 ->
  let '(_, ps', data') := E2E_P01Protect config ps data 4 in
  let '(cs', verdict) := E2E_P01Check config cs (Some data') 4 in
  Counter ps' = E2E_P01_IncrementCounter (Counter ps)
  /\ WaitForFirstData cs' = false
  /\ (WaitForFirstData cs = true ->
      verdict = E2E_P01STATUS_INITIAL /\ LastValidCounter cs' = Counter ps)
  /\ (WaitForFirstData cs = false ->
      E2E_P01_DeltaCounter (Counter ps) (LastValidCounter cs) = 1 ->
      verdict = E2E_P01STATUS_OK /\ LastValidCounter cs' = Counter ps)
  /\ (WaitForFirstData cs = false ->
      E2E_P01_DeltaCounter (Counter ps) (LastValidCounter cs) = 2 ->
      verdict = E2E_P01STATUS_OKSOMELOST /\ LastValidCounter cs' = Counter ps).
Proof.
  intros Hlen Hc.
  pose proof (protect_frame ps data Hlen Hc) as Hp.
  destruct (E2E_P01Protect config ps data 4) as [[r ps'] data'].
  destruct Hp as (Hps & Hcrc & Hctr).
  unfold E2E_P01Check. cbn [Z.eqb].
  rewrite Hcrc, Z.eqb_refl, Hctr. cbn.
  destruct (WaitForFirstData cs) eqn:Hwait; cbn.
  - repeat split; auto; congruence.
  - split; [exact Hps |].
    destruct (Z.eqb_spec (E2E_P01_DeltaCounter (Counter ps) (LastValidCounter cs)) 0)
      as [H0 | H0]; cbn.
    { repeat split; auto; try congruence; lia. }
    destruct (Z.eqb_spec (E2E_P01_DeltaCounter (Counter ps) (LastValidCounter cs)) 1)
      as [H1 | H1]; cbn.
    { repeat split; auto; try congruence; lia. }
    repeat (case_cmp; cbn); unfold FLM_E2E_MAX_DELTA_COUNTER in *;
      repeat split; auto; try congruence; lia.
Qed.

(** The sender's counter runs through 0..14 and starts over. *)
Lemma IncrementCounter_range (c : Z) :
  0 <= c <= 14 ->
  0 <= E2E_P01_IncrementCounter c <= 14
  /\ (E2E_P01_IncrementCounter c + 14) mod 15 = c.
Proof.
  intros Hc. unfold E2E_P01_IncrementCounter, wrap8, E2E_P01_COUNTER_MAX.
  rewrite Z.mod_small by lia.
  destruct (Z.ltb_spec 14 (c + 1)).
  - replace c with 14 by lia. split; [lia | reflexivity].
  - split; [lia |]. symmetry. apply Z.mod_unique with (q := 1); lia.
Qed.

Lemma in_step_run (frames : list (list Z)) :
  Forall (fun data => length data = 4%nat) frames ->
  forall ps cs,
    in_step ps cs ->
    Schedule.protect_check_run config frames ps cs
    = synced_verdicts (length frames) (Counter ps).
Proof.
  induction 1 as [| data frames Hlen Hall IH]; intros ps cs (Hc & Hwait & Hlast).
  - reflexivity.
  - cbn [Schedule.protect_check_run length synced_verdicts].
    pose proof (check_protected_frame ps cs data Hlen Hc) as Hstep.
    fold config.
    destruct (E2E_P01Protect config ps data 4) as [[r ps'] data'].
    destruct (E2E_P01Check config cs (Some data') 4) as [cs' verdict].
    destruct Hstep as (Hps & Hwait' & _ & Hok & Hlost).
    destruct (IncrementCounter_range (Counter ps) Hc) as (Hrange & Hback).
    assert (Hnext : LastValidCounter cs' = Counter ps
                    /\ verdict = wrap_verdict (Counter ps)).
    { unfold wrap_verdict.
      destruct (Z.eqb_spec (Counter ps) 0) as [Hzero | Hpos].
      - destruct (Hlost Hwait) as (-> & ->); [| split; reflexivity].
        rewrite Hlast, Hzero. reflexivity.
      - destruct (Hok Hwait) as (-> & ->); [| split; reflexivity].
        rewrite Hlast. unfold E2E_P01_DeltaCounter.
        replace ((Counter ps + 14) mod 15) with (Counter ps - 1)
          by (apply Z.mod_unique with (q := 1); lia).
        destruct (Z.leb_spec (Counter ps - 1) (Counter ps)); lia. }
    destruct Hnext as (Hlast' & ->).
    assert (Hin : in_step ps' cs').
    { unfold in_step. rewrite Hps, Hlast', Hback. auto. }
    f_equal. rewrite <- Hps. now apply IH.
Qed.

(** From freshly initialised states the first verdict is Initial and the
    later ones are those of a receiver in step. *)
Lemma fresh_run (frames : list (list Z)) :
  Forall (fun data => length data = 4%nat) frames ->
  Schedule.protect_check_run config frames E2E_P01ProtectInit E2E_P01CheckInit
  = match frames with
    | [] => []
    | _ :: rest => E2E_P01STATUS_INITIAL :: synced_verdicts (length rest) 1
    end.
Proof.
  intros Hall. destruct Hall as [| data frames Hlen Hall]; [reflexivity |].
  cbn [Schedule.protect_check_run].
  assert (Hc : 0 <= Counter E2E_P01ProtectInit <= 14) by (cbn; lia).
  pose proof (check_protected_frame E2E_P01ProtectInit E2E_P01CheckInit data Hlen Hc)
    as Hstep.
  fold config.
  destruct (E2E_P01Protect config E2E_P01ProtectInit data 4) as [[r ps'] data'].
  destruct (E2E_P01Check config E2E_P01CheckInit (Some data') 4) as [cs' verdict].
  destruct Hstep as (Hps & Hwait' & Hinit & _).
  destruct (Hinit eq_refl) as (-> & Hlast).
  f_equal. change 1 with (E2E_P01_IncrementCounter (Counter E2E_P01ProtectInit)).
  rewrite <- Hps. apply in_step_run; [exact Hall |].
  unfold in_step. rewrite Hps, Hlast.
  change (E2E_P01_IncrementCounter (Counter E2E_P01ProtectInit)) with 1.
  change (Counter E2E_P01ProtectInit) with 0.
  split; [lia |]. split; [exact Hwait' | reflexivity].
Qed.

(** C2 on the code.  With the configuration of the light-switch message
    (DataID 0x0100, MaxDeltaCounter 2), sixteen four-byte frames with any
    contents, each protected by a freshly initialised sender and checked at
    once by a freshly initialised receiver, get the verdicts Initial, then
    Ok fourteen times, and then OkSomeLost for the sixteenth frame: the
    frame after the sender's counter wrapped from 14 to 0 is not answered
    with Ok. *)
Theorem verdict_after_counter_wrap (frames : list (list Z)) :
  Forall (fun data => length data = 4%nat) frames ->
  length frames = 16%nat ->
  Schedule.protect_check_run SwitchEvent.SwitchEvent_InitE2E_config frames
    E2E_P01ProtectInit E2E_P01CheckInit
  = E2E_P01STATUS_INITIAL :: replicate 14 E2E_P01STATUS_OK ++ [E2E_P01STATUS_OKSOMELOST].
Proof.
  intros Hall Hlen. fold config. rewrite fresh_run by exact Hall.
  destruct frames as [| data rest]; [discriminate |].
  cbn [length] in Hlen. injection Hlen as ->. reflexivity.
Qed.

End ProtectCheck.

Lemma verdict_after_counter_wrap_witness :
  Schedule.protect_check_run SwitchEvent.SwitchEvent_InitE2E_config
    Cases.sixteen_frames E2E.E2E_P01ProtectInit E2E.E2E_P01CheckInit
  = E2E_P01STATUS_INITIAL :: replicate 14 E2E_P01STATUS_OK ++ [E2E_P01STATUS_OKSOMELOST].
Proof.
  apply (verdict_after_counter_wrap Cases.sixteen_frames).
  - unfold Cases.sixteen_frames. cbn [map].
    repeat (apply Forall_cons; split; [reflexivity |]). apply Forall_nil_2.
  - reflexivity.
Defined.

(** ** FLM application: the headlight command on entering Safe *)

Section SafeEntry.

Import FLM.

(** Each of the three branches that can enter Safe does so without
    writing the headlight command. *)
Lemma FLM_StateInit_enters_safe trigger s :
  currentState s <> FLM_STATE_SAFE ->
  currentState (FLM_StateInit trigger s) = FLM_STATE_SAFE ->
  headlightCommand (FLM_StateInit trigger s) = headlightCommand s.
Proof.
  intros Hnot. unfold FLM_StateInit.
  destruct trigger; [reflexivity |].
  destruct (FLM_AreAllInputsValid s); cbn; congruence.
Qed.

Lemma FLM_StateNormal_headlightCommand trigger s :
  headlightCommand (FLM_StateNormal trigger s) = headlightCommand s.
Proof.
  unfold FLM_StateNormal.
  destruct trigger; [reflexivity |].
  destruct (FLM_IsCriticalFault false s); [reflexivity |].
  destruct (FLM_IsAnyInputInvalid s); [| reflexivity].
  cbn. case_cmp; reflexivity.
Qed.

Lemma FLM_StateDegraded_headlightCommand trigger s :
  headlightCommand (FLM_StateDegraded trigger s) = headlightCommand s.
Proof.
  unfold FLM_StateDegraded.
  destruct trigger; [reflexivity |].
  destruct (FLM_AreAllInputsValid s); [reflexivity |].
  destruct (FLM_IsCriticalFault false s); [reflexivity |].
  case_cmp; reflexivity.
Qed.

(** Stamping the entry time touches neither the state nor the command. *)
Lemma stamp_fields (stamp : bool) time s :
  let s' := if stamp then set_stateEntryTime time s else s in
  currentState s' = currentState s /\ headlightCommand s' = headlightCommand s.
Proof. destruct stamp; split; reflexivity. Qed.

Lemma enter_safe_keeps_command trigger s :
  currentState s <> FLM_STATE_SAFE ->
  currentState (FLM_ProcessStateMachine trigger s) = FLM_STATE_SAFE ->
  headlightCommand (FLM_ProcessStateMachine trigger s) = headlightCommand s.
Proof.
  intros Hnot. unfold FLM_ProcessStateMachine.
  set (s0 := set_previousState (currentState s) s).
  assert (Hnot0 : currentState s0 <> FLM_STATE_SAFE) by exact Hnot.
  assert (Hcmd0 : headlightCommand s0 = headlightCommand s) by reflexivity.
  assert (Hstate0 : currentState s0 = currentState s) by reflexivity.
  clearbody s0. rewrite <- Hcmd0. rewrite Hstate0 in Hnot0.
  match goal with
  | |- currentState (if ?c then _ else ?b) = _ -> _ =>
      destruct (stamp_fields c (currentTime b) b) as (-> & ->)
  end.
  rewrite Hstate0.
  destruct (currentState s) eqn:Hstate; try congruence; intros Hsafe.
  - apply FLM_StateInit_enters_safe; [congruence | exact Hsafe].
  - apply FLM_StateNormal_headlightCommand.
  - apply FLM_StateDegraded_headlightCommand.
Qed.

Lemma FLM_ReadInputs_headlightCommand sw lr s :
  headlightCommand (FLM_ReadInputs sw lr s) = headlightCommand s.
Proof.
  unfold FLM_ReadInputs. cbn. repeat case_step; reflexivity.
Qed.

Lemma FLM_ApplyAutoMode_currentState s :
  currentState (FLM_ApplyAutoMode s) = currentState s.
Proof.
  unfold FLM_ApplyAutoMode.
  destruct (AmbientLightLevel.isValid (ambientLight s)); [| reflexivity].
  destruct (lightsCurrentlyOn s); cbn [negb]; case_cmp; reflexivity.
Qed.

(** Choosing the headlight command leaves the state-machine state alone. *)
Lemma FLM_DetermineHeadlightCommand_currentState s :
  currentState (FLM_DetermineHeadlightCommand s) = currentState s.
Proof.
  unfold FLM_DetermineHeadlightCommand.
  destruct (currentState s) eqn:Hstate; try (cbn; congruence);
    destruct (LightSwitchStatus.command (lightSwitch s));
    repeat first
      [ rewrite FLM_ApplyAutoMode_currentState
      | rewrite Hstate
      | progress cbn [currentState set_lightsCurrentlyOn set_headlightCommand]
      | match goal with
        | |- currentState (if ?c then _ else _) = _ => destruct c
        end ];
    reflexivity.
Qed.

(** C4 on the code.  In a tick that takes an initialised FLM application
    from Init, Normal or Degraded into Safe, the headlight command is not
    written: at the end of the tick it is the command of the previous
    tick, whatever the ambient reading is. *)
Theorem safe_entry_keeps_previous_command
    (sw : SwitchEvent.Globals) (lr : LightRequest.Globals) (g : FLM.Globals) :
  currentState (FLM_State g) <> FLM_STATE_SAFE ->
  currentState (FLM_State (FLM_MainFunction sw lr g)) = FLM_STATE_SAFE ->
  headlightCommand (FLM_State (FLM_MainFunction sw lr g))
  = headlightCommand (FLM_State g).
Proof.
  intros Hnot. unfold FLM_MainFunction.
  destruct (isInitialized (FLM_State g)); cbn [negb]; [| congruence].
  cbn [FLM_State]. intros Hsafe.
  set (s1 := FLM_ReadInputs sw lr (set_currentTime (FLM_SystemTime g) (FLM_State g)))
    in *.
  assert (Hnot1 : currentState s1 <> FLM_STATE_SAFE).
  { subst s1. now rewrite FLM_ReadInputs_currentState. }
  assert (Hcmd1 : headlightCommand s1 = headlightCommand (FLM_State g)).
  { subst s1. now rewrite FLM_ReadInputs_headlightCommand. }
  clearbody s1.
  assert (Hsafe2 :
            currentState (FLM_ProcessStateMachine (FLM_ExternalSafeStateTrigger g) s1)
            = FLM_STATE_SAFE).
  { rewrite <- Hsafe. symmetry. apply FLM_DetermineHeadlightCommand_currentState. }
  rewrite FLM_DetermineHeadlightCommand_safe by exact Hsafe2.
  rewrite enter_safe_keeps_command by assumption. exact Hcmd1.
Qed.

End SafeEntry.

(** The trigger is raised while HighBeam is commanded under a valid
    ambient reading of 2000: the FLM application ends the tick in Safe and
    still commands HighBeam. *)
Lemma safe_entry_keeps_previous_command_witness :
  let before := FLM.FLM_State (Bench.flm Cases.triggered) in
  let after :=
    FLM.FLM_State
      (FLM.FLM_MainFunction Cases.triggered_sw Cases.triggered_lr
         (Bench.flm Cases.triggered)) in
  FLM.currentState after = FLM_STATE_SAFE
  /\ AmbientLightLevel.isValid (FLM.ambientLight after) = true
  /\ AmbientLightLevel.adcValue (FLM.ambientLight after) = 2000
  /\ FLM.headlightCommand before = HEADLIGHT_CMD_HIGH_BEAM
  /\ FLM.headlightCommand after = FLM.headlightCommand before.
Proof.
  intros before after.
  split; [vm_compute; reflexivity |].
  split; [vm_compute; reflexivity |].
  split; [vm_compute; reflexivity |].
  split; [vm_compute; reflexivity |].
  apply (safe_entry_keeps_previous_command Cases.triggered_sw Cases.triggered_lr
           (Bench.flm Cases.triggered)).
  - vm_compute. discriminate.
  - vm_compute. reflexivity.
Defined.

(** The same at start-up with an invalid ambient reading: the FLM
    application ends the tick in Safe and commands Off. *)
Lemma safe_entry_from_init_commands_off :
  let after := FLM.FLM_State (Bench.flm Cases.safe_entry_from_init) in
  FLM.currentState after = FLM_STATE_SAFE
  /\ AmbientLightLevel.isValid (FLM.ambientLight after) = false
  /\ FLM.headlightCommand after = HEADLIGHT_CMD_OFF.
Proof.
  vm_compute. repeat split.
Qed.

(** ** SwitchEvent: a frame with a command code out of range *)

Section CommandRange.

Import SwitchEvent Conditions.

(** After a frame that passed the E2E check but carries a code above 3,
    the timeout counter is zero, no frame is pending, and the command is
    the one of the previous tick. *)
Lemma PerformE2ECheck_bad_code s :
  newMessageReceived s = true ->
  let s' := SwitchEvent_PerformE2ECheck s in
  positive_status (e2eStatus s') = true ->
  LightSwitchCmd_code LIGHT_SWITCH_AUTO < rd (lastMessageData s) COM_LIGHTSWITCH_CMD_BYTE ->
  timeoutCounter s' = 0
  /\ newMessageReceived s' = false
  /\ LightSwitchStatus.command (lightSwitchStatus s')
     = LightSwitchStatus.command (lightSwitchStatus s).
Proof.
  intros Hnew. unfold SwitchEvent_PerformE2ECheck. rewrite Hnew.
  destruct (E2E.E2E_P01Check _ _ _ _) as [cs st]. cbv zeta.
  match goal with
  | |- context [E2E.E2E_SMCheck ?c ?m ?p] =>
      destruct (E2E.E2E_SMCheck c m p) as [sm smst]
  end.
  cbn.
  destruct st; cbn;
    unfold SwitchEvent_ExtractLightSwitchCommand, SwitchEvent_IsCommandValid; cbn;
    change (LightSwitchCmd_code LIGHT_SWITCH_AUTO) with 3 in *;
    repeat (case_cmp; cbn); intros Hpos Hcode;
    try discriminate; try lia; repeat split.
Qed.

(** Updating the timeout status keeps the check status, the supervisor
    status and the command; right after an accepted frame it finds no
    timeout. *)
Lemma UpdateTimeoutStatus_fields s :
  let s' := SwitchEvent_UpdateTimeoutStatus s in
  e2eStatus s' = e2eStatus s
  /\ e2eSmStatus s' = e2eSmStatus s
  /\ LightSwitchStatus.command (lightSwitchStatus s')
     = LightSwitchStatus.command (lightSwitchStatus s)
  /\ (timeoutCounter s = 0 -> newMessageReceived s = false -> timeoutActive s' = false).
Proof.
  unfold SwitchEvent_UpdateTimeoutStatus.
  set (s1 := if negb (newMessageReceived s) then _ else s).
  assert (H1 : e2eStatus s1 = e2eStatus s
               /\ e2eSmStatus s1 = e2eSmStatus s
               /\ LightSwitchStatus.command (lightSwitchStatus s1)
                  = LightSwitchStatus.command (lightSwitchStatus s)
               /\ (timeoutCounter s = 0 -> newMessageReceived s = false ->
                   timeoutCounter s1 = 1)).
  { subst s1. destruct (newMessageReceived s); cbn [negb].
    - repeat split; congruence.
    - cbn. repeat split. intros ->. reflexivity. }
  destruct H1 as (Hst1 & Hsm1 & Hcmd1 & Htc1). clearbody s1.
  set (s2 := if SWITCHEVENT_TIMEOUT_CYCLES <=? timeoutCounter s1 then _ else _).
  assert (H2 : e2eStatus s2 = e2eStatus s1
               /\ e2eSmStatus s2 = e2eSmStatus s1
               /\ LightSwitchStatus.command (lightSwitchStatus s2)
                  = LightSwitchStatus.command (lightSwitchStatus s1)
               /\ timeoutActive s2 = (SWITCHEVENT_TIMEOUT_CYCLES <=? timeoutCounter s1)).
  { subst s2. destruct (SWITCHEVENT_TIMEOUT_CYCLES <=? timeoutCounter s1);
      cbn; repeat split. }
  destruct H2 as (Hst2 & Hsm2 & Hcmd2 & Hto2). clearbody s2.
  assert (H3 : forall s3,
             (s3 = set_e2eTimeoutCounter 0 s2
              \/ s3 = set_e2eTimeoutCounter (wrap16 (e2eTimeoutCounter s2 + 1)) s2
              \/ s3 = set_e2eFailureActive true
                        (set_e2eTimeoutCounter (wrap16 (e2eTimeoutCounter s2 + 1)) s2)) ->
             e2eStatus s3 = e2eStatus s2 /\ e2eSmStatus s3 = e2eSmStatus s2
             /\ LightSwitchStatus.command (lightSwitchStatus s3)
                = LightSwitchStatus.command (lightSwitchStatus s2)
             /\ timeoutActive s3 = timeoutActive s2).
  { intros s3 [-> | [-> | ->]]; repeat split. }
  set (s' := match e2eSmStatus s2 with E2E_SM_VALID => _ | _ => _ end).
  assert (Hr : s' = set_e2eTimeoutCounter 0 s2
               \/ s' = set_e2eTimeoutCounter (wrap16 (e2eTimeoutCounter s2 + 1)) s2
               \/ s' = set_e2eFailureActive true
                         (set_e2eTimeoutCounter (wrap16 (e2eTimeoutCounter s2 + 1)) s2)).
  { subst s'. destruct (e2eSmStatus s2); auto;
      cbn [e2eTimeoutCounter set_e2eTimeoutCounter]; case_cmp; auto. }
  destruct (H3 s' Hr) as (Hst3 & Hsm3 & Hcmd3 & Hto3). clearbody s'.
  rewrite Hst3, Hsm3, Hcmd3, Hto3, Hst2, Hsm2, Hcmd2, Hto2.
  repeat split; try congruence.
  intros Hzero Hpending. rewrite (Htc1 Hzero Hpending). reflexivity.
Qed.

(** C5 on the code.  In a tick of an initialised SwitchEvent whose pending
    frame passes the E2E check (status Ok, OkSomeLost or Initial) but
    carries a command code above 3, the command field keeps the command of
    the previous tick, and the report is marked valid exactly when the
    supervisor is Valid at the end of the tick: the code out of range does
    not make the report invalid. *)
Theorem out_of_range_code_report (g : Globals) :
  isInitialized (SwitchEvent_State g) = true ->
  newMessageReceived (SwitchEvent_State g) = true ->
  let s := SwitchEvent_State g in
  let s' := SwitchEvent_State (SwitchEvent_MainFunction g) in
  positive_status (e2eStatus s') = true ->
  LightSwitchCmd_code LIGHT_SWITCH_AUTO < rd (lastMessageData s) COM_LIGHTSWITCH_CMD_BYTE ->
  LightSwitchStatus.command (lightSwitchStatus s')
  = LightSwitchStatus.command (lightSwitchStatus s)
  /\ LightSwitchStatus.isValid (lightSwitchStatus s')
     = match e2eSmStatus s' with E2E_SM_VALID => true | _ => false end.
Proof.
  intros Hinit Hnew s s'.
  set (s0 := set_currentTimestamp (SwitchEvent_SystemTime g) s).
  set (s1 := SwitchEvent_PerformE2ECheck s0).
  set (s2 := SwitchEvent_UpdateTimeoutStatus s1).
  assert (Hnew0 : newMessageReceived s0 = true) by exact Hnew.
  pose proof (PerformE2ECheck_bad_code s0 Hnew0) as H1. cbn zeta in H1. fold s1 in H1.
  change (lastMessageData s0) with (lastMessageData s) in H1.
  change (lightSwitchStatus s0) with (lightSwitchStatus s) in H1.
  pose proof (UpdateTimeoutStatus_fields s1) as H2.
  cbn zeta in H2. fold s2 in H2.
  destruct H2 as (Hst2 & Hsm2 & Hcmd2 & Hto2).
  assert (Hs' : e2eStatus s' = e2eStatus s2
                /\ e2eSmStatus s' = e2eSmStatus s2
                /\ LightSwitchStatus.command (lightSwitchStatus s')
                   = LightSwitchStatus.command (lightSwitchStatus s2)
                /\ LightSwitchStatus.isValid (lightSwitchStatus s')
                   = match e2eSmStatus s2 with
                     | E2E_SM_VALID => negb (timeoutActive s2)
                     | _ => false
                     end).
  { subst s'. unfold SwitchEvent_MainFunction. rewrite Hinit. cbn [negb].
    fold s. fold s0. fold s1. fold s2. clearbody s2. cbn.
    destruct (e2eSmStatus s2) eqn:Hsm; cbn; rewrite ?Hsm;
      try destruct (timeoutActive s2); cbn; rewrite ?Hsm; repeat split. }
  destruct Hs' as (Hst' & Hsm' & Hcmd' & Hval').
  clearbody s' s2 s1.
  intros Hpos Hcode.
  rewrite Hst', Hst2 in Hpos.
  destruct (H1 Hpos Hcode) as (Htc & Hpending & Hcmd1).
  split; [congruence |].
  rewrite Hval', Hsm'. rewrite (Hto2 Htc Hpending).
  destruct (e2eSmStatus s2); reflexivity.
Qed.

End CommandRange.

(** With the supervisor Valid after three protected LowBeam frames, a
    protected frame with command byte 4 is pending: after the tick the
    report keeps the command LowBeam and is valid. *)
Lemma out_of_range_code_report_witness :
  let s := SwitchEvent.SwitchEvent_State Cases.sw_bad_code_pending in
  let s' :=
    SwitchEvent.SwitchEvent_State
      (SwitchEvent.SwitchEvent_MainFunction Cases.sw_bad_code_pending) in
  rd (SwitchEvent.lastMessageData s) COM_LIGHTSWITCH_CMD_BYTE = 4
  /\ LightSwitchStatus.command (SwitchEvent.lightSwitchStatus s) = LIGHT_SWITCH_LOW_BEAM
  /\ SwitchEvent.e2eStatus s' = E2E_P01STATUS_OK
  /\ SwitchEvent.e2eSmStatus s' = E2E_SM_VALID
  /\ LightSwitchStatus.command (SwitchEvent.lightSwitchStatus s')
     = LightSwitchStatus.command (SwitchEvent.lightSwitchStatus s)
  /\ LightSwitchStatus.isValid (SwitchEvent.lightSwitchStatus s')
     = match SwitchEvent.e2eSmStatus s' with E2E_SM_VALID => true | _ => false end.
Proof.
  intros s s'.
  split; [vm_compute; reflexivity |].
  split; [vm_compute; reflexivity |].
  split; [vm_compute; reflexivity |].
  split; [vm_compute; reflexivity |].
  apply (out_of_range_code_report Cases.sw_bad_code_pending).
  - vm_compute. reflexivity.
  - vm_compute. reflexivity.
  - vm_compute. reflexivity.
  - vm_compute. reflexivity.
Defined.

(** ** E2E Profile 01: what the CRC guarantees *)

Section FrameIntegrity.

Import E2E Runs.

Lemma table_length : length E2E_P01_CRC8_Table = 256%nat.
Proof. reflexivity. Qed.

Lemma table_bytes : Forall (fun b => 0 <= b <= 255) E2E_P01_CRC8_Table.
Proof. apply (bool_decide_unpack _). vm_compute. exact I. Qed.

Lemma table_NoDup : NoDup E2E_P01_CRC8_Table.
Proof. apply (bool_decide_unpack _). vm_compute. exact I. Qed.

Lemma table_entry (x : Z) :
  is_byte x ->
  E2E_P01_CRC8_Table !! Z.to_nat x = Some (rd E2E_P01_CRC8_Table x).
Proof.
  intros Hx. unfold rd.
  destruct (lookup_lt_is_Some_2 E2E_P01_CRC8_Table (Z.to_nat x)) as [v Hv].
  - rewrite table_length. unfold is_byte in Hx. lia.
  - now rewrite Hv.
Qed.

Lemma table_entry_byte (x : Z) : is_byte x -> is_byte (rd E2E_P01_CRC8_Table x).
Proof.
  intros Hx. pose proof (table_entry x Hx) as Hv.
  exact (proj1 (Forall_lookup _ _) table_bytes _ _ Hv).
Qed.

(** The table is a permutation of the byte values. *)
Lemma table_entry_inj (x y : Z) :
  is_byte x -> is_byte y ->
  rd E2E_P01_CRC8_Table x = rd E2E_P01_CRC8_Table y -> x = y.
Proof.
  intros Hx Hy Heq.
  pose proof (table_entry x Hx) as Hvx. pose proof (table_entry y Hy) as Hvy.
  rewrite Heq in Hvx.
  pose proof (proj1 (NoDup_alt _) table_NoDup _ _ _ Hvx Hvy) as Hn.
  unfold is_byte in *. lia.
Qed.

Lemma lxor_byte (a b : Z) : is_byte a -> is_byte b -> is_byte (Z.lxor a b).
Proof.
  unfold is_byte. intros Ha Hb.
  assert (Hnn : 0 <= Z.lxor a b) by (apply Z.lxor_nonneg; lia).
  split; [exact Hnn |].
  destruct (Z.eq_dec (Z.lxor a b) 0) as [-> | Hnz]; [lia |].
  assert (Hlt : Z.lxor a b < 2 ^ 8); [| change (2 ^ 8) with 256 in Hlt; lia].
  apply Z.log2_lt_pow2; [lia |].
  pose proof (Z.log2_lxor a b ltac:(lia) ltac:(lia)) as Hl.
  assert (Hla : Z.log2 a < 8).
  { destruct (Z.eq_dec a 0) as [-> | ?]; [cbn; lia |].
    apply Z.log2_lt_pow2; [lia |]. change (2 ^ 8) with 256. lia. }
  assert (Hlb : Z.log2 b < 8).
  { destruct (Z.eq_dec b 0) as [-> | ?]; [cbn; lia |].
    apply Z.log2_lt_pow2; [lia |]. change (2 ^ 8) with 256. lia. }
  lia.
Qed.

Lemma lxor_cancel_l (c a b : Z) : Z.lxor c a = Z.lxor c b -> a = b.
Proof.
  intros H.
  rewrite <- (Z.lxor_0_l a), <- (Z.lxor_0_l b), <- (Z.lxor_nilpotent c),
    !Z.lxor_assoc, H.
  reflexivity.
Qed.

Lemma lxor_cancel_r (a b c : Z) : Z.lxor a c = Z.lxor b c -> a = b.
Proof. rewrite !(Z.lxor_comm _ c). apply lxor_cancel_l. Qed.

(** One round of the loop keeps the CRC a byte, and tells apart two CRCs
    as well as two data bytes. *)
Lemma crc8_loop_byte (data : list Z) :
  Forall is_byte data -> forall crc, is_byte crc -> is_byte (crc8_loop crc data).
Proof.
  induction 1 as [| b data Hb _ IH]; intros crc Hcrc; cbn [crc8_loop].
  - exact Hcrc.
  - apply IH, table_entry_byte, lxor_byte; assumption.
Qed.

Lemma crc8_loop_inj (data : list Z) :
  Forall is_byte data ->
  forall c c', is_byte c -> is_byte c' ->
    crc8_loop c data = crc8_loop c' data -> c = c'.
Proof.
  induction 1 as [| b data Hb _ IH]; intros c c' Hc Hc'; cbn [crc8_loop].
  - auto.
  - intros Heq.
    apply IH in Heq; try (apply table_entry_byte, lxor_byte; assumption).
    apply table_entry_inj in Heq; try (apply lxor_byte; assumption).
    exact (lxor_cancel_r _ _ _ Heq).
Qed.

Lemma crc8_loop_insert (data : list Z) (i : nat) (old b : Z) :
  Forall is_byte data -> is_byte b ->
  data !! i = Some old -> b <> old ->
  forall crc, is_byte crc ->
    crc8_loop crc (<[i := b]> data) <> crc8_loop crc data.
Proof.
  intros Hdata Hb. revert i.
  induction Hdata as [| x data Hx Hdata IH]; intros i Hold Hne crc Hcrc.
  - discriminate.
  - destruct i as [| i]; cbn [list_insert insert crc8_loop].
    + cbn in Hold. injection Hold as ->. intros Heq.
      apply crc8_loop_inj in Heq;
        try assumption; try (apply table_entry_byte, lxor_byte; assumption).
      apply table_entry_inj in Heq; try (apply lxor_byte; assumption).
      apply lxor_cancel_l in Heq. contradiction.
    + apply IH; [exact Hold | exact Hne |].
      apply table_entry_byte, lxor_byte; assumption.
Qed.

(** One call of [E2E_P01_CalculateCRC8] on a buffer, as a function of the
    start value and of one byte of the buffer. *)
Lemma CalculateCRC8_byte (data : list Z) (start : Z) (first : bool) :
  Forall is_byte data -> is_byte start ->
  is_byte (E2E_P01_CalculateCRC8 (Some data) start first).
Proof.
  intros Hdata Hstart. unfold E2E_P01_CalculateCRC8.
  apply lxor_byte; [| unfold is_byte, E2E_P01_CRC_XOR_VALUE; lia].
  apply crc8_loop_byte; [exact Hdata |].
  destruct first; [unfold is_byte, E2E_P01_CRC_INITIAL_VALUE; lia | exact Hstart].
Qed.

Lemma CalculateCRC8_inj (data : list Z) (c c' : Z) :
  Forall is_byte data -> is_byte c -> is_byte c' ->
  E2E_P01_CalculateCRC8 (Some data) c false
  = E2E_P01_CalculateCRC8 (Some data) c' false -> c = c'.
Proof.
  intros Hdata Hc Hc' Heq. unfold E2E_P01_CalculateCRC8 in Heq.
  apply lxor_cancel_r in Heq. now apply crc8_loop_inj in Heq.
Qed.

Lemma CalculateCRC8_insert (data : list Z) (i : nat) (old b start : Z) :
  Forall is_byte data -> is_byte b -> is_byte start ->
  data !! i = Some old -> b <> old ->
  E2E_P01_CalculateCRC8 (Some (<[i := b]> data)) start false
  <> E2E_P01_CalculateCRC8 (Some data) start false.
Proof.
  intros Hdata Hb Hstart Hold Hne Heq. unfold E2E_P01_CalculateCRC8 in Heq.
  apply lxor_cancel_r in Heq. revert Heq.
  now apply crc8_loop_insert with (old := old).
Qed.

(** The CRC of a frame changes with every change of one byte other than
    the CRC byte. *)
Lemma frame_crc_insert
    (config : E2E_P01ConfigType) (data : list Z) (i : nat) (old b : Z) :
  Forall is_byte data -> is_byte b ->
  Z.of_nat (length data) <= 65535 ->
  0 <= CRCOffset config ->
  data !! i = Some old -> b <> old ->
  Z.of_nat i <> CRCOffset config / 8 ->
  frame_crc config (<[i := b]> data) (Z.of_nat (length data))
  <> frame_crc config data (Z.of_nat (length data)).
Proof.
  intros Hdata Hb Hlen Hoff Hold Hne Hi.
  pose proof (lookup_lt_Some _ _ _ Hold) as Hilt.
  unfold frame_crc.
  set (off := CRCOffset config / 8) in *.
  assert (Hoff0 : 0 <= off) by (apply Z.div_pos; lia).
  set (ids := [wrap8 (Z.shiftr (DataID config) 8); wrap8 (Z.land (DataID config) 255)]).
  assert (Hids : Forall is_byte ids).
  { unfold ids, wrap8, is_byte.
    pose proof (Z.mod_pos_bound (Z.shiftr (DataID config) 8) 256 ltac:(lia)).
    pose proof (Z.mod_pos_bound (Z.land (DataID config) 255) 256 ltac:(lia)).
    repeat (apply Forall_cons; split; [lia |]).
    apply Forall_nil_2. }
  set (c0 := E2E_P01_CalculateCRC8 (Some ids) 0 true).
  assert (Hc0 : is_byte c0).
  { apply CalculateCRC8_byte; [exact Hids | unfold is_byte; lia]. }
  assert (Hpre : Forall is_byte (take (Z.to_nat off) data)) by now apply Forall_take.
  assert (Hpost : Forall is_byte (drop (Z.to_nat (off + 1)) data)) by now apply Forall_drop.
  destruct (Z.lt_ge_cases (Z.of_nat i) off) as [Hlt | Hge].
  - (* before the CRC byte *)
    rewrite take_insert_lt by lia.
    rewrite drop_insert_lt by lia.
    destruct (Z.ltb_spec 0 off) as [_ | ?]; [| lia].
    assert (Hold' : take (Z.to_nat off) data !! i = Some old).
    { rewrite lookup_take_lt by lia. exact Hold. }
    pose proof (CalculateCRC8_insert _ i old b c0 Hpre Hb Hc0 Hold' Hne) as Hc1.
    set (c1 := E2E_P01_CalculateCRC8 (Some (take (Z.to_nat off) data)) c0 false) in *.
    set (c1' := E2E_P01_CalculateCRC8
                  (Some (<[i := b]> (take (Z.to_nat off) data))) c0 false) in *.
    assert (Hb1 : is_byte c1) by (apply CalculateCRC8_byte; assumption).
    assert (Hb1' : is_byte c1').
    { apply CalculateCRC8_byte; [| assumption].
      apply Forall_insert; assumption. }
    destruct (off <? Z.of_nat (length data) - 1); [| exact Hc1].
    intros Heq. apply Hc1.
    revert Heq. apply CalculateCRC8_inj; try assumption.
    now apply Forall_take.
  - (* after the CRC byte *)
    assert (Hgt : off < Z.of_nat i) by lia.
    rewrite take_insert_ge by lia.
    rewrite drop_insert_ge by lia.
    destruct (Z.ltb_spec off (Z.of_nat (length data) - 1)) as [_ | ?]; [| lia].
    set (c1 := if 0 <? off
               then E2E_P01_CalculateCRC8 (Some (take (Z.to_nat off) data)) c0 false
               else c0).
    assert (Hb1 : is_byte c1).
    { unfold c1. destruct (0 <? off); [| exact Hc0].
      apply CalculateCRC8_byte; assumption. }
    set (m := Z.to_nat (wrap16 (Z.of_nat (length data) - off - 1))).
    assert (Hm : m = length (drop (Z.to_nat (off + 1)) data)).
    { unfold m, wrap16. rewrite Z.mod_small by lia. rewrite length_drop. lia. }
    rewrite !take_ge by (rewrite ?length_insert; lia).
    apply CalculateCRC8_insert with (old := old); try assumption.
    rewrite lookup_drop. rewrite <- Hold. f_equal. lia.
Qed.

(** X1.  A frame of bytes that holds its CRC byte and passes the CRC
    comparison of [E2E_P01Check] stops passing it when one of its bytes,
    the CRC byte included, is replaced by a different byte: the check
    answers WrongCrc and changes nothing but the status. *)
Theorem corrupted_byte_is_rejected
    (config : E2E_P01ConfigType) (cs : E2E_P01CheckStateType)
    (data : list Z) (i : nat) (old b : Z) :
  Forall is_byte data -> is_byte b ->
  Z.of_nat (length data) <= 65535 ->
  0 <= CRCOffset config -> CRCOffset config / 8 < Z.of_nat (length data) ->
  E2E_P01_GetCRC data config = frame_crc config data (Z.of_nat (length data)) ->
  data !! i = Some old -> b <> old ->
  E2E_P01Check config cs (Some (<[i := b]> data)) (Z.of_nat (length data))
  = (set_Status E2E_P01STATUS_WRONGCRC cs, E2E_P01STATUS_WRONGCRC).
Proof.
  intros Hdata Hb Hlen Hoff Hin Hcrc Hold Hne.
  pose proof (lookup_lt_Some _ _ _ Hold) as Hilt.
  assert (Hoff0 : 0 <= CRCOffset config / 8) by (apply Z.div_pos; lia).
  unfold E2E_P01Check.
  destruct (Z.eqb_spec (Z.of_nat (length data)) 0) as [? | _]; [lia |].
  assert (Hdiff : E2E_P01_GetCRC (<[i := b]> data) config
                  <> frame_crc config (<[i := b]> data) (Z.of_nat (length data))).
  { destruct (Z.eq_dec (Z.of_nat i) (CRCOffset config / 8)) as [Hi | Hi].
    - (* the CRC byte itself *)
      assert (Hsame : frame_crc config (<[i := b]> data) (Z.of_nat (length data))
                      = frame_crc config data (Z.of_nat (length data))).
      { unfold frame_crc. rewrite <- Hi.
        rewrite take_insert_ge by lia.
        rewrite drop_insert_lt by lia. reflexivity. }
      rewrite Hsame, <- Hcrc. unfold E2E_P01_GetCRC, rd. rewrite <- Hi, Nat2Z.id.
      rewrite list_lookup_insert_eq by lia. rewrite Hold. exact Hne.
    - pose proof (frame_crc_insert config data i old b Hdata Hb Hlen Hoff Hold Hne Hi)
        as Hchg.
      rewrite <- Hcrc in Hchg.
      assert (Hkeep : E2E_P01_GetCRC (<[i := b]> data) config
                      = E2E_P01_GetCRC data config).
      { unfold E2E_P01_GetCRC, rd.
        rewrite list_lookup_insert_ne by lia. reflexivity. }
      rewrite Hkeep. auto. }
  destruct (Z.eqb_spec (E2E_P01_GetCRC (<[i := b]> data) config)
              (frame_crc config (<[i := b]> data) (Z.of_nat (length data))))
    as [? | _]; [contradiction |].
  reflexivity.
Qed.

End FrameIntegrity.

(** ** E2E Profile 01: what the sender writes and the receiver reads *)

Section ProtectRoundTrip.

Import E2E Runs Conditions.

Variable config : E2E_P01ConfigType.

(** The high nibble of the counter byte is the one that was there. *)
Lemma counter_nibble_keeps_high (x c : Z) :
  Z.land (Z.lor (Z.land x E2E_P01_HIGH_NIBBLE_MASK) (Z.land c E2E_P01_LOW_NIBBLE_MASK))
         E2E_P01_HIGH_NIBBLE_MASK
  = Z.land x E2E_P01_HIGH_NIBBLE_MASK.
Proof.
  unfold E2E_P01_HIGH_NIBBLE_MASK, E2E_P01_LOW_NIBBLE_MASK.
  rewrite Z.land_lor_distr_l, <- !Z.land_assoc.
  change (Z.land 0x0F 0xF0) with 0. change (Z.land 0xF0 0xF0) with 0xF0.
  now rewrite Z.land_0_r, Z.lor_0_r.
Qed.

(** The CRC of a frame does not depend on its CRC byte. *)
Lemma frame_crc_SetCRC (data : list Z) (length crc : Z) :
  0 <= CRCOffset config ->
  frame_crc config (E2E_P01_SetCRC data config crc) length
  = frame_crc config data length.
Proof.
  intros Hoff.
  assert (Hoff0 : 0 <= CRCOffset config / 8) by (apply Z.div_pos; lia).
  unfold frame_crc, E2E_P01_SetCRC, wr.
  rewrite take_insert_ge by lia.
  rewrite drop_insert_lt by lia. reflexivity.
Qed.

(** What one call of [E2E_P01Protect] leaves in the buffer and in the
    sender's state. *)
Lemma Protect_result
    (ps : E2E_P01ProtectStateType) (data : list Z) :
  let len := Z.of_nat (length data) in
  0 <= CounterOffset config -> 0 <= CRCOffset config ->
  CounterOffset config / 8 < len -> CRCOffset config / 8 < len ->
  CounterOffset config / 8 <> CRCOffset config / 8 ->
  0 <= Counter ps <= 14 ->
  let '(r, ps', data') := E2E_P01Protect config ps data len in
  r = E_OK
  /\ Counter ps' = E2E_P01_IncrementCounter (Counter ps)
  /\ length data' = length data
  /\ E2E_P01_GetCounter data' config = Counter ps
  /\ E2E_P01_GetCRC data' config = frame_crc config data' len
  /\ Z.land (rd data' (CounterOffset config / 8)) E2E_P01_HIGH_NIBBLE_MASK
     = Z.land (rd data (CounterOffset config / 8)) E2E_P01_HIGH_NIBBLE_MASK
  /\ forall k : nat,
       Z.of_nat k <> CounterOffset config / 8 ->
       Z.of_nat k <> CRCOffset config / 8 ->
       data' !! k = data !! k.
Proof.
  intros len Hco Hcrco Hcin Hcrcin Hdiff Hctr.
  assert (Hco0 : 0 <= CounterOffset config / 8) by (apply Z.div_pos; lia).
  assert (Hcrc0 : 0 <= CRCOffset config / 8) by (apply Z.div_pos; lia).
  unfold E2E_P01Protect.
  destruct (Z.eqb_spec len 0) as [? | _]; [lia |].
  set (cb := CounterOffset config / 8) in *.
  set (crcb := CRCOffset config / 8) in *.
  set (d1 := E2E_P01_SetCounter data config (Counter ps)).
  assert (Hd1 : d1 = <[Z.to_nat cb :=
                        Z.lor (Z.land (rd data cb) E2E_P01_HIGH_NIBBLE_MASK)
                              (Z.land (Counter ps) E2E_P01_LOW_NIBBLE_MASK)]> data)
    by reflexivity.
  set (crc := frame_crc config d1 len).
  assert (Hd2 : E2E_P01_SetCRC d1 config crc = <[Z.to_nat crcb := crc]> d1) by reflexivity.
  split; [reflexivity |]. split; [reflexivity |].
  split; [rewrite Hd2, Hd1, !length_insert; reflexivity |].
  assert (Hrd : rd (E2E_P01_SetCRC d1 config crc) cb
                = Z.lor (Z.land (rd data cb) E2E_P01_HIGH_NIBBLE_MASK)
                        (Z.land (Counter ps) E2E_P01_LOW_NIBBLE_MASK)).
  { rewrite Hd2, Hd1. unfold rd.
    rewrite list_lookup_insert_ne by lia.
    rewrite list_lookup_insert_eq by lia. reflexivity. }
  split.
  { unfold E2E_P01_GetCounter. fold cb. rewrite Hrd.
    apply counter_nibble_reads_back. lia. }
  split.
  { rewrite frame_crc_SetCRC by lia. fold crc.
    unfold E2E_P01_GetCRC. fold crcb. rewrite Hd2. unfold rd.
    rewrite list_lookup_insert_eq by (rewrite Hd1, length_insert; lia).
    reflexivity. }
  split.
  { rewrite Hrd. apply counter_nibble_keeps_high. }
  intros k Hk1 Hk2. rewrite Hd2, Hd1.
  rewrite !list_lookup_insert_ne by lia. reflexivity.
Qed.

(** X2.  [E2E_P01Protect] on a buffer that holds the counter byte and the
    CRC byte at different places: the call succeeds, the sender's counter
    advances, the buffer keeps its length, the counter reads back, the CRC
    byte is the CRC of the frame as the receiver computes it, and nothing
    else in the buffer changes: the high nibble of the counter byte and
    every other byte are as they were. *)
Theorem protect_writes_counter_and_crc
    (ps : E2E_P01ProtectStateType) (data : list Z) :
  let len := Z.of_nat (length data) in
  0 <= CounterOffset config -> 0 <= CRCOffset config ->
  CounterOffset config / 8 < len -> CRCOffset config / 8 < len ->
  CounterOffset config / 8 <> CRCOffset config / 8 ->
  0 <= Counter ps <= 14 ->
  let '(r, ps', data') := E2E_P01Protect config ps data len in
  r = E_OK
  /\ Counter ps' = E2E_P01_IncrementCounter (Counter ps)
  /\ length data' = length data
  /\ E2E_P01_GetCounter data' config = Counter ps
  /\ E2E_P01_GetCRC data' config = frame_crc config data' len
  /\ Z.land (rd data' (CounterOffset config / 8)) E2E_P01_HIGH_NIBBLE_MASK
     = Z.land (rd data (CounterOffset config / 8)) E2E_P01_HIGH_NIBBLE_MASK
  /\ forall k : nat,
       Z.of_nat k <> CounterOffset config / 8 ->
       Z.of_nat k <> CRCOffset config / 8 ->
       data' !! k = data !! k.
Proof.
  intros len. exact (Protect_result ps data).
Qed.

(** The receiver's answer to a frame that comes straight from the
    sender. *)
Lemma Check_after_Protect
    (ps : E2E_P01ProtectStateType) (cs : E2E_P01CheckStateType) (data : list Z) :
  let len := Z.of_nat (length data) in
  0 <= CounterOffset config -> 0 <= CRCOffset config ->
  CounterOffset config / 8 < len -> CRCOffset config / 8 < len ->
  CounterOffset config / 8 <> CRCOffset config / 8 ->
  0 <= Counter ps <= 14 ->
  let '(_, _, data') := E2E_P01Protect config ps data len in
  let '(cs', verdict) := E2E_P01Check config cs (Some data') len in
  let delta := E2E_P01_DeltaCounter (Counter ps) (LastValidCounter cs) in
  verdict
  = (if WaitForFirstData cs then E2E_P01STATUS_INITIAL
     else if delta =? 0 then E2E_P01STATUS_REPEATED
     else if delta =? 1 then E2E_P01STATUS_OK
     else if (1 <? delta) && (delta <=? MaxDeltaCounter config)
          then E2E_P01STATUS_OKSOMELOST
     else E2E_P01STATUS_WRONGSEQUENCE)
  /\ Status cs' = verdict
  /\ NoNewOrRepeatedDataCounter cs' = 0
  /\ WaitForFirstData cs' = false
  /\ LastValidCounter cs'
     = (if positive_status verdict then Counter ps else LastValidCounter cs).
Proof.
  intros len Hco Hcrco Hcin Hcrcin Hdiff Hctr.
  pose proof (Protect_result ps data Hco Hcrco Hcin Hcrcin Hdiff Hctr)
    as Hp.
  fold len in Hp.
  destruct (E2E_P01Protect config ps data len) as [[r ps'] data'].
  destruct Hp as (_ & _ & _ & Hget & Hcrc & _).
  assert (Hco0 : 0 <= CounterOffset config / 8) by (apply Z.div_pos; lia).
  unfold E2E_P01Check.
  destruct (Z.eqb_spec len 0) as [? | _]; [lia |].
  rewrite Hcrc, Z.eqb_refl, Hget. cbn [negb].
  destruct (WaitForFirstData cs) eqn:Hwait; cbn.
  - rewrite Hwait. auto.
  - rewrite Hwait.
    destruct (E2E_P01_DeltaCounter (Counter ps) (LastValidCounter cs) =? 0); cbn;
      [auto |].
    destruct (E2E_P01_DeltaCounter (Counter ps) (LastValidCounter cs) =? 1); cbn;
      [auto |].
    destruct ((1 <? E2E_P01_DeltaCounter (Counter ps) (LastValidCounter cs))
              && (E2E_P01_DeltaCounter (Counter ps) (LastValidCounter cs)
                  <=? MaxDeltaCounter config)); cbn; auto.
Qed.

(** X3.  The receiver's answer to a frame that comes straight from
    [E2E_P01Protect] depends on the two counters alone: it is never
    WrongCrc and never NoNewData; a receiver that waits for its first
    frame answers Initial, and any other receiver answers by the distance
    between the sender's counter and the last counter it accepted.  The
    no-new-data counter is cleared. *)
Theorem protected_frame_verdict
    (ps : E2E_P01ProtectStateType) (cs : E2E_P01CheckStateType) (data : list Z) :
  let len := Z.of_nat (length data) in
  0 <= CounterOffset config -> 0 <= CRCOffset config ->
  CounterOffset config / 8 < len -> CRCOffset config / 8 < len ->
  CounterOffset config / 8 <> CRCOffset config / 8 ->
  0 <= Counter ps <= 14 ->
  let '(_, _, data') := E2E_P01Protect config ps data len in
  let '(cs', verdict) := E2E_P01Check config cs (Some data') len in
  let delta := E2E_P01_DeltaCounter (Counter ps) (LastValidCounter cs) in
  verdict
  = (if WaitForFirstData cs then E2E_P01STATUS_INITIAL
     else if delta =? 0 then E2E_P01STATUS_REPEATED
     else if delta =? 1 then E2E_P01STATUS_OK
     else if (1 <? delta) && (delta <=? MaxDeltaCounter config)
          then E2E_P01STATUS_OKSOMELOST
     else E2E_P01STATUS_WRONGSEQUENCE)
  /\ Status cs' = verdict
  /\ NoNewOrRepeatedDataCounter cs' = 0
  /\ WaitForFirstData cs' = false
  /\ LastValidCounter cs'
     = (if positive_status verdict then Counter ps else LastValidCounter cs).
Proof.
  intros len. exact (Check_after_Protect ps cs data).
Qed.

(** X4.  A frame the receiver has just accepted (verdict Initial, Ok or
    OkSomeLost) is answered Repeated when it is presented again, and that
    second check changes nothing in the receiver but the status. *)
Theorem accepted_frame_is_repeated_next
    (cs cs1 : E2E_P01CheckStateType) (data : list Z) (length : Z)
    (v1 : E2E_P01CheckStatusType) :
  length <> 0 ->
  E2E_P01Check config cs (Some data) length = (cs1, v1) ->
  positive_status v1 = true ->
  E2E_P01Check config cs1 (Some data) length
  = (set_Status E2E_P01STATUS_REPEATED cs1, E2E_P01STATUS_REPEATED).
Proof.
  intros Hlen Hfirst Hpos. revert Hfirst. unfold E2E_P01Check.
  destruct (Z.eqb_spec length 0) as [? | _]; [contradiction |].
  destruct (E2E_P01_GetCRC data config =? frame_crc config data length); cbn [negb];
    [| intros [= <- <-]; discriminate].
  assert (Hzero : forall c, E2E_P01_DeltaCounter c c = 0).
  { intros c. unfold E2E_P01_DeltaCounter.
    destruct (Z.leb_spec c c); lia. }
  destruct cs as [lvc mdc wait nda lost st nn sync]; cbn.
  destruct wait; cbn.
  - intros [= <- <-]. cbn. rewrite Hzero. reflexivity.
  - destruct (E2E_P01_DeltaCounter (E2E_P01_GetCounter data config) lvc =? 0); cbn;
      [intros [= <- <-]; discriminate |].
    destruct (E2E_P01_DeltaCounter (E2E_P01_GetCounter data config) lvc =? 1); cbn;
      [intros [= <- <-]; cbn; rewrite Hzero; reflexivity |].
    destruct ((1 <? E2E_P01_DeltaCounter (E2E_P01_GetCounter data config) lvc)
              && (E2E_P01_DeltaCounter (E2E_P01_GetCounter data config) lvc
                  <=? MaxDeltaCounter config)); cbn;
      intros [= <- <-]; [cbn; rewrite Hzero; reflexivity | discriminate].
Qed.

(** One check with nothing received. *)
Lemma check_silent_step (data : option (list Z)) (length : Z) (cs : E2E_P01CheckStateType) :
  data = None \/ length = 0 ->
  fst (E2E_P01Check config cs data length)
  = (let cs1 :=
       set_NoNewOrRepeatedDataCounter (wrap16 (NoNewOrRepeatedDataCounter cs + 1)) cs in
     if MaxNoNewOrRepeatedData config <=? NoNewOrRepeatedDataCounter cs1
     then set_Status E2E_P01STATUS_NONEWDATA cs1 else cs1).
Proof.
  intros Hnone. unfold E2E_P01Check.
  destruct Hnone as [-> | ->]; [reflexivity |].
  destruct data; reflexivity.
Qed.

(** X5.  Checks with nothing received (a null pointer or a zero length)
    count up the no-new-data counter and touch nothing else until the
    counter reaches [MaxNoNewOrRepeatedData]: the status of the last frame
    stands for the first [MaxNoNewOrRepeatedData - 1] such checks, and it is
    NoNewData from then on, however long the silence lasts. *)
Theorem silence_becomes_no_new_data
    (data : option (list Z)) (length : Z) (n : nat) (cs : E2E_P01CheckStateType) :
  data = None \/ length = 0 ->
  0 <= MaxNoNewOrRepeatedData config <= 65535 ->
  NoNewOrRepeatedDataCounter cs = 0 ->
  let cs' := check_silent config data length n cs in
  Status cs'
  = (if (0 <? Z.of_nat n) && (MaxNoNewOrRepeatedData config <=? Z.of_nat n)
     then E2E_P01STATUS_NONEWDATA else Status cs)
  /\ NoNewOrRepeatedDataCounter cs' = Z.of_nat n mod 65536
  /\ LastValidCounter cs' = LastValidCounter cs
  /\ WaitForFirstData cs' = WaitForFirstData cs
  /\ LostData cs' = LostData cs.
Proof.
  intros Hnone Hmax Hzero. cbv zeta.
  induction n as [| n IH].
  - cbn. rewrite Hzero. auto.
  - unfold check_silent in *. rewrite Nat.iter_succ.
    set (csn := Nat.iter n (fun cs => fst (E2E_P01Check config cs data length)) cs) in *.
    destruct IH as (Hst & Hcnt & Hl & Hw & Hlost).
    rewrite check_silent_step by exact Hnone. cbv zeta.
    assert (Hnext : wrap16 (NoNewOrRepeatedDataCounter csn + 1)
                    = Z.of_nat (S n) mod 65536).
    { rewrite Hcnt. unfold wrap16. rewrite Nat2Z.inj_succ, <- Z.add_1_r.
      rewrite Zplus_mod_idemp_l. reflexivity. }
    destruct csn as [lvc mdc wait nda lost st nn sync]; cbn in *.
    rewrite Hnext.
    pose proof (Z.mod_pos_bound (Z.of_nat (S n)) 65536 ltac:(lia)) as Hb.
    pose proof (Z.mod_le (Z.of_nat (S n)) 65536 ltac:(lia) ltac:(lia)) as Hle.
    destruct (Z.ltb_spec 0 (Z.of_nat (S n))) as [_ | ?]; [| lia].
    cbn [andb].
    destruct (Z.leb_spec (MaxNoNewOrRepeatedData config) (Z.of_nat (S n) mod 65536))
      as [Hset | Hnot]; cbn.
    + destruct (Z.leb_spec (MaxNoNewOrRepeatedData config) (Z.of_nat (S n)));
        [auto | lia].
    + destruct (Z.leb_spec (MaxNoNewOrRepeatedData config) (Z.of_nat (S n)))
        as [Hreached | Hbelow].
      * (* the counter wrapped: the status was set before *)
        assert (Hbig : Z.of_nat (S n) mod 65536 <> Z.of_nat (S n)) by lia.
        assert (Hprev : 0 < Z.of_nat n /\ MaxNoNewOrRepeatedData config <= Z.of_nat n).
        { destruct (Z.lt_ge_cases (Z.of_nat (S n)) 65536) as [Hsmall | Hlarge].
          - rewrite Z.mod_small in Hbig by lia. contradiction.
          - lia. }
        destruct Hprev as (Hp1 & Hp2).
        destruct (Z.ltb_spec 0 (Z.of_nat n)) as [_ | ?]; [| lia].
        destruct (Z.leb_spec (MaxNoNewOrRepeatedData config) (Z.of_nat n)); [| lia].
        cbn in Hst. auto.
      * destruct (Z.leb_spec (MaxNoNewOrRepeatedData config) (Z.of_nat n)); [lia |].
        rewrite andb_false_r in Hst. auto.
Qed.

End ProtectRoundTrip.

(** ** E2E supervisor: how long it takes to change its mind *)

Section SupervisorRuns.

Import E2E Runs Conditions.

Variable config : E2E_SMConfigType.

Lemma sm_run_snoc
    (st : E2E_SMCheckStateType) (statuses : list E2E_P01CheckStatusType)
    (p : E2E_P01CheckStatusType) :
  sm_run config st (statuses ++ [p])
  = fst (E2E_SMCheck config (sm_run config st statuses) p).
Proof. unfold sm_run. now rewrite fold_left_app. Qed.

(** The supervisor after [n] positive statuses from its initial state. *)
Lemma sm_run_positive_from_init (statuses : list E2E_P01CheckStatusType) :
  1 <= MaxErrorStateInit config -> 1 <= MaxErrorStateValid config ->
  0 <= MinOkStateInit config <= 255 ->
  Forall (fun p => positive_status p = true) statuses ->
  let n := Z.of_nat (length statuses) in
  let st := sm_run config E2E_SMCheckInit statuses in
  ErrorCount st = 0
  /\ (n = 0 -> SMState st = E2E_SM_DEINIT /\ OkCount st = 0)
  /\ (n = 1 -> SMState st = E2E_SM_NODATA /\ OkCount st = 1)
  /\ (2 <= n < Z.max 3 (MinOkStateInit config) ->
      SMState st = E2E_SM_INIT /\ OkCount st = n)
  /\ (Z.max 3 (MinOkStateInit config) <= n -> SMState st = E2E_SM_VALID).
Proof.
  intros Hei Hev Hmin Hall. cbv zeta.
  induction statuses as [| p statuses IH] using rev_ind.
  - cbn. repeat split; intros; lia || auto.
  - apply Forall_app in Hall. destruct Hall as (Hall & Hp).
    apply (proj1 (Forall_singleton _ _)) in Hp. specialize (IH Hall).
    rewrite sm_run_snoc, length_app. cbn [length].
    set (n := Z.of_nat (length statuses)) in *.
    replace (Z.of_nat (length statuses + 1)) with (n + 1) by lia.
    assert (Hn0 : 0 <= n) by lia.
    destruct (sm_run config E2E_SMCheckInit statuses) as [ok err sm]; cbn in IH.
    destruct IH as (-> & H0 & H1 & H2 & H3).
    unfold E2E_SMCheck.
    assert (Hisok : match p with
                    | E2E_P01STATUS_OK | E2E_P01STATUS_OKSOMELOST
                    | E2E_P01STATUS_INITIAL => true
                    | _ => false
                    end = true) by exact Hp.
    rewrite Hisok. cbn [OkCount ErrorCount SMState set_OkCount set_ErrorCount fst snd].
    destruct (Z.eq_dec n 0) as [Hz | Hnz].
    { destruct (H0 Hz) as (-> & ->). cbn.
      repeat split; intros; lia || auto. }
    destruct (Z.eq_dec n 1) as [Hone | Hnone].
    { destruct (H1 Hone) as (-> & ->). cbn.
      destruct p; try discriminate; cbn; repeat split; intros; lia || auto. }
    destruct (Z.lt_ge_cases n (Z.max 3 (MinOkStateInit config))) as [Hlt | Hge].
    { destruct (H2 ltac:(lia)) as (-> & ->).
      destruct (Z.ltb_spec n 255) as [_ | ?]; [| lia].
      cbn [OkCount ErrorCount SMState set_OkCount set_ErrorCount].
      destruct (Z.leb_spec (MinOkStateInit config) (n + 1)) as [Hreach | Hnot]; cbn.
      - repeat split; intros; lia || auto.
      - destruct (Z.leb_spec (MaxErrorStateInit config) 0); [lia |]. cbn.
        repeat split; intros; lia || auto. }
    rewrite (H3 Hge).
    destruct (ok <? 255); cbn;
      (destruct (Z.leb_spec (MaxErrorStateValid config) 0); [lia |]); cbn;
      repeat split; intros; lia || auto.
Qed.

(** X6.  A freshly initialised supervisor that is fed positive statuses
    only (Ok, OkSomeLost, Initial) leaves DeInit on the first check,
    NoData on the second, and is Valid from check number
    [max 3 MinOkStateInit] on, not earlier. *)
Theorem supervisor_becomes_valid (statuses : list E2E_P01CheckStatusType) :
  1 <= MaxErrorStateInit config -> 1 <= MaxErrorStateValid config ->
  0 <= MinOkStateInit config <= 255 ->
  Forall (fun p => positive_status p = true) statuses ->
  let n := Z.of_nat (length statuses) in
  SMState (sm_run config E2E_SMCheckInit statuses)
  = (if n =? 0 then E2E_SM_DEINIT
     else if n =? 1 then E2E_SM_NODATA
     else if n <? Z.max 3 (MinOkStateInit config) then E2E_SM_INIT
     else E2E_SM_VALID).
Proof.
  intros Hei Hev Hmin Hall n.
  destruct (sm_run_positive_from_init statuses Hei Hev Hmin Hall)
    as (_ & H0 & H1 & H2 & H3).
  fold n in H0, H1, H2, H3.
  destruct (Z.eqb_spec n 0) as [Hz | Hnz]; [exact (proj1 (H0 Hz)) |].
  destruct (Z.eqb_spec n 1) as [Hone | Hnone]; [exact (proj1 (H1 Hone)) |].
  destruct (Z.ltb_spec n (Z.max 3 (MinOkStateInit config))) as [Hlt | Hge].
  - apply H2. unfold n in *. lia.
  - exact (H3 Hge).
Qed.

(** X7.  A Valid supervisor with a clear error count that is fed
    statuses other than Ok, OkSomeLost and Initial (Repeated among them)
    stays Valid for [MaxErrorStateValid - 1] checks and is Invalid from the
    next one on, for as long as no positive status comes. *)
Theorem supervisor_is_invalidated
    (st : E2E_SMCheckStateType) (statuses : list E2E_P01CheckStatusType) :
  SMState st = E2E_SM_VALID -> ErrorCount st = 0 ->
  1 <= MaxErrorStateValid config <= 255 -> 1 <= MinOkStateInvalid config ->
  Forall (fun p => positive_status p = false) statuses ->
  SMState (sm_run config st statuses)
  = (if Z.of_nat (length statuses) <? MaxErrorStateValid config
     then E2E_SM_VALID else E2E_SM_INVALID).
Proof.
  intros Hvalid Herr Hmax Hmin Hall.
  enough (Hinv :
    let n := Z.of_nat (length statuses) in
    let st' := sm_run config st statuses in
    (n < MaxErrorStateValid config -> SMState st' = E2E_SM_VALID /\ ErrorCount st' = n)
    /\ (MaxErrorStateValid config <= n -> SMState st' = E2E_SM_INVALID /\ OkCount st' = 0)).
  { cbv zeta in Hinv. destruct Hinv as (Hlt & Hge).
    destruct (Z.ltb_spec (Z.of_nat (length statuses)) (MaxErrorStateValid config));
      [apply Hlt | apply Hge]; assumption. }
  cbv zeta.
  induction statuses as [| p statuses IH] using rev_ind.
  - cbn. split; [auto | lia].
  - apply Forall_app in Hall. destruct Hall as (Hall & Hp).
    apply (proj1 (Forall_singleton _ _)) in Hp. specialize (IH Hall).
    rewrite sm_run_snoc, length_app. cbn [length].
    set (n := Z.of_nat (length statuses)) in *.
    replace (Z.of_nat (length statuses + 1)) with (n + 1) by lia.
    assert (Hn0 : 0 <= n) by lia.
    destruct (sm_run config st statuses) as [ok err sm]; cbn in IH.
    destruct IH as (Hlt & Hge).
    assert (Hneg : match p with
                   | E2E_P01STATUS_OK | E2E_P01STATUS_OKSOMELOST
                   | E2E_P01STATUS_INITIAL => true
                   | _ => false
                   end = false) by exact Hp.
    unfold E2E_SMCheck. rewrite Hneg.
    destruct (Z.lt_ge_cases n (MaxErrorStateValid config)) as [Hbelow | Hreached].
    + destruct (Hlt Hbelow) as (-> & ->).
      cbn [OkCount ErrorCount SMState set_OkCount set_ErrorCount].
      destruct (Z.ltb_spec n 255) as [_ | ?]; [| lia].
      destruct p; try discriminate; cbn;
        (destruct (Z.leb_spec (MaxErrorStateValid config) (n + 1)); cbn;
         split; intros; lia || auto).
    + destruct (Hge Hreached) as (-> & ->).
      cbn [OkCount ErrorCount SMState set_OkCount set_ErrorCount].
      destruct (err <? 255); destruct p; try discriminate; cbn;
        (destruct (Z.leb_spec (MinOkStateInvalid config) 0); [lia |]); cbn;
        split; intros; lia || auto.
Qed.

(** X8.  An Invalid supervisor with a clear positive count that is fed
    positive statuses only stays Invalid for [MinOkStateInvalid - 1]
    checks and is Valid from the next one on. *)
Theorem supervisor_recovers
    (st : E2E_SMCheckStateType) (statuses : list E2E_P01CheckStatusType) :
  SMState st = E2E_SM_INVALID -> OkCount st = 0 ->
  1 <= MinOkStateInvalid config <= 255 -> 1 <= MaxErrorStateValid config ->
  Forall (fun p => positive_status p = true) statuses ->
  SMState (sm_run config st statuses)
  = (if Z.of_nat (length statuses) <? MinOkStateInvalid config
     then E2E_SM_INVALID else E2E_SM_VALID).
Proof.
  intros Hinvalid Hok Hmin Hmax Hall.
  enough (Hinv :
    let n := Z.of_nat (length statuses) in
    let st' := sm_run config st statuses in
    (n < MinOkStateInvalid config -> SMState st' = E2E_SM_INVALID /\ OkCount st' = n)
    /\ (MinOkStateInvalid config <= n -> SMState st' = E2E_SM_VALID)).
  { cbv zeta in Hinv. destruct Hinv as (Hlt & Hge).
    destruct (Z.ltb_spec (Z.of_nat (length statuses)) (MinOkStateInvalid config));
      [apply Hlt | apply Hge]; assumption. }
  cbv zeta.
  induction statuses as [| p statuses IH] using rev_ind.
  - cbn. split; [auto | lia].
  - apply Forall_app in Hall. destruct Hall as (Hall & Hp).
    apply (proj1 (Forall_singleton _ _)) in Hp. specialize (IH Hall).
    rewrite sm_run_snoc, length_app. cbn [length].
    set (n := Z.of_nat (length statuses)) in *.
    replace (Z.of_nat (length statuses + 1)) with (n + 1) by lia.
    assert (Hn0 : 0 <= n) by lia.
    destruct (sm_run config st statuses) as [ok err sm]; cbn in IH.
    destruct IH as (Hlt & Hge).
    assert (Hpos : match p with
                   | E2E_P01STATUS_OK | E2E_P01STATUS_OKSOMELOST
                   | E2E_P01STATUS_INITIAL => true
                   | _ => false
                   end = true) by exact Hp.
    unfold E2E_SMCheck. rewrite Hpos.
    destruct (Z.lt_ge_cases n (MinOkStateInvalid config)) as [Hbelow | Hreached].
    + destruct (Hlt Hbelow) as (-> & ->).
      cbn [OkCount ErrorCount SMState set_OkCount set_ErrorCount].
      destruct (Z.ltb_spec n 255) as [_ | ?]; [| lia]. cbn.
      destruct (Z.leb_spec (MinOkStateInvalid config) (n + 1)); cbn;
        split; intros; lia || auto.
    + rewrite (Hge Hreached).
      cbn [OkCount ErrorCount SMState set_OkCount set_ErrorCount].
      destruct (ok <? 255); cbn;
        (destruct (Z.leb_spec (MaxErrorStateValid config) 0); [lia |]); cbn;
        split; intros; lia || auto.
Qed.

End SupervisorRuns.

(** The frame of a LowBeam request, protected, with its command byte
    changed from 1 to 2. *)
Lemma corrupted_byte_is_rejected_witness :
  E2E.E2E_P01Check Samples.config E2E.E2E_P01CheckInit
    (Some (<[2%nat := 2]> Samples.low_beam_frame))
    (Z.of_nat (length Samples.low_beam_frame))
  = (E2E.set_Status E2E_P01STATUS_WRONGCRC E2E.E2E_P01CheckInit,
     E2E_P01STATUS_WRONGCRC).
Proof.
  apply (corrupted_byte_is_rejected Samples.config E2E.E2E_P01CheckInit
           Samples.low_beam_frame 2 1 2).
  - unfold Samples.low_beam_frame, Runs.is_byte.
    repeat (apply Forall_cons; split; [lia |]). apply Forall_nil_2.
  - unfold Runs.is_byte. lia.
  - vm_compute. discriminate.
  - vm_compute. discriminate.
  - vm_compute. reflexivity.
  - vm_compute. reflexivity.
  - reflexivity.
  - discriminate.
Defined.

(** A freshly initialised sender protects the frame of a LowBeam
    request. *)
Lemma protect_writes_counter_and_crc_witness :
  let '(r, ps', data') :=
    E2E.E2E_P01Protect Samples.config E2E.E2E_P01ProtectInit Samples.low_beam_payload
      (Z.of_nat (length Samples.low_beam_payload)) in
  r = E_OK /\ E2E.Counter ps' = 1 /\ E2E.E2E_P01_GetCounter data' Samples.config = 0.
Proof.
  pose proof (protect_writes_counter_and_crc Samples.config E2E.E2E_P01ProtectInit
                Samples.low_beam_payload) as H.
  cbv zeta in H.
  destruct (E2E.E2E_P01Protect Samples.config E2E.E2E_P01ProtectInit
              Samples.low_beam_payload (Z.of_nat (length Samples.low_beam_payload)))
    as [[r ps'] data'].
  destruct H as (Hr & Hps & _ & Hget & _).
  - vm_compute. discriminate.
  - vm_compute. discriminate.
  - vm_compute. reflexivity.
  - vm_compute. reflexivity.
  - vm_compute. discriminate.
  - vm_compute. split; discriminate.
  - split; [exact Hr |]. split; [exact Hps | exact Hget].
Defined.

(** The first frame a fresh receiver gets from a fresh sender. *)
Lemma protected_frame_verdict_witness :
  let '(_, _, data') :=
    E2E.E2E_P01Protect Samples.config E2E.E2E_P01ProtectInit Samples.low_beam_payload
      (Z.of_nat (length Samples.low_beam_payload)) in
  let '(cs', verdict) :=
    E2E.E2E_P01Check Samples.config E2E.E2E_P01CheckInit (Some data')
      (Z.of_nat (length Samples.low_beam_payload)) in
  verdict = E2E_P01STATUS_INITIAL /\ E2E.WaitForFirstData cs' = false.
Proof.
  pose proof (protected_frame_verdict Samples.config E2E.E2E_P01ProtectInit
                E2E.E2E_P01CheckInit Samples.low_beam_payload) as H.
  cbv zeta in H.
  destruct (E2E.E2E_P01Protect Samples.config E2E.E2E_P01ProtectInit
              Samples.low_beam_payload (Z.of_nat (length Samples.low_beam_payload)))
    as [[r ps'] data'].
  destruct (E2E.E2E_P01Check Samples.config E2E.E2E_P01CheckInit (Some data')
              (Z.of_nat (length Samples.low_beam_payload))) as [cs' verdict].
  destruct H as (Hv & _ & _ & Hw & _).
  - vm_compute. discriminate.
  - vm_compute. discriminate.
  - vm_compute. reflexivity.
  - vm_compute. reflexivity.
  - vm_compute. discriminate.
  - vm_compute. split; discriminate.
  - split; [exact Hv | exact Hw].
Defined.

(** The first frame, presented a second time. *)
Lemma accepted_frame_is_repeated_next_witness :
  E2E.E2E_P01Check Samples.config Samples.receiver_in_step
    (Some Samples.low_beam_frame) 4
  = (E2E.set_Status E2E_P01STATUS_REPEATED Samples.receiver_in_step,
     E2E_P01STATUS_REPEATED).
Proof.
  apply (accepted_frame_is_repeated_next Samples.config E2E.E2E_P01CheckInit
           Samples.receiver_in_step Samples.low_beam_frame 4 E2E_P01STATUS_INITIAL).
  - discriminate.
  - vm_compute. reflexivity.
  - reflexivity.
Defined.

(** Seven ticks of silence at a receiver in step: the configuration of the
    light-switch message allows four. *)
Lemma silence_becomes_no_new_data_witness :
  E2E.Status (Runs.check_silent Samples.config None 0 7 Samples.receiver_in_step)
  = E2E_P01STATUS_NONEWDATA.
Proof.
  apply (silence_becomes_no_new_data Samples.config None 0 7 Samples.receiver_in_step).
  - left. reflexivity.
  - vm_compute. split; discriminate.
  - reflexivity.
Defined.

(** Three positive statuses with the light-switch configuration. *)
Lemma supervisor_becomes_valid_witness :
  E2E.SMState
    (Runs.sm_run Samples.sm_config E2E.E2E_SMCheckInit
       [E2E_P01STATUS_INITIAL; E2E_P01STATUS_OK; E2E_P01STATUS_OK])
  = E2E_SM_VALID.
Proof.
  apply (supervisor_becomes_valid Samples.sm_config
           [E2E_P01STATUS_INITIAL; E2E_P01STATUS_OK; E2E_P01STATUS_OK]).
  - vm_compute. discriminate.
  - vm_compute. discriminate.
  - vm_compute. split; discriminate.
  - repeat (apply Forall_cons; split; [reflexivity |]). apply Forall_nil_2.
Defined.

(** Two repeated frames with the light-switch configuration. *)
Lemma supervisor_is_invalidated_witness :
  E2E.SMState
    (Runs.sm_run Samples.sm_config Samples.sm_valid
       [E2E_P01STATUS_REPEATED; E2E_P01STATUS_REPEATED])
  = E2E_SM_INVALID.
Proof.
  apply (supervisor_is_invalidated Samples.sm_config Samples.sm_valid
           [E2E_P01STATUS_REPEATED; E2E_P01STATUS_REPEATED]).
  - reflexivity.
  - reflexivity.
  - vm_compute. split; discriminate.
  - vm_compute. discriminate.
  - repeat (apply Forall_cons; split; [reflexivity |]). apply Forall_nil_2.
Defined.

(** Three good frames with the light-switch configuration. *)
Lemma supervisor_recovers_witness :
  E2E.SMState
    (Runs.sm_run Samples.sm_config Samples.sm_invalid
       [E2E_P01STATUS_OK; E2E_P01STATUS_OK; E2E_P01STATUS_OK])
  = E2E_SM_VALID.
Proof.
  apply (supervisor_recovers Samples.sm_config Samples.sm_invalid
           [E2E_P01STATUS_OK; E2E_P01STATUS_OK; E2E_P01STATUS_OK]).
  - reflexivity.
  - reflexivity.
  - vm_compute. split; discriminate.
  - vm_compute. discriminate.
  - repeat (apply Forall_cons; split; [reflexivity |]). apply Forall_nil_2.
Defined.

(** ** SwitchEvent: what the report says, tick by tick *)

Section SwitchReport.

Import SwitchEvent Runs Conditions.

(** What [SwitchEvent_UpdateTimeoutStatus] does to the timeout counter and
    flag, and what it leaves alone. *)
Lemma UpdateTimeoutStatus_effect s :
  let s' := SwitchEvent_UpdateTimeoutStatus s in
  let tc' := if negb (newMessageReceived s) then wrap16 (timeoutCounter s + 1)
             else timeoutCounter s in
  timeoutCounter s' = tc'
  /\ timeoutActive s' = (SWITCHEVENT_TIMEOUT_CYCLES <=? tc')
  /\ isInitialized s' = isInitialized s
  /\ e2eConfig s' = e2eConfig s
  /\ e2eSmConfig s' = e2eSmConfig s
  /\ newMessageReceived s' = newMessageReceived s
  /\ e2eCheckState s' = e2eCheckState s
  /\ e2eSmState s' = e2eSmState s
  /\ e2eSmStatus s' = e2eSmStatus s
  /\ e2eStatus s' = e2eStatus s
  /\ LightSwitchStatus.command (lightSwitchStatus s')
     = LightSwitchStatus.command (lightSwitchStatus s).
Proof.
  destruct s as [ini cfg cs sm smcfg lss st smst tc etc lvt ct ce cto efa ta lmd nmr].
  unfold SwitchEvent_UpdateTimeoutStatus.
  cbn [newMessageReceived timeoutCounter].
  destruct nmr; cbn [negb set_timeoutCounter timeoutCounter];
    destruct (SWITCHEVENT_TIMEOUT_CYCLES <=? _) eqn:Hto;
    cbn [e2eSmStatus set_lightSwitchStatus set_consecutiveTimeouts set_timeoutActive];
    destruct smst;
    cbn [set_e2eTimeoutCounter e2eTimeoutCounter];
    try (destruct (SWITCHEVENT_E2E_TIMEOUT_CYCLES <=? _));
    cbn; rewrite ?Hto; repeat split; reflexivity.
Qed.

(** The end of a tick: the report is written from the supervisor status,
    the timeout flag and the E2E status, and nothing else changes. *)
Lemma MainFunction_report (g : Globals) :
  isInitialized (SwitchEvent_State g) = true ->
  let s2 :=
    SwitchEvent_UpdateTimeoutStatus
      (SwitchEvent_PerformE2ECheck
         (set_currentTimestamp (SwitchEvent_SystemTime g) (SwitchEvent_State g))) in
  let s' := SwitchEvent_State (SwitchEvent_MainFunction g) in
  LightSwitchStatus.isValid (lightSwitchStatus s')
  = match e2eSmStatus s2 with
    | E2E_SM_VALID => negb (timeoutActive s2)
    | _ => false
    end
  /\ LightSwitchStatus.e2eStatus (lightSwitchStatus s')
     = E2E_P01CheckStatus_code (e2eStatus s2)
  /\ LightSwitchStatus.command (lightSwitchStatus s')
     = LightSwitchStatus.command (lightSwitchStatus s2)
  /\ isInitialized s' = isInitialized s2
  /\ e2eConfig s' = e2eConfig s2
  /\ e2eSmConfig s' = e2eSmConfig s2
  /\ newMessageReceived s' = newMessageReceived s2
  /\ e2eCheckState s' = e2eCheckState s2
  /\ e2eSmState s' = e2eSmState s2
  /\ e2eSmStatus s' = e2eSmStatus s2
  /\ e2eStatus s' = e2eStatus s2
  /\ timeoutCounter s' = timeoutCounter s2
  /\ timeoutActive s' = timeoutActive s2.
Proof.
  intros Hinit. cbv zeta. unfold SwitchEvent_MainFunction. rewrite Hinit. cbn [negb].
  set (s2 := SwitchEvent_UpdateTimeoutStatus _). clearbody s2.
  cbn [SwitchEvent_State].
  destruct s2 as [ini cfg cs sm smcfg lss st smst tc etc lvt ct ce cto efa ta lmd nmr].
  cbn [e2eSmStatus timeoutActive].
  destruct smst; try destruct ta; cbn; repeat split; reflexivity.
Qed.

(** X9.  At the end of every tick of an initialised SwitchEvent the
    validity flag of the report is set exactly when the supervisor status
    is Valid and no timeout is active, and the status byte of the report is
    the code of the E2E status of the tick: whatever the steps of the tick
    wrote into the flag before is overwritten. *)
Theorem report_validity_after_tick (g : Globals) :
  isInitialized (SwitchEvent_State g) = true ->
  let s' := SwitchEvent_State (SwitchEvent_MainFunction g) in
  LightSwitchStatus.isValid (lightSwitchStatus s')
  = match e2eSmStatus s' with
    | E2E_SM_VALID => negb (timeoutActive s')
    | _ => false
    end
  /\ LightSwitchStatus.e2eStatus (lightSwitchStatus s')
     = E2E_P01CheckStatus_code (e2eStatus s').
Proof.
  intros Hinit s'.
  destruct (MainFunction_report g Hinit)
    as (Hval & Hrep & _ & _ & _ & _ & _ & _ & _ & Hsm & Hst & _ & Hto).
  fold s' in Hval, Hrep, Hsm, Hst, Hto.
  rewrite Hval, Hrep, Hsm, Hst, Hto. split; reflexivity.
Qed.

(** A tick with no frame pending: the receiver and the supervisor are
    consulted with nothing received. *)
Lemma PerformE2ECheck_silent s :
  newMessageReceived s = false ->
  let c := E2E.E2E_P01Check (e2eConfig s) (e2eCheckState s) None 0 in
  let m := E2E.E2E_SMCheck (e2eSmConfig s) (e2eSmState s) (snd c) in
  SwitchEvent_PerformE2ECheck s
  = set_e2eSmStatus (snd m)
      (set_e2eSmState (fst m) (set_e2eStatus (snd c) (set_e2eCheckState (fst c) s))).
Proof.
  intros Hnew. unfold SwitchEvent_PerformE2ECheck. rewrite Hnew.
  destruct (E2E.E2E_P01Check (e2eConfig s) (e2eCheckState s) None 0) as [cs st].
  cbv zeta. cbn [fst snd e2eSmConfig e2eSmState e2eStatus set_e2eStatus set_e2eCheckState].
  destruct (E2E.E2E_SMCheck (e2eSmConfig s) (e2eSmState s) st) as [sm smst].
  reflexivity.
Qed.

(** With nothing received, the status NoNewData stays. *)
Lemma Check_nothing_sticky (config : E2E.E2E_P01ConfigType) (cs : E2E.E2E_P01CheckStateType) :
  E2E.Status cs = E2E_P01STATUS_NONEWDATA ->
  E2E.Status (fst (E2E.E2E_P01Check config cs None 0)) = E2E_P01STATUS_NONEWDATA
  /\ snd (E2E.E2E_P01Check config cs None 0) = E2E_P01STATUS_NONEWDATA.
Proof.
  intros Hst. unfold E2E.E2E_P01Check. cbn.
  destruct (E2E.MaxNoNewOrRepeatedData config <=? _); cbn; auto.
Qed.

(** An Invalid supervisor with a clear positive count stays so on every
    status that is not positive. *)
Lemma SMCheck_stays_invalid
    (config : E2E.E2E_SMConfigType) (sm : E2E.E2E_SMCheckStateType)
    (p : E2E_P01CheckStatusType) :
  E2E.SMState sm = E2E_SM_INVALID -> E2E.OkCount sm = 0 ->
  1 <= E2E.MinOkStateInvalid config -> positive_status p = false ->
  E2E.SMState (fst (E2E.E2E_SMCheck config sm p)) = E2E_SM_INVALID
  /\ E2E.OkCount (fst (E2E.E2E_SMCheck config sm p)) = 0
  /\ snd (E2E.E2E_SMCheck config sm p) = E2E_SM_INVALID.
Proof.
  destruct sm as [ok err st]. cbn [E2E.SMState E2E.OkCount].
  intros -> -> Hmin Hp. unfold E2E.E2E_SMCheck.
  cbn [E2E.ErrorCount E2E.OkCount E2E.SMState E2E.set_ErrorCount E2E.set_OkCount].
  destruct (err <? 255); destruct p; try discriminate; cbn;
    (destruct (Z.leb_spec (E2E.MinOkStateInvalid config) 0); [lia |]);
    cbn; auto.
Qed.

(** One more tick of silence at a SwitchEvent that has been silent for
    long. *)
Lemma silenced_tick (g : Globals) :
  sw_silenced (SwitchEvent_State g) ->
  let s := SwitchEvent_State g in
  let s' := SwitchEvent_State (SwitchEvent_MainFunction g) in
  sw_silenced s'
  /\ timeoutCounter s' = wrap16 (timeoutCounter s + 1)
  /\ timeoutActive s' = (SWITCHEVENT_TIMEOUT_CYCLES <=? timeoutCounter s').
Proof.
  intros (Hinit & Hcfg & Hsmcfg & Hnew & Hst & Hsm & Hok & Hval). cbv zeta.
  pose proof (MainFunction_report g Hinit) as Hrep. cbv zeta in Hrep.
  set (s0 := set_currentTimestamp (SwitchEvent_SystemTime g) (SwitchEvent_State g)) in *.
  assert (Hnew0 : newMessageReceived s0 = false) by exact Hnew.
  pose proof (PerformE2ECheck_silent s0 Hnew0) as Hperf. cbv zeta in Hperf.
  change (e2eConfig s0) with (e2eConfig (SwitchEvent_State g)) in Hperf.
  change (e2eCheckState s0) with (e2eCheckState (SwitchEvent_State g)) in Hperf.
  change (e2eSmConfig s0) with (e2eSmConfig (SwitchEvent_State g)) in Hperf.
  change (e2eSmState s0) with (e2eSmState (SwitchEvent_State g)) in Hperf.
  destruct (Check_nothing_sticky (e2eConfig (SwitchEvent_State g))
              (e2eCheckState (SwitchEvent_State g)) Hst) as (Hst1 & Hv1).
  set (c := E2E.E2E_P01Check _ _ None 0) in *.
  rewrite Hv1 in Hperf.
  assert (Hmin : 1 <= E2E.MinOkStateInvalid (e2eSmConfig (SwitchEvent_State g)))
    by (rewrite Hsmcfg; cbn; lia).
  destruct (SMCheck_stays_invalid (e2eSmConfig (SwitchEvent_State g))
              (e2eSmState (SwitchEvent_State g)) E2E_P01STATUS_NONEWDATA
              Hsm Hok Hmin eq_refl) as (Hsm1 & Hok1 & Hv2).
  set (m := E2E.E2E_SMCheck _ _ E2E_P01STATUS_NONEWDATA) in *.
  set (s1 := SwitchEvent_PerformE2ECheck s0) in *.
  clearbody c m.
  assert (F1 : isInitialized s1 = true /\ e2eConfig s1 = SwitchEvent_InitE2E_config
               /\ e2eSmConfig s1 = SwitchEvent_InitE2E_smConfig
               /\ newMessageReceived s1 = false
               /\ e2eCheckState s1 = fst c /\ e2eSmState s1 = fst m
               /\ e2eSmStatus s1 = E2E_SM_INVALID
               /\ timeoutCounter s1 = timeoutCounter (SwitchEvent_State g)).
  { rewrite Hperf. cbn. rewrite Hv2. repeat split; assumption. }
  clearbody s1.
  destruct F1 as (Hi1 & Hc1 & Hsc1 & Hn1 & Hcs1 & Hsms1 & Hsmst1 & Htc1).
  pose proof (UpdateTimeoutStatus_effect s1) as Hupd. cbv zeta in Hupd.
  rewrite Hn1 in Hupd. cbn [negb] in Hupd.
  set (s2 := SwitchEvent_UpdateTimeoutStatus s1) in *. clearbody s2.
  destruct Hupd as (U1 & U2 & U3 & U4 & U5 & U6 & U7 & U8 & U9 & U10 & U11).
  set (s' := SwitchEvent_State (SwitchEvent_MainFunction g)) in *. clearbody s'.
  destruct Hrep as (R1 & R2 & R3 & R4 & R5 & R6 & R7 & R8 & R9 & R10 & R11 & R12 & R13).
  split; [| split].
  - unfold sw_silenced.
    rewrite R4, R5, R6, R7, R8, R9, R1, U3, U4, U5, U6, U7, U8, U9, Hsmst1.
    rewrite Hcs1, Hsms1. repeat split; assumption.
  - rewrite R12, U1, Htc1. reflexivity.
  - rewrite R13, R12, U2, U1. reflexivity.
Qed.

Lemma silenced_run (n : nat) (g : Globals) :
  sw_silenced (SwitchEvent_State g) ->
  let s := SwitchEvent_State (sw_silent n g) in
  sw_silenced s
  /\ (n <> 0%nat ->
      timeoutCounter s = (timeoutCounter (SwitchEvent_State g) + Z.of_nat n) mod 65536
      /\ timeoutActive s = (SWITCHEVENT_TIMEOUT_CYCLES <=? timeoutCounter s)).
Proof.
  intros Hsil. cbv zeta. induction n as [| n IH].
  - split; [exact Hsil | congruence].
  - destruct IH as (Hn & Hcnt).
    change (sw_silent (S n) g) with (SwitchEvent_MainFunction (sw_silent n g)).
    destruct (silenced_tick (sw_silent n g) Hn) as (Hs & Htc & Hto).
    split; [exact Hs |]. intros _. split; [| exact Hto].
    rewrite Htc. unfold wrap16.
    destruct n as [| n'].
    + reflexivity.
    + destruct (Hcnt ltac:(congruence)) as (-> & _).
      rewrite Zplus_mod_idemp_l. f_equal. lia.
Qed.

Lemma sw_silent_add (n m : nat) (g : Globals) :
  sw_silent (n + m) g = sw_silent n (sw_silent m g).
Proof. apply Nat.iter_add. Qed.

(** X10.  SwitchEvent on a bus that stays silent from initialisation on:
    the timeout is active from the fifth tick on (as long as the 16-bit
    timeout counter has not wrapped), and the report is valid during the
    third and the fourth tick only, when the supervisor has counted the
    receiver's initial status as good frames and the timeout has not yet
    struck. *)
Theorem silent_bus_timeline (g : Globals) (n : nat) :
  let s := SwitchEvent_State (sw_silent n (SwitchEvent_Init g)) in
  timeoutActive s = (SWITCHEVENT_TIMEOUT_CYCLES <=? Z.of_nat n mod 65536)
  /\ LightSwitchStatus.isValid (lightSwitchStatus s)
     = ((Z.of_nat n =? 3) || (Z.of_nat n =? 4)).
Proof.
  do 7 (destruct n as [| n]; [vm_compute; split; reflexivity |]).
  cbv zeta.
  replace (S (S (S (S (S (S (S n))))))) with (S n + 6)%nat by lia.
  rewrite sw_silent_add.
  assert (Hsix : sw_silenced (SwitchEvent_State (sw_silent 6 (SwitchEvent_Init g)))).
  { vm_compute. repeat split; reflexivity. }
  assert (Htc : timeoutCounter (SwitchEvent_State (sw_silent 6 (SwitchEvent_Init g))) = 6)
    by (vm_compute; reflexivity).
  destruct (silenced_run (S n) _ Hsix) as ((_ & _ & _ & _ & _ & _ & _ & Hval) & Hrun).
  destruct (Hrun ltac:(congruence)) as (Hcnt & Hact).
  split.
  - rewrite Hact, Hcnt, Htc. do 2 f_equal. lia.
  - rewrite Hval. symmetry. apply orb_false_intro; apply Z.eqb_neq; lia.
Qed.

End SwitchReport.

(** ** SwitchEvent: frames from a sender in step *)

Section SwitchRounds.

Import SwitchEvent Runs Conditions.

Lemma SMCheck_snd
    (config : E2E.E2E_SMConfigType) (sm : E2E.E2E_SMCheckStateType)
    (p : E2E_P01CheckStatusType) :
  snd (E2E.E2E_SMCheck config sm p) = E2E.SMState (fst (E2E.E2E_SMCheck config sm p)).
Proof. reflexivity. Qed.

(** What extracting the command touches. *)
Lemma ExtractLightSwitchCommand_fields (data : list Z) s :
  let s' := SwitchEvent_ExtractLightSwitchCommand data s in
  LightSwitchStatus.command (lightSwitchStatus s')
  = requested_command data (LightSwitchStatus.command (lightSwitchStatus s))
  /\ isInitialized s' = isInitialized s
  /\ e2eConfig s' = e2eConfig s
  /\ e2eSmConfig s' = e2eSmConfig s
  /\ e2eCheckState s' = e2eCheckState s
  /\ e2eSmState s' = e2eSmState s
  /\ e2eSmStatus s' = e2eSmStatus s
  /\ e2eStatus s' = e2eStatus s.
Proof.
  unfold SwitchEvent_ExtractLightSwitchCommand, SwitchEvent_IsCommandValid,
    requested_command.
  destruct (rd data COM_LIGHTSWITCH_CMD_BYTE <=? LightSwitchCmd_code LIGHT_SWITCH_AUTO);
    cbn; repeat split; reflexivity.
Qed.

(** A tick with a pending frame that the receiver accepts. *)
Lemma PerformE2ECheck_accepted s :
  newMessageReceived s = true ->
  let c :=
    E2E.E2E_P01Check (e2eConfig s) (e2eCheckState s) (Some (lastMessageData s))
      FLM_CAN_LIGHTSWITCH_MSG_LEN in
  let m := E2E.E2E_SMCheck (e2eSmConfig s) (e2eSmState s) (snd c) in
  positive_status (snd c) = true ->
  let s' := SwitchEvent_PerformE2ECheck s in
  LightSwitchStatus.command (lightSwitchStatus s')
  = requested_command (lastMessageData s)
      (LightSwitchStatus.command (lightSwitchStatus s))
  /\ isInitialized s' = isInitialized s
  /\ e2eConfig s' = e2eConfig s
  /\ e2eSmConfig s' = e2eSmConfig s
  /\ e2eCheckState s' = fst c
  /\ e2eSmState s' = fst m
  /\ e2eSmStatus s' = snd m
  /\ e2eStatus s' = snd c
  /\ timeoutCounter s' = 0
  /\ newMessageReceived s' = false.
Proof.
  intros Hnew. cbv zeta. unfold SwitchEvent_PerformE2ECheck. rewrite Hnew.
  destruct (E2E.E2E_P01Check (e2eConfig s) (e2eCheckState s) (Some (lastMessageData s))
              FLM_CAN_LIGHTSWITCH_MSG_LEN) as [cs st].
  cbv zeta.
  cbn [fst snd e2eSmConfig e2eSmState e2eStatus set_e2eStatus set_e2eCheckState].
  destruct (E2E.E2E_SMCheck (e2eSmConfig s) (e2eSmState s) st) as [sm smst].
  cbn [fst snd]. intros Hpos.
  destruct st; try discriminate; cbv zeta;
    cbn [e2eStatus set_e2eSmStatus set_e2eSmState set_e2eStatus];
    match goal with
    | |- context [SwitchEvent_ExtractLightSwitchCommand ?d ?x] =>
        pose proof (ExtractLightSwitchCommand_fields d x) as Hx; cbv zeta in Hx;
        set (sx := SwitchEvent_ExtractLightSwitchCommand d x) in *; clearbody sx;
        destruct Hx as (X1 & X2 & X3 & X4 & X5 & X6 & X7 & X8)
    end;
    cbn; rewrite X1, X2, X3, X4, X5, X6, X7, X8; repeat split; reflexivity.
Qed.

(** A protected frame at the receiver of a listening SwitchEvent: the
    verdict is positive and leaves the receiver in step with the
    sender. *)
Lemma listening_verdict
    (ps : E2E.E2E_P01ProtectStateType) (cs : E2E.E2E_P01CheckStateType) (data : list Z) :
  length data = 4%nat ->
  0 <= E2E.Counter ps <= 14 ->
  E2E.WaitForFirstData cs = true \/ in_step ps cs ->
  let '(_, ps', data') := E2E.E2E_P01Protect SwitchEvent_InitE2E_config ps data 4 in
  let '(cs', verdict) := E2E.E2E_P01Check SwitchEvent_InitE2E_config cs (Some data') 4 in
  positive_status verdict = true
  /\ in_step ps' cs'
  /\ length data' = 4%nat
  /\ rd data' COM_LIGHTSWITCH_CMD_BYTE = rd data COM_LIGHTSWITCH_CMD_BYTE.
Proof.
  intros Hlen Hc Hready.
  pose proof (Protect_result SwitchEvent_InitE2E_config ps data) as Hp.
  pose proof (Check_after_Protect SwitchEvent_InitE2E_config ps cs data) as Hk.
  cbv zeta in Hp, Hk. rewrite Hlen in Hp, Hk. change (Z.of_nat 4) with 4 in Hp, Hk.
  assert (H1 : 0 <= E2E.CounterOffset SwitchEvent_InitE2E_config)
    by (vm_compute; discriminate).
  assert (H2 : 0 <= E2E.CRCOffset SwitchEvent_InitE2E_config)
    by (vm_compute; discriminate).
  assert (H3 : E2E.CounterOffset SwitchEvent_InitE2E_config / 8 < 4)
    by (vm_compute; reflexivity).
  assert (H4 : E2E.CRCOffset SwitchEvent_InitE2E_config / 8 < 4)
    by (vm_compute; reflexivity).
  assert (H5 : E2E.CounterOffset SwitchEvent_InitE2E_config / 8
               <> E2E.CRCOffset SwitchEvent_InitE2E_config / 8)
    by (vm_compute; discriminate).
  specialize (Hp H1 H2 H3 H4 H5 Hc). specialize (Hk H1 H2 H3 H4 H5 Hc).
  destruct (E2E.E2E_P01Protect SwitchEvent_InitE2E_config ps data 4) as [[r ps'] data'].
  destruct (E2E.E2E_P01Check SwitchEvent_InitE2E_config cs (Some data') 4) as [cs' verdict].
  destruct Hp as (_ & Hps & Hlen' & _ & _ & _ & Hkeep).
  destruct Hk as (Hv & _ & _ & Hwait & Hlast).
  destruct (IncrementCounter_range (E2E.Counter ps) Hc) as (Hrange & Hback).
  assert (Hpos : positive_status verdict = true).
  { rewrite Hv. destruct Hready as [-> | (_ & -> & Hlv)]; [reflexivity |].
    rewrite Hlv. unfold E2E.E2E_P01_DeltaCounter, E2E.E2E_P01_COUNTER_WRAP.
    change (E2E.MaxDeltaCounter SwitchEvent_InitE2E_config) with 2.
    destruct (Z.eq_dec (E2E.Counter ps) 0) as [-> | Hnz].
    - reflexivity.
    - replace ((E2E.Counter ps + 14) mod 15) with (E2E.Counter ps - 1)
        by (apply Z.mod_unique with (q := 1); lia).
      destruct (Z.leb_spec (E2E.Counter ps - 1) (E2E.Counter ps)); [| lia].
      replace (E2E.Counter ps - (E2E.Counter ps - 1)) with 1 by lia. reflexivity. }
  split; [exact Hpos |]. split.
  { unfold in_step. rewrite Hps, Hlast, Hpos, Hback. auto. }
  split; [exact Hlen' |].
  unfold rd. change (Z.to_nat COM_LIGHTSWITCH_CMD_BYTE) with 2%nat.
  rewrite (Hkeep 2%nat); [reflexivity | vm_compute; discriminate ..].
Qed.

(** One round at a listening SwitchEvent. *)
Lemma listening_round
    (ps : E2E.E2E_P01ProtectStateType) (g : Globals) (data : list Z) :
  sw_listening ps (SwitchEvent_State g) ->
  length data = 4%nat ->
  let s := SwitchEvent_State g in
  let s' := SwitchEvent_State (snd (sw_round (ps, g) data)) in
  exists verdict,
    positive_status verdict = true
    /\ sw_listening (fst (sw_round (ps, g) data)) s'
    /\ in_step (fst (sw_round (ps, g) data)) (e2eCheckState s')
    /\ e2eSmState s'
       = fst (E2E.E2E_SMCheck SwitchEvent_InitE2E_smConfig (e2eSmState s) verdict)
    /\ e2eSmStatus s' = E2E.SMState (e2eSmState s')
    /\ e2eStatus s' = verdict
    /\ timeoutActive s' = false
    /\ LightSwitchStatus.isValid (lightSwitchStatus s')
       = match E2E.SMState (e2eSmState s') with E2E_SM_VALID => true | _ => false end
    /\ LightSwitchStatus.command (lightSwitchStatus s')
       = requested_command data (LightSwitchStatus.command (lightSwitchStatus s)).
Proof.
  intros (Hinit & Hcfg & Hsmcfg & Hc & Hready) Hlen. cbv zeta.
  unfold sw_round.
  pose proof (listening_verdict ps (e2eCheckState (SwitchEvent_State g)) data
                Hlen Hc Hready) as Hv.
  destruct (E2E.E2E_P01Protect SwitchEvent_InitE2E_config ps data 4) as [[r ps'] data'].
  cbn [fst snd].
  set (g1 := SwitchEvent_ProcessCanMessage (Some data') 4 g).
  assert (Hg1 : SwitchEvent_State g1
                = set_newMessageReceived true
                    (set_lastMessageData data' (SwitchEvent_State g))
                /\ SwitchEvent_SystemTime g1 = SwitchEvent_SystemTime g).
  { destruct (E2E.E2E_P01Check _ _ _ _) as [cs' verdict].
    destruct Hv as (_ & _ & Hlen' & _).
    subst g1. unfold SwitchEvent_ProcessCanMessage. cbn [Z.eqb negb Pos.eqb FLM_CAN_LIGHTSWITCH_MSG_LEN].
    cbn [SwitchEvent_State SwitchEvent_SystemTime].
    rewrite take_ge by (rewrite Hlen'; cbn; lia). auto. }
  destruct Hg1 as (Hs1 & Ht1). clearbody g1.
  assert (Hinit1 : isInitialized (SwitchEvent_State g1) = true)
    by (rewrite Hs1; exact Hinit).
  pose proof (MainFunction_report g1 Hinit1) as Hrep. cbv zeta in Hrep.
  set (s' := SwitchEvent_State (SwitchEvent_MainFunction g1)) in *. clearbody s'.
  set (s0 := set_currentTimestamp (SwitchEvent_SystemTime g1) (SwitchEvent_State g1)) in *.
  assert (Hnew0 : newMessageReceived s0 = true) by (subst s0; rewrite Hs1; reflexivity).
  pose proof (PerformE2ECheck_accepted s0 Hnew0) as Hperf. cbv zeta in Hperf.
  assert (E1 : e2eConfig s0 = SwitchEvent_InitE2E_config)
    by (subst s0; rewrite Hs1; exact Hcfg).
  assert (E2 : e2eCheckState s0 = e2eCheckState (SwitchEvent_State g))
    by (subst s0; rewrite Hs1; reflexivity).
  assert (E3 : lastMessageData s0 = data') by (subst s0; rewrite Hs1; reflexivity).
  assert (E4 : e2eSmConfig s0 = SwitchEvent_InitE2E_smConfig)
    by (subst s0; rewrite Hs1; exact Hsmcfg).
  assert (E5 : e2eSmState s0 = e2eSmState (SwitchEvent_State g))
    by (subst s0; rewrite Hs1; reflexivity).
  assert (E6 : isInitialized s0 = true) by (subst s0; rewrite Hs1; exact Hinit).
  assert (E7 : LightSwitchStatus.command (lightSwitchStatus s0)
               = LightSwitchStatus.command (lightSwitchStatus (SwitchEvent_State g)))
    by (subst s0; rewrite Hs1; reflexivity).
  rewrite E1, E2, E3, E4, E5, E6, E7 in Hperf.
  change FLM_CAN_LIGHTSWITCH_MSG_LEN with 4 in Hperf.
  destruct (E2E.E2E_P01Check SwitchEvent_InitE2E_config
              (e2eCheckState (SwitchEvent_State g)) (Some data') 4) as [cs' verdict].
  cbn [fst snd] in Hperf.
  destruct Hv as (Hpos & Hstep & Hlen' & Hcode).
  specialize (Hperf Hpos).
  set (s1 := SwitchEvent_PerformE2ECheck s0) in *. clearbody s1. clear s0 Hnew0 E1 E2 E3 E4 E5 E6 E7.
  destruct Hperf as (P1 & P2 & P3 & P4 & P5 & P6 & P7 & P8 & P9 & P10).
  pose proof (UpdateTimeoutStatus_effect s1) as Hupd. cbv zeta in Hupd.
  rewrite P10, P9 in Hupd. cbn [negb] in Hupd.
  change (wrap16 (0 + 1)) with 1 in Hupd.
  change (SWITCHEVENT_TIMEOUT_CYCLES <=? 1) with false in Hupd.
  set (s2 := SwitchEvent_UpdateTimeoutStatus s1) in *. clearbody s2.
  destruct Hupd as (U1 & U2 & U3 & U4 & U5 & U6 & U7 & U8 & U9 & U10 & U11).
  destruct Hrep as (R1 & R2 & R3 & R4 & R5 & R6 & R7 & R8 & R9 & R10 & R11 & R12 & R13).
  exists verdict.
  assert (Hsmst : e2eSmStatus s2 = E2E.SMState (e2eSmState s2)).
  { rewrite U9, U8, P7, P6. apply SMCheck_snd. }
  destruct (IncrementCounter_range (E2E.Counter ps) Hc) as (Hrange & _).
  assert (Hc' : 0 <= E2E.Counter ps' <= 14) by (destruct Hstep as (Hc' & _); exact Hc').
  split; [exact Hpos |]. split.
  { unfold sw_listening. rewrite R4, R5, R6, R8, U3, U4, U5, U7, P2, P3, P4, P5.
    repeat split; try assumption; try lia. right. exact Hstep. }
  split; [rewrite R8, U7, P5; exact Hstep |].
  split; [rewrite R9, U8, P6; reflexivity |].
  split; [rewrite R10, R9; exact Hsmst |].
  split; [rewrite R11, U10, P8; reflexivity |].
  split; [rewrite R13, U2; reflexivity |].
  split.
  { rewrite R1, R9, Hsmst, U2. destruct (E2E.SMState (e2eSmState s2)); reflexivity. }
  rewrite R3, U11, P1. unfold requested_command. rewrite Hcode. reflexivity.
Qed.

Lemma sw_rounds_snoc
    (y : E2E.E2E_P01ProtectStateType * Globals) (frames : list (list Z)) (data : list Z) :
  sw_rounds y (frames ++ [data]) = sw_round (sw_rounds y frames) data.
Proof. unfold sw_rounds. now rewrite fold_left_app. Qed.

(** A Valid supervisor stays Valid on positive statuses. *)
Lemma sm_run_valid_stays
    (config : E2E.E2E_SMConfigType) (st : E2E.E2E_SMCheckStateType)
    (statuses : list E2E_P01CheckStatusType) :
  E2E.SMState st = E2E_SM_VALID -> 1 <= E2E.MaxErrorStateValid config ->
  Forall (fun p => positive_status p = true) statuses ->
  E2E.SMState (sm_run config st statuses) = E2E_SM_VALID.
Proof.
  intros Hvalid Hmax Hall.
  induction statuses as [| p statuses IH] using rev_ind; [exact Hvalid |].
  apply Forall_app in Hall. destruct Hall as (Hall & Hp).
  apply (proj1 (Forall_singleton _ _)) in Hp. specialize (IH Hall).
  rewrite sm_run_snoc.
  destruct (sm_run config st statuses) as [ok err sm]. cbn in IH. subst sm.
  unfold E2E.E2E_SMCheck.
  assert (Hisok : match p with
                  | E2E_P01STATUS_OK | E2E_P01STATUS_OKSOMELOST
                  | E2E_P01STATUS_INITIAL => true
                  | _ => false
                  end = true) by exact Hp.
  rewrite Hisok.
  cbn [E2E.OkCount E2E.ErrorCount E2E.SMState E2E.set_OkCount E2E.set_ErrorCount].
  destruct (ok <? 255); cbn;
    (destruct (Z.leb_spec (E2E.MaxErrorStateValid config) 0); [lia |]); reflexivity.
Qed.

(** Rounds at a listening SwitchEvent: the supervisor has seen one
    positive status per frame. *)
Lemma listening_rounds (frames : list (list Z)) :
  Forall is_frame frames ->
  forall ps g,
    sw_listening ps (SwitchEvent_State g) ->
    let y := sw_rounds (ps, g) frames in
    sw_listening (fst y) (SwitchEvent_State (snd y))
    /\ exists verdicts,
         length verdicts = length frames
         /\ Forall (fun p => positive_status p = true) verdicts
         /\ e2eSmState (SwitchEvent_State (snd y))
            = sm_run SwitchEvent_InitE2E_smConfig
                (e2eSmState (SwitchEvent_State g)) verdicts.
Proof.
  intros Hall ps g Hlisten. cbv zeta.
  induction frames as [| data frames IH] using rev_ind.
  - split; [exact Hlisten |]. exists []. repeat split. apply Forall_nil_2.
  - apply Forall_app in Hall. destruct Hall as (Hall & Hd).
    apply (proj1 (Forall_singleton _ _)) in Hd. destruct Hd as (Hlen & _).
    destruct (IH Hall) as (Hl & verdicts & Hn & Hpos & Hsm).
    rewrite sw_rounds_snoc.
    destruct (sw_rounds (ps, g) frames) as [ps1 g1]. cbn [fst snd] in *.
    destruct (listening_round ps1 g1 data Hl Hlen)
      as (v & Hv & Hl' & _ & Hsm' & _).
    split; [exact Hl' |].
    exists (verdicts ++ [v]). split; [rewrite !length_app, Hn; reflexivity |].
    split; [apply Forall_app; split; [exact Hpos | now apply Forall_singleton] |].
    rewrite Hsm', Hsm, sm_run_snoc. reflexivity.
Qed.

(** The report after a round that leaves the supervisor Valid. *)
Lemma round_report
    (ps : E2E.E2E_P01ProtectStateType) (g : Globals) (data : list Z)
    (verdicts : list E2E_P01CheckStatusType) (sm0 : E2E.E2E_SMCheckStateType) :
  sw_listening ps (SwitchEvent_State g) ->
  length data = 4%nat ->
  e2eSmState (SwitchEvent_State g) = sm_run SwitchEvent_InitE2E_smConfig sm0 verdicts ->
  (forall v, positive_status v = true ->
     E2E.SMState (sm_run SwitchEvent_InitE2E_smConfig sm0 (verdicts ++ [v]))
     = E2E_SM_VALID) ->
  let y := sw_round (ps, g) data in
  let s' := SwitchEvent_State (snd y) in
  sw_established (fst y) s'
  /\ LightSwitchStatus.isValid (lightSwitchStatus s') = true
  /\ timeoutActive s' = false
  /\ positive_status (e2eStatus s') = true
  /\ LightSwitchStatus.command (lightSwitchStatus s')
     = requested_command data
         (LightSwitchStatus.command (lightSwitchStatus (SwitchEvent_State g))).
Proof.
  intros Hl Hlen Hsm Hvalid. cbv zeta.
  destruct (listening_round ps g data Hl Hlen)
    as (v & Hv & (Hi & Hc & Hsc & _) & Hstep & Hsm' & Hst & He & Hto & Hval & Hcmd).
  assert (Hnow : E2E.SMState (e2eSmState (SwitchEvent_State (snd (sw_round (ps, g) data))))
                 = E2E_SM_VALID).
  { rewrite Hsm', Hsm, <- sm_run_snoc. now apply Hvalid. }
  split; [unfold sw_established; auto |].
  split; [rewrite Hval, Hnow; reflexivity |].
  split; [exact Hto |]. split; [rewrite He; exact Hv | exact Hcmd].
Qed.

(** X11.  An established SwitchEvent (supervisor Valid, receiver in step
    with the sender) that is handed one protected frame per tick, with any
    payload, stays established: after every such round the report is
    valid, no timeout is active, the E2E status is positive, and the
    command is the one of the code in the last frame when that code is in
    range, the command that stood before the last round otherwise.  This
    holds across the wrap of the sender's counter. *)
Theorem frames_in_step_are_accepted
    (ps : E2E.E2E_P01ProtectStateType) (g : Globals)
    (frames : list (list Z)) (data : list Z) :
  sw_established ps (SwitchEvent_State g) ->
  Forall is_frame frames -> is_frame data ->
  let before := sw_rounds (ps, g) frames in
  let y := sw_round before data in
  let s' := SwitchEvent_State (snd y) in
  sw_established (fst y) s'
  /\ LightSwitchStatus.isValid (lightSwitchStatus s') = true
  /\ timeoutActive s' = false
  /\ positive_status (e2eStatus s') = true
  /\ LightSwitchStatus.command (lightSwitchStatus s')
     = requested_command data
         (LightSwitchStatus.command (lightSwitchStatus (SwitchEvent_State (snd before)))).
Proof.
  intros (Hi & Hc & Hsc & Hvalid & Hstep) Hall (Hlen & _). cbv zeta.
  assert (Hl : sw_listening ps (SwitchEvent_State g)).
  { unfold sw_listening. pose proof Hstep as (Hctr & _).
    do 3 (split; [assumption |]). split; [exact Hctr | right; exact Hstep]. }
  destruct (listening_rounds frames Hall ps g Hl) as (Hl1 & verdicts & _ & Hpos & Hsm).
  destruct (sw_rounds (ps, g) frames) as [ps1 g1]. cbn [fst snd] in *.
  apply (round_report ps1 g1 data verdicts (e2eSmState (SwitchEvent_State g)));
    try assumption.
  intros v Hv. apply sm_run_valid_stays; [exact Hvalid | vm_compute; discriminate |].
  apply Forall_app. split; [exact Hpos | now apply Forall_singleton].
Qed.

(** X12.  From initialisation: when a freshly initialised sender and a
    freshly initialised SwitchEvent exchange one protected frame per tick,
    the report is valid from the third frame on, with the command of the
    code in the last frame (when that code is in range), and SwitchEvent
    is established on the sender. *)
Theorem report_valid_from_third_frame
    (g : Globals) (frames : list (list Z)) (data : list Z) :
  Forall is_frame frames -> is_frame data ->
  (2 <= length frames)%nat ->
  let before := sw_rounds (E2E.E2E_P01ProtectInit, SwitchEvent_Init g) frames in
  let y := sw_round before data in
  let s' := SwitchEvent_State (snd y) in
  sw_established (fst y) s'
  /\ LightSwitchStatus.isValid (lightSwitchStatus s') = true
  /\ timeoutActive s' = false
  /\ positive_status (e2eStatus s') = true
  /\ LightSwitchStatus.command (lightSwitchStatus s')
     = requested_command data
         (LightSwitchStatus.command (lightSwitchStatus (SwitchEvent_State (snd before)))).
Proof.
  intros Hall (Hlen & _) Hmany. cbv zeta.
  assert (Hl : sw_listening E2E.E2E_P01ProtectInit
                 (SwitchEvent_State (SwitchEvent_Init g))).
  { unfold sw_listening. do 3 (split; [reflexivity |]).
    split; [cbn; lia | left; reflexivity]. }
  destruct (listening_rounds frames Hall _ _ Hl) as (Hl1 & verdicts & Hn & Hpos & Hsm).
  destruct (sw_rounds (E2E.E2E_P01ProtectInit, SwitchEvent_Init g) frames) as [ps1 g1].
  cbn [fst snd] in *.
  apply (round_report ps1 g1 data verdicts E2E.E2E_SMCheckInit); try assumption.
  intros v Hv.
  assert (Hall' : Forall (fun p => positive_status p = true) (verdicts ++ [v])).
  { apply Forall_app. split; [exact Hpos | now apply Forall_singleton]. }
  destruct (sm_run_positive_from_init SwitchEvent_InitE2E_smConfig (verdicts ++ [v])
              ltac:(vm_compute; discriminate) ltac:(vm_compute; discriminate)
              ltac:(vm_compute; split; discriminate) Hall') as (_ & _ & _ & _ & Hvalid).
  apply Hvalid. rewrite length_app, Hn. cbn [length].
  change (E2E.MinOkStateInit SwitchEvent_InitE2E_smConfig) with 2. lia.
Qed.

End SwitchRounds.

(** The first tick of a freshly initialised SwitchEvent. *)
Lemma report_validity_after_tick_witness :
  let s' :=
    SwitchEvent.SwitchEvent_State (SwitchEvent.SwitchEvent_MainFunction Samples.sw_fresh) in
  LightSwitchStatus.isValid (SwitchEvent.lightSwitchStatus s')
  = match SwitchEvent.e2eSmStatus s' with
    | E2E_SM_VALID => negb (SwitchEvent.timeoutActive s')
    | _ => false
    end
  /\ LightSwitchStatus.e2eStatus (SwitchEvent.lightSwitchStatus s')
     = E2E_P01CheckStatus_code (SwitchEvent.e2eStatus s').
Proof.
  apply (report_validity_after_tick Samples.sw_fresh). reflexivity.
Defined.

(** A HighBeam request after three LowBeam requests. *)
Lemma frames_in_step_are_accepted_witness :
  let y :=
    Runs.sw_round
      (Runs.sw_rounds (fst Samples.sw_after_three, snd Samples.sw_after_three) [])
      Samples.high_beam_payload in
  let s' := SwitchEvent.SwitchEvent_State (snd y) in
  LightSwitchStatus.isValid (SwitchEvent.lightSwitchStatus s') = true
  /\ LightSwitchStatus.command (SwitchEvent.lightSwitchStatus s') = LIGHT_SWITCH_HIGH_BEAM.
Proof.
  cbv zeta.
  destruct (frames_in_step_are_accepted (fst Samples.sw_after_three)
              (snd Samples.sw_after_three) [] Samples.high_beam_payload)
    as (_ & Hval & _ & _ & Hcmd).
  - unfold Runs.sw_established, Conditions.in_step.
    repeat split; vm_compute; reflexivity || discriminate.
  - apply Forall_nil_2.
  - split; [reflexivity |].
    unfold Samples.high_beam_payload, Runs.is_byte.
    repeat (apply Forall_cons; split; [lia |]). apply Forall_nil_2.
  - split; [exact Hval |]. rewrite Hcmd. reflexivity.
Defined.

(** Three rounds from initialisation, the third with a HighBeam
    request. *)
Lemma report_valid_from_third_frame_witness :
  let y :=
    Runs.sw_round
      (Runs.sw_rounds (E2E.E2E_P01ProtectInit, SwitchEvent.SwitchEvent_Init SwitchEvent.power_on)
         [Samples.low_beam_payload; Samples.low_beam_payload])
      Samples.high_beam_payload in
  let s' := SwitchEvent.SwitchEvent_State (snd y) in
  LightSwitchStatus.isValid (SwitchEvent.lightSwitchStatus s') = true
  /\ LightSwitchStatus.command (SwitchEvent.lightSwitchStatus s') = LIGHT_SWITCH_HIGH_BEAM.
Proof.
  cbv zeta.
  destruct (report_valid_from_third_frame SwitchEvent.power_on
              [Samples.low_beam_payload; Samples.low_beam_payload]
              Samples.high_beam_payload)
    as (_ & Hval & _ & _ & Hcmd).
  - repeat (apply Forall_cons; split;
            [split; [reflexivity |];
             unfold Samples.low_beam_payload, Runs.is_byte;
             repeat (apply Forall_cons; split; [lia |]); apply Forall_nil_2 |]).
    apply Forall_nil_2.
  - split; [reflexivity |].
    unfold Samples.high_beam_payload, Runs.is_byte.
    repeat (apply Forall_cons; split; [lia |]). apply Forall_nil_2.
  - cbn. lia.
  - split; [exact Hval |]. rewrite Hcmd. reflexivity.
Defined.

(** ** The drivers below the components *)

Section AdcDriver.

Import Adc.

(** X13.  A simulated value set on a channel of the initialised driver
    is what the next conversion of that group delivers, clamped to the
    12-bit range; reading consumes the result: the group is idle
    afterwards, and a second read without a new conversion fails and
    delivers nothing. *)
Theorem simulated_value_is_converted (a : Globals) (channel value : Z) :
  Adc_Initialized a = true ->
  0 <= channel < ADC_NUM_CHANNELS ->
  length (Adc_SimValues a) = Z.to_nat ADC_NUM_CHANNELS ->
  length (Adc_GroupStatus a) = Z.to_nat ADC_NUM_CHANNELS ->
  length (Adc_GroupResults a) = Z.to_nat ADC_NUM_CHANNELS ->
  let '(result, a') := convert channel (Adc_SimSetValue channel value a) in
  result = Some (Z.min value ADC_MAX_VALUE)
  /\ Adc_GetGroupStatus channel a' = ADC_IDLE
  /\ Adc_ReadGroup channel true a' = (E_NOT_OK, None, a').
Proof.
  intros Hinit Hch Hsim Hst Hres.
  change (Z.to_nat ADC_NUM_CHANNELS) with 8%nat in *.
  destruct a as [ini cfg sim st res].
  cbn [Adc_Initialized Adc_GroupStatus Adc_GroupResults Adc_SimValues] in *. subst ini.
  unfold ADC_NUM_CHANNELS in Hch.
  unfold convert, Adc_SimSetValue, Adc_StartGroupConversion, ADC_NUM_CHANNELS.
  destruct (Z.leb_spec 8 channel) as [? | _]; [lia |].
  cbn [Adc_Initialized Adc_GroupStatus Adc_GroupResults Adc_SimValues Adc_ConfigPtr negb].
  unfold Adc_ReadGroup at 1. unfold status, ADC_NUM_CHANNELS.
  cbn [Adc_Initialized Adc_GroupStatus Adc_GroupResults Adc_SimValues Adc_ConfigPtr negb].
  destruct (Z.leb_spec 8 channel) as [? | _]; [lia |].
  rewrite list_lookup_insert_eq by lia. cbn [default from_option id]. cbv iota beta.
  unfold Adc_GetGroupStatus, Adc_ReadGroup, status, ADC_NUM_CHANNELS.
  cbn [Adc_Initialized Adc_GroupStatus Adc_GroupResults Adc_SimValues Adc_ConfigPtr negb].
  destruct (Z.leb_spec 8 channel) as [? | _]; [lia |].
  rewrite list_lookup_insert_eq by (rewrite length_insert; lia). cbn [default from_option id].
  split; [| split; reflexivity].
  f_equal. unfold rd, wr.
  rewrite !list_lookup_insert_eq by lia. cbn [default from_option id].
  change ADC_MAX_VALUE with 4095.
  destruct (Z.ltb_spec 4095 value); lia.
Qed.

End AdcDriver.

Section ComForwarding.

Import SwitchEvent.

(** The I-PDUs other than the light-switch I-PDU leave SwitchEvent
    alone. *)
Lemma rx_ipdu_other (cs : Com.Globals * Globals) (i : Z) :
  i <> Com.COM_IPDU_LIGHTSWITCH_RX -> snd (Com.rx_ipdu cs i) = snd cs.
Proof.
  intros Hi. destruct cs as [c sw]. unfold Com.rx_ipdu.
  destruct (Com.newData (Com.ipdu c i)).
  - destruct (Z.eqb_spec i Com.COM_IPDU_LIGHTSWITCH_RX); [contradiction | reflexivity].
  - destruct (Com.Com_TimeoutEnabled c); reflexivity.
Qed.

(** The I-PDUs other than [i] are not touched by the loop body for
    [i]. *)
Lemma rx_ipdu_keeps (cs : Com.Globals * Globals) (i j : Z) :
  0 <= i -> 0 <= j -> i <> j ->
  Com.ipdu (fst (Com.rx_ipdu cs i)) j = Com.ipdu (fst cs) j.
Proof.
  intros Hi Hj Hne. destruct cs as [c sw]. unfold Com.rx_ipdu.
  destruct (Com.newData (Com.ipdu c i)); [| destruct (Com.Com_TimeoutEnabled c)];
    cbn [fst]; unfold Com.ipdu, Com.set_ipdu; cbn [Com.Com_IpduData];
    try rewrite list_lookup_insert_ne by lia; reflexivity.
Qed.

(** X14.  An indication for the light-switch I-PDU reaches SwitchEvent
    with the next [Com_MainFunctionRx], once: with an SDU of four bytes
    SwitchEvent holds those bytes as its pending frame; with any other SDU
    length SwitchEvent is left as it was; and a further
    [Com_MainFunctionRx] without a new indication hands nothing over. *)
Theorem rx_indication_reaches_switch_event
    (c : Com.Globals) (sw : Globals) (sdu : list Z) :
  Com.Com_Initialized c = true ->
  length (Com.Com_IpduData c) = Z.to_nat Com.COM_MAX_IPDU_COUNT ->
  Z.of_nat (length sdu) < 4294967296 ->
  let info := {| Com.SduDataPtr := Some sdu; Com.SduLength := Z.of_nat (length sdu) |} in
  let received := Com.Com_RxIndication Com.COM_IPDU_LIGHTSWITCH_RX (Some info) c in
  let '(c1, sw1) := Com.Com_MainFunctionRx (received, sw) in
  (length sdu = 4%nat ->
   lastMessageData (SwitchEvent_State sw1) = sdu
   /\ newMessageReceived (SwitchEvent_State sw1) = true)
  /\ (length sdu <> 4%nat -> sw1 = sw)
  /\ Com.newData (Com.ipdu c1 Com.COM_IPDU_LIGHTSWITCH_RX) = false
  /\ snd (Com.Com_MainFunctionRx (c1, sw1)) = sw1.
Proof.
  intros Hinit Hlen Hsdu. cbv zeta.
  change (Z.to_nat Com.COM_MAX_IPDU_COUNT) with 16%nat in Hlen.
  unfold Com.Com_RxIndication. rewrite Hinit. cbn [negb].
  change (Com.COM_MAX_IPDU_COUNT <=? Com.COM_IPDU_LIGHTSWITCH_RX) with false.
  cbn [Com.SduDataPtr Com.SduLength].
  set (l := if 8 <? Z.of_nat (length sdu) then 8 else wrap8 (Z.of_nat (length sdu))).
  assert (Hl : l = Z.min (Z.of_nat (length sdu)) 8).
  { subst l. destruct (Z.ltb_spec 8 (Z.of_nat (length sdu))); [lia |].
    unfold wrap8. rewrite Z.mod_small by lia. lia. }
  set (e := Com.mkIpdu _ l true _ _).
  set (c0 := Com.set_ipdu Com.COM_IPDU_LIGHTSWITCH_RX e c).
  assert (He : Com.ipdu c0 0 = e).
  { unfold c0, Com.ipdu, Com.set_ipdu. cbn [Com.Com_IpduData].
    change (Z.to_nat Com.COM_IPDU_LIGHTSWITCH_RX) with 0%nat.
    change (Z.to_nat 0) with 0%nat.
    rewrite list_lookup_insert_eq by lia. reflexivity. }
  unfold Com.Com_MainFunctionRx. cbn [fst].
  assert (Hinit0 : Com.Com_Initialized c0 = true) by exact Hinit.
  rewrite Hinit0. cbn [negb].
  change (map Z.of_nat (seq 0 (Z.to_nat Com.COM_NUM_IPDUS))) with [0; 1; 2].
  cbn [fold_left].
  set (y0 := Com.rx_ipdu (c0, sw) 0).
  assert (Hy0 : y0 = (Com.set_ipdu 0
                        {| Com.data := Com.data e; Com.length := l; Com.newData := false;
                           Com.rxTimestamp := Com.rxTimestamp e;
                           Com.timeoutCounter := 0 |} c0,
                      SwitchEvent_ProcessCanMessage (Some (Com.data e)) l sw)).
  { unfold y0, Com.rx_ipdu. rewrite He. reflexivity. }
  set (y1 := Com.rx_ipdu y0 1). set (y2 := Com.rx_ipdu y1 2).
  assert (Hsw : snd y2 = snd y0).
  { unfold y2. rewrite rx_ipdu_other by (vm_compute; discriminate).
    unfold y1. rewrite rx_ipdu_other by (vm_compute; discriminate). reflexivity. }
  assert (Hip : Com.ipdu (fst y2) 0 = Com.ipdu (fst y0) 0).
  { unfold y2. rewrite rx_ipdu_keeps by lia.
    unfold y1. rewrite rx_ipdu_keeps by lia. reflexivity. }
  assert (Hini2 : Com.Com_Initialized (fst y2) = true).
  { unfold y2, y1. clearbody y0.
    assert (Hk : forall cs i, Com.Com_Initialized (fst (Com.rx_ipdu cs i))
                              = Com.Com_Initialized (fst cs)).
    { intros [c' sw'] i. unfold Com.rx_ipdu.
      destruct (Com.newData (Com.ipdu c' i));
        [| destruct (Com.Com_TimeoutEnabled c')]; reflexivity. }
    rewrite !Hk. subst y0. exact Hinit. }
  clearbody y1 y2.
  destruct y2 as [c2 sw2]. cbn [fst snd] in *.
  rewrite Hy0 in Hsw, Hip. cbn [fst snd] in Hsw, Hip.
  assert (Hnew : Com.newData (Com.ipdu c2 0) = false).
  { rewrite Hip. unfold Com.ipdu, Com.set_ipdu. cbn [Com.Com_IpduData].
    change (Z.to_nat 0) with 0%nat.
    rewrite list_lookup_insert_eq
      by (unfold c0, Com.set_ipdu; cbn [Com.Com_IpduData]; rewrite length_insert; lia).
    reflexivity. }
  split; [| split; [| split]].
  - intros H4. rewrite Hsw.
    assert (Hl4 : l = 4) by lia.
    unfold SwitchEvent_ProcessCanMessage. rewrite Hl4.
    cbn [Z.eqb Pos.eqb negb FLM_CAN_LIGHTSWITCH_MSG_LEN SwitchEvent_State
         lastMessageData newMessageReceived set_newMessageReceived set_lastMessageData].
    split; [| reflexivity].
    unfold e. cbn [Com.data]. rewrite Hl4.
    rewrite take_app_le by (rewrite length_take; lia).
    rewrite take_take. rewrite take_ge by lia. reflexivity.
  - intros H4. rewrite Hsw. unfold SwitchEvent_ProcessCanMessage.
    destruct (Z.eqb_spec l FLM_CAN_LIGHTSWITCH_MSG_LEN) as [Heq | _]; [| reflexivity].
    unfold FLM_CAN_LIGHTSWITCH_MSG_LEN in Heq. lia.
  - exact Hnew.
  - rewrite Hini2. cbn [negb].
    change (map Z.of_nat (seq 0 (Z.to_nat Com.COM_NUM_IPDUS))) with [0; 1; 2].
    cbn [fold_left].
    rewrite rx_ipdu_other by (vm_compute; discriminate).
    rewrite rx_ipdu_other by (vm_compute; discriminate).
    unfold Com.rx_ipdu at 1. rewrite Hnew.
    destruct (Com.Com_TimeoutEnabled c2); reflexivity.
Qed.

End ComForwarding.
Section ComSignals.

(** X28.  A signal sent to the initialised module is received back
    under the same identifier, and sending leaves every other signal and
    the I-PDU buffers as they were; with an identifier out of range
    sending fails and stores nothing; without a data pointer sending
    fails and stores nothing and receiving fails and delivers nothing,
    whatever the identifier is. *)
Theorem sent_signal_is_received (c : Com.Globals) (SignalId value : Z) :
  Com.Com_Initialized c = true ->
  length (Com.Com_SignalData c) = Z.to_nat Com.COM_MAX_SIGNAL_COUNT ->
  0 <= SignalId ->
  Com.Com_SendSignal SignalId None c = (E_NOT_OK, c)
  /\ Com.Com_ReceiveSignal SignalId false c = (E_NOT_OK, None)
  /\ let '(result, c') := Com.Com_SendSignal SignalId (Some value) c in
     if SignalId <? Com.COM_MAX_SIGNAL_COUNT then
       result = E_OK
       /\ Com.Com_ReceiveSignal SignalId true c' = (E_OK, Some value)
       /\ (forall other, 0 <= other -> other <> SignalId ->
             Com.Com_ReceiveSignal other true c' = Com.Com_ReceiveSignal other true c)
       /\ Com.Com_Initialized c' = true
       /\ Com.Com_IpduData c' = Com.Com_IpduData c
       /\ Com.Com_TimeoutEnabled c' = Com.Com_TimeoutEnabled c
     else
       result = E_NOT_OK /\ c' = c
       /\ Com.Com_ReceiveSignal SignalId true c = (E_NOT_OK, None).
Proof.
  intros Hini Hlen Hid.
  change (Z.to_nat Com.COM_MAX_SIGNAL_COUNT) with 32%nat in Hlen.
  unfold Com.Com_SendSignal, Com.Com_ReceiveSignal, Com.COM_MAX_SIGNAL_COUNT.
  rewrite Hini. cbn [negb].
  split; [reflexivity |].
  split; [rewrite orb_true_r; reflexivity |].
  destruct (Z.leb_spec 32 SignalId) as [Hout | Hin];
    destruct (Z.ltb_spec SignalId 32) as [Hlt | Hge]; try lia.
  - cbn [orb]. repeat split; reflexivity.
  - cbn [Com.Com_Initialized Com.Com_SignalData Com.Com_IpduData
           Com.Com_TimeoutEnabled negb orb].
    rewrite ?Hini. cbn [negb].
    destruct (Z.leb_spec 32 SignalId) as [? | _]; [lia |]. cbn [orb].
    split; [reflexivity |]. split; [| split; [| repeat split; reflexivity]].
    + unfold rd, wr. rewrite list_lookup_insert_eq by lia. reflexivity.
    + intros other Hother Hne.
      destruct (32 <=? other); cbn [orb]; [reflexivity |].
      unfold rd, wr. rewrite list_lookup_insert_ne by lia. reflexivity.
Qed.

End ComSignals.


(** ** LightRequest over several ticks *)

Section AmbientRuns.

Import LightRequest Conditions Runs.

Lemma lr_run_snoc (g : Globals) (adcs : list (option Z)) (adc : option Z) :
  lr_run g (adcs ++ [adc]) = LightRequest_MainFunction adc (lr_run g adcs).
Proof. unfold lr_run. rewrite fold_left_app. reflexivity. Qed.

(** A tick leaves the simulation variables alone. *)
Lemma lr_run_sim (g : Globals) (adcs : list (option Z)) :
  LightRequest_SimAdcEnabled (lr_run g adcs) = LightRequest_SimAdcEnabled g
  /\ LightRequest_SimAdcValue (lr_run g adcs) = LightRequest_SimAdcValue g.
Proof.
  induction adcs as [| adc adcs IH] using rev_ind; [split; reflexivity |].
  rewrite lr_run_snoc. unfold LightRequest_MainFunction.
  destruct (negb (isInitialized (LightRequest_State (lr_run g adcs)))); exact IH.
Qed.

(** The sum over the first [count] places of a buffer that holds [v] in
    each of them. *)
Lemma buffer_sum_constant (buffer : list Z) (v : Z) (count : nat) :
  (forall i, 0 <= i < Z.of_nat count -> rd buffer i = v) ->
  buffer_sum buffer count = Z.of_nat count * v.
Proof.
  induction count as [| c IH]; intros Hall; [reflexivity |].
  cbn [buffer_sum]. rewrite IH by (intros i Hi; apply Hall; lia).
  rewrite (Hall (Z.of_nat c)) by lia. lia.
Qed.

(** The filter on a window of equal samples. *)
Lemma ApplyFilter_settled (v n : Z) (s : LightRequest_StateType) :
  0 <= v <= 65535 -> 0 <= n ->
  length (adcBuffer s) = 8%nat ->
  adcBufferIndex s = n mod 4 ->
  adcSampleCount s = Z.min n 4 ->
  (forall i, 0 <= i < Z.min n 4 -> rd (adcBuffer s) i = v) ->
  adcRawValue s = v ->
  LightRequest_ApplyFilter s
  = set_adcFilteredValue v
      (set_adcSampleCount (Z.min (n + 1) 4)
         (set_adcBufferIndex ((n + 1) mod 4)
            (set_adcBuffer (wr (adcBuffer s) (n mod 4) v) s)))
  /\ (forall i, 0 <= i < Z.min (n + 1) 4 -> rd (wr (adcBuffer s) (n mod 4) v) i = v).
Proof.
  intros Hv Hn Hlen Hidx Hcnt Hall Hraw.
  assert (Hi : 0 <= n mod 4 < 4) by (apply Z.mod_pos_bound; lia).
  assert (Hnext : (n mod 4 + 1) mod 4 = (n + 1) mod 4)
    by (rewrite Zplus_mod_idemp_l; reflexivity).
  assert (Hi' : 0 <= (n + 1) mod 4 < 4) by (apply Z.mod_pos_bound; lia).
  assert (Hsmall : n < 4 -> n mod 4 = n) by (intros; apply Z.mod_small; lia).
  assert (Hall' : forall i, 0 <= i < Z.min (n + 1) 4 -> rd (wr (adcBuffer s) (n mod 4) v) i = v).
  { intros i Hi0. unfold rd, wr.
    destruct (Z.eq_dec i (n mod 4)) as [-> | Hne].
    - rewrite list_lookup_insert_eq by lia. reflexivity.
    - rewrite list_lookup_insert_ne by lia. apply Hall. lia. }
  split; [| exact Hall'].
  destruct s as [ini buf idx cnt filt raw prev roc rcc amb st pec pf ts cp].
  cbn [adcBuffer adcBufferIndex adcSampleCount adcRawValue] in *. subst idx cnt raw.
  unfold LightRequest_ApplyFilter, FLM_ADC_SAMPLES.
  cbn [adcBuffer adcBufferIndex adcSampleCount adcRawValue adcFilteredValue
       set_adcBuffer set_adcBufferIndex set_adcSampleCount set_adcFilteredValue
       isInitialized previousFilteredValue rateOfChange rateCheckCounter ambientLight
       signalStatus plausibilityErrorCount plausibilityFault currentTimestamp
       conversionPending].
  rewrite Hnext.
  assert (Hw8 : wrap8 ((n + 1) mod 4) = (n + 1) mod 4)
    by (unfold wrap8; apply Z.mod_small; lia).
  rewrite Hw8.
  set (c := Z.min (n + 1) 4).
  assert (Hc : 1 <= c <= 4) by lia.
  assert (Hsum : forall b, (forall i, 0 <= i < c -> rd b i = v) ->
                 wrap16 (wrap32 (buffer_sum b (Z.to_nat c)) / c) = v).
  { intros b Hb. rewrite (buffer_sum_constant b v) by (intros i Hi0; apply Hb; lia).
    rewrite Z2Nat.id by lia. unfold wrap32, wrap16.
    rewrite (Z.mod_small (c * v)) by nia.
    rewrite Z.mul_comm, Z.div_mul by lia. apply Z.mod_small. lia. }
  destruct (Z.ltb_spec (Z.min n 4) 4) as [Hlt | Hge];
    cbn [adcBuffer adcBufferIndex adcSampleCount adcRawValue adcFilteredValue
         set_adcBuffer set_adcBufferIndex set_adcSampleCount set_adcFilteredValue
         isInitialized previousFilteredValue rateOfChange rateCheckCounter ambientLight
         signalStatus plausibilityErrorCount plausibilityFault currentTimestamp
         conversionPending].
  - assert (Hw : wrap8 (Z.min n 4 + 1) = c)
      by (unfold wrap8; rewrite Z.mod_small by lia; lia).
    rewrite Hw. rewrite Hsum by exact Hall'. reflexivity.
  - assert (Hw : Z.min n 4 = c) by lia.
    rewrite Hw. rewrite Hsum by exact Hall'. reflexivity.
Qed.

Ltac lr_fields :=
  cbn [adcBuffer adcBufferIndex adcSampleCount adcRawValue adcFilteredValue
       set_adcBuffer set_adcBufferIndex set_adcSampleCount set_adcFilteredValue
       set_adcRawValue set_previousFilteredValue set_rateOfChange set_rateCheckCounter
       set_ambientLight set_signalStatus set_plausibilityErrorCount
       set_plausibilityFault set_currentTimestamp set_isValid set_adcValue set_luxValue
       isInitialized previousFilteredValue rateOfChange rateCheckCounter ambientLight
       signalStatus plausibilityErrorCount plausibilityFault currentTimestamp
       conversionPending AmbientLightLevel.adcValue AmbientLightLevel.luxValue
       AmbientLightLevel.isValid LightRequest_State LightRequest_SystemTime
       LightRequest_SimAdcValue LightRequest_SimAdcEnabled] in *.

(** The rate check on a settled signal: every fifth tick it stores the
    filtered value and leaves the plausibility fault clear; on the other
    ticks it only counts. *)
Lemma CheckPlausibility_settled (v n : Z) (s : LightRequest_StateType) :
  0 <= v <= 65535 -> 0 <= n ->
  rateCheckCounter s = n mod 5 ->
  adcFilteredValue s = v ->
  previousFilteredValue s = (if n <? 5 then 0 else v) ->
  0 <= plausibilityErrorCount s <= (if n <? 5 then 0 else 1) ->
  plausibilityFault s = false ->
  exists roc' pec',
    0 <= pec' <= (if n + 1 <? 5 then 0 else 1)
    /\ LightRequest_CheckPlausibility s
       = set_previousFilteredValue (if n + 1 <? 5 then 0 else v)
           (set_plausibilityErrorCount pec'
              (set_rateOfChange roc' (set_rateCheckCounter ((n + 1) mod 5) s))).
Proof.
  intros Hv Hn Hrcc Hflt Hprev Hpec Hpf.
  assert (Hr : 0 <= n mod 5 < 5) by (apply Z.mod_pos_bound; lia).
  assert (Hrnext : (n + 1) mod 5 = if n mod 5 =? 4 then 0 else n mod 5 + 1).
  { destruct (Z.eqb_spec (n mod 5) 4) as [H4 | H4].
    - rewrite <- Zplus_mod_idemp_l, H4. reflexivity.
    - rewrite <- Zplus_mod_idemp_l. apply Z.mod_small. lia. }
  assert (Hrsmall : n < 5 -> n mod 5 = n) by (intros; apply Z.mod_small; lia).
  rewrite Hrnext. clear Hrnext.
  destruct s as [ini buf idx cnt filt raw prev roc rcc amb st pec pf ts cp].
  lr_fields. subst rcc filt prev pf.
  set (r := n mod 5) in *. clearbody r.
  unfold LightRequest_CheckPlausibility, LIGHTREQUEST_RATE_CHECK_CYCLES,
    LIGHTREQUEST_PLAUSIBILITY_DEBOUNCE, FLM_AMBIENT_RATE_LIMIT.
  lr_fields.
  assert (Hw : wrap8 (r + 1) = r + 1) by (unfold wrap8; apply Z.mod_small; lia).
  rewrite Hw. clear Hw.
  destruct (Z.leb_spec 5 (r + 1)) as [Hchk | Hchk].
  - assert (Hr4 : r = 4) by lia. subst r.
    assert (Hn4 : 4 <= n) by (destruct (Z.lt_ge_cases n 4); [specialize (Hrsmall ltac:(lia)) |]; lia).
    change (4 =? 4) with true. cbv iota.
    destruct (Z.ltb_spec (n + 1) 5) as [? | _]; [lia |].
    destruct (Z.ltb_spec n 5) as [Hn5 | Hn5].
    + (* the first rate check compares with the initial zero *)
      replace (v - 0) with v by lia.
      destruct (Z.ltb_spec v 0) as [? | _]; [lia |].
      assert (Hw : wrap16 v = v) by (unfold wrap16; apply Z.mod_small; lia).
      rewrite Hw.
      assert (Hp0 : pec = 0) by lia. subst pec.
      destruct (Z.ltb_spec 500 v) as [Hrate | Hrate]; lr_fields.
      * change (0 <? 3) with true. cbv iota. lr_fields.
        change (wrap8 (0 + 1)) with 1. change (3 <=? 1) with false. cbv iota.
        exists v, 1. split; [lia | reflexivity].
      * exists v, 0. split; [lia | reflexivity].
    + replace (v - v) with 0 by lia.
      change (0 <? 0) with false. cbv iota. change (wrap16 0) with 0.
      change (500 <? 0) with false. cbv iota. lr_fields.
      exists 0, 0. split; [lia | reflexivity].
  - destruct (Z.eqb_spec r 4) as [? | _]; [lia |].
    assert (Hsame : (if n + 1 <? 5 then 0 else v) = (if n <? 5 then 0 else v)).
    { destruct (Z.ltb_spec (n + 1) 5), (Z.ltb_spec n 5); lia. }
    rewrite Hsame.
    exists roc, pec. split; [| reflexivity].
    destruct (Z.ltb_spec (n + 1) 5), (Z.ltb_spec n 5); lia.
Qed.

(** One more tick that reads [v]. *)
Lemma lr_settled_tick (v n : Z) (adc : option Z) (g : Globals) :
  0 <= v <= 65535 -> 0 <= n ->
  lr_raw g adc = Some v ->
  lr_settled v n (LightRequest_State g) ->
  lr_settled v (n + 1) (LightRequest_State (LightRequest_MainFunction adc g)).
Proof.
  intros Hv Hn Hraw Hs.
  destruct g as [s t simv sime]. unfold lr_raw in Hraw. lr_fields.
  destruct Hs as (Hini & Hlen & Hidx & Hcnt & Hall & Hrcc & Hprev & Hpec & Hpf & Hst
                  & Hval & Hout).
  unfold LIGHTREQUEST_ADC_BUFFER_SIZE, FLM_ADC_SAMPLES, LIGHTREQUEST_RATE_CHECK_CYCLES,
    FLM_AMBIENT_OPEN_CIRCUIT, FLM_AMBIENT_SHORT_CIRCUIT in *.
  change (Z.to_nat 8) with 8%nat in Hlen.
  unfold LightRequest_MainFunction. lr_fields. rewrite Hini. cbn [negb].
  set (s0 := LightRequest_ReadAdc sime simv adc (set_currentTimestamp t s)).
  assert (Hs0 : s0 = set_adcRawValue v (set_currentTimestamp t s)).
  { unfold s0, LightRequest_ReadAdc.
    destruct sime; [injection Hraw as -> | rewrite Hraw]; reflexivity. }
  clearbody s0. subst s0.
  destruct (ApplyFilter_settled v n (set_adcRawValue v (set_currentTimestamp t s)) Hv Hn)
    as [Hflt Hall']; try assumption; try reflexivity.
  rewrite Hflt. clear Hflt. lr_fields.
  set (buf' := wr (adcBuffer s) (n mod 4) v) in *.
  assert (Hlen' : length buf' = 8%nat) by (unfold buf', wr; rewrite length_insert; exact Hlen).
  clearbody buf'.
  set (s1 := set_adcFilteredValue v _).
  assert (H1 : isInitialized s1 = true /\ adcBuffer s1 = buf'
               /\ adcBufferIndex s1 = (n + 1) mod 4
               /\ adcSampleCount s1 = Z.min (n + 1) 4
               /\ adcFilteredValue s1 = v
               /\ rateCheckCounter s1 = n mod 5
               /\ previousFilteredValue s1 = (if n <? 5 then 0 else v)
               /\ plausibilityErrorCount s1 = plausibilityErrorCount s
               /\ plausibilityFault s1 = false
               /\ signalStatus s1 = signalStatus s
               /\ AmbientLightLevel.isValid (ambientLight s1)
                  = AmbientLightLevel.isValid (ambientLight s)).
  { unfold s1. lr_fields. repeat split; assumption. }
  clearbody s1.
  destruct H1 as (Hini1 & Hbuf1 & Hidx1 & Hcnt1 & Hflt1 & Hrcc1 & Hprev1 & Hpec1 & Hpf1
                  & Hst1 & Hval1).
  rewrite Hst in Hst1. rewrite Hval in Hval1. rewrite <- Hpec1 in Hpec.
  clear Hini Hlen Hidx Hcnt Hall Hrcc Hprev Hpf Hst Hval Hout Hpec1 s.
  (* the range screens *)
  set (s2 := LightRequest_CheckShortCircuit (LightRequest_CheckOpenCircuit s1)).
  assert (H2 : isInitialized s2 = true /\ adcBuffer s2 = buf'
               /\ adcBufferIndex s2 = (n + 1) mod 4
               /\ adcSampleCount s2 = Z.min (n + 1) 4
               /\ adcFilteredValue s2 = v
               /\ rateCheckCounter s2 = n mod 5
               /\ previousFilteredValue s2 = (if n <? 5 then 0 else v)
               /\ plausibilityErrorCount s2 = plausibilityErrorCount s1
               /\ plausibilityFault s2 = false
               /\ signalStatus s2
                  = (if v <? 100 then SIGNAL_STATUS_OPEN_CIRCUIT
                     else if 3995 <? v then SIGNAL_STATUS_SHORT_CIRCUIT
                     else if 4 <=? n then SIGNAL_STATUS_VALID else SIGNAL_STATUS_INVALID)
               /\ AmbientLightLevel.isValid (ambientLight s2)
                  = (100 <=? v) && (v <=? 3995) && (4 <=? n)).
  { unfold s2, LightRequest_CheckShortCircuit, LightRequest_CheckOpenCircuit,
      FLM_AMBIENT_OPEN_CIRCUIT, FLM_AMBIENT_SHORT_CIRCUIT.
    rewrite Hflt1.
    destruct (Z.ltb_spec v 100) as [Hopen | Hopen]; lr_fields; rewrite ?Hflt1;
      (destruct (Z.ltb_spec 3995 v) as [Hshort | Hshort]; [try lia |]); lr_fields;
      rewrite ?Hst1, ?Hval1;
      (destruct (Z.leb_spec 100 v); [| try lia]);
      (destruct (Z.leb_spec v 3995); [| try lia]); try lia;
      (destruct (Z.leb_spec 1 n); cbn [andb]);
      repeat split; try assumption; try reflexivity.
    all: destruct (Z.leb_spec 4 n); try reflexivity; lia. }
  clearbody s2.
  destruct H2 as (Hini2 & Hbuf2 & Hidx2 & Hcnt2 & Hflt2 & Hrcc2 & Hprev2 & Hpec2 & Hpf2
                  & Hst2 & Hval2).
  rewrite <- Hpec2 in Hpec.
  destruct (CheckPlausibility_settled v n s2 Hv Hn Hrcc2 Hflt2 Hprev2 Hpec Hpf2)
    as (roc' & pec' & Hpec' & Hplaus).
  rewrite Hplaus. clear Hplaus.
  unfold lr_settled, LIGHTREQUEST_ADC_BUFFER_SIZE, FLM_ADC_SAMPLES,
    LIGHTREQUEST_RATE_CHECK_CYCLES, FLM_AMBIENT_OPEN_CIRCUIT, FLM_AMBIENT_SHORT_CIRCUIT.
  change (Z.to_nat 8) with 8%nat.
  set (s3 := set_previousFilteredValue _ _).
  assert (H3 : isInitialized s3 = true /\ adcBuffer s3 = buf'
               /\ adcBufferIndex s3 = (n + 1) mod 4
               /\ adcSampleCount s3 = Z.min (n + 1) 4
               /\ adcFilteredValue s3 = v
               /\ rateCheckCounter s3 = (n + 1) mod 5
               /\ previousFilteredValue s3 = (if n + 1 <? 5 then 0 else v)
               /\ plausibilityErrorCount s3 = pec'
               /\ plausibilityFault s3 = false
               /\ signalStatus s3 = signalStatus s2
               /\ AmbientLightLevel.isValid (ambientLight s3)
                  = AmbientLightLevel.isValid (ambientLight s2)).
  { unfold s3. lr_fields. repeat split; assumption. }
  clearbody s3.
  destruct H3 as (Hini3 & Hbuf3 & Hidx3 & Hcnt3 & Hflt3 & Hrcc3 & Hprev3 & Hpec3 & Hpf3
                  & Hst3 & Hval3).
  rewrite Hst2 in Hst3. rewrite Hval2 in Hval3.
  clear Hini2 Hbuf2 Hidx2 Hcnt2 Hflt2 Hrcc2 Hprev2 Hpec2 Hpf2 Hst2 Hval2 Hpec s2
        Hini1 Hbuf1 Hidx1 Hcnt1 Hflt1 Hrcc1 Hprev1 Hpf1 Hst1 Hval1 s1.
  destruct s3 as [ini buf idx cnt filt raw prev roc rcc amb st pec pf ts cp].
  destruct amb as [a l iv]. lr_fields. subst.
  unfold LightRequest_UpdateOutput, LightRequest_AdcToLux, FLM_ADC_SAMPLES.
  destruct (Z.leb_spec 1 (n + 1)) as [_ | ?]; [| lia]. cbn [andb].
  destruct (Z.ltb_spec v 100) as [Hopen | Hopen];
    [| destruct (Z.ltb_spec 3995 v) as [Hshort | Hshort];
       [| destruct (Z.leb_spec 4 n) as [H4 | H4]]];
    lr_fields;
    (destruct (Z.leb_spec 100 v); [| try lia]);
    (destruct (Z.leb_spec v 3995); [| try lia]); try lia;
    cbn [andb];
    try (destruct (Z.leb_spec 4 (Z.min (n + 1) 4)); lr_fields);
    (destruct (Z.leb_spec 4 (n + 1)); [| try lia]); try lia;
    repeat split; try assumption; try reflexivity; try lia.
Qed.

Lemma lr_settled_run (g : Globals) (v : Z) (adcs : list (option Z)) :
  0 <= v <= 65535 ->
  Forall (fun adc => lr_raw g adc = Some v) adcs ->
  lr_settled v (Z.of_nat (length adcs)) (LightRequest_State (lr_run (LightRequest_Init g) adcs)).
Proof.
  intros Hv. induction adcs as [| adc adcs IH] using rev_ind; intros Hall.
  - unfold lr_settled. cbn.
    repeat split; try reflexivity; try lia.
    symmetry. apply andb_false_r.
  - apply Forall_app in Hall. destruct Hall as [Hall Hadc].
    apply (proj1 (Forall_singleton _ _)) in Hadc.
    rewrite lr_run_snoc, length_app, Nat2Z.inj_add. cbn [length].
    change (Z.of_nat 1) with 1.
    apply lr_settled_tick; [exact Hv | lia | | exact (IH Hall)].
    destruct (lr_run_sim (LightRequest_Init g) adcs) as [Hen Hval].
    unfold lr_raw in *. rewrite Hen, Hval. exact Hadc.
Qed.

(** X15.  While every tick since initialisation reads the same raw value
    [v], the filtered value and the reported ADC value are [v] and the
    lux value is [v / 4] from the first tick on; the status is
    OpenCircuit for [v] below 100 and ShortCircuit for [v] above 3995 from
    the first tick on, and otherwise Invalid for the first three ticks and
    Valid from the fourth; the reading is flagged valid exactly when the
    status is Valid. *)
Theorem constant_reading_timeline (g : Globals) (v : Z) (adcs : list (option Z)) :
  0 <= v <= 65535 ->
  Forall (fun adc => lr_raw g adc = Some v) adcs ->
  adcs <> [] ->
  let n := Z.of_nat (length adcs) in
  let s := LightRequest_State (lr_run (LightRequest_Init g) adcs) in
  adcFilteredValue s = v
  /\ AmbientLightLevel.adcValue (ambientLight s) = v
  /\ AmbientLightLevel.luxValue (ambientLight s) = v / 4
  /\ signalStatus s
     = (if v <? FLM_AMBIENT_OPEN_CIRCUIT then SIGNAL_STATUS_OPEN_CIRCUIT
        else if FLM_AMBIENT_SHORT_CIRCUIT <? v then SIGNAL_STATUS_SHORT_CIRCUIT
        else if FLM_ADC_SAMPLES <=? n then SIGNAL_STATUS_VALID
        else SIGNAL_STATUS_INVALID)
  /\ AmbientLightLevel.isValid (ambientLight s)
     = (FLM_AMBIENT_OPEN_CIRCUIT <=? v) && (v <=? FLM_AMBIENT_SHORT_CIRCUIT)
       && (FLM_ADC_SAMPLES <=? n).
Proof.
  intros Hv Hall Hne n s.
  destruct (lr_settled_run g v adcs Hv Hall)
    as (_ & _ & _ & _ & _ & _ & _ & _ & _ & Hst & Hval & Hout).
  fold n in Hst, Hval, Hout. fold s in Hst, Hval, Hout.
  assert (Hn : 1 <= n) by (subst n; destruct adcs; [contradiction | cbn [length]; lia]).
  destruct (Hout Hn) as (Hflt & Hadc & Hlux).
  split; [exact Hflt |]. split; [exact Hadc |]. split; [exact Hlux |].
  split; [| exact Hval].
  rewrite Hst. destruct (Z.leb_spec 1 n) as [_ | ?]; [reflexivity | lia].
Qed.

End AmbientRuns.

Section AmbientReport.

Import LightRequest Conditions Runs.

(** Reading and filtering touch neither the initialisation flag nor the
    status nor the validity flag. *)
Lemma sampling_frame simEnabled simValue adc time s :
  let s' :=
    LightRequest_ApplyFilter
      (LightRequest_ReadAdc simEnabled simValue adc (set_currentTimestamp time s)) in
  isInitialized s' = isInitialized s
  /\ signalStatus s' = signalStatus s
  /\ AmbientLightLevel.isValid (ambientLight s') = AmbientLightLevel.isValid (ambientLight s).
Proof.
  unfold LightRequest_ApplyFilter, LightRequest_ReadAdc.
  destruct simEnabled; [| destruct adc]; cbn; case_cmp; cbn; repeat split; reflexivity.
Qed.

(** What the three screens leave behind: the filtered value and the
    sample count as they were; a fault status with the validity flag
    cleared, or else a filtered value within the range and the status and
    the flag as they were. *)
Lemma screens_frame (s : LightRequest_StateType) :
  let s' :=
    LightRequest_CheckPlausibility
      (LightRequest_CheckShortCircuit (LightRequest_CheckOpenCircuit s)) in
  isInitialized s' = isInitialized s
  /\ adcFilteredValue s' = adcFilteredValue s
  /\ adcSampleCount s' = adcSampleCount s
  /\ ((fault_status (signalStatus s') = true
       /\ AmbientLightLevel.isValid (ambientLight s') = false)
      \/ (FLM_AMBIENT_OPEN_CIRCUIT <= adcFilteredValue s <= FLM_AMBIENT_SHORT_CIRCUIT
          /\ signalStatus s' = signalStatus s
          /\ AmbientLightLevel.isValid (ambientLight s')
             = AmbientLightLevel.isValid (ambientLight s))).
Proof.
  destruct s as [ini buf idx cnt filt raw prev roc rcc amb st pec pf ts cp].
  destruct amb as [a l iv].
  unfold LightRequest_CheckOpenCircuit, LightRequest_CheckShortCircuit. cbn.
  destruct (Z.ltb_spec filt FLM_AMBIENT_OPEN_CIRCUIT) as [Hopen | Hopen]; cbn;
    destruct (Z.ltb_spec FLM_AMBIENT_SHORT_CIRCUIT filt) as [Hshort | Hshort]; cbn;
    unfold LightRequest_CheckPlausibility; cbn;
    repeat (case_cmp; cbn);
    (split; [reflexivity |]); (split; [reflexivity |]); (split; [reflexivity |]);
    first [ left; split; reflexivity | right; split; [lia | split; reflexivity] ].
Qed.

(** The report at the end of a tick. *)
Lemma MainFunction_ambient_report (adc : option Z) (g : Globals) :
  isInitialized (LightRequest_State g) = true ->
  (fault_status (signalStatus (LightRequest_State g)) = true ->
   AmbientLightLevel.isValid (ambientLight (LightRequest_State g)) = false) ->
  let s' := LightRequest_State (LightRequest_MainFunction adc g) in
  isInitialized s' = true
  /\ (AmbientLightLevel.isValid (ambientLight s') = true
      <-> signalStatus s' = SIGNAL_STATUS_VALID)
  /\ (AmbientLightLevel.isValid (ambientLight s') = true ->
      FLM_AMBIENT_OPEN_CIRCUIT <= adcFilteredValue s' <= FLM_AMBIENT_SHORT_CIRCUIT
      /\ FLM_ADC_SAMPLES <= adcSampleCount s')
  /\ AmbientLightLevel.adcValue (ambientLight s') = adcFilteredValue s'
  /\ AmbientLightLevel.luxValue (ambientLight s') = adcFilteredValue s' / 4.
Proof.
  intros Hinit Hguard s'.
  set (s1 := LightRequest_ApplyFilter
               (LightRequest_ReadAdc (LightRequest_SimAdcEnabled g)
                  (LightRequest_SimAdcValue g) adc
                  (set_currentTimestamp (LightRequest_SystemTime g) (LightRequest_State g)))).
  set (s4 := LightRequest_CheckPlausibility
               (LightRequest_CheckShortCircuit (LightRequest_CheckOpenCircuit s1))).
  assert (Hs' : s' = LightRequest_UpdateOutput s4).
  { subst s' s4 s1. unfold LightRequest_MainFunction. rewrite Hinit. reflexivity. }
  destruct (sampling_frame (LightRequest_SimAdcEnabled g) (LightRequest_SimAdcValue g) adc
              (LightRequest_SystemTime g) (LightRequest_State g))
    as (Hini1 & Hst1 & Hval1).
  fold s1 in Hini1, Hst1, Hval1.
  destruct (screens_frame s1) as (Hini4 & Hflt4 & Hcnt4 & Hcases). fold s4 in Hini4, Hflt4, Hcnt4, Hcases.
  assert (Hg4 : fault_status (signalStatus s4) = true ->
                AmbientLightLevel.isValid (ambientLight s4) = false).
  { destruct Hcases as [[_ Hv] | (_ & Hst4 & Hval4)]; intros Hf; [exact Hv |].
    rewrite Hval4, Hval1. apply Hguard. rewrite <- Hst1, <- Hst4. exact Hf. }
  assert (Hrange : fault_status (signalStatus s4) = false ->
                   FLM_AMBIENT_OPEN_CIRCUIT <= adcFilteredValue s4 <= FLM_AMBIENT_SHORT_CIRCUIT).
  { destruct Hcases as [[Hf _] | (Hr & _)]; intros Hnf; [congruence |].
    rewrite Hflt4. exact Hr. }
  assert (Hini : isInitialized s4 = true) by congruence.
  clearbody s' s4. subst s'. clear - Hg4 Hrange Hini.
  destruct s4 as [ini buf idx cnt filt raw prev roc rcc amb st pec pf ts cp].
  destruct amb as [a l iv]. cbn in Hg4, Hrange, Hini. subst ini.
  unfold LightRequest_UpdateOutput, LightRequest_AdcToLux.
  destruct st; cbn in Hg4, Hrange |- *;
    try (destruct (Z.leb_spec FLM_ADC_SAMPLES cnt); cbn);
    try (rewrite (Hg4 eq_refl));
    (split; [reflexivity |]);
    (split; [split; intros; first [reflexivity | discriminate] |]);
    (split; [intros; first [discriminate | split; [apply Hrange; reflexivity | lia]] |]);
    split; reflexivity.
Qed.

(** The invariant along a run from initialisation. *)
Lemma lr_run_report (g : Globals) (adcs : list (option Z)) :
  let s := LightRequest_State (lr_run (LightRequest_Init g) adcs) in
  isInitialized s = true
  /\ (AmbientLightLevel.isValid (ambientLight s) = true
      <-> signalStatus s = SIGNAL_STATUS_VALID)
  /\ (AmbientLightLevel.isValid (ambientLight s) = true ->
      FLM_AMBIENT_OPEN_CIRCUIT <= adcFilteredValue s <= FLM_AMBIENT_SHORT_CIRCUIT
      /\ FLM_ADC_SAMPLES <= adcSampleCount s)
  /\ AmbientLightLevel.adcValue (ambientLight s) = adcFilteredValue s
  /\ AmbientLightLevel.luxValue (ambientLight s) = adcFilteredValue s / 4.
Proof.
  induction adcs as [| adc adcs IH] using rev_ind.
  - cbn. split; [reflexivity |]. split; [split; discriminate |].
    split; [discriminate |]. split; reflexivity.
  - rewrite lr_run_snoc. cbv zeta in IH. destruct IH as (Hini & Hiff & _).
    apply MainFunction_ambient_report; [exact Hini |].
    intros Hf. destruct (AmbientLightLevel.isValid _) eqn:Hv; [| reflexivity].
    rewrite (proj1 Hiff eq_refl) in Hf. discriminate.
Qed.

(** X16.  Whatever is read after initialisation, at the end of every
    tick the reading is flagged valid exactly when the status is Valid,
    and then the filtered value lies within 100..3995 and four samples
    have been taken; the reported ADC value is the filtered value and the
    lux value a quarter of it. *)
Theorem valid_reading_is_in_range (g : Globals) (adcs : list (option Z)) :
  let s := LightRequest_State (lr_run (LightRequest_Init g) adcs) in
  (AmbientLightLevel.isValid (ambientLight s) = true
   <-> signalStatus s = SIGNAL_STATUS_VALID)
  /\ (AmbientLightLevel.isValid (ambientLight s) = true ->
      FLM_AMBIENT_OPEN_CIRCUIT <= adcFilteredValue s <= FLM_AMBIENT_SHORT_CIRCUIT
      /\ FLM_ADC_SAMPLES <= adcSampleCount s)
  /\ AmbientLightLevel.adcValue (ambientLight s) = adcFilteredValue s
  /\ AmbientLightLevel.luxValue (ambientLight s) = adcFilteredValue s / 4.
Proof.
  exact (proj2 (lr_run_report g adcs)).
Qed.

(** The sum over the first [count] places of a buffer whose entries
    there lie between [lo] and [hi]. *)
Lemma buffer_sum_bounds (buffer : list Z) (lo hi : Z) (count : nat) :
  (forall i, 0 <= i < Z.of_nat count -> lo <= rd buffer i <= hi) ->
  Z.of_nat count * lo <= buffer_sum buffer count <= Z.of_nat count * hi.
Proof.
  induction count as [| c IH]; intros Hall; [cbn; lia |].
  cbn [buffer_sum].
  specialize (IH ltac:(intros i Hi; apply Hall; lia)).
  pose proof (Hall (Z.of_nat c) ltac:(lia)). lia.
Qed.

(** The filter on a window of samples between [lo] and [hi]. *)
Lemma ApplyFilter_window (lo hi n : Z) (s : LightRequest_StateType) :
  0 <= lo -> hi <= 65535 -> 0 <= n ->
  length (adcBuffer s) = 8%nat ->
  adcBufferIndex s = n mod 4 ->
  adcSampleCount s = Z.min n 4 ->
  (forall i, 0 <= i < Z.min n 4 -> lo <= rd (adcBuffer s) i <= hi) ->
  lo <= adcRawValue s <= hi ->
  let s' := LightRequest_ApplyFilter s in
  isInitialized s' = isInitialized s
  /\ length (adcBuffer s') = 8%nat
  /\ adcBufferIndex s' = (n + 1) mod 4
  /\ adcSampleCount s' = Z.min (n + 1) 4
  /\ (forall i, 0 <= i < Z.min (n + 1) 4 -> lo <= rd (adcBuffer s') i <= hi)
  /\ lo <= adcFilteredValue s' <= hi.
Proof.
  intros Hlo Hhi Hn Hlen Hidx Hcnt Hall Hraw.
  assert (Hi : 0 <= n mod 4 < 4) by (apply Z.mod_pos_bound; lia).
  assert (Hnext : (n mod 4 + 1) mod 4 = (n + 1) mod 4)
    by (rewrite Zplus_mod_idemp_l; reflexivity).
  assert (Hi' : 0 <= (n + 1) mod 4 < 4) by (apply Z.mod_pos_bound; lia).
  assert (Hsmall : n < 4 -> n mod 4 = n) by (intros; apply Z.mod_small; lia).
  assert (Hall' : forall i, 0 <= i < Z.min (n + 1) 4 ->
                  lo <= rd (wr (adcBuffer s) (n mod 4) (adcRawValue s)) i <= hi).
  { intros i Hi0. unfold rd, wr.
    destruct (Z.eq_dec i (n mod 4)) as [-> | Hne].
    - rewrite list_lookup_insert_eq by lia. exact Hraw.
    - rewrite list_lookup_insert_ne by lia. apply Hall. lia. }
  destruct s as [ini buf idx cnt filt raw prev roc rcc amb st pec pf ts cp].
  cbn [adcBuffer adcBufferIndex adcSampleCount adcRawValue] in *. subst idx cnt.
  unfold LightRequest_ApplyFilter, FLM_ADC_SAMPLES. cbv zeta.
  cbn [adcBuffer adcBufferIndex adcSampleCount adcRawValue set_adcBuffer
       set_adcBufferIndex].
  rewrite Hnext.
  assert (Hw8 : wrap8 ((n + 1) mod 4) = (n + 1) mod 4)
    by (unfold wrap8; apply Z.mod_small; lia).
  rewrite Hw8.
  set (c := Z.min (n + 1) 4).
  assert (Hc : 1 <= c <= 4) by lia.
  set (buf' := wr buf (n mod 4) raw) in *.
  assert (Hlen' : length buf' = 8%nat)
    by (unfold buf', wr; rewrite length_insert; exact Hlen).
  assert (Hsum : lo <= wrap16 (wrap32 (buffer_sum buf' (Z.to_nat c)) / c) <= hi).
  { pose proof (buffer_sum_bounds buf' lo hi (Z.to_nat c)) as Hb.
    rewrite Z2Nat.id in Hb by lia. specialize (Hb Hall').
    unfold wrap32, wrap16.
    rewrite (Z.mod_small (buffer_sum buf' (Z.to_nat c))) by nia.
    assert (Hq : lo <= buffer_sum buf' (Z.to_nat c) / c <= hi).
    { split; [apply Z.div_le_lower_bound; lia |].
      apply Z.div_le_upper_bound; lia. }
    rewrite Z.mod_small by lia. exact Hq. }
  clearbody buf'.
  destruct (Z.ltb_spec (Z.min n 4) 4) as [Hlt | Hge];
    cbn [adcBuffer adcBufferIndex adcSampleCount adcRawValue adcFilteredValue
         set_adcBuffer set_adcBufferIndex set_adcSampleCount set_adcFilteredValue
         isInitialized].
  - assert (Hw : wrap8 (Z.min n 4 + 1) = c)
      by (unfold wrap8; rewrite Z.mod_small by lia; lia).
    rewrite Hw. repeat split; try assumption; try reflexivity; try apply Hall'; lia.
  - assert (Hw : Z.min n 4 = c) by lia.
    rewrite Hw. repeat split; try assumption; try reflexivity; try apply Hall'; lia.
Qed.

(** The screens and the output stage leave the sample window and the
    filtered value alone. *)
Lemma evaluation_keeps_window (s : LightRequest_StateType) :
  let s' :=
    LightRequest_UpdateOutput
      (LightRequest_CheckPlausibility
         (LightRequest_CheckShortCircuit (LightRequest_CheckOpenCircuit s))) in
  isInitialized s' = isInitialized s
  /\ adcBuffer s' = adcBuffer s
  /\ adcBufferIndex s' = adcBufferIndex s
  /\ adcSampleCount s' = adcSampleCount s
  /\ adcFilteredValue s' = adcFilteredValue s.
Proof.
  destruct s as [ini buf idx cnt filt raw prev roc rcc amb st pec pf ts cp].
  destruct amb as [a l iv].
  unfold LightRequest_CheckOpenCircuit, LightRequest_CheckShortCircuit. cbn.
  destruct (Z.ltb_spec filt FLM_AMBIENT_OPEN_CIRCUIT) as [Hopen | Hopen]; cbn;
    destruct (Z.ltb_spec FLM_AMBIENT_SHORT_CIRCUIT filt) as [Hshort | Hshort]; cbn;
    unfold LightRequest_CheckPlausibility; cbn;
    repeat (case_cmp; cbn);
    unfold LightRequest_UpdateOutput; cbn;
    destruct st; cbn; try case_cmp; cbn; repeat split; reflexivity.
Qed.

(** The window after a run whose readings all lie between [lo] and
    [hi]. *)
Lemma lr_window_run (g : Globals) (lo hi : Z) (adcs : list (option Z)) :
  0 <= lo -> hi <= 65535 ->
  Forall (fun adc => exists v, lr_raw g adc = Some v /\ lo <= v <= hi) adcs ->
  let n := Z.of_nat (length adcs) in
  let s := LightRequest_State (lr_run (LightRequest_Init g) adcs) in
  isInitialized s = true
  /\ length (adcBuffer s) = 8%nat
  /\ adcBufferIndex s = n mod 4
  /\ adcSampleCount s = Z.min n 4
  /\ (forall i, 0 <= i < Z.min n 4 -> lo <= rd (adcBuffer s) i <= hi)
  /\ (1 <= n -> lo <= adcFilteredValue s <= hi).
Proof.
  intros Hlo Hhi. induction adcs as [| adc adcs IH] using rev_ind; intros Hall.
  - cbn. repeat split; try reflexivity; lia.
  - apply Forall_app in Hall. destruct Hall as [Hall Hadc].
    apply (proj1 (Forall_singleton _ _)) in Hadc.
    destruct Hadc as (v & Hraw & Hv).
    specialize (IH Hall). cbv zeta in IH.
    destruct IH as (Hini & Hlen & Hidx & Hcnt & Hwin & _).
    rewrite lr_run_snoc, length_app, Nat2Z.inj_add. cbn [length].
    change (Z.of_nat 1) with 1.
    destruct (lr_run_sim (LightRequest_Init g) adcs) as [Hen Hval].
    set (g0 := lr_run (LightRequest_Init g) adcs) in *.
    set (n := Z.of_nat (length adcs)) in *.
    assert (Hn : 0 <= n) by (subst n; lia).
    clearbody g0 n.
    unfold lr_raw in Hraw. cbn [LightRequest_Init LightRequest_SimAdcEnabled
                                 LightRequest_SimAdcValue] in Hen, Hval.
    unfold LightRequest_MainFunction. rewrite Hini. cbn [negb LightRequest_State].
    rewrite Hen, Hval.
    set (s0 := LightRequest_ReadAdc _ _ adc _).
    assert (Hs0 : s0 = set_adcRawValue v
                         (set_currentTimestamp (LightRequest_SystemTime g0)
                            (LightRequest_State g0))).
    { unfold s0, LightRequest_ReadAdc.
      destruct (LightRequest_SimAdcEnabled g); [injection Hraw as -> | rewrite Hraw];
        reflexivity. }
    clearbody s0. subst s0.
    destruct (evaluation_keeps_window
                (LightRequest_ApplyFilter
                   (set_adcRawValue v
                      (set_currentTimestamp (LightRequest_SystemTime g0)
                         (LightRequest_State g0)))))
      as (Ei & Eb & Ex & Ec & Ef).
    rewrite Ei, Eb, Ex, Ec, Ef.
    destruct (ApplyFilter_window lo hi n
                (set_adcRawValue v
                   (set_currentTimestamp (LightRequest_SystemTime g0)
                      (LightRequest_State g0))) Hlo Hhi Hn)
      as (Fi & Fl & Fx & Fc & Fw & Ff); try assumption.
    rewrite Fi. split; [exact Hini |]. split; [exact Fl |]. split; [exact Fx |].
    split; [exact Fc |]. split; [exact Fw |]. intros _. exact Ff.
Qed.

(** X17.  While every reading since initialisation lies between [lo] and
    [hi], so does the filtered value after every tick, the first ticks
    included: the average is taken over the samples there are, which
    number the ticks up to four. *)
Theorem filtered_value_stays_in_window (g : Globals) (lo hi : Z) (adcs : list (option Z)) :
  0 <= lo -> hi <= 65535 ->
  Forall (fun adc => exists v, lr_raw g adc = Some v /\ lo <= v <= hi) adcs ->
  adcs <> [] ->
  let s := LightRequest_State (lr_run (LightRequest_Init g) adcs) in
  lo <= adcFilteredValue s <= hi
  /\ adcSampleCount s = Z.min (Z.of_nat (length adcs)) FLM_ADC_SAMPLES.
Proof.
  intros Hlo Hhi Hall Hne.
  destruct (lr_window_run g lo hi adcs Hlo Hhi Hall) as (_ & _ & _ & Hcnt & _ & Hflt).
  cbv zeta. split; [| exact Hcnt].
  apply Hflt. destruct adcs; [contradiction | cbn [length]; lia].
Qed.

End AmbientReport.

Section AmbientPlausibility.

Import LightRequest Conditions Runs.

(** The range screens leave the rate check's counters alone and never
    set the status Plausibility. *)
Lemma range_screens_counters (s : LightRequest_StateType) :
  let s' := LightRequest_CheckShortCircuit (LightRequest_CheckOpenCircuit s) in
  isInitialized s' = isInitialized s
  /\ rateCheckCounter s' = rateCheckCounter s
  /\ plausibilityErrorCount s' = plausibilityErrorCount s
  /\ plausibilityFault s' = plausibilityFault s
  /\ (signalStatus s <> SIGNAL_STATUS_PLAUSIBILITY ->
      signalStatus s' <> SIGNAL_STATUS_PLAUSIBILITY).
Proof.
  unfold LightRequest_CheckShortCircuit, LightRequest_CheckOpenCircuit.
  destruct (adcFilteredValue s <? FLM_AMBIENT_OPEN_CIRCUIT); cbn;
    destruct (FLM_AMBIENT_SHORT_CIRCUIT <? adcFilteredValue s); cbn;
    repeat split; intros; try assumption; discriminate.
Qed.

(** The rate check counts the ticks up to five, counts at most one error
    each fifth tick, and raises its fault only at three errors. *)
Lemma CheckPlausibility_counters (s : LightRequest_StateType) :
  0 <= rateCheckCounter s < 5 ->
  0 <= plausibilityErrorCount s ->
  let s' := LightRequest_CheckPlausibility s in
  let due := rateCheckCounter s =? 4 in
  isInitialized s' = isInitialized s
  /\ rateCheckCounter s' = (if due then 0 else rateCheckCounter s + 1)
  /\ 0 <= plausibilityErrorCount s'
       <= plausibilityErrorCount s + (if due then 1 else 0)
  /\ (plausibilityErrorCount s' < 3 ->
      (plausibilityFault s = false -> plausibilityFault s' = false)
      /\ (signalStatus s <> SIGNAL_STATUS_PLAUSIBILITY ->
          signalStatus s' <> SIGNAL_STATUS_PLAUSIBILITY)).
Proof.
  intros Hr Hp.
  destruct s as [ini buf idx cnt filt raw prev roc rcc amb st pec pf ts cp].
  cbn [rateCheckCounter plausibilityErrorCount] in Hr, Hp.
  unfold LightRequest_CheckPlausibility, LIGHTREQUEST_RATE_CHECK_CYCLES,
    LIGHTREQUEST_PLAUSIBILITY_DEBOUNCE. cbv zeta.
  cbn [rateCheckCounter set_rateCheckCounter].
  assert (Hw : wrap8 (rcc + 1) = rcc + 1) by (unfold wrap8; apply Z.mod_small; lia).
  rewrite Hw.
  destruct (Z.leb_spec 5 (rcc + 1)) as [Hdue | Hdue];
    destruct (Z.eqb_spec rcc 4) as [H4 | H4]; try lia.
  - cbn [rateOfChange set_rateOfChange set_rateCheckCounter plausibilityErrorCount
         adcFilteredValue previousFilteredValue].
    destruct (FLM_AMBIENT_RATE_LIMIT <? _).
    + cbn [plausibilityErrorCount].
      destruct (Z.ltb_spec pec 3) as [Hlt | Hge].
      * cbn [plausibilityErrorCount set_plausibilityErrorCount].
        assert (Hw1 : wrap8 (pec + 1) = pec + 1)
          by (unfold wrap8; apply Z.mod_small; lia).
        rewrite Hw1.
        destruct (Z.leb_spec 3 (pec + 1)); cbn;
          repeat split; intros; try assumption; try lia.
      * cbn [plausibilityErrorCount set_rateOfChange set_rateCheckCounter].
        destruct (Z.leb_spec 3 pec); [| lia]. cbn.
        repeat split; intros; try assumption; try lia.
    + cbn. repeat split; intros; try assumption; try reflexivity; lia.
  - cbn. repeat split; intros; try assumption; lia.
Qed.

(** The output stage leaves the rate check's counters alone and never
    sets the status Plausibility. *)
Lemma UpdateOutput_counters (s : LightRequest_StateType) :
  let s' := LightRequest_UpdateOutput s in
  isInitialized s' = isInitialized s
  /\ rateCheckCounter s' = rateCheckCounter s
  /\ plausibilityErrorCount s' = plausibilityErrorCount s
  /\ plausibilityFault s' = plausibilityFault s
  /\ (signalStatus s <> SIGNAL_STATUS_PLAUSIBILITY ->
      signalStatus s' <> SIGNAL_STATUS_PLAUSIBILITY).
Proof.
  unfold LightRequest_UpdateOutput.
  destruct (signalStatus s) eqn:Hst; cbn; try case_cmp; cbn; rewrite ?Hst;
    repeat split; intros; try assumption; try discriminate; congruence.
Qed.

(** Reading and filtering leave the rate check's counters and the
    status alone. *)
Lemma sampling_counters simEnabled simValue adc time s :
  let s' :=
    LightRequest_ApplyFilter
      (LightRequest_ReadAdc simEnabled simValue adc (set_currentTimestamp time s)) in
  isInitialized s' = isInitialized s
  /\ rateCheckCounter s' = rateCheckCounter s
  /\ plausibilityErrorCount s' = plausibilityErrorCount s
  /\ plausibilityFault s' = plausibilityFault s
  /\ signalStatus s' = signalStatus s.
Proof.
  unfold LightRequest_ApplyFilter, LightRequest_ReadAdc.
  destruct simEnabled; [| destruct adc]; cbn; case_cmp; cbn; repeat split; reflexivity.
Qed.

(** The rate check along any run from initialisation. *)
Lemma lr_rate_check_run (g : Globals) (adcs : list (option Z)) :
  let n := Z.of_nat (length adcs) in
  let s := LightRequest_State (lr_run (LightRequest_Init g) adcs) in
  isInitialized s = true
  /\ rateCheckCounter s = n mod 5
  /\ 0 <= plausibilityErrorCount s <= n / 5
  /\ (n < 15 ->
      plausibilityFault s = false /\ signalStatus s <> SIGNAL_STATUS_PLAUSIBILITY).
Proof.
  induction adcs as [| adc adcs IH] using rev_ind.
  - cbn. repeat split; try reflexivity; try lia. discriminate.
  - cbv zeta in IH. destruct IH as (Ii & Ir & Ip & Iclear).
    rewrite lr_run_snoc, length_app, Nat2Z.inj_add. cbn [length].
    change (Z.of_nat 1) with 1.
    set (g0 := lr_run (LightRequest_Init g) adcs) in *.
    set (n := Z.of_nat (length adcs)) in *.
    assert (Hn : 0 <= n) by (subst n; lia).
    clearbody g0 n. cbv zeta.
    unfold LightRequest_MainFunction. rewrite Ii. cbn [negb LightRequest_State].
    destruct (sampling_counters (LightRequest_SimAdcEnabled g0) (LightRequest_SimAdcValue g0)
                adc (LightRequest_SystemTime g0) (LightRequest_State g0))
      as (A1 & A2 & A3 & A4 & A5).
    set (s1 := LightRequest_ApplyFilter _) in *.
    destruct (range_screens_counters s1) as (B1 & B2 & B3 & B4 & B5).
    set (s2 := LightRequest_CheckShortCircuit _) in *.
    assert (Hmod : 0 <= n mod 5 < 5) by (apply Z.mod_pos_bound; lia).
    assert (Hr2 : 0 <= rateCheckCounter s2 < 5) by (rewrite B2, A2, Ir; exact Hmod).
    assert (Hp2 : 0 <= plausibilityErrorCount s2) by (rewrite B3, A3; lia).
    destruct (CheckPlausibility_counters s2 Hr2 Hp2) as (C1 & C2 & C3 & C4).
    set (s3 := LightRequest_CheckPlausibility s2) in *.
    destruct (UpdateOutput_counters s3) as (D1 & D2 & D3 & D4 & D5).
    set (s4 := LightRequest_UpdateOutput s3) in *.
    clearbody s4 s3 s2 s1.
    rewrite B2, A2, Ir in C2, C3. rewrite B3, A3 in C3.
    rewrite D1, D2, D3, D4, C1, C2, B1, A1.
    assert (Hdiv : n = 5 * (n / 5) + n mod 5) by (apply Z.div_mod; lia).
    assert (Hnext : (n + 1) mod 5 = (if n mod 5 =? 4 then 0 else n mod 5 + 1)
                    /\ (n + 1) / 5 = n / 5 + (if n mod 5 =? 4 then 1 else 0)).
    { destruct (Z.eqb_spec (n mod 5) 4) as [H4 | H4].
      - split; [symmetry; apply Z.mod_unique with (q := n / 5 + 1); lia |].
        symmetry. apply Z.div_unique with (r := 0); lia.
      - split; [symmetry; apply Z.mod_unique with (q := n / 5); lia |].
        symmetry. apply Z.div_unique with (r := n mod 5 + 1); lia. }
    destruct Hnext as [Hm Hd]. rewrite Hm, Hd.
    split; [exact Ii |]. split; [reflexivity |]. split; [lia |].
    intros H15.
    assert (Hlow : plausibilityErrorCount s3 < 3).
    { assert ((n + 1) / 5 < 3) by (apply Z.div_lt_upper_bound; lia). lia. }
    destruct (C4 Hlow) as [Cpf Cst].
    destruct (Iclear ltac:(lia)) as [Ipf Ist].
    split.
    + apply Cpf. rewrite B4, A4. exact Ipf.
    + apply D5, Cst, B5. rewrite A5. exact Ist.
Qed.

(** X29.  Whatever is read, the plausibility fault is not raised within
    the first fourteen ticks after initialisation: the rate of change is
    checked every fifth tick, and the fault needs three checks over the
    limit. *)
Theorem plausibility_fault_needs_fifteen_ticks (g : Globals) (adcs : list (option Z)) :
  (length adcs < 15)%nat ->
  let s := LightRequest_State (lr_run (LightRequest_Init g) adcs) in
  plausibilityFault s = false
  /\ signalStatus s <> SIGNAL_STATUS_PLAUSIBILITY
  /\ rateCheckCounter s = Z.of_nat (length adcs) mod LIGHTREQUEST_RATE_CHECK_CYCLES.
Proof.
  intros Hlen.
  destruct (lr_rate_check_run g adcs) as (_ & Hr & _ & Hclear).
  destruct (Hclear ltac:(lia)) as [Hpf Hst].
  cbv zeta. split; [exact Hpf |]. split; [exact Hst | exact Hr].
Qed.

End AmbientPlausibility.

(** ** FLM application: the state machine over several ticks *)

Section FlmMachine.

Import FLM Schedule Runs.

Ltac flm_fields :=
  cbn [isInitialized currentState previousState stateEntryTime lightSwitch ambientLight
       switchSignalStatus ambientSignalStatus e2eStatus headlightCommand
       lightsCurrentlyOn hysteresisActive consecutiveErrors e2eErrorStartTime
       e2eTimeoutActive degradedEntryTime currentTime
       set_currentState set_previousState set_stateEntryTime set_lightSwitch
       set_ambientLight set_switchSignalStatus set_ambientSignalStatus set_e2eStatus
       set_headlightCommand set_lightsCurrentlyOn set_hysteresisActive
       set_consecutiveErrors set_degradedEntryTime set_currentTime
       FLM_State FLM_SystemTime FLM_ExternalSafeStateTrigger FLM_SafeStateReason
       LightSwitchStatus.command LightSwitchStatus.isValid LightSwitchStatus.e2eStatus
       AmbientLightLevel.adcValue AmbientLightLevel.luxValue AmbientLightLevel.isValid
       negb andb orb] in *.

(** What reading the inputs leaves of the state machine, and what it
    reads. *)
Lemma FLM_ReadInputs_fields sw lr s :
  let s' := FLM_ReadInputs sw lr s in
  isInitialized s' = isInitialized s
  /\ currentState s' = currentState s
  /\ consecutiveErrors s' = consecutiveErrors s
  /\ e2eTimeoutActive s' = e2eTimeoutActive s
  /\ degradedEntryTime s' = degradedEntryTime s
  /\ currentTime s' = currentTime s
  /\ headlightCommand s' = headlightCommand s
  /\ lightsCurrentlyOn s' = lightsCurrentlyOn s
  /\ lightSwitch s' = SwitchEvent.SwitchEvent_GetLightRequest sw
  /\ ambientLight s' = LightRequest.LightRequest_GetAmbientLight lr.
Proof.
  unfold FLM_ReadInputs. cbv zeta. flm_fields.
  destruct (LightSwitchStatus.isValid (SwitchEvent.SwitchEvent_GetLightRequest sw));
    [| destruct (SwitchEvent.SwitchEvent_IsTimeoutActive sw)];
    flm_fields; repeat split; reflexivity.
Qed.

(** The transitions of the state machine when no safe state is
    requested and no E2E timeout is flagged. *)
Lemma FLM_ProcessStateMachine_table s :
  e2eTimeoutActive s = false ->
  let valid := FLM_AreAllInputsValid s in
  let s' := FLM_ProcessStateMachine false s in
  isInitialized s' = isInitialized s
  /\ e2eTimeoutActive s' = false
  /\ lightSwitch s' = lightSwitch s
  /\ ambientLight s' = ambientLight s
  /\ lightsCurrentlyOn s' = lightsCurrentlyOn s
  /\ match currentState s with
     | FLM_STATE_INIT =>
         if valid then currentState s' = FLM_STATE_NORMAL /\ consecutiveErrors s' = 0
         else currentState s' = FLM_STATE_INIT
     | FLM_STATE_NORMAL =>
         if valid then currentState s' = FLM_STATE_NORMAL /\ consecutiveErrors s' = 0
         else
           consecutiveErrors s' = wrap8 (consecutiveErrors s + 1)
           /\ (if FLM_MAX_CONSECUTIVE_ERRORS <=? wrap8 (consecutiveErrors s + 1)
               then currentState s' = FLM_STATE_DEGRADED
                    /\ degradedEntryTime s' = currentTime s
               else currentState s' = FLM_STATE_NORMAL)
     | FLM_STATE_DEGRADED =>
         if valid then currentState s' = FLM_STATE_NORMAL /\ consecutiveErrors s' = 0
         else
           degradedEntryTime s' = degradedEntryTime s
           /\ currentState s'
              = (if FLM_FTTI_MS - FLM_SAFE_STATE_TRANSITION_MS
                    <? wrap32 (currentTime s - degradedEntryTime s)
                 then FLM_STATE_SAFE else FLM_STATE_DEGRADED)
     | FLM_STATE_SAFE =>
         currentState s' = FLM_STATE_SAFE
         /\ headlightCommand s' = safe_command (ambientLight s)
     end.
Proof.
  intros Hto.
  destruct s as [ini cur prv entry sw amb sws ams e2e cmd on hyst errs est eto dent ct].
  destruct sw as [c swv e]. destruct amb as [a l av].
  flm_fields. subst eto.
  unfold FLM_ProcessStateMachine, FLM_AreAllInputsValid. cbv zeta. flm_fields.
  destruct cur; flm_fields.
  - unfold FLM_StateInit. flm_fields.
    destruct swv, av; cbn; repeat split; reflexivity.
  - unfold FLM_StateNormal, FLM_IsCriticalFault, FLM_IsAnyInputInvalid. flm_fields.
    destruct swv, av; flm_fields; cbv zeta; flm_fields;
      try (destruct (Z.leb_spec FLM_MAX_CONSECUTIVE_ERRORS (wrap8 (errs + 1)))); cbn;
      repeat split; reflexivity.
  - unfold FLM_StateDegraded, FLM_IsCriticalFault. flm_fields.
    destruct swv, av; flm_fields; cbv zeta; flm_fields;
      try (destruct (Z.ltb_spec (FLM_FTTI_MS - FLM_SAFE_STATE_TRANSITION_MS)
                       (wrap32 (ct - dent)))); cbn;
      repeat split; reflexivity.
  - unfold FLM_StateSafe, safe_command. flm_fields.
    destruct av; [destruct (Z.ltb_spec a FLM_AMBIENT_THRESHOLD_ON) |]; cbn;
      repeat split; reflexivity.
Qed.

(** Choosing the command leaves the state machine alone. *)
Lemma FLM_DetermineHeadlightCommand_fields s :
  let s' := FLM_DetermineHeadlightCommand s in
  isInitialized s' = isInitialized s
  /\ currentState s' = currentState s
  /\ consecutiveErrors s' = consecutiveErrors s
  /\ e2eTimeoutActive s' = e2eTimeoutActive s
  /\ degradedEntryTime s' = degradedEntryTime s.
Proof.
  destruct s as [ini cur prv entry sw amb sws ams e2e cmd on hyst errs est eto dent ct].
  destruct sw as [c swv e]. destruct amb as [a l av].
  unfold FLM_DetermineHeadlightCommand, FLM_ApplyAutoMode. flm_fields.
  destruct cur; flm_fields; try (repeat split; reflexivity);
    destruct c; flm_fields; destruct av, swv, on; flm_fields;
    repeat (case_cmp; flm_fields); repeat split; reflexivity.
Qed.

(** One tick of the state machine without a safe-state request. *)
Lemma flm_step_table (t : FlmTick) (g : Globals) :
  isInitialized (FLM_State g) = true ->
  e2eTimeoutActive (FLM_State g) = false ->
  FLM_ExternalSafeStateTrigger g = false ->
  flm_trigger t = None ->
  let s := FLM_State g in
  let g' := flm_step g t in
  let s' := FLM_State g' in
  isInitialized s' = true
  /\ e2eTimeoutActive s' = false
  /\ FLM_ExternalSafeStateTrigger g' = false
  /\ FLM_SystemTime g' = wrap32 (FLM_SystemTime g + FLM_MAIN_FUNCTION_PERIOD_MS)
  /\ match currentState s with
     | FLM_STATE_INIT =>
         if flm_inputs_valid t
         then currentState s' = FLM_STATE_NORMAL /\ consecutiveErrors s' = 0
         else currentState s' = FLM_STATE_INIT
     | FLM_STATE_NORMAL =>
         if flm_inputs_valid t
         then currentState s' = FLM_STATE_NORMAL /\ consecutiveErrors s' = 0
         else
           consecutiveErrors s' = wrap8 (consecutiveErrors s + 1)
           /\ (if FLM_MAX_CONSECUTIVE_ERRORS <=? wrap8 (consecutiveErrors s + 1)
               then currentState s' = FLM_STATE_DEGRADED
                    /\ degradedEntryTime s' = FLM_SystemTime g
               else currentState s' = FLM_STATE_NORMAL)
     | FLM_STATE_DEGRADED =>
         if flm_inputs_valid t
         then currentState s' = FLM_STATE_NORMAL /\ consecutiveErrors s' = 0
         else
           degradedEntryTime s' = degradedEntryTime s
           /\ currentState s'
              = (if FLM_FTTI_MS - FLM_SAFE_STATE_TRANSITION_MS
                    <? wrap32 (FLM_SystemTime g - degradedEntryTime s)
                 then FLM_STATE_SAFE else FLM_STATE_DEGRADED)
     | FLM_STATE_SAFE =>
         currentState s' = FLM_STATE_SAFE
         /\ headlightCommand s'
            = safe_command (LightRequest.LightRequest_GetAmbientLight (flm_lr t))
     end.
Proof.
  intros Hini Hto Htrig Hnone s g' s'.
  subst g' s'. unfold flm_step. rewrite Hnone.
  unfold FLM_MainFunction. rewrite Hini. cbn [negb FLM_State FLM_SystemTime
    FLM_ExternalSafeStateTrigger]. rewrite Htrig. fold s.
  set (s0 := set_currentTime (FLM_SystemTime g) s).
  destruct (FLM_ReadInputs_fields (flm_sw t) (flm_lr t) s0)
    as (Ri & Rc & Re & Rt & Rd & Rct & _ & _ & Rsw & Ramb).
  set (s1 := FLM_ReadInputs (flm_sw t) (flm_lr t) s0) in *.
  assert (Hto1 : e2eTimeoutActive s1 = false) by (rewrite Rt; exact Hto).
  destruct (FLM_ProcessStateMachine_table s1 Hto1) as (Pi & Pt & _ & _ & _ & Ptab).
  set (s2 := FLM_ProcessStateMachine false s1) in *.
  destruct (FLM_DetermineHeadlightCommand_fields s2) as (Di & Dc & De & Dt & Dd).
  set (s3 := FLM_DetermineHeadlightCommand s2) in *.
  assert (Hvalid : FLM_AreAllInputsValid s1 = flm_inputs_valid t).
  { unfold FLM_AreAllInputsValid, flm_inputs_valid. rewrite Rsw, Ramb. reflexivity. }
  assert (Hcmd : currentState s2 = FLM_STATE_SAFE -> headlightCommand s3 = headlightCommand s2).
  { intros Hsafe. unfold s3, FLM_DetermineHeadlightCommand. rewrite Hsafe. reflexivity. }
  rewrite Hvalid, Rc, Re, Rd, Rct, Ramb in Ptab.
  change (currentState s0) with (currentState s) in Ptab.
  change (consecutiveErrors s0) with (consecutiveErrors s) in Ptab.
  change (degradedEntryTime s0) with (degradedEntryTime s) in Ptab.
  change (currentTime s0) with (FLM_SystemTime g) in Ptab.
  assert (Hini0 : isInitialized s0 = true) by exact Hini.
  clearbody s3 s2 s1 s0.
  rewrite Di, Pi, Ri, Dt, Pt, Dc, De, Dd.
  split; [exact Hini0 |]. split; [reflexivity |]. split; [reflexivity |].
  split; [reflexivity |].
  destruct (currentState s); try exact Ptab.
  destruct Ptab as [Hs Hc]. split; [exact Hs |]. rewrite (Hcmd Hs). exact Hc.
Qed.

End FlmMachine.

Section FlmTimeline.

Import FLM Schedule Runs.

Lemma flm_run_snoc (g : Globals) (ticks : list FlmTick) (t : FlmTick) :
  flm_run g (ticks ++ [t]) = flm_step (flm_run g ticks) t.
Proof. unfold flm_run. rewrite fold_left_app. reflexivity. Qed.

(** The difference of two wrapped times is the wrapped difference. *)
Lemma wrap32_diff (a b : Z) : wrap32 (wrap32 a - wrap32 b) = wrap32 (a - b).
Proof. unfold wrap32. rewrite Zminus_mod_idemp_l, Zminus_mod_idemp_r. reflexivity. Qed.

Lemma wrap32_step (a b : Z) : wrap32 (wrap32 a + b) = wrap32 (a + b).
Proof. unfold wrap32. rewrite Zplus_mod_idemp_l. reflexivity. Qed.

(** The state machine along a run of ticks that each lack an input,
    started in Normal with a clear error count. *)
Lemma flm_lost_run (g : Globals) (ticks : list FlmTick) :
  isInitialized (FLM_State g) = true ->
  currentState (FLM_State g) = FLM_STATE_NORMAL ->
  consecutiveErrors (FLM_State g) = 0 ->
  e2eTimeoutActive (FLM_State g) = false ->
  FLM_ExternalSafeStateTrigger g = false ->
  Forall flm_input_lost ticks ->
  let n := Z.of_nat (length ticks) in
  let g' := flm_run g ticks in
  let s' := FLM_State g' in
  isInitialized s' = true
  /\ e2eTimeoutActive s' = false
  /\ FLM_ExternalSafeStateTrigger g' = false
  /\ (1 <= n -> FLM_SystemTime g' = wrap32 (FLM_SystemTime g + 10 * n))
  /\ (n = 0 -> FLM_SystemTime g' = FLM_SystemTime g)
  /\ (n < 3 -> currentState s' = FLM_STATE_NORMAL /\ consecutiveErrors s' = n)
  /\ (3 <= n < 14 ->
      currentState s' = FLM_STATE_DEGRADED
      /\ degradedEntryTime s' = wrap32 (FLM_SystemTime g + 20))
  /\ (14 <= n -> currentState s' = FLM_STATE_SAFE).
Proof.
  intros Hini Hnormal Herr Hto Htrig.
  induction ticks as [| t ticks IH] using rev_ind; intros Hall.
  - cbn. repeat split; try assumption; try reflexivity; intros; lia.
  - apply Forall_app in Hall. destruct Hall as [Hall Ht].
    apply (proj1 (Forall_singleton _ _)) in Ht. destruct Ht as [Hnone Hlost].
    specialize (IH Hall). cbv zeta in IH.
    destruct IH as (Ii & Ito & Itr & Itime & Itime0 & Inorm & Ideg & Isafe).
    rewrite flm_run_snoc, length_app, Nat2Z.inj_add. cbn [length].
    change (Z.of_nat 1) with 1.
    set (g0 := flm_run g ticks) in *.
    set (n := Z.of_nat (length ticks)) in *.
    assert (Hn : 0 <= n) by (subst n; lia).
    clearbody g0 n.
    destruct (flm_step_table t g0 Ii Ito Itr Hnone) as (Si & Sto & Str & Stime & Stab).
    rewrite Hlost in Stab.
    unfold FLM_MAIN_FUNCTION_PERIOD_MS in Stime.
    assert (Htime : FLM_SystemTime (flm_step g0 t) = wrap32 (FLM_SystemTime g + 10 * (n + 1))).
    { rewrite Stime. destruct (Z.eq_dec n 0) as [-> | Hpos].
      - rewrite (Itime0 eq_refl). reflexivity.
      - rewrite Itime by lia. rewrite wrap32_step. f_equal. lia. }
    cbv zeta. split; [exact Si |]. split; [exact Sto |]. split; [exact Str |].
    split; [intros _; exact Htime |]. split; [intros; lia |].
    unfold FLM_MAX_CONSECUTIVE_ERRORS, FLM_FTTI_MS, FLM_SAFE_STATE_TRANSITION_MS in Stab.
    destruct (Z.lt_ge_cases n 3) as [Hlt3 | Hge3].
    + destruct (Inorm Hlt3) as [Hst Hcnt]. rewrite Hst, Hcnt in Stab.
      assert (Hw : wrap8 (n + 1) = n + 1) by (unfold wrap8; apply Z.mod_small; lia).
      rewrite Hw in Stab. destruct Stab as [Scnt Sst].
      destruct (Z.leb_spec 3 (n + 1)) as [H3 | H3].
      * destruct Sst as [Sst Sdent].
        split; [intros; lia |]. split; [| intros; lia].
        intros _. split; [exact Sst |]. rewrite Sdent.
        destruct (Z.eq_dec n 0) as [-> | Hpos]; [lia |].
        rewrite Itime by lia. f_equal. lia.
      * split; [| split; intros; lia].
        intros _. split; [exact Sst | exact Scnt].
    + destruct (Z.lt_ge_cases n 14) as [Hlt14 | Hge14].
      * destruct (Ideg ltac:(lia)) as [Hst Hdent]. rewrite Hst, Hdent in Stab.
        rewrite Itime in Stab by lia. rewrite wrap32_diff in Stab.
        replace (FLM_SystemTime g + 10 * n - (FLM_SystemTime g + 20)) with (10 * n - 20)
          in Stab by lia.
        assert (Hw : wrap32 (10 * n - 20) = 10 * n - 20)
          by (unfold wrap32; apply Z.mod_small; lia).
        rewrite Hw in Stab. destruct Stab as [Sdent Sst].
        split; [intros; lia |].
        destruct (Z.ltb_spec (200 - 100) (10 * n - 20)) as [Hover | Hover].
        -- split; [intros; lia |]. intros _. exact Sst.
        -- split; [| intros; lia]. intros _. split; [exact Sst | exact Sdent].
      * rewrite (Isafe Hge14) in Stab. destruct Stab as [Sst _].
        split; [intros; lia |]. split; [intros; lia |]. intros _. exact Sst.
Qed.

(** X18.  From Normal with a clear error count, while every tick lacks a
    valid input (the switch report or the ambient reading is flagged
    invalid) and no safe state is requested, the application stays Normal
    for two ticks, is Degraded from the third tick to the thirteenth, and
    is Safe from the fourteenth tick on. *)
Theorem lost_input_reaches_safe_state (g : Globals) (ticks : list FlmTick) :
  isInitialized (FLM_State g) = true ->
  currentState (FLM_State g) = FLM_STATE_NORMAL ->
  consecutiveErrors (FLM_State g) = 0 ->
  e2eTimeoutActive (FLM_State g) = false ->
  FLM_ExternalSafeStateTrigger g = false ->
  Forall flm_input_lost ticks ->
  let n := Z.of_nat (length ticks) in
  currentState (FLM_State (flm_run g ticks))
  = (if n <? FLM_MAX_CONSECUTIVE_ERRORS then FLM_STATE_NORMAL
     else if n <? FLM_MAX_CONSECUTIVE_ERRORS + 11 then FLM_STATE_DEGRADED
     else FLM_STATE_SAFE).
Proof.
  intros Hini Hnormal Herr Hto Htrig Hall n.
  destruct (flm_lost_run g ticks Hini Hnormal Herr Hto Htrig Hall)
    as (_ & _ & _ & _ & _ & Hnorm & Hdeg & Hsafe).
  fold n in Hnorm, Hdeg, Hsafe.
  unfold FLM_MAX_CONSECUTIVE_ERRORS.
  destruct (Z.ltb_spec n 3) as [H3 | H3]; [apply Hnorm; exact H3 |].
  destruct (Z.ltb_spec n (3 + 11)) as [H14 | H14]; [apply Hdeg; lia | apply Hsafe; lia].
Qed.

End FlmTimeline.

Section FlmCommand.

Import FLM Schedule Runs.

Ltac flm_cbn :=
  cbn [isInitialized currentState previousState stateEntryTime lightSwitch ambientLight
       switchSignalStatus ambientSignalStatus e2eStatus headlightCommand
       lightsCurrentlyOn hysteresisActive consecutiveErrors e2eErrorStartTime
       e2eTimeoutActive degradedEntryTime currentTime
       set_currentState set_previousState set_stateEntryTime set_lightSwitch
       set_ambientLight set_switchSignalStatus set_ambientSignalStatus set_e2eStatus
       set_headlightCommand set_lightsCurrentlyOn set_hysteresisActive
       set_consecutiveErrors set_degradedEntryTime set_currentTime
       FLM_State FLM_SystemTime FLM_ExternalSafeStateTrigger FLM_SafeStateReason
       LightSwitchStatus.command LightSwitchStatus.isValid LightSwitchStatus.e2eStatus
       AmbientLightLevel.adcValue AmbientLightLevel.luxValue AmbientLightLevel.isValid
       negb andb orb] in *.

(** What the state machine leaves alone whatever is requested, and what
    it does on a safe-state request and in Safe. *)
Lemma FLM_ProcessStateMachine_frame trigger s :
  let s' := FLM_ProcessStateMachine trigger s in
  isInitialized s' = isInitialized s
  /\ lightSwitch s' = lightSwitch s
  /\ ambientLight s' = ambientLight s
  /\ lightsCurrentlyOn s' = lightsCurrentlyOn s
  /\ (trigger = true -> currentState s' = FLM_STATE_SAFE)
  /\ (currentState s = FLM_STATE_SAFE ->
      currentState s' = FLM_STATE_SAFE
      /\ headlightCommand s' = safe_command (ambientLight s)).
Proof.
  destruct s as [ini cur prv entry sw amb sws ams e2e cmd on hyst errs est eto dent ct].
  destruct sw as [c swv e]. destruct amb as [a l av].
  unfold FLM_ProcessStateMachine. cbv zeta. flm_cbn.
  destruct cur; flm_cbn.
  - unfold FLM_StateInit, FLM_AreAllInputsValid. flm_cbn.
    destruct trigger, swv, av; cbn; repeat split; intros; congruence.
  - unfold FLM_StateNormal, FLM_IsCriticalFault, FLM_IsAnyInputInvalid. flm_cbn.
    destruct trigger, eto, swv, av; flm_cbn; cbv zeta; flm_cbn;
      try (destruct (Z.leb_spec FLM_MAX_CONSECUTIVE_ERRORS (wrap8 (errs + 1)))); cbn;
      repeat split; intros; congruence.
  - unfold FLM_StateDegraded, FLM_IsCriticalFault, FLM_AreAllInputsValid. flm_cbn.
    destruct trigger, eto, swv, av; flm_cbn; cbv zeta; flm_cbn;
      try (destruct (Z.ltb_spec (FLM_FTTI_MS - FLM_SAFE_STATE_TRANSITION_MS)
                       (wrap32 (ct - dent)))); cbn;
      repeat split; intros; congruence.
  - unfold FLM_StateSafe, safe_command. flm_cbn.
    destruct av; [destruct (Z.ltb_spec a FLM_AMBIENT_THRESHOLD_ON) |]; cbn;
      repeat split; intros; reflexivity.
Qed.

(** The command chosen in Normal with a valid ambient reading. *)
Lemma FLM_DetermineHeadlightCommand_normal s :
  currentState s = FLM_STATE_NORMAL ->
  AmbientLightLevel.isValid (ambientLight s) = true ->
  let s' := FLM_DetermineHeadlightCommand s in
  let on :=
    match LightSwitchStatus.command (lightSwitch s) with
    | LIGHT_SWITCH_OFF => false
    | LIGHT_SWITCH_LOW_BEAM | LIGHT_SWITCH_HIGH_BEAM => true
    | LIGHT_SWITCH_AUTO =>
        auto_lights_on (AmbientLightLevel.adcValue (ambientLight s)) (lightsCurrentlyOn s)
    end in
  lightsCurrentlyOn s' = on
  /\ headlightCommand s'
     = match LightSwitchStatus.command (lightSwitch s) with
       | LIGHT_SWITCH_HIGH_BEAM => HEADLIGHT_CMD_HIGH_BEAM
       | _ => if on then HEADLIGHT_CMD_LOW_BEAM else HEADLIGHT_CMD_OFF
       end.
Proof.
  destruct s as [ini cur prv entry sw amb sws ams e2e cmd on hyst errs est eto dent ct].
  destruct sw as [c swv e]. destruct amb as [a l av].
  flm_cbn. intros -> ->.
  unfold FLM_DetermineHeadlightCommand, FLM_ApplyAutoMode, auto_lights_on. flm_cbn.
  destruct c; flm_cbn; try (split; reflexivity).
  destruct on; flm_cbn;
    destruct (Z.ltb_spec FLM_AMBIENT_THRESHOLD_OFF a);
    destruct (Z.ltb_spec a FLM_AMBIENT_THRESHOLD_ON);
    destruct (Z.leb_spec a FLM_AMBIENT_THRESHOLD_OFF);
    unfold FLM_AMBIENT_THRESHOLD_OFF, FLM_AMBIENT_THRESHOLD_ON in *;
    try lia; flm_cbn; split; reflexivity.
Qed.

(** The command chosen in Degraded without a valid switch report but
    with a valid ambient reading. *)
Lemma FLM_DetermineHeadlightCommand_degraded s :
  currentState s = FLM_STATE_DEGRADED ->
  LightSwitchStatus.isValid (lightSwitch s) = false ->
  AmbientLightLevel.isValid (ambientLight s) = true ->
  let s' := FLM_DetermineHeadlightCommand s in
  let adc := AmbientLightLevel.adcValue (ambientLight s) in
  headlightCommand s' <> HEADLIGHT_CMD_HIGH_BEAM
  /\ (adc < FLM_AMBIENT_THRESHOLD_ON -> headlightCommand s' = HEADLIGHT_CMD_LOW_BEAM)
  /\ (FLM_AMBIENT_THRESHOLD_OFF < adc -> headlightCommand s' = HEADLIGHT_CMD_OFF).
Proof.
  destruct s as [ini cur prv entry sw amb sws ams e2e cmd on hyst errs est eto dent ct].
  destruct sw as [c swv e]. destruct amb as [a l av].
  flm_cbn. intros -> -> ->.
  unfold FLM_DetermineHeadlightCommand, FLM_ApplyAutoMode. flm_cbn.
  unfold FLM_AMBIENT_THRESHOLD_OFF, FLM_AMBIENT_THRESHOLD_ON.
  destruct c; flm_cbn; try destruct on; flm_cbn;
    repeat (case_cmp; flm_cbn);
    (split; [discriminate |]); split; intros; first [reflexivity | lia].
Qed.

(** The state handed to the choice of the command in a tick of the
    initialised application. *)
Lemma FLM_MainFunction_stages sw lr g :
  isInitialized (FLM_State g) = true ->
  exists s2,
    FLM_State (FLM_MainFunction sw lr g) = FLM_DetermineHeadlightCommand s2
    /\ s2 = FLM_ProcessStateMachine (FLM_ExternalSafeStateTrigger g)
              (FLM_ReadInputs sw lr (set_currentTime (FLM_SystemTime g) (FLM_State g)))
    /\ lightSwitch s2 = SwitchEvent.SwitchEvent_GetLightRequest sw
    /\ ambientLight s2 = LightRequest.LightRequest_GetAmbientLight lr
    /\ lightsCurrentlyOn s2 = lightsCurrentlyOn (FLM_State g)
    /\ isInitialized s2 = true.
Proof.
  intros Hini. eexists. split; [| split; [reflexivity |]].
  - unfold FLM_MainFunction. rewrite Hini. reflexivity.
  - destruct (FLM_ReadInputs_fields sw lr (set_currentTime (FLM_SystemTime g) (FLM_State g)))
      as (Ri & _ & _ & _ & _ & _ & _ & Ron & Rsw & Ramb).
    destruct (FLM_ProcessStateMachine_frame (FLM_ExternalSafeStateTrigger g)
                (FLM_ReadInputs sw lr (set_currentTime (FLM_SystemTime g) (FLM_State g))))
      as (Pi & Psw & Pamb & Pon & _).
    rewrite Psw, Pamb, Pon, Pi, Rsw, Ramb, Ron, Ri.
    repeat split; try reflexivity. exact Hini.
Qed.

(** X19.  A tick with both inputs valid and no safe state requested
    takes the application from Init, Normal or Degraded to Normal with a
    clear error count, and the command follows the switch: Off, LowBeam
    and HighBeam as requested, and in automatic mode LowBeam when the
    ambient ADC value is below 800, or at most 1000 with the lights
    already on, and Off otherwise. *)
Theorem valid_inputs_give_normal_operation (g : Globals) (t : FlmTick) :
  isInitialized (FLM_State g) = true ->
  currentState (FLM_State g) <> FLM_STATE_SAFE ->
  e2eTimeoutActive (FLM_State g) = false ->
  FLM_ExternalSafeStateTrigger g = false ->
  flm_trigger t = None ->
  flm_inputs_valid t = true ->
  let s' := FLM_State (flm_step g t) in
  let request := LightSwitchStatus.command (SwitchEvent.SwitchEvent_GetLightRequest (flm_sw t)) in
  let adc := AmbientLightLevel.adcValue (LightRequest.LightRequest_GetAmbientLight (flm_lr t)) in
  let on :=
    match request with
    | LIGHT_SWITCH_OFF => false
    | LIGHT_SWITCH_LOW_BEAM | LIGHT_SWITCH_HIGH_BEAM => true
    | LIGHT_SWITCH_AUTO => auto_lights_on adc (lightsCurrentlyOn (FLM_State g))
    end in
  currentState s' = FLM_STATE_NORMAL
  /\ consecutiveErrors s' = 0
  /\ lightsCurrentlyOn s' = on
  /\ headlightCommand s'
     = match request with
       | LIGHT_SWITCH_HIGH_BEAM => HEADLIGHT_CMD_HIGH_BEAM
       | _ => if on then HEADLIGHT_CMD_LOW_BEAM else HEADLIGHT_CMD_OFF
       end.
Proof.
  intros Hini Hnot Hto Htrig Hnone Hvalid.
  destruct (flm_step_table t g Hini Hto Htrig Hnone) as (_ & _ & _ & _ & Htab).
  rewrite Hvalid in Htab.
  assert (Hnormal : currentState (FLM_State (flm_step g t)) = FLM_STATE_NORMAL
                    /\ consecutiveErrors (FLM_State (flm_step g t)) = 0)
    by (destruct (currentState (FLM_State g)); [exact Htab .. | contradiction]).
  clear Htab. destruct Hnormal as [Hst Herr].
  cbv zeta. split; [exact Hst |]. split; [exact Herr |].
  revert Hst. unfold flm_step. rewrite Hnone.
  destruct (FLM_MainFunction_stages (flm_sw t) (flm_lr t) g Hini)
    as (s2 & -> & _ & Hsw & Hamb & Hon & _).
  destruct (FLM_DetermineHeadlightCommand_fields s2) as (_ & Hcur & _).
  rewrite Hcur. intros Hst.
  apply andb_prop in Hvalid. destruct Hvalid as [_ Hav]. rewrite <- Hamb in Hav.
  destruct (FLM_DetermineHeadlightCommand_normal s2 Hst Hav) as [Hlights Hcmd].
  rewrite Hsw, Hamb, Hon in Hlights, Hcmd. split; [exact Hlights | exact Hcmd].
Qed.

(** X20.  Whenever a tick of the initialised application ends in
    Degraded with the switch report invalid and the ambient reading valid,
    the command is never HighBeam: it is LowBeam for an ambient ADC value
    below 800 and Off for one above 1000. *)
Theorem degraded_without_switch_follows_ambient
    (sw : SwitchEvent.Globals) (lr : LightRequest.Globals) (g : Globals) :
  isInitialized (FLM_State g) = true ->
  let s' := FLM_State (FLM_MainFunction sw lr g) in
  let adc := AmbientLightLevel.adcValue (LightRequest.LightRequest_GetAmbientLight lr) in
  currentState s' = FLM_STATE_DEGRADED ->
  LightSwitchStatus.isValid (SwitchEvent.SwitchEvent_GetLightRequest sw) = false ->
  AmbientLightLevel.isValid (LightRequest.LightRequest_GetAmbientLight lr) = true ->
  headlightCommand s' <> HEADLIGHT_CMD_HIGH_BEAM
  /\ (adc < FLM_AMBIENT_THRESHOLD_ON -> headlightCommand s' = HEADLIGHT_CMD_LOW_BEAM)
  /\ (FLM_AMBIENT_THRESHOLD_OFF < adc -> headlightCommand s' = HEADLIGHT_CMD_OFF).
Proof.
  intros Hini. cbv zeta.
  destruct (FLM_MainFunction_stages sw lr g Hini) as (s2 & -> & _ & Hsw & Hamb & _).
  destruct (FLM_DetermineHeadlightCommand_fields s2) as (_ & Hcur & _).
  rewrite Hcur, <- Hsw, <- Hamb. intros Hst Hswv Hav.
  exact (FLM_DetermineHeadlightCommand_degraded s2 Hst Hswv Hav).
Qed.

(** X21.  A safe-state request is served within two ticks, whatever the
    state and the inputs: the tick after the request ends in Safe, and the
    tick after that commands the fallback by the ambient reading it
    meets: LowBeam unless the reading is valid with an ADC value of 800 or
    more, and Off then. *)
Theorem safe_state_request_is_served
    (g : Globals) (reason : SafeStateReason)
    (sw1 sw2 : SwitchEvent.Globals) (lr1 lr2 : LightRequest.Globals) :
  isInitialized (FLM_State g) = true ->
  let g1 := FLM_MainFunction sw1 lr1 (FLM_TriggerSafeState reason g) in
  let g2 := FLM_MainFunction sw2 lr2 g1 in
  FLM_IsInSafeState g1 = true
  /\ FLM_IsInSafeState g2 = true
  /\ FLM_GetHeadlightCommand g2
     = safe_command (LightRequest.LightRequest_GetAmbientLight lr2).
Proof.
  intros Hini g1 g2.
  assert (Hini0 : isInitialized (FLM_State (FLM_TriggerSafeState reason g)) = true)
    by exact Hini.
  assert (H1 : isInitialized (FLM_State g1) = true
               /\ currentState (FLM_State g1) = FLM_STATE_SAFE).
  { subst g1.
    destruct (FLM_MainFunction_stages sw1 lr1 (FLM_TriggerSafeState reason g) Hini0)
      as (s2 & -> & Hs2 & _ & _ & _ & Hi2).
    destruct (FLM_DetermineHeadlightCommand_fields s2) as (Di & Dc & _).
    rewrite Di, Dc. split; [exact Hi2 |].
    rewrite Hs2.
    change (FLM_ExternalSafeStateTrigger (FLM_TriggerSafeState reason g)) with true.
    destruct (FLM_ProcessStateMachine_frame true
                (FLM_ReadInputs sw1 lr1
                   (set_currentTime (FLM_SystemTime (FLM_TriggerSafeState reason g))
                      (FLM_State (FLM_TriggerSafeState reason g)))))
      as (_ & _ & _ & _ & Ptrig & _).
    exact (Ptrig eq_refl). }
  destruct H1 as [Hini1 Hsafe1].
  assert (H2 : currentState (FLM_State g2) = FLM_STATE_SAFE
               /\ headlightCommand (FLM_State g2)
                  = safe_command (LightRequest.LightRequest_GetAmbientLight lr2)).
  { subst g2. clearbody g1.
    destruct (FLM_MainFunction_stages sw2 lr2 g1 Hini1)
      as (s2 & -> & Hs2 & _ & _ & _ & _).
    set (s1 := FLM_ReadInputs sw2 lr2 (set_currentTime (FLM_SystemTime g1) (FLM_State g1))) in *.
    destruct (FLM_ReadInputs_fields sw2 lr2 (set_currentTime (FLM_SystemTime g1) (FLM_State g1)))
      as (_ & Rc & _ & _ & _ & _ & _ & _ & _ & Ramb).
    fold s1 in Rc, Ramb.
    assert (Hsafe : currentState s1 = FLM_STATE_SAFE) by (rewrite Rc; exact Hsafe1).
    destruct (FLM_ProcessStateMachine_frame (FLM_ExternalSafeStateTrigger g1) s1)
      as (_ & _ & _ & _ & _ & Psafe).
    destruct (Psafe Hsafe) as [Pst Pcmd]. rewrite <- Hs2 in Pst, Pcmd.
    unfold FLM_DetermineHeadlightCommand. rewrite Pst.
    split; [exact Pst |]. rewrite Pcmd, Ramb. reflexivity. }
  destruct H2 as [Hsafe2 Hcmd2].
  unfold FLM_IsInSafeState, FLM_GetHeadlightCommand.
  rewrite Hsafe1, Hsafe2. repeat split; try reflexivity. exact Hcmd2.
Qed.

End FlmCommand.

(** ** Headlight: load diagnosis over several ticks *)

Section HeadlightRuns.

Import Headlight Conditions Schedule Runs.

Ltac hl_fields :=
  cbn [isInitialized currentCommand requestedCommand lowBeamOutput highBeamOutput
       feedbackCurrent feedbackState faultStatus openLoadCounter shortCircuitCounter
       faultDetectStartTime faultConfirmed commandChangeTime currentTime
       set_currentCommand set_requestedCommand set_lowBeamOutput set_highBeamOutput
       set_feedbackCurrent set_feedbackState set_faultStatus set_openLoadCounter
       set_shortCircuitCounter set_faultConfirmed set_commandChangeTime set_currentTime
       Headlight_State Headlight_SystemTime Headlight_SimCurrent
       Headlight_SimCurrentEnabled dio fst snd negb andb orb] in *.

Lemma hl_run_snoc (g : Globals) (ticks : list HeadlightTick) (t : HeadlightTick) :
  hl_run g (ticks ++ [t]) = hl_step (hl_run g ticks) t.
Proof. unfold hl_run. rewrite fold_left_app. reflexivity. Qed.

(** Setting the outputs stamps the time of a command change and leaves
    the diagnosis alone. *)
Lemma SetOutputs_diagnosis s d :
  let s' := fst (Headlight_SetOutputs (s, d)) in
  isInitialized s' = isInitialized s
  /\ currentCommand s' = currentCommand s
  /\ requestedCommand s' = requestedCommand s
  /\ faultStatus s' = faultStatus s
  /\ openLoadCounter s' = openLoadCounter s
  /\ shortCircuitCounter s' = shortCircuitCounter s
  /\ faultConfirmed s' = faultConfirmed s
  /\ currentTime s' = currentTime s
  /\ commandChangeTime s'
     = (if HeadlightCommand_eqb (requestedCommand s) (currentCommand s)
        then commandChangeTime s else currentTime s).
Proof.
  destruct s as [ini cur req low high fc fs st olc scc fdt conf cct ct].
  unfold Headlight_SetOutputs. hl_fields.
  destruct req, cur; cbn; repeat split; reflexivity.
Qed.

Lemma ReadFeedback_diagnosis
    (sime : bool) (simc : Z) (adc : option Z) (c : Z) (s : Headlight_StateType) :
  (if sime then Some simc
   else match adc with
        | Some adcValue => Some (wrap16 (adcValue * FLM_HEADLIGHT_CURRENT_FACTOR))
        | None => None
        end) = Some c ->
  let s' := Headlight_ReadFeedback sime simc adc s in
  isInitialized s' = isInitialized s
  /\ currentCommand s' = currentCommand s
  /\ requestedCommand s' = requestedCommand s
  /\ faultStatus s' = faultStatus s
  /\ openLoadCounter s' = openLoadCounter s
  /\ shortCircuitCounter s' = shortCircuitCounter s
  /\ faultConfirmed s' = faultConfirmed s
  /\ currentTime s' = currentTime s
  /\ commandChangeTime s' = commandChangeTime s
  /\ feedbackCurrent s' = c.
Proof.
  intros Hc. unfold Headlight_ReadFeedback.
  destruct sime; [injection Hc as -> | destruct adc as [a |]; [injection Hc as <- | discriminate]];
    cbn; repeat split; reflexivity.
Qed.

Lemma CheckOpenLoad_diagnosis s :
  let s' := Headlight_CheckOpenLoad s in
  let commanded := negb (HeadlightCommand_eqb (requestedCommand s) HEADLIGHT_CMD_OFF) in
  let settling :=
    wrap32 (currentTime s - commandChangeTime s) <? FLM_HEADLIGHT_FAULT_DETECT_MS in
  let open_count :=
    if negb commanded then 0
    else if settling then openLoadCounter s
    else if feedbackCurrent s <? FLM_HEADLIGHT_OPEN_LOAD_MA
    then wrap8 (openLoadCounter s + 1)
    else 0 in
  let open_fires :=
    commanded && negb settling && (feedbackCurrent s <? FLM_HEADLIGHT_OPEN_LOAD_MA)
    && (HEADLIGHT_FAULT_CONFIRM_CYCLES <=? open_count) in
  isInitialized s' = isInitialized s
  /\ requestedCommand s' = requestedCommand s
  /\ feedbackCurrent s' = feedbackCurrent s
  /\ shortCircuitCounter s' = shortCircuitCounter s
  /\ commandChangeTime s' = commandChangeTime s
  /\ openLoadCounter s' = open_count
  /\ faultConfirmed s' = faultConfirmed s || open_fires
  /\ faultStatus s' = (if open_fires then HEADLIGHT_FAULT_OPEN_LOAD else faultStatus s).
Proof.
  destruct s as [ini cur req low high fc fs st olc scc fdt conf cct ct].
  unfold Headlight_CheckOpenLoad, Headlight_IsOutputCommanded. hl_fields. cbv zeta.
  destruct (HeadlightCommand_eqb req HEADLIGHT_CMD_OFF); hl_fields;
    [rewrite orb_false_r; repeat split; reflexivity |].
  destruct (wrap32 (ct - cct) <? FLM_HEADLIGHT_FAULT_DETECT_MS); hl_fields;
    [rewrite orb_false_r; repeat split; reflexivity |].
  destruct (fc <? FLM_HEADLIGHT_OPEN_LOAD_MA); hl_fields;
    [| rewrite orb_false_r; repeat split; reflexivity].
  destruct (HEADLIGHT_FAULT_CONFIRM_CYCLES <=? wrap8 (olc + 1)); hl_fields;
    rewrite ?orb_false_r, ?orb_true_r; repeat split; reflexivity.
Qed.

Lemma CheckShortCircuit_diagnosis s d :
  let s' := fst (Headlight_CheckShortCircuit (s, d)) in
  let short_count :=
    if FLM_HEADLIGHT_MAX_CURRENT_MA <? feedbackCurrent s
    then wrap8 (shortCircuitCounter s + 1) else 0 in
  let short_fires :=
    (FLM_HEADLIGHT_MAX_CURRENT_MA <? feedbackCurrent s)
    && (HEADLIGHT_FAULT_CONFIRM_CYCLES <=? short_count) in
  isInitialized s' = isInitialized s
  /\ requestedCommand s' = requestedCommand s
  /\ feedbackCurrent s' = feedbackCurrent s
  /\ openLoadCounter s' = openLoadCounter s
  /\ commandChangeTime s' = commandChangeTime s
  /\ shortCircuitCounter s' = short_count
  /\ faultConfirmed s' = faultConfirmed s || short_fires
  /\ faultStatus s' = (if short_fires then HEADLIGHT_FAULT_SHORT else faultStatus s).
Proof.
  destruct s as [ini cur req low high fc fs st olc scc fdt conf cct ct].
  unfold Headlight_CheckShortCircuit. hl_fields. cbv zeta.
  destruct (FLM_HEADLIGHT_MAX_CURRENT_MA <? fc); hl_fields;
    [| rewrite orb_false_r; repeat split; reflexivity].
  destruct (HEADLIGHT_FAULT_CONFIRM_CYCLES <=? wrap8 (scc + 1)); hl_fields;
    rewrite ?orb_false_r, ?orb_true_r; repeat split; reflexivity.
Qed.

Lemma UpdateFaultStatus_diagnosis s :
  let s' := Headlight_UpdateFaultStatus s in
  isInitialized s' = isInitialized s
  /\ requestedCommand s' = requestedCommand s
  /\ feedbackCurrent s' = feedbackCurrent s
  /\ openLoadCounter s' = openLoadCounter s
  /\ shortCircuitCounter s' = shortCircuitCounter s
  /\ commandChangeTime s' = commandChangeTime s
  /\ faultConfirmed s' = faultConfirmed s
  /\ faultStatus s'
     = (if (openLoadCounter s =? 0) && (shortCircuitCounter s =? 0)
           && negb (faultConfirmed s)
        then HEADLIGHT_FAULT_NONE else faultStatus s).
Proof.
  destruct s as [ini cur req low high fc fs st olc scc fdt conf cct ct].
  unfold Headlight_UpdateFaultStatus. hl_fields.
  destruct ((olc =? 0) && (scc =? 0)), conf; cbn; repeat split; reflexivity.
Qed.

(** A tick of the initialised driver advances the clock and leaves the
    simulated current alone. *)
Lemma MainFunction_clock flm adc g :
  isInitialized (Headlight_State g) = true ->
  let g' := Headlight_MainFunction flm adc g in
  Headlight_SimCurrentEnabled g' = Headlight_SimCurrentEnabled g
  /\ Headlight_SimCurrent g' = Headlight_SimCurrent g
  /\ Headlight_SystemTime g'
     = wrap32 (Headlight_SystemTime g + FLM_MAIN_FUNCTION_PERIOD_MS).
Proof.
  intros Hini. unfold Headlight_MainFunction. rewrite Hini. cbn [negb].
  destruct (Headlight_SetOutputs _) as [s1 d1].
  destruct (Headlight_CheckShortCircuit _) as [s4 d4].
  repeat split; reflexivity.
Qed.

(** The diagnosis of one tick that senses the current [c]: the counters,
    the confirmation flag and the fault status at its end. *)
Lemma MainFunction_diagnosis (flm : FLM.Globals) (adc : option Z) (g : Globals) (c : Z) :
  isInitialized (Headlight_State g) = true ->
  hl_sensed g adc = Some c ->
  let s := Headlight_State g in
  let s' := Headlight_State (Headlight_MainFunction flm adc g) in
  let cmd := FLM.FLM_GetHeadlightCommand flm in
  let changed :=
    if HeadlightCommand_eqb cmd (currentCommand s) then commandChangeTime s
    else Headlight_SystemTime g in
  let commanded := negb (HeadlightCommand_eqb cmd HEADLIGHT_CMD_OFF) in
  let settling :=
    wrap32 (Headlight_SystemTime g - changed) <? FLM_HEADLIGHT_FAULT_DETECT_MS in
  let open_count :=
    if negb commanded then 0
    else if settling then openLoadCounter s
    else if c <? FLM_HEADLIGHT_OPEN_LOAD_MA then wrap8 (openLoadCounter s + 1)
    else 0 in
  let open_fires :=
    commanded && negb settling && (c <? FLM_HEADLIGHT_OPEN_LOAD_MA)
    && (HEADLIGHT_FAULT_CONFIRM_CYCLES <=? open_count) in
  let short_count :=
    if FLM_HEADLIGHT_MAX_CURRENT_MA <? c then wrap8 (shortCircuitCounter s + 1) else 0 in
  let short_fires :=
    (FLM_HEADLIGHT_MAX_CURRENT_MA <? c)
    && (HEADLIGHT_FAULT_CONFIRM_CYCLES <=? short_count) in
  let confirmed := faultConfirmed s || open_fires || short_fires in
  isInitialized s' = true
  /\ currentCommand s' = cmd
  /\ commandChangeTime s' = changed
  /\ feedbackCurrent s' = c
  /\ openLoadCounter s' = open_count
  /\ shortCircuitCounter s' = short_count
  /\ faultConfirmed s' = confirmed
  /\ faultStatus s'
     = (if (open_count =? 0) && (short_count =? 0) && negb confirmed
        then HEADLIGHT_FAULT_NONE
        else if short_fires then HEADLIGHT_FAULT_SHORT
        else if open_fires then HEADLIGHT_FAULT_OPEN_LOAD
        else faultStatus s).
Proof.
  intros Hini Hc. cbv zeta.
  destruct (MainFunction_steps flm adc g Hini) as [Hs' _]. cbv zeta in Hs'.
  rewrite Hs'. clear Hs'.
  set (s0 := set_requestedCommand (FLM.FLM_GetHeadlightCommand flm)
               (set_currentTime (Headlight_SystemTime g) (Headlight_State g))).
  destruct (SetOutputs_diagnosis s0 (dio g))
    as (A1 & A2 & A3 & A4 & A5 & A6 & A7 & A8 & A9).
  set (sd1 := Headlight_SetOutputs (s0, dio g)) in *.
  destruct (ReadFeedback_diagnosis (Headlight_SimCurrentEnabled g) (Headlight_SimCurrent g)
              adc c (fst sd1) Hc)
    as (B1 & B2 & B3 & B4 & B5 & B6 & B7 & B8 & B9 & B10).
  set (s2 := Headlight_ReadFeedback _ _ adc (fst sd1)) in *.
  destruct (CheckOpenLoad_diagnosis s2) as (C1 & C2 & C3 & C4 & C5 & C6 & C7 & C8).
  set (s3 := Headlight_CheckOpenLoad s2) in *.
  destruct (CheckShortCircuit_diagnosis s3 (snd sd1))
    as (D1 & D2 & D3 & D4 & D5 & D6 & D7 & D8).
  set (s4 := fst (Headlight_CheckShortCircuit (s3, snd sd1))) in *.
  destruct (UpdateFaultStatus_diagnosis s4) as (E1 & E2 & E3 & E4 & E5 & E6 & E7 & E8).
  set (s5 := Headlight_UpdateFaultStatus s4) in *.
  change (isInitialized (set_currentCommand (requestedCommand s5) s5))
    with (isInitialized s5).
  change (currentCommand (set_currentCommand (requestedCommand s5) s5))
    with (requestedCommand s5).
  change (commandChangeTime (set_currentCommand (requestedCommand s5) s5))
    with (commandChangeTime s5).
  change (feedbackCurrent (set_currentCommand (requestedCommand s5) s5))
    with (feedbackCurrent s5).
  change (openLoadCounter (set_currentCommand (requestedCommand s5) s5))
    with (openLoadCounter s5).
  change (shortCircuitCounter (set_currentCommand (requestedCommand s5) s5))
    with (shortCircuitCounter s5).
  change (faultConfirmed (set_currentCommand (requestedCommand s5) s5))
    with (faultConfirmed s5).
  change (faultStatus (set_currentCommand (requestedCommand s5) s5))
    with (faultStatus s5).
  change (isInitialized s0) with (isInitialized (Headlight_State g)) in A1.
  change (currentCommand s0) with (currentCommand (Headlight_State g)) in *.
  change (requestedCommand s0) with (FLM.FLM_GetHeadlightCommand flm) in *.
  change (faultStatus s0) with (faultStatus (Headlight_State g)) in A4.
  change (openLoadCounter s0) with (openLoadCounter (Headlight_State g)) in A5.
  change (shortCircuitCounter s0) with (shortCircuitCounter (Headlight_State g)) in A6.
  change (faultConfirmed s0) with (faultConfirmed (Headlight_State g)) in A7.
  change (currentTime s0) with (Headlight_SystemTime g) in *.
  change (commandChangeTime s0) with (commandChangeTime (Headlight_State g)) in A9.
  clearbody s5 s4 s3 s2 sd1 s0.
  rewrite E8, E7, E6, E5, E4, E3, E2, E1.
  rewrite D8, D7, D6, D5, D4, D3, D2, D1.
  rewrite C8, C7, C6, C5, C4, C3, C2, C1.
  rewrite B10, B9, B8, B7, B6, B5, B4, B3, B1.
  rewrite A9, A8, A7, A6, A5, A4, A3, A1.
  repeat split; try reflexivity. exact Hini.
Qed.

End HeadlightRuns.

Section HeadlightTimeline.

Import Headlight Conditions Schedule Runs.

(** The phases of a tick only write to the driver: the headlight lines
    stay outputs. *)
Lemma MainFunction_drives flm adc g :
  drives_headlights (dio g) -> drives_headlights (dio (Headlight_MainFunction flm adc g)).
Proof.
  intros Hdrv. unfold Headlight_MainFunction.
  destruct (isInitialized (Headlight_State g)); cbn [negb]; [| exact Hdrv].
  pose proof (SetOutputs_table
                (set_requestedCommand (FLM.FLM_GetHeadlightCommand flm)
                   (set_currentTime (Headlight_SystemTime g) (Headlight_State g)))
                (dio g)) as H1.
  destruct (Headlight_SetOutputs _) as [s1 d1].
  destruct H1 as (_ & _ & _ & _ & _ & Hd1).
  assert (Hdrv1 : drives_headlights d1)
    by (rewrite Hd1; apply write_lines_levels; exact Hdrv).
  match goal with
  | |- context [Headlight_CheckShortCircuit (?s3, d1)] =>
      pose proof (CheckShortCircuit_cases s3 d1) as H4;
      destruct (Headlight_CheckShortCircuit (s3, d1)) as [s4 d4]
  end.
  cbn [dio]. destruct H4 as (_ & _ & _ & H4).
  destruct (HEADLIGHT_FAULT_CONFIRM_CYCLES <=? shortCircuitCounter s4).
  - destruct H4 as (_ & _ & _ & _ & _ & ->).
    apply (write_lines_levels d1 false false Hdrv1).
  - destruct H4 as (_ & _ & ->). exact Hdrv1.
Qed.

Lemma Init_drives g :
  drives_headlights (dio g) -> drives_headlights (dio (Headlight_Init g)).
Proof.
  intros Hdrv. apply (write_lines_levels (dio g) false false Hdrv).
Qed.

(** A tick within a run that leaves the simulated current alone. *)
Lemma hl_step_plain g t :
  hl_sim t = None -> hl_step g t = Headlight_MainFunction (hl_flm t) (hl_adc t) g.
Proof. intros H. unfold hl_step. rewrite H. reflexivity. Qed.

(** Along a run that senses a current within the healthy band the
    diagnosis stays clear. *)
Lemma hl_healthy_run (g : Globals) (ticks : list HeadlightTick) :
  drives_headlights (dio g) ->
  Forall (hl_tick_senses g FLM_HEADLIGHT_OPEN_LOAD_MA FLM_HEADLIGHT_MAX_CURRENT_MA) ticks ->
  let g' := hl_run (Headlight_Init g) ticks in
  let s' := Headlight_State g' in
  isInitialized s' = true
  /\ Headlight_SimCurrentEnabled g' = Headlight_SimCurrentEnabled g
  /\ Headlight_SimCurrent g' = Headlight_SimCurrent g
  /\ drives_headlights (dio g')
  /\ openLoadCounter s' = 0
  /\ shortCircuitCounter s' = 0
  /\ faultConfirmed s' = false
  /\ faultStatus s' = HEADLIGHT_FAULT_NONE.
Proof.
  intros Hdrv. induction ticks as [| t ticks IH] using rev_ind; intros Hall.
  - cbn. repeat split; try reflexivity; apply (Init_drives g Hdrv).
  - apply Forall_app in Hall. destruct Hall as [Hall Ht].
    apply (proj1 (Forall_singleton _ _)) in Ht.
    destruct Ht as (Hnone & c & Hc & Hrange).
    specialize (IH Hall). cbv zeta in IH.
    destruct IH as (Ii & Ien & Isim & Idrv & Iolc & Iscc & Iconf & Ist).
    rewrite hl_run_snoc. set (g0 := hl_run (Headlight_Init g) ticks) in *. clearbody g0.
    rewrite (hl_step_plain g0 t Hnone). cbv zeta.
    assert (Hc0 : hl_sensed g0 (hl_adc t) = Some c)
      by (unfold hl_sensed in *; rewrite Ien, Isim; exact Hc).
    destruct (MainFunction_clock (hl_flm t) (hl_adc t) g0 Ii) as (Cen & Csim & _).
    destruct (MainFunction_diagnosis (hl_flm t) (hl_adc t) g0 c Ii Hc0)
      as (Di & _ & _ & _ & Dolc & Dscc & Dconf & Dst).
    rewrite Iolc, Iscc, Iconf in *.
    unfold FLM_HEADLIGHT_OPEN_LOAD_MA, FLM_HEADLIGHT_MAX_CURRENT_MA in *.
    destruct (Z.ltb_spec c 50) as [? | _]; [lia |].
    destruct (Z.ltb_spec 15000 c) as [? | _]; [lia |].
    rewrite ?andb_false_r in *. cbn [andb orb negb] in *.
    assert (Holc : openLoadCounter
                     (Headlight_State (Headlight_MainFunction (hl_flm t) (hl_adc t) g0)) = 0).
    { rewrite Dolc. repeat case_step; reflexivity. }
    rewrite <- Dolc, Holc in Dst. cbn in Dst.
    split; [exact Di |]. split; [congruence |]. split; [congruence |].
    split; [apply MainFunction_drives; exact Idrv |].
    split; [exact Holc |]. split; [exact Dscc |]. split; [exact Dconf | exact Dst].
Qed.

(** X22.  While the driver senses a current between 50 mA and 15000 mA
    in every tick since initialisation, it reports no fault, and at the
    end of every tick both output lines and their flags are as the
    command of that tick asks: low line for LowBeam and HighBeam, high
    line for HighBeam. *)
Theorem healthy_load_follows_commands
    (g : Globals) (ticks : list HeadlightTick) (t : HeadlightTick) :
  drives_headlights (dio g) ->
  Forall (hl_tick_senses g FLM_HEADLIGHT_OPEN_LOAD_MA FLM_HEADLIGHT_MAX_CURRENT_MA)
    (ticks ++ [t]) ->
  let g' := hl_run (Headlight_Init g) (ticks ++ [t]) in
  let cmd := FLM.FLM_GetHeadlightCommand (hl_flm t) in
  Headlight_GetFaultStatus g' = HEADLIGHT_FAULT_NONE
  /\ lowBeamOutput (Headlight_State g') = low_line cmd
  /\ highBeamOutput (Headlight_State g') = high_line cmd
  /\ Dio.level (dio g') HEADLIGHT_DIO_LOW_BEAM = line_level (low_line cmd)
  /\ Dio.level (dio g') HEADLIGHT_DIO_HIGH_BEAM = line_level (high_line cmd).
Proof.
  intros Hdrv Hall.
  destruct (hl_healthy_run g (ticks ++ [t]) Hdrv Hall)
    as (_ & _ & _ & _ & _ & Hscc & _ & Hst).
  apply Forall_app in Hall. destruct Hall as [Hall Ht].
  apply (proj1 (Forall_singleton _ _)) in Ht. destruct Ht as (Hnone & _).
  destruct (hl_healthy_run g ticks Hdrv Hall) as (Ii & _ & _ & Idrv & _).
  cbv zeta. split; [exact Hst |].
  revert Hscc. rewrite hl_run_snoc, (hl_step_plain _ t Hnone). intros Hscc.
  pose proof (MainFunction_outputs (hl_flm t) (hl_adc t)
                (hl_run (Headlight_Init g) ticks) Ii Idrv) as Hout.
  cbv zeta in Hout. rewrite Hscc in Hout. exact Hout.
Qed.

(** The diagnosis along a run that asks for the same lit command and
    senses less than the open-load current in every tick. *)
Lemma hl_open_run (g : Globals) (cmd : HeadlightCommand) (ticks : list HeadlightTick) :
  cmd <> HEADLIGHT_CMD_OFF ->
  drives_headlights (dio g) ->
  Forall (fun t => FLM.FLM_GetHeadlightCommand (hl_flm t) = cmd
                   /\ hl_tick_senses g 0 (FLM_HEADLIGHT_OPEN_LOAD_MA - 1) t) ticks ->
  let n := Z.of_nat (length ticks) in
  let g' := hl_run (Headlight_Init g) ticks in
  let s' := Headlight_State g' in
  isInitialized s' = true
  /\ Headlight_SimCurrentEnabled g' = Headlight_SimCurrentEnabled g
  /\ Headlight_SimCurrent g' = Headlight_SimCurrent g
  /\ drives_headlights (dio g')
  /\ shortCircuitCounter s' = 0
  /\ (n = 0 -> Headlight_SystemTime g' = Headlight_SystemTime g
               /\ currentCommand s' = HEADLIGHT_CMD_OFF)
  /\ (1 <= n ->
      Headlight_SystemTime g' = wrap32 (Headlight_SystemTime g + 10 * n)
      /\ currentCommand s' = cmd
      /\ commandChangeTime s' = Headlight_SystemTime g)
  /\ (n < 4 ->
      faultConfirmed s' = false /\ faultStatus s' = HEADLIGHT_FAULT_NONE
      /\ openLoadCounter s' = Z.max 0 (n - 2))
  /\ (4 <= n ->
      faultConfirmed s' = true /\ faultStatus s' = HEADLIGHT_FAULT_OPEN_LOAD).
Proof.
  intros Hcmd Hdrv. induction ticks as [| t ticks IH] using rev_ind; intros Hall.
  - cbn. repeat split; try reflexivity; try (intros; lia); apply (Init_drives g Hdrv).
  - apply Forall_app in Hall. destruct Hall as [Hall Ht].
    apply (proj1 (Forall_singleton _ _)) in Ht.
    destruct Ht as (Hreq & Hnone & c & Hc & Hrange).
    specialize (IH Hall). cbv zeta in IH.
    destruct IH as (Ii & Ien & Isim & Idrv & Iscc & I0 & I1 & Ilt & Ige).
    rewrite hl_run_snoc, length_app, Nat2Z.inj_add. cbn [length].
    change (Z.of_nat 1) with 1.
    set (g0 := hl_run (Headlight_Init g) ticks) in *.
    set (n := Z.of_nat (length ticks)) in *.
    assert (Hn : 0 <= n) by (subst n; lia).
    clearbody g0 n.
    rewrite (hl_step_plain g0 t Hnone). cbv zeta.
    assert (Hc0 : hl_sensed g0 (hl_adc t) = Some c)
      by (unfold hl_sensed in *; rewrite Ien, Isim; exact Hc).
    destruct (MainFunction_clock (hl_flm t) (hl_adc t) g0 Ii) as (Cen & Csim & Ctime).
    destruct (MainFunction_diagnosis (hl_flm t) (hl_adc t) g0 c Ii Hc0)
      as (Di & Dcur & Dcct & _ & Dolc & Dscc & Dconf & Dst).
    rewrite Hreq in *. rewrite Iscc in *.
    unfold FLM_HEADLIGHT_OPEN_LOAD_MA, FLM_HEADLIGHT_MAX_CURRENT_MA,
      FLM_HEADLIGHT_FAULT_DETECT_MS, FLM_MAIN_FUNCTION_PERIOD_MS in *.
    change HEADLIGHT_FAULT_CONFIRM_CYCLES with 2 in *.
    destruct (Z.ltb_spec c 50) as [_ | ?]; [| lia].
    destruct (Z.ltb_spec 15000 c) as [? | _]; [lia |].
    assert (Hoff : HeadlightCommand_eqb cmd HEADLIGHT_CMD_OFF = false)
      by (destruct cmd; [contradiction | reflexivity ..]).
    assert (Hsame : HeadlightCommand_eqb cmd cmd = true) by (destruct cmd; reflexivity).
    rewrite Hoff in *. cbn [negb andb orb] in *.
    rewrite ?andb_true_r, ?orb_false_r in *.
    set (s' := Headlight_State (Headlight_MainFunction (hl_flm t) (hl_adc t) g0)) in *.
    clearbody s'.
    split; [exact Di |]. split; [congruence |]. split; [congruence |].
    split; [apply MainFunction_drives; exact Idrv |].
    split; [exact Dscc |]. split; [intros; lia |].
    destruct (Z.eq_dec n 0) as [-> | Hpos].
    + (* the first tick: the command changes, the load settles *)
      destruct (I0 eq_refl) as [Itime Icur].
      destruct (Ilt ltac:(lia)) as (Iconf & Ist & Iolc).
      rewrite Icur, Iconf, Ist, Iolc in *.
      assert (Hne : HeadlightCommand_eqb cmd HEADLIGHT_CMD_OFF = false) by exact Hoff.
      rewrite Hne in *.
      replace (Headlight_SystemTime g0 - Headlight_SystemTime g0) with 0 in * by lia.
      change (wrap32 0 <? 20) with true in *. cbn [negb andb orb] in *.
      cbn in Dst.
      split.
      { intros _. split; [rewrite Ctime, Itime; reflexivity |].
        split; [exact Dcur |]. rewrite Dcct. exact Itime. }
      split; [| intros; lia].
      intros _. split; [exact Dconf |]. split; [exact Dst | exact Dolc].
    + destruct (I1 ltac:(lia)) as (Itime & Icur & Icct).
      rewrite Icur, Hsame, Icct, Itime in *.
      assert (Hdiff : wrap32 (wrap32 (Headlight_SystemTime g + 10 * n) - Headlight_SystemTime g)
                      = wrap32 (10 * n)).
      { unfold wrap32. rewrite Zminus_mod_idemp_l.
        replace (Headlight_SystemTime g + 10 * n - Headlight_SystemTime g) with (10 * n)
          by lia.
        reflexivity. }
      rewrite Hdiff in *.
      split.
      { intros _. split; [| split; [exact Dcur | exact Dcct]].
        rewrite Ctime. unfold wrap32. rewrite Zplus_mod_idemp_l.
        replace (Headlight_SystemTime g + 10 * n + 10)
          with (Headlight_SystemTime g + 10 * (n + 1)) by lia.
        reflexivity. }
      destruct (Z.lt_ge_cases n 4) as [Hlt | Hge].
      * destruct (Ilt Hlt) as (Iconf & Ist & Iolc).
        rewrite Iconf, Ist, Iolc in *. cbn [orb] in *.
        assert (Hcases : n = 1 \/ n = 2 \/ n = 3) by lia.
        destruct Hcases as [-> | [-> | ->]]; cbn in Dolc, Dconf, Dst;
          (split; [intros; first [lia | split; [exact Dconf |]; split; [exact Dst | exact Dolc]] |]);
          intros; first [lia | split; [exact Dconf | exact Dst]].
      * destruct (Ige Hge) as (Iconf & Ist).
        rewrite Iconf, Ist in *. cbn [orb negb] in *.
        rewrite ?andb_false_r in Dst.
        split; [intros; lia |]. intros _. split; [exact Dconf |].
        rewrite Dst. repeat case_step; reflexivity.
Qed.

(** X23.  From initialisation, while every tick asks for the same lit
    command and senses less than 50 mA, no fault is reported for three
    ticks and OpenLoad is confirmed from the fourth tick on; the output
    lines stay as the command asks throughout. *)
Theorem open_load_is_confirmed_at_fourth_tick
    (g : Globals) (cmd : HeadlightCommand) (ticks : list HeadlightTick) :
  cmd <> HEADLIGHT_CMD_OFF ->
  drives_headlights (dio g) ->
  Forall (fun t => FLM.FLM_GetHeadlightCommand (hl_flm t) = cmd
                   /\ hl_tick_senses g 0 (FLM_HEADLIGHT_OPEN_LOAD_MA - 1) t) ticks ->
  ticks <> [] ->
  let n := Z.of_nat (length ticks) in
  let g' := hl_run (Headlight_Init g) ticks in
  Headlight_GetFaultStatus g'
  = (if n <? 4 then HEADLIGHT_FAULT_NONE else HEADLIGHT_FAULT_OPEN_LOAD)
  /\ faultConfirmed (Headlight_State g') = (4 <=? n)
  /\ Dio.level (dio g') HEADLIGHT_DIO_LOW_BEAM = line_level (low_line cmd)
  /\ Dio.level (dio g') HEADLIGHT_DIO_HIGH_BEAM = line_level (high_line cmd).
Proof.
  intros Hcmd Hdrv Hall Hne n g'.
  destruct (hl_open_run g cmd ticks Hcmd Hdrv Hall)
    as (_ & _ & _ & _ & Hscc & _ & _ & Hlt & Hge).
  fold n in Hlt, Hge. fold g' in Hscc, Hlt, Hge.
  assert (Hst : Headlight_GetFaultStatus g'
                = (if n <? 4 then HEADLIGHT_FAULT_NONE else HEADLIGHT_FAULT_OPEN_LOAD)
                /\ faultConfirmed (Headlight_State g') = (4 <=? n)).
  { unfold Headlight_GetFaultStatus.
    destruct (Z.ltb_spec n 4) as [H4 | H4]; destruct (Z.leb_spec 4 n); try lia.
    - destruct (Hlt H4) as (Hc & Hs & _). split; assumption.
    - destruct (Hge H4) as (Hc & Hs). split; assumption. }
  destruct Hst as [Hst Hconf]. split; [exact Hst |]. split; [exact Hconf |].
  destruct (exists_last Hne) as (front & t & Heq).
  subst g'. revert Hscc. rewrite Heq in Hall |- *.
  apply Forall_app in Hall. destruct Hall as [Hall Ht].
  apply (proj1 (Forall_singleton _ _)) in Ht. destruct Ht as (Hreq & Hnone & _).
  destruct (hl_open_run g cmd front Hcmd Hdrv Hall) as (Ii & _ & _ & Idrv & _).
  rewrite hl_run_snoc, (hl_step_plain _ t Hnone). intros Hscc.
  pose proof (MainFunction_outputs (hl_flm t) (hl_adc t)
                (hl_run (Headlight_Init g) front) Ii Idrv) as Hout.
  cbv zeta in Hout. rewrite Hscc, Hreq in Hout.
  destruct Hout as (_ & _ & Hl & Hh). split; assumption.
Qed.

End HeadlightTimeline.

(** ** Headlight: how long the protective cut-off lasts *)

Section ShortCircuitHold.

Import Headlight Conditions Schedule Runs.

(** C3 on the code.  In a tick of an initialised driver (whose two
    headlight channels are outputs) that senses the current [c], the
    short-circuit count of the tick is the previous count plus one,
    modulo 256, when [c] is above 15000 mA, and zero otherwise.  When that
    count is at or above [FaultConfirmCycles] the fault Short is confirmed
    and both output lines are de-energised at the end of the tick,
    whatever command is requested.  In every other tick both lines are at
    the end of the tick as the requested command asks, also when the
    fault Short was confirmed before: the cut of an earlier tick is not
    held once the current is at most 15000 mA, or once the 8-bit count
    has wrapped, while the fault stays confirmed. *)
Theorem short_circuit_cut_is_not_held
    (flm : FLM.Globals) (adc : option Z) (g : Globals) (c : Z) :
  isInitialized (Headlight_State g) = true ->
  drives_headlights (dio g) ->
  hl_sensed g adc = Some c ->
  let s := Headlight_State g in
  let g' := Headlight_MainFunction flm adc g in
  let s' := Headlight_State g' in
  let cmd := FLM.FLM_GetHeadlightCommand flm in
  let count :=
    if FLM_HEADLIGHT_MAX_CURRENT_MA <? c then wrap8 (shortCircuitCounter s + 1)
    else 0 in
  shortCircuitCounter s' = count
  /\ (faultConfirmed s = true -> faultConfirmed s' = true)
  /\ (HEADLIGHT_FAULT_CONFIRM_CYCLES <= count ->
      faultStatus s' = HEADLIGHT_FAULT_SHORT /\ faultConfirmed s' = true
      /\ lowBeamOutput s' = false /\ highBeamOutput s' = false
      /\ Dio.level (dio g') HEADLIGHT_DIO_LOW_BEAM = Dio.STD_LOW
      /\ Dio.level (dio g') HEADLIGHT_DIO_HIGH_BEAM = Dio.STD_LOW)
  /\ (count < HEADLIGHT_FAULT_CONFIRM_CYCLES ->
      lowBeamOutput s' = low_line cmd /\ highBeamOutput s' = high_line cmd
      /\ Dio.level (dio g') HEADLIGHT_DIO_LOW_BEAM = line_level (low_line cmd)
      /\ Dio.level (dio g') HEADLIGHT_DIO_HIGH_BEAM = line_level (high_line cmd)).
Proof.
  intros Hinit Hdrv Hc s g' s' cmd count.
  destruct (MainFunction_diagnosis flm adc g c Hinit Hc)
    as (_ & _ & _ & _ & _ & Dscc & _).
  fold s g' s' count in Dscc.
  pose proof (MainFunction_outputs flm adc g Hinit Hdrv) as Hout.
  cbv zeta in Hout. fold g' s' cmd in Hout. rewrite Dscc in Hout.
  split; [exact Dscc |].
  split; [intros Hconf; now apply MainFunction_keeps_confirmed |].
  split; intros Hcount;
    destruct (Z.leb_spec HEADLIGHT_FAULT_CONFIRM_CYCLES count); try lia.
  - destruct Hout as (_ & Hst & Hl & Hh & Hdl & Hdh & Hkeep).
    specialize (Hkeep []). cbn in Hkeep. repeat split; assumption.
  - exact Hout.
Qed.

End ShortCircuitHold.

(** The tick after the short circuit was confirmed and the lines were
    cut: no current is sensed any more, LowBeam is still requested. *)
Lemma short_circuit_cut_is_not_held_witness :
  let g := Headlight.Headlight_SimSetFeedbackCurrent 0 Cases.hl_shorted in
  let g' := Headlight.Headlight_MainFunction Cases.flm_low_beam None g in
  Headlight.faultStatus (Headlight.Headlight_State g) = HEADLIGHT_FAULT_SHORT
  /\ Headlight.lowBeamOutput (Headlight.Headlight_State g) = false
  /\ Headlight.faultConfirmed (Headlight.Headlight_State g') = true
  /\ Headlight.lowBeamOutput (Headlight.Headlight_State g') = true
  /\ Dio.level (Headlight.dio g') Headlight.HEADLIGHT_DIO_LOW_BEAM = Dio.STD_HIGH.
Proof.
  intros g g'.
  pose proof (short_circuit_cut_is_not_held Cases.flm_low_beam None g 0) as H.
  cbv zeta in H. destruct H as (_ & Hkeep & _ & Hfollow).
  - vm_compute. reflexivity.
  - split; vm_compute; reflexivity.
  - vm_compute. reflexivity.
  - destruct Hfollow as (Hlow & _ & Hlevel & _).
    + vm_compute. reflexivity.
    + split; [vm_compute; reflexivity |].
      split; [vm_compute; reflexivity |].
      split; [apply Hkeep; vm_compute; reflexivity |].
      split.
      * fold g in Hlow. fold g' in Hlow. rewrite Hlow. vm_compute. reflexivity.
      * fold g in Hlevel. fold g' in Hlevel. rewrite Hlevel. vm_compute. reflexivity.
Defined.

(** The same ticks evaluated.  After the short circuit was
    confirmed and the outputs were cut, a tick in which the current is
    gone and LowBeam is still requested energises the low-beam line
    again; one tick later the open-load check overwrites the fault
    status. *)
Lemma outputs_return_after_short :
  let shorted := Headlight.Headlight_State Cases.hl_shorted in
  let later := Headlight.Headlight_State Cases.hl_after_short in
  let last := Headlight.Headlight_State Cases.hl_open_after_short in
  Headlight.faultStatus shorted = HEADLIGHT_FAULT_SHORT
  /\ Headlight.faultConfirmed shorted = true
  /\ Headlight.lowBeamOutput shorted = false
  /\ Headlight.faultStatus later = HEADLIGHT_FAULT_SHORT
  /\ Headlight.lowBeamOutput later = true
  /\ Dio.level (Headlight.dio Cases.hl_after_short) Headlight.HEADLIGHT_DIO_LOW_BEAM
     = Dio.STD_HIGH
  /\ Headlight.faultStatus last = HEADLIGHT_FAULT_OPEN_LOAD
  /\ Headlight.faultConfirmed last = true.
Proof.
  vm_compute. repeat split.
Qed.

(** While 20000 mA are sensed in every tick with LowBeam requested, the
    low-beam line is cut from the second tick to the 255th; at the 256th
    tick the 8-bit count wraps to zero and the line is energised although
    the short circuit is still there and the fault still confirmed. *)
Lemma outputs_return_at_counter_wrap :
  let before := Cases.hl_short_persists 255 in
  let wrapped := Cases.hl_short_persists 256 in
  Headlight.shortCircuitCounter (Headlight.Headlight_State before) = 255
  /\ Dio.level (Headlight.dio before) Headlight.HEADLIGHT_DIO_LOW_BEAM = Dio.STD_LOW
  /\ Headlight.feedbackCurrent (Headlight.Headlight_State wrapped) = 20000
  /\ Headlight.shortCircuitCounter (Headlight.Headlight_State wrapped) = 0
  /\ Headlight.faultStatus (Headlight.Headlight_State wrapped) = HEADLIGHT_FAULT_SHORT
  /\ Headlight.faultConfirmed (Headlight.Headlight_State wrapped) = true
  /\ Headlight.lowBeamOutput (Headlight.Headlight_State wrapped) = true
  /\ Dio.level (Headlight.dio wrapped) Headlight.HEADLIGHT_DIO_LOW_BEAM = Dio.STD_HIGH.
Proof.
  vm_compute. repeat split.
Qed.

(** ** SafetyMonitor over several ticks *)

Section MonitorRuns.

Import SafetyMonitor Conditions Runs.

Lemma mon_run_snoc gf (ticks : list MonitorTick) (t : MonitorTick) :
  mon_run gf (ticks ++ [t]) = mon_step (mon_run gf ticks) t.
Proof. unfold mon_run. rewrite fold_left_app. reflexivity. Qed.

(** The state and the FLM variables at the end of a tick of the
    initialised monitor, step by step. *)
Lemma MainFunction_stages sw lr hl g flm :
  isInitialized (SafetyMonitor_State g) = true ->
  let s1 :=
    SafetyMonitor_ReadComponentStatus sw lr flm hl (SafetyMonitor_SimWdgmEnabled g)
      (SafetyMonitor_SimWdgmStatus g)
      (set_currentTime (SafetyMonitor_SystemTime g) (SafetyMonitor_State g)) in
  let sf4 :=
    SafetyMonitor_CheckFTTI
      (SafetyMonitor_CheckWdgMStatus
         (SafetyMonitor_CheckE2ETimeout (SafetyMonitor_AggregrateFaults (s1, flm)))) in
  let s5 := SafetyMonitor_UpdateGlobalStatus (fst sf4) in
  let gf' := SafetyMonitor_MainFunction sw lr hl (g, flm) in
  SafetyMonitor_State (fst gf')
  = (if inSafeState s5 then SafetyMonitor_DetermineSafeStateCommand s5 else s5)
  /\ snd gf' = snd sf4
  /\ SafetyMonitor_SystemTime (fst gf')
     = wrap32 (SafetyMonitor_SystemTime g + FLM_SAFETY_MONITOR_PERIOD_MS)
  /\ SafetyMonitor_SimWdgmEnabled (fst gf') = SafetyMonitor_SimWdgmEnabled g
  /\ SafetyMonitor_SimWdgmStatus (fst gf') = SafetyMonitor_SimWdgmStatus g.
Proof.
  intros Hini. cbv zeta. unfold SafetyMonitor_MainFunction. rewrite Hini. cbn [negb].
  destruct (SafetyMonitor_CheckFTTI _) as [s f]. cbn. repeat split; reflexivity.
Qed.

(** Reading the component status leaves the latch and the fault window
    alone. *)
Lemma read_keeps_window sw lr hl flm simEnabled simStatus s :
  let s' := SafetyMonitor_ReadComponentStatus sw lr flm hl simEnabled simStatus s in
  isInitialized s' = isInitialized s
  /\ inSafeState s' = inSafeState s
  /\ safeStateReason s' = safeStateReason s
  /\ safeStateEntryTime s' = safeStateEntryTime s
  /\ totalFaultCount s' = totalFaultCount s
  /\ firstFaultTime s' = firstFaultTime s
  /\ fttiActive s' = fttiActive s
  /\ currentTime s' = currentTime s.
Proof.
  unfold SafetyMonitor_ReadComponentStatus.
  destruct (AmbientLightLevel.isValid (LightRequest.LightRequest_GetAmbientLight lr));
    destruct simEnabled; cbn; repeat split.
Qed.

(** The checks of a tick on a latched monitor change neither the latch
    nor the FLM variables. *)
Lemma checks_keep_latch s flm :
  inSafeState s = true ->
  let sf' :=
    SafetyMonitor_CheckFTTI
      (SafetyMonitor_CheckWdgMStatus
         (SafetyMonitor_CheckE2ETimeout (SafetyMonitor_AggregrateFaults (s, flm)))) in
  isInitialized (fst sf') = isInitialized s
  /\ inSafeState (fst sf') = true
  /\ safeStateReason (fst sf') = safeStateReason s
  /\ safeStateEntryTime (fst sf') = safeStateEntryTime s
  /\ snd sf' = flm.
Proof.
  intros Hin.
  assert (Hagg : exists s2,
            SafetyMonitor_AggregrateFaults (s, flm) = (s2, flm)
            /\ isInitialized s2 = isInitialized s /\ inSafeState s2 = true
            /\ safeStateReason s2 = safeStateReason s
            /\ safeStateEntryTime s2 = safeStateEntryTime s).
  { unfold SafetyMonitor_AggregrateFaults, SafetyMonitor_TriggerSafeState.
    destruct ((0 <? count_faults s) && (totalFaultCount s =? 0));
      destruct (count_faults s =? 0);
      destruct (SAFETYMONITOR_MAX_FAULT_COUNT <=? count_faults s);
      cbn; rewrite ?Hin; cbn; eexists; repeat split; exact Hin. }
  destruct Hagg as (s2 & -> & Hi2 & Hin2 & Hr2 & He2).
  assert (He2e : exists s3,
            SafetyMonitor_CheckE2ETimeout (s2, flm) = (s3, flm)
            /\ isInitialized s3 = isInitialized s2 /\ inSafeState s3 = true
            /\ safeStateReason s3 = safeStateReason s2
            /\ safeStateEntryTime s3 = safeStateEntryTime s2
            /\ wdgmGlobalStatus s3 = wdgmGlobalStatus s2
            /\ fttiActive s3 = fttiActive s2).
  { unfold SafetyMonitor_CheckE2ETimeout, SafetyMonitor_TriggerSafeState.
    destruct (e2eSmStatus s2), (e2eTimeoutActive s2); cbn [negb]; try case_cmp;
      rewrite ?Hin2; cbn; eexists; repeat split; exact Hin2. }
  destruct He2e as (s3 & -> & Hi3 & Hin3 & Hr3 & He3 & _).
  assert (Hwd : SafetyMonitor_CheckWdgMStatus (s3, flm) = (s3, flm)).
  { unfold SafetyMonitor_CheckWdgMStatus, SafetyMonitor_TriggerSafeState.
    rewrite Hin3. destruct (wdgmGlobalStatus s3); reflexivity. }
  rewrite Hwd.
  assert (Hftti : SafetyMonitor_CheckFTTI (s3, flm) = (s3, flm)).
  { unfold SafetyMonitor_CheckFTTI, SafetyMonitor_TriggerSafeState.
    rewrite Hin3. destruct (fttiActive s3); cbn [negb]; try case_cmp; reflexivity. }
  rewrite Hftti. cbn [fst snd]. repeat split; congruence.
Qed.

(** The two last steps of a tick: the global status, and the safe command
    of a latched monitor. *)
Lemma finish_fields s :
  let s5 := SafetyMonitor_UpdateGlobalStatus s in
  let s' := if inSafeState s5 then SafetyMonitor_DetermineSafeStateCommand s5 else s5 in
  isInitialized s' = isInitialized s
  /\ inSafeState s' = inSafeState s
  /\ safeStateReason s' = safeStateReason s
  /\ safeStateEntryTime s' = safeStateEntryTime s
  /\ totalFaultCount s' = totalFaultCount s
  /\ firstFaultTime s' = firstFaultTime s
  /\ fttiActive s' = fttiActive s
  /\ isDaytime s' = isDaytime s
  /\ globalStatus s'
     = (if inSafeState s then SAFETY_STATUS_SAFE_STATE
        else if 0 <? totalFaultCount s then
          if 2 <=? totalFaultCount s then SAFETY_STATUS_DEGRADED
          else SAFETY_STATUS_WARNING
        else SAFETY_STATUS_OK)
  /\ (inSafeState s = true ->
      safeStateCommand s'
      = (if isDaytime s then HEADLIGHT_CMD_OFF else HEADLIGHT_CMD_LOW_BEAM)).
Proof.
  unfold SafetyMonitor_UpdateGlobalStatus, SafetyMonitor_DetermineSafeStateCommand.
  destruct (inSafeState s) eqn:Hin; cbn; rewrite ?Hin.
  - destruct (isDaytime s) eqn:Hday; cbn; rewrite ?Hin, ?Hday; repeat split; reflexivity.
  - destruct (0 <? totalFaultCount s); [destruct (2 <=? totalFaultCount s) |];
      cbn; rewrite ?Hin; repeat split; intros; first [reflexivity | discriminate | exact Hin].
Qed.

(** One tick of a latched monitor. *)
Lemma mon_step_latched gf t :
  isInitialized (SafetyMonitor_State (fst gf)) = true ->
  inSafeState (SafetyMonitor_State (fst gf)) = true ->
  let gf' := mon_step gf t in
  let s' := SafetyMonitor_State (fst gf') in
  isInitialized s' = true
  /\ inSafeState s' = true
  /\ safeStateReason s' = safeStateReason (SafetyMonitor_State (fst gf))
  /\ safeStateEntryTime s' = safeStateEntryTime (SafetyMonitor_State (fst gf))
  /\ snd gf' = snd gf
  /\ globalStatus s' = SAFETY_STATUS_SAFE_STATE
  /\ safeStateCommand s'
     = (if isDaytime s' then HEADLIGHT_CMD_OFF else HEADLIGHT_CMD_LOW_BEAM).
Proof.
  destruct gf as [g flm]. cbn [fst snd]. intros Hini Hin. unfold mon_step.
  destruct (MainFunction_stages (mon_sw t) (mon_lr t) (mon_hl t) g flm Hini)
    as (Hs' & Hf' & _).
  cbv zeta in Hs', Hf' |- *. rewrite Hs', Hf'. clear Hs' Hf'.
  set (s0 := set_currentTime (SafetyMonitor_SystemTime g) (SafetyMonitor_State g)).
  destruct (read_keeps_window (mon_sw t) (mon_lr t) (mon_hl t) flm
              (SafetyMonitor_SimWdgmEnabled g) (SafetyMonitor_SimWdgmStatus g) s0)
    as (Ri & Rin & Rr & Re & _).
  set (s1 := SafetyMonitor_ReadComponentStatus _ _ _ _ _ _ s0) in *.
  assert (Hin1 : inSafeState s1 = true) by (rewrite Rin; exact Hin).
  destruct (checks_keep_latch s1 flm Hin1) as (Ci & Cin & Cr & Ce & Cf).
  set (sf4 := SafetyMonitor_CheckFTTI _) in *.
  destruct (finish_fields (fst sf4)) as (Fi & Fin & Fr & Fe & _ & _ & _ & Fday & Fg & Fc).
  set (s' := if inSafeState (SafetyMonitor_UpdateGlobalStatus (fst sf4)) then _ else _) in *.
  clearbody s' sf4 s1.
  rewrite Fi, Fin, Fr, Fe, Fg, (Fc Cin), Fday, Ci, Cin, Cr, Ce, Cf, Ri, Rr, Re.
  repeat split; try reflexivity. exact Hini.
Qed.


End MonitorRuns.

Section MonitorWindow.

Import SafetyMonitor Conditions Runs.

(** Below the fault limit the aggregation opens the fault window with
    the first fault, closes it when no fault is left, and stores the
    count. *)
Lemma aggregate_window s flm :
  count_faults s < SAFETYMONITOR_MAX_FAULT_COUNT ->
  let sf' := SafetyMonitor_AggregrateFaults (s, flm) in
  let opens := (0 <? count_faults s) && (totalFaultCount s =? 0) in
  snd sf' = flm
  /\ isInitialized (fst sf') = isInitialized s
  /\ inSafeState (fst sf') = inSafeState s
  /\ currentTime (fst sf') = currentTime s
  /\ e2eSmStatus (fst sf') = e2eSmStatus s
  /\ wdgmGlobalStatus (fst sf') = wdgmGlobalStatus s
  /\ totalFaultCount (fst sf') = count_faults s
  /\ firstFaultTime (fst sf') = (if opens then currentTime s else firstFaultTime s)
  /\ fttiActive (fst sf')
     = (if count_faults s =? 0 then false else if opens then true else fttiActive s).
Proof.
  intros Hlow. unfold SafetyMonitor_AggregrateFaults.
  destruct (Z.leb_spec SAFETYMONITOR_MAX_FAULT_COUNT (count_faults s)); [lia |].
  destruct ((0 <? count_faults s) && (totalFaultCount s =? 0));
    destruct (count_faults s =? 0); cbn; repeat split.
Qed.

(** The checks of a tick in which no immediate trigger holds: only the
    fault window can latch safe state, with the reason Timeout. *)
Lemma quiet_checks s flm :
  e2eSmStatus s = E2E_SM_VALID ->
  match wdgmGlobalStatus s with
  | WDGM_GLOBAL_STATUS_FAILED | WDGM_GLOBAL_STATUS_EXPIRED => false
  | _ => true
  end = true ->
  inSafeState s = false ->
  let sf' :=
    SafetyMonitor_CheckFTTI
      (SafetyMonitor_CheckWdgMStatus (SafetyMonitor_CheckE2ETimeout (s, flm))) in
  let expired :=
    fttiActive s && (SAFETYMONITOR_FTTI_MS <=? wrap32 (currentTime s - firstFaultTime s)) in
  isInitialized (fst sf') = isInitialized s
  /\ totalFaultCount (fst sf') = totalFaultCount s
  /\ firstFaultTime (fst sf') = firstFaultTime s
  /\ fttiActive (fst sf') = fttiActive s
  /\ inSafeState (fst sf') = expired
  /\ (expired = true ->
      safeStateReason (fst sf') = SAFE_STATE_REASON_TIMEOUT
      /\ safeStateEntryTime (fst sf') = currentTime s
      /\ snd sf' = FLM.FLM_TriggerSafeState SAFE_STATE_REASON_TIMEOUT flm)
  /\ (expired = false -> snd sf' = flm).
Proof.
  intros Hsm Hwd Hin.
  unfold SafetyMonitor_CheckE2ETimeout. rewrite Hsm.
  set (s3 := set_e2eTimeoutActive false s).
  assert (H3 : wdgmGlobalStatus s3 = wdgmGlobalStatus s /\ inSafeState s3 = false
               /\ fttiActive s3 = fttiActive s /\ currentTime s3 = currentTime s
               /\ firstFaultTime s3 = firstFaultTime s
               /\ isInitialized s3 = isInitialized s
               /\ totalFaultCount s3 = totalFaultCount s)
    by (repeat split; exact Hin).
  clearbody s3. destruct H3 as (Hw3 & Hin3 & Ha3 & Hc3 & Hf3 & Hi3 & Ht3).
  assert (Hwdg : SafetyMonitor_CheckWdgMStatus (s3, flm) = (s3, flm)).
  { unfold SafetyMonitor_CheckWdgMStatus. rewrite Hw3.
    destruct (wdgmGlobalStatus s); try discriminate; reflexivity. }
  rewrite Hwdg. unfold SafetyMonitor_CheckFTTI, SafetyMonitor_TriggerSafeState.
  rewrite Ha3, Hc3, Hf3, Hin3, <- Hi3, <- Ht3. cbv zeta.
  destruct (fttiActive s); cbn [negb andb];
    [destruct (SAFETYMONITOR_FTTI_MS <=? wrap32 (currentTime s - firstFaultTime s)) |];
    cbn; repeat split; intros; try discriminate; try reflexivity; try assumption.
Qed.

(** One tick of a monitor that is not latched and meets no immediate
    trigger. *)
Lemma mon_step_quiet (g : Globals) (flm : FLM.Globals) (t : MonitorTick) (hi : Z) :
  isInitialized (SafetyMonitor_State g) = true ->
  inSafeState (SafetyMonitor_State g) = false ->
  hi < SAFETYMONITOR_MAX_FAULT_COUNT ->
  mon_tick_quiet g 0 hi t ->
  let s := SafetyMonitor_State g in
  let gf' := mon_step (g, flm) t in
  let s' := SafetyMonitor_State (fst gf') in
  let count := fault_count (mon_sw t) (mon_lr t) (mon_hl t) g in
  let opens := (0 <? count) && (totalFaultCount s =? 0) in
  let first := if opens then SafetyMonitor_SystemTime g else firstFaultTime s in
  let active := if count =? 0 then false else if opens then true else fttiActive s in
  let expired :=
    active && (SAFETYMONITOR_FTTI_MS <=? wrap32 (SafetyMonitor_SystemTime g - first)) in
  isInitialized s' = true
  /\ SafetyMonitor_SystemTime (fst gf')
     = wrap32 (SafetyMonitor_SystemTime g + FLM_SAFETY_MONITOR_PERIOD_MS)
  /\ SafetyMonitor_SimWdgmEnabled (fst gf') = SafetyMonitor_SimWdgmEnabled g
  /\ SafetyMonitor_SimWdgmStatus (fst gf') = SafetyMonitor_SimWdgmStatus g
  /\ totalFaultCount s' = count
  /\ firstFaultTime s' = first
  /\ fttiActive s' = active
  /\ inSafeState s' = expired
  /\ (expired = true ->
      safeStateReason s' = SAFE_STATE_REASON_TIMEOUT
      /\ snd gf' = FLM.FLM_TriggerSafeState SAFE_STATE_REASON_TIMEOUT flm)
  /\ (expired = false -> snd gf' = flm)
  /\ globalStatus s'
     = (if expired then SAFETY_STATUS_SAFE_STATE
        else if 0 <? count then
          if 2 <=? count then SAFETY_STATUS_DEGRADED else SAFETY_STATUS_WARNING
        else SAFETY_STATUS_OK).
Proof.
  intros Hini Hin Hhi (Hsm & Hwd & Hcount). unfold mon_step.
  destruct (MainFunction_stages (mon_sw t) (mon_lr t) (mon_hl t) g flm Hini)
    as (Hs' & Hf' & Htime & Hen & Hsim).
  cbv zeta in Hs', Hf', Htime, Hen, Hsim |- *.
  rewrite Hs', Hf', Htime, Hen, Hsim. clear Hs' Hf' Htime Hen Hsim.
  set (s0 := set_currentTime (SafetyMonitor_SystemTime g) (SafetyMonitor_State g)).
  destruct (read_keeps_window (mon_sw t) (mon_lr t) (mon_hl t) flm
              (SafetyMonitor_SimWdgmEnabled g) (SafetyMonitor_SimWdgmStatus g) s0)
    as (Ri & Rin & _ & _ & Rt & Rf & Ra & Rc).
  destruct (read_status_fields (mon_sw t) (mon_lr t) (mon_hl t) flm g s0)
    as (_ & Rsm & _ & _ & _ & Rwd).
  pose proof (count_faults_read (mon_sw t) (mon_lr t) (mon_hl t) flm g s0) as Rcount.
  set (s1 := SafetyMonitor_ReadComponentStatus _ _ _ _ _ _ s0) in *.
  change (isInitialized s0) with (isInitialized (SafetyMonitor_State g)) in Ri.
  change (inSafeState s0) with (inSafeState (SafetyMonitor_State g)) in Rin.
  change (totalFaultCount s0) with (totalFaultCount (SafetyMonitor_State g)) in Rt.
  change (firstFaultTime s0) with (firstFaultTime (SafetyMonitor_State g)) in Rf.
  change (fttiActive s0) with (fttiActive (SafetyMonitor_State g)) in Ra.
  change (currentTime s0) with (SafetyMonitor_SystemTime g) in Rc.
  clearbody s1 s0.
  assert (Hlow : count_faults s1 < SAFETYMONITOR_MAX_FAULT_COUNT) by (rewrite Rcount; lia).
  destruct (aggregate_window s1 flm Hlow) as (Af & Ai & Ain & Ac & Asm & Awd & At & Afirst & Aact).
  destruct (SafetyMonitor_AggregrateFaults (s1, flm)) as [s2 f2]. cbn [fst snd] in *.
  subst f2.
  assert (Hsm2 : e2eSmStatus s2 = E2E_SM_VALID) by congruence.
  assert (Hwd2 : match wdgmGlobalStatus s2 with
                 | WDGM_GLOBAL_STATUS_FAILED | WDGM_GLOBAL_STATUS_EXPIRED => false
                 | _ => true
                 end = true).
  { rewrite Awd, Rwd. unfold wdgm_condition in Hwd.
    destruct (wdgm_status g); try discriminate; reflexivity. }
  assert (Hin2 : inSafeState s2 = false) by congruence.
  destruct (quiet_checks s2 flm Hsm2 Hwd2 Hin2) as (Ci & Ct & Cf & Ca & Cin & Cexp & Cno).
  set (sf4 := SafetyMonitor_CheckFTTI _) in *.
  destruct (finish_fields (fst sf4)) as (Fi & Fin & Fr & _ & Ft & Ff & Fa & _ & Fg & _).
  set (s' := if inSafeState (SafetyMonitor_UpdateGlobalStatus (fst sf4)) then _ else _) in *.
  clearbody s' sf4.
  rewrite Fi, Fin, Fr, Ft, Ff, Fa, Fg, Ci, Ct, Cf, Ca, Cin, Ai, Ri.
  rewrite At, Afirst, Aact, Ac, Rcount, Rt, Rf, Ra, Rc in *.
  split; [exact Hini |]. repeat (split; [reflexivity |]).
  split; [intros He; destruct (Cexp He) as (Hr & _ & Hf); split; assumption |].
  split; [exact Cno |]. reflexivity.
Qed.

End MonitorWindow.

Section MonitorTimeline.

Import SafetyMonitor Conditions Runs.

(** Whether a tick is quiet depends on the monitor only through the
    simulated watchdog status. *)
Lemma mon_tick_quiet_sim (g g0 : Globals) (lo hi : Z) (t : MonitorTick) :
  SafetyMonitor_SimWdgmEnabled g0 = SafetyMonitor_SimWdgmEnabled g ->
  SafetyMonitor_SimWdgmStatus g0 = SafetyMonitor_SimWdgmStatus g ->
  mon_tick_quiet g lo hi t ->
  mon_tick_quiet g0 lo hi t
  /\ fault_count (mon_sw t) (mon_lr t) (mon_hl t) g0
     = fault_count (mon_sw t) (mon_lr t) (mon_hl t) g.
Proof.
  intros Hen Hsim. unfold mon_tick_quiet, wdgm_condition, fault_count, wdgm_status.
  rewrite Hen, Hsim. intros H. split; [exact H | reflexivity].
Qed.

(** The monitor along a run of ticks that each count one or two faults
    and meet no immediate trigger. *)
Lemma mon_faulty_run (g : Globals) (flm : FLM.Globals) (ticks : list MonitorTick) :
  Forall (mon_tick_quiet g 1 2) ticks ->
  let n := Z.of_nat (length ticks) in
  let gf' := mon_run (SafetyMonitor_Init g, flm) ticks in
  let s' := SafetyMonitor_State (fst gf') in
  isInitialized s' = true
  /\ (n = 0 ->
      SafetyMonitor_SystemTime (fst gf') = SafetyMonitor_SystemTime g
      /\ totalFaultCount s' = 0)
  /\ (1 <= n < 41 ->
      SafetyMonitor_SystemTime (fst gf') = wrap32 (SafetyMonitor_SystemTime g + 5 * n)
      /\ 1 <= totalFaultCount s' <= 2
      /\ fttiActive s' = true
      /\ firstFaultTime s' = SafetyMonitor_SystemTime g)
  /\ (n < 41 ->
      SafetyMonitor_SimWdgmEnabled (fst gf') = SafetyMonitor_SimWdgmEnabled g
      /\ SafetyMonitor_SimWdgmStatus (fst gf') = SafetyMonitor_SimWdgmStatus g
      /\ inSafeState s' = false
      /\ snd gf' = flm)
  /\ (41 <= n ->
      inSafeState s' = true
      /\ safeStateReason s' = SAFE_STATE_REASON_TIMEOUT
      /\ snd gf' = FLM.FLM_TriggerSafeState SAFE_STATE_REASON_TIMEOUT flm
      /\ globalStatus s' = SAFETY_STATUS_SAFE_STATE).
Proof.
  induction ticks as [| t ticks IH] using rev_ind; intros Hall.
  - cbn. repeat split; try reflexivity; intros; lia.
  - apply Forall_app in Hall. destruct Hall as [Hall Ht].
    apply (proj1 (Forall_singleton _ _)) in Ht.
    specialize (IH Hall). cbv zeta in IH.
    destruct IH as (Ii & I0 & Imid & Ilow & Ihigh).
    rewrite mon_run_snoc, length_app, Nat2Z.inj_add. cbn [length].
    change (Z.of_nat 1) with 1.
    set (gf0 := mon_run (SafetyMonitor_Init g, flm) ticks) in *.
    set (n := Z.of_nat (length ticks)) in *.
    assert (Hn : 0 <= n) by (subst n; lia).
    clearbody gf0 n. cbv zeta.
    destruct (Z.lt_ge_cases n 41) as [Hlt | Hge].
    + destruct (Ilow Hlt) as (Ien & Isim & Iin & If).
      destruct gf0 as [g0 f0]. cbn [fst snd] in *. subst f0.
      destruct (mon_tick_quiet_sim g g0 1 2 t Ien Isim Ht) as [Ht0 Hcount].
      assert (Ht1 : mon_tick_quiet g0 0 2 t).
      { destruct Ht0 as (? & ? & ?). repeat split; try assumption; lia. }
      destruct (mon_step_quiet g0 flm t 2 Ii Iin ltac:(vm_compute; reflexivity) Ht1)
        as (Si & Stime & Sen & Ssim & St & Sf & Sa & Sin & Sexp & Sno & Sg).
      destruct Ht0 as (_ & _ & Hc).
      set (c := fault_count (mon_sw t) (mon_lr t) (mon_hl t) g0) in *. clearbody c.
      unfold SAFETYMONITOR_FTTI_MS in *.
      change FLM_SAFETY_MONITOR_PERIOD_MS with 5 in Stime.
      destruct (Z.ltb_spec 0 c) as [_ | ?]; [| lia].
      destruct (Z.eqb_spec c 0) as [? | _]; [lia |].
      assert (Hfirst : firstFaultTime
                         (SafetyMonitor_State (fst (mon_step (g0, flm) t)))
                       = SafetyMonitor_SystemTime g
                       /\ fttiActive
                            (SafetyMonitor_State (fst (mon_step (g0, flm) t))) = true
                       /\ wrap32 (SafetyMonitor_SystemTime g0
                                  - (if true && (totalFaultCount (SafetyMonitor_State g0) =? 0)
                                     then SafetyMonitor_SystemTime g0
                                     else firstFaultTime (SafetyMonitor_State g0)))
                          = 5 * n
                       /\ SafetyMonitor_SystemTime (fst (mon_step (g0, flm) t))
                          = wrap32 (SafetyMonitor_SystemTime g + 5 * (n + 1))).
      { rewrite Sf, Sa, Stime. cbn [andb].
        destruct (Z.eq_dec n 0) as [-> | Hpos].
        - destruct (I0 eq_refl) as (Itime & It). rewrite It, Itime. cbn [Z.eqb].
          replace (SafetyMonitor_SystemTime g - SafetyMonitor_SystemTime g) with 0 by lia.
          repeat split; reflexivity.
        - destruct (Imid ltac:(lia)) as (Itime & It & Ia & Ifirst).
          destruct (Z.eqb_spec (totalFaultCount (SafetyMonitor_State g0)) 0) as [? | _];
            [lia |].
          rewrite Ia, Ifirst, Itime.
          split; [reflexivity |]. split; [reflexivity |]. split.
          + unfold wrap32. rewrite Zminus_mod_idemp_l.
            replace (SafetyMonitor_SystemTime g + 5 * n - SafetyMonitor_SystemTime g)
              with (5 * n) by lia.
            apply Z.mod_small. lia.
          + unfold wrap32. rewrite Zplus_mod_idemp_l.
            replace (SafetyMonitor_SystemTime g + 5 * n + 5)
              with (SafetyMonitor_SystemTime g + 5 * (n + 1)) by lia.
            reflexivity. }
      destruct Hfirst as (Hf & Ha & Hel & Htime).
      cbn [andb] in Sin, Sexp, Sno, Sg, Hel. rewrite Hel in Sin, Sexp, Sno, Sg.
      assert (Hact : (if true && (totalFaultCount (SafetyMonitor_State g0) =? 0)
                      then true else fttiActive (SafetyMonitor_State g0)) = true)
        by (rewrite <- Sa; exact Ha).
      cbn [andb] in Hact. rewrite Hact in Sin, Sexp, Sno, Sg. cbn [andb] in Sin, Sexp, Sno, Sg.
      split; [exact Si |]. split; [intros; lia |].
      destruct (Z.leb_spec 200 (5 * n)) as [Hexp | Hexp].
      * destruct (Sexp eq_refl) as (Hr & Hflm).
        split; [intros; lia |]. split; [intros; lia |].
        intros _. repeat split; assumption.
      * split.
        { intros _. split; [exact Htime |]. split; [rewrite St; lia |].
          split; [exact Ha | exact Hf]. }
        split; [| intros; lia].
        intros _. split; [congruence |]. split; [congruence |].
        split; [exact Sin | exact (Sno eq_refl)].
    + destruct (Ihigh Hge) as (Iin & Ir & If & Ig).
      destruct (mon_step_latched gf0 t Ii Iin) as (Si & Sin & Sr & _ & Sf & Sg & _).
      split; [exact Si |]. split; [intros; lia |]. split; [intros; lia |].
      split; [intros; lia |]. intros _.
      split; [exact Sin |]. split; [congruence |]. split; [congruence | exact Sg].
Qed.

(** X25.  From initialisation, while every tick counts one or two active
    faults and meets no immediate trigger (the E2E supervisor is Valid,
    the watchdog neither Failed nor Expired), the monitor stays out of
    safe state for forty ticks and latches it at the forty-first, 200 ms
    after the first fault, with the reason Timeout, which it passes to
    the FLM application. *)
Theorem persistent_fault_times_out
    (g : Globals) (flm : FLM.Globals) (ticks : list MonitorTick) :
  Forall (mon_tick_quiet g 1 2) ticks ->
  let n := Z.of_nat (length ticks) in
  let gf' := mon_run (SafetyMonitor_Init g, flm) ticks in
  let s' := SafetyMonitor_State (fst gf') in
  inSafeState s' = (41 <=? n)
  /\ snd gf'
     = (if 41 <=? n then FLM.FLM_TriggerSafeState SAFE_STATE_REASON_TIMEOUT flm else flm)
  /\ (41 <= n ->
      safeStateReason s' = SAFE_STATE_REASON_TIMEOUT
      /\ globalStatus s' = SAFETY_STATUS_SAFE_STATE).
Proof.
  intros Hall n gf' s'.
  destruct (mon_faulty_run g flm ticks Hall) as (_ & _ & _ & Hlow & Hhigh).
  fold n in Hlow, Hhigh. fold gf' in Hlow, Hhigh. fold s' in Hlow, Hhigh.
  destruct (Z.leb_spec 41 n) as [Hge | Hlt].
  - destruct (Hhigh Hge) as (Hin & Hr & Hf & Hg).
    split; [exact Hin |]. split; [exact Hf |]. intros _. split; assumption.
  - destruct (Hlow Hlt) as (_ & _ & Hin & Hf).
    split; [exact Hin |]. split; [exact Hf |]. intros; lia.
Qed.

End MonitorTimeline.

(** ** The digital driver: channels and ports *)

Section DioPorts.

Import DioDriver.

(** Masking with a single bit tests that bit. *)
Lemma land_bit_test (a i : Z) :
  0 <= i -> (Z.land a (Z.shiftl 1 i) =? 0) = negb (Z.testbit a i).
Proof.
  intros Hi. rewrite Z.shiftl_1_l.
  destruct (Z.testbit a i) eqn:Hbit; cbn [negb].
  - apply Z.eqb_neq. intros Hz.
    assert (Hb : Z.testbit (Z.land a (2 ^ i)) i = true)
      by (rewrite Z.land_spec, Hbit, Z.pow2_bits_true by lia; reflexivity).
    rewrite Hz, Z.bits_0 in Hb. discriminate.
  - apply Z.eqb_eq. apply Z.bits_inj'. intros m Hm.
    rewrite Z.land_spec, Z.bits_0, Z.pow2_bits_eqb by lia.
    destruct (Z.eqb_spec i m) as [-> | _]; [rewrite Hbit; reflexivity | apply andb_false_r].
Qed.

(** The bits [Dio_ReadPort] collects: bit [i] is set exactly when channel
    [baseChannel + i] is not low. *)
Lemma read_bits_testbit (g : Globals) (baseChannel : Z) (n : nat) (i : Z) :
  0 <= baseChannel -> baseChannel + Z.of_nat n <= Dio.DIO_NUM_CHANNELS ->
  0 <= i < 8 ->
  Z.testbit (read_bits g baseChannel n) i
  = (i <? Z.of_nat n) && negb (channel_level g (baseChannel + i) =? Dio.STD_LOW).
Proof.
  intros Hbase Hfit Hi. unfold Dio.DIO_NUM_CHANNELS in Hfit.
  induction n as [| k IH].
  - cbn [read_bits]. rewrite Z.bits_0. destruct (Z.ltb_spec i (Z.of_nat 0)); [lia | reflexivity].
  - cbn [read_bits]. cbv zeta.
    assert (Hch : wrap8 (baseChannel + Z.of_nat k) = baseChannel + Z.of_nat k)
      by (unfold wrap8; apply Z.mod_small; lia).
    rewrite Hch. unfold Dio.DIO_NUM_CHANNELS.
    destruct (Z.ltb_spec (baseChannel + Z.of_nat k) 16) as [_ | ?]; [| lia].
    specialize (IH ltac:(lia)).
    destruct (Z.ltb_spec i (Z.of_nat (S k))) as [Hlt | Hge];
      destruct (Z.ltb_spec i (Z.of_nat k)) as [Hlt' | Hge']; try lia;
      cbn [andb] in IH |- *;
      destruct (channel_level g (baseChannel + Z.of_nat k) =? Dio.STD_LOW) eqn:Hlow;
      cbn [negb]; try exact IH.
    + unfold wrap8. change 256 with (2 ^ 8). rewrite Z.mod_pow2_bits_low by lia.
      rewrite Z.lor_spec, IH, Z.shiftl_1_l, Z.pow2_bits_eqb by lia.
      destruct (Z.eqb_spec (Z.of_nat k) i); [lia |]. apply orb_false_r.
    + assert (Hik : i = Z.of_nat k) by lia. subst i. rewrite Hlow. exact IH.
    + assert (Hik : i = Z.of_nat k) by lia. subst i. rewrite Hlow. cbn [negb].
      unfold wrap8. change 256 with (2 ^ 8). rewrite Z.mod_pow2_bits_low by lia.
      rewrite Z.lor_spec, Z.shiftl_1_l, Z.pow2_bits_true by lia. apply orb_true_r.
    + unfold wrap8. change 256 with (2 ^ 8). rewrite Z.mod_pow2_bits_low by lia.
      rewrite Z.lor_spec, IH, Z.shiftl_1_l, Z.pow2_bits_eqb by lia.
      destruct (Z.eqb_spec (Z.of_nat k) i); [lia |]. reflexivity.
Qed.

(** What [Dio_ReadPort] collects depends on the levels of its own
    channels only. *)
Lemma read_bits_ext (g g' : Globals) (baseChannel : Z) (n : nat) :
  0 <= baseChannel -> baseChannel + Z.of_nat n <= Dio.DIO_NUM_CHANNELS ->
  (forall i, 0 <= i < Z.of_nat n ->
     channel_level g' (baseChannel + i) = channel_level g (baseChannel + i)) ->
  read_bits g' baseChannel n = read_bits g baseChannel n.
Proof.
  intros Hbase Hfit. unfold Dio.DIO_NUM_CHANNELS in Hfit.
  induction n as [| k IH]; intros Hsame; [reflexivity |].
  cbn [read_bits]. cbv zeta.
  assert (Hch : wrap8 (baseChannel + Z.of_nat k) = baseChannel + Z.of_nat k)
    by (unfold wrap8; apply Z.mod_small; lia).
  rewrite Hch, IH by (try lia; intros i Hi; apply Hsame; lia).
  rewrite (Hsame (Z.of_nat k)) by lia. reflexivity.
Qed.

(** What [Dio_WritePort] leaves behind: directions, input levels and
    sizes as they were, the outputs among its channels at the bits of
    [Level], every other output level as it was. *)
Lemma write_bits_levels (Level baseChannel : Z) (n : nat) (g : Globals) (ch : Z) :
  well_sized g ->
  0 <= baseChannel -> baseChannel + Z.of_nat n <= Dio.DIO_NUM_CHANNELS ->
  0 <= ch ->
  let g' := write_bits Level baseChannel n g in
  well_sized g'
  /\ Dio.Dio_ChannelDirection (pins g') = Dio.Dio_ChannelDirection (pins g)
  /\ Dio_SimInputLevels g' = Dio_SimInputLevels g
  /\ rd (Dio.Dio_OutputLevels (pins g')) ch
     = (if (baseChannel <=? ch) && (ch <? baseChannel + Z.of_nat n) && direction g ch
        then if Z.testbit Level (ch - baseChannel) then Dio.STD_HIGH else Dio.STD_LOW
        else rd (Dio.Dio_OutputLevels (pins g)) ch).
Proof.
  intros Hsize Hbase Hfit Hch0. unfold Dio.DIO_NUM_CHANNELS in Hfit.
  induction n as [| k IH].
  - cbn [write_bits]. cbv zeta. split; [exact Hsize |]. split; [reflexivity |].
    split; [reflexivity |].
    destruct (Z.leb_spec baseChannel ch); destruct (Z.ltb_spec ch (baseChannel + Z.of_nat 0));
      cbn [andb]; try reflexivity; lia.
  - specialize (IH ltac:(lia)). cbv zeta in IH.
    destruct IH as (Isize & Idir & Isim & Ilvl).
    cbn [write_bits]. cbv zeta.
    set (g0 := write_bits Level baseChannel k g) in *. clearbody g0.
    assert (Hc : wrap8 (baseChannel + Z.of_nat k) = baseChannel + Z.of_nat k)
      by (unfold wrap8; apply Z.mod_small; lia).
    rewrite Hc. unfold Dio.DIO_NUM_CHANNELS.
    destruct (Z.ltb_spec (baseChannel + Z.of_nat k) 16) as [_ | ?]; [| lia].
    cbn [andb].
    assert (Hd0 : forall c, direction g0 c = direction g c)
      by (intros c; unfold direction; rewrite Idir; reflexivity).
    rewrite Hd0.
    destruct Isize as (Hl1 & Hl2 & Hl3).
    change (Z.to_nat Dio.DIO_NUM_CHANNELS) with 16%nat in *.
    destruct (direction g (baseChannel + Z.of_nat k)) eqn:Hdir.
    + unfold with_pins. cbn [pins Dio.Dio_OutputLevels Dio.Dio_ChannelDirection
                             Dio_SimInputLevels].
      split.
      { unfold well_sized. cbn [pins Dio.Dio_OutputLevels Dio.Dio_ChannelDirection
                                Dio_SimInputLevels].
        change (Z.to_nat Dio.DIO_NUM_CHANNELS) with 16%nat.
        unfold wr. rewrite length_insert. repeat split; assumption. }
      split; [exact Idir |]. split; [exact Isim |].
      unfold rd, wr in *.
      destruct (Z.eq_dec ch (baseChannel + Z.of_nat k)) as [-> | Hne].
      * rewrite list_lookup_insert_eq by lia. cbn [default from_option id].
        rewrite land_bit_test by lia. rewrite negb_involutive.
        destruct (Z.leb_spec baseChannel (baseChannel + Z.of_nat k)); [| lia].
        destruct (Z.ltb_spec (baseChannel + Z.of_nat k) (baseChannel + Z.of_nat (S k)));
          [| lia].
        rewrite Hdir. cbn [andb].
        replace (baseChannel + Z.of_nat k - baseChannel) with (Z.of_nat k) by lia.
        reflexivity.
      * rewrite list_lookup_insert_ne by lia. rewrite Ilvl.
        destruct (Z.leb_spec baseChannel ch);
          destruct (Z.ltb_spec ch (baseChannel + Z.of_nat k));
          destruct (Z.ltb_spec ch (baseChannel + Z.of_nat (S k)));
          cbn [andb]; try reflexivity; lia.
    + split; [repeat split; assumption |]. split; [exact Idir |]. split; [exact Isim |].
      rewrite Ilvl.
      destruct (Z.eq_dec ch (baseChannel + Z.of_nat k)) as [-> | Hne].
      * rewrite Hdir, !andb_false_r. reflexivity.
      * destruct (Z.leb_spec baseChannel ch);
          destruct (Z.ltb_spec ch (baseChannel + Z.of_nat k));
          destruct (Z.ltb_spec ch (baseChannel + Z.of_nat (S k)));
          cbn [andb]; try reflexivity; lia.
Qed.

(** X26.  After [Dio_WritePort], [Dio_ReadPort] of the same port gives
    bit by bit what was written on the channels that are outputs and what
    it gave before on the channels that are inputs; the other port reads
    as before. *)
Theorem port_write_reads_back (g : Globals) (PortId Level : Z) :
  well_sized g ->
  0 <= PortId < DIO_NUM_PORTS ->
  let g' := Dio_WritePort PortId Level g in
  (forall i, 0 <= i < DIO_CHANNELS_PER_PORT ->
     Z.testbit (Dio_ReadPort PortId g') i
     = (if direction g (PortId * DIO_CHANNELS_PER_PORT + i)
        then Z.testbit Level i
        else Z.testbit (Dio_ReadPort PortId g) i))
  /\ (forall other, 0 <= other -> other <> PortId ->
        Dio_ReadPort other g' = Dio_ReadPort other g).
Proof.
  intros Hsize Hport. unfold DIO_NUM_PORTS, DIO_CHANNELS_PER_PORT in *. cbv zeta.
  unfold Dio_WritePort, DIO_NUM_PORTS, DIO_CHANNELS_PER_PORT.
  destruct (Z.leb_spec 2 PortId) as [? | _]; [lia |].
  assert (Hbase : wrap8 (PortId * 8) = PortId * 8)
    by (unfold wrap8; apply Z.mod_small; lia).
  rewrite Hbase. change (Z.to_nat 8) with 8%nat.
  assert (Hlevel : forall ch, 0 <= ch ->
            channel_level (write_bits Level (PortId * 8) 8 g) ch
            = (if (PortId * 8 <=? ch) && (ch <? PortId * 8 + 8) && direction g ch
               then if Z.testbit Level (ch - PortId * 8) then Dio.STD_HIGH else Dio.STD_LOW
               else channel_level g ch)).
  { intros ch Hch.
    destruct (write_bits_levels Level (PortId * 8) 8 g ch Hsize) as (_ & Hdir & Hsim & Hlvl);
      [lia | unfold Dio.DIO_NUM_CHANNELS; lia | exact Hch |].
    change (Z.of_nat 8) with 8 in Hlvl.
    unfold channel_level, direction. rewrite Hdir, Hsim. fold (direction g ch).
    destruct (direction g ch) eqn:Hd; [exact Hlvl |].
    rewrite andb_false_r. reflexivity. }
  split.
  - intros i Hi. unfold Dio_ReadPort, DIO_NUM_PORTS, DIO_CHANNELS_PER_PORT.
    destruct (Z.leb_spec 2 PortId) as [? | _]; [lia |].
    rewrite Hbase. change (Z.to_nat 8) with 8%nat.
    rewrite !read_bits_testbit by (unfold Dio.DIO_NUM_CHANNELS; lia).
    change (Z.of_nat 8) with 8.
    destruct (Z.ltb_spec i 8) as [_ | ?]; [| lia]. cbn [andb].
    rewrite Hlevel by lia.
    destruct (Z.leb_spec (PortId * 8) (PortId * 8 + i)); [| lia].
    destruct (Z.ltb_spec (PortId * 8 + i) (PortId * 8 + 8)); [| lia].
    cbn [andb].
    destruct (direction g (PortId * 8 + i)); [| reflexivity].
    replace (PortId * 8 + i - PortId * 8) with i by lia.
    destruct (Z.testbit Level i); reflexivity.
  - intros other Hother Hne. unfold Dio_ReadPort, DIO_NUM_PORTS, DIO_CHANNELS_PER_PORT.
    destruct (Z.leb_spec 2 other) as [? | Hlt]; [reflexivity |].
    assert (Hob : wrap8 (other * 8) = other * 8)
      by (unfold wrap8; apply Z.mod_small; lia).
    rewrite Hob. change (Z.to_nat 8) with 8%nat.
    apply read_bits_ext; [lia | unfold Dio.DIO_NUM_CHANNELS; lia |].
    intros i Hi. change (Z.of_nat 8) with 8 in Hi.
    rewrite Hlevel by lia.
    destruct (Z.leb_spec (PortId * 8) (other * 8 + i));
      destruct (Z.ltb_spec (other * 8 + i) (PortId * 8 + 8));
      cbn [andb]; try reflexivity; lia.
Qed.

(** X27.  A channel write is read back on an output channel, normalised
    to low or high, and is ignored on an input channel, which keeps
    reading its input level; no other channel is affected.  Flipping an
    output right after the write returns and leaves the opposite level. *)
Theorem channel_write_reads_back (g : Globals) (ChannelId Level : Z) :
  well_sized g ->
  0 <= ChannelId < Dio.DIO_NUM_CHANNELS ->
  let g' := Dio_WriteChannel ChannelId Level g in
  Dio_ReadChannel ChannelId g'
  = (if direction g ChannelId
     then if Level =? Dio.STD_LOW then Dio.STD_LOW else Dio.STD_HIGH
     else Dio_ReadChannel ChannelId g)
  /\ (forall other, 0 <= other -> other <> ChannelId ->
        Dio_ReadChannel other g' = Dio_ReadChannel other g)
  /\ (direction g ChannelId = true ->
      let '(flipped, g'') := Dio_FlipChannel ChannelId g' in
      flipped = (if Level =? Dio.STD_LOW then Dio.STD_HIGH else Dio.STD_LOW)
      /\ Dio_ReadChannel ChannelId g'' = flipped).
Proof.
  intros (Hl1 & Hl2 & Hl3) Hch. unfold Dio.DIO_NUM_CHANNELS in Hch.
  change (Z.to_nat Dio.DIO_NUM_CHANNELS) with 16%nat in *.
  destruct g as [ini [levels dirs] sim].
  cbn [pins Dio.Dio_OutputLevels Dio.Dio_ChannelDirection Dio_SimInputLevels] in *.
  cbv zeta.
  unfold Dio_WriteChannel, Dio.Dio_WriteChannel, Dio_ReadChannel, Dio_FlipChannel,
    channel_level, direction, with_pins, Dio.DIO_NUM_CHANNELS.
  cbn [pins Dio.Dio_OutputLevels Dio.Dio_ChannelDirection Dio_SimInputLevels
       Dio_Initialized].
  destruct (Z.leb_spec 16 ChannelId) as [? | _]; [lia |].
  destruct (default false (dirs !! Z.to_nat ChannelId)) eqn:Hdir;
    cbn [pins Dio.Dio_OutputLevels Dio.Dio_ChannelDirection Dio_SimInputLevels
         Dio_Initialized negb];
    rewrite ?Hdir; cbn [negb].
  - unfold rd, wr. rewrite !list_lookup_insert_eq by (rewrite ?length_insert; lia).
    cbn [default from_option id].
    split; [destruct (Level =? Dio.STD_LOW); reflexivity |].
    split.
    + intros other Hother Hne.
      destruct (16 <=? other); [reflexivity |].
      rewrite list_lookup_insert_ne by lia. reflexivity.
    + intros _. cbn [pins Dio.Dio_OutputLevels Dio.Dio_ChannelDirection].
      rewrite Hdir. rewrite !list_lookup_insert_eq by (rewrite ?length_insert; lia).
      cbn [default from_option id].
      destruct (Level =? Dio.STD_LOW); cbn; split; reflexivity.
  - split; [reflexivity |]. split; [intros; reflexivity | discriminate].
Qed.

End DioPorts.

(** ** The further properties on concrete inputs *)

(** Channel 0 set to 5000, past the 12-bit range, and converted. *)
Lemma simulated_value_is_converted_witness :
  fst (Adc.convert 0 (Adc.Adc_SimSetValue 0 5000 Samples.adc_ready)) = Some 4095.
Proof.
  assert (Hch : 0 <= 0 < Adc.ADC_NUM_CHANNELS) by (unfold Adc.ADC_NUM_CHANNELS; lia).
  pose proof (simulated_value_is_converted Samples.adc_ready 0 5000
                eq_refl Hch eq_refl eq_refl eq_refl) as H.
  destruct (Adc.convert 0 (Adc.Adc_SimSetValue 0 5000 Samples.adc_ready)) as [r a'].
  destruct H as (Hr & _). exact Hr.
Defined.

(** The protected LowBeam frame indicated to the communication module. *)
Lemma rx_indication_reaches_switch_event_witness :
  SwitchEvent.lastMessageData
    (SwitchEvent.SwitchEvent_State
       (snd (Com.Com_MainFunctionRx
               (Com.Com_RxIndication Com.COM_IPDU_LIGHTSWITCH_RX
                  (Some {| Com.SduDataPtr := Some Samples.low_beam_frame;
                           Com.SduLength := Z.of_nat (length Samples.low_beam_frame) |})
                  Samples.com_ready,
                Samples.sw_fresh))))
  = Samples.low_beam_frame.
Proof.
  assert (Hlt : Z.of_nat (length Samples.low_beam_frame) < 4294967296)
    by (vm_compute; reflexivity).
  pose proof (rx_indication_reaches_switch_event Samples.com_ready Samples.sw_fresh
                Samples.low_beam_frame eq_refl eq_refl Hlt) as H.
  cbv zeta in H.
  destruct (Com.Com_MainFunctionRx _) as [c1 sw1].
  destruct H as (H4 & _). exact (proj1 (H4 eq_refl)).
Defined.

(** Signal 5 sent with the value 42, and sent and received without a
    data pointer. *)
Lemma sent_signal_is_received_witness :
  Com.Com_ReceiveSignal 5 true (snd (Com.Com_SendSignal 5 (Some 42) Samples.com_ready))
  = (E_OK, Some 42)
  /\ Com.Com_SendSignal 5 None Samples.com_ready = (E_NOT_OK, Samples.com_ready)
  /\ Com.Com_ReceiveSignal 5 false Samples.com_ready = (E_NOT_OK, None).
Proof.
  assert (Hid : 0 <= 5) by lia.
  pose proof (sent_signal_is_received Samples.com_ready 5 42 eq_refl eq_refl Hid) as H.
  destruct H as (Hnull & Hrnull & H).
  destruct (Com.Com_SendSignal 5 (Some 42) Samples.com_ready) as [r c'].
  change (5 <? Com.COM_MAX_SIGNAL_COUNT) with true in H. cbv iota in H.
  destruct H as (_ & Hrecv & _).
  split; [exact Hrecv |]. split; [exact Hnull | exact Hrnull].
Defined.

(** Four ticks that read 2000. *)
Lemma constant_reading_timeline_witness :
  LightRequest.signalStatus
    (LightRequest.LightRequest_State
       (Runs.lr_run (LightRequest.LightRequest_Init LightRequest.power_on)
          (replicate 4 (Some 2000))))
  = SIGNAL_STATUS_VALID.
Proof.
  pose proof (constant_reading_timeline LightRequest.power_on 2000
                (replicate 4 (Some 2000))) as H.
  cbv zeta in H. destruct H as (_ & _ & _ & Hst & _).
  - lia.
  - apply Forall_replicate. reflexivity.
  - discriminate.
  - exact Hst.
Defined.

(** A reading of 800 followed by one of 1000. *)
Lemma filtered_value_stays_in_window_witness :
  800 <= LightRequest.adcFilteredValue
           (LightRequest.LightRequest_State
              (Runs.lr_run (LightRequest.LightRequest_Init LightRequest.power_on)
                 [Some 800; Some 1000]))
      <= 1000.
Proof.
  pose proof (filtered_value_stays_in_window LightRequest.power_on 800 1000
                [Some 800; Some 1000]) as H.
  cbv zeta in H. destruct H as (Hflt & _).
  - lia.
  - lia.
  - apply Forall_cons. split; [exists 800; split; [reflexivity | lia] |].
    apply Forall_cons. split; [exists 1000; split; [reflexivity | lia] |].
    apply Forall_nil_2.
  - discriminate.
  - exact Hflt.
Defined.

(** Fourteen ticks that jump between 0 and 4000. *)
Lemma plausibility_fault_needs_fifteen_ticks_witness :
  LightRequest.plausibilityFault
    (LightRequest.LightRequest_State
       (Runs.lr_run (LightRequest.LightRequest_Init LightRequest.power_on)
          (concat (replicate 7 [Some 0; Some 4000]))))
  = false.
Proof.
  pose proof (plausibility_fault_needs_fifteen_ticks LightRequest.power_on
                (concat (replicate 7 [Some 0; Some 4000]))) as H.
  cbv zeta in H. destruct H as (Hpf & _).
  - cbn. lia.
  - exact Hpf.
Defined.

(** Fourteen ticks without a valid switch report, from cruising. *)
Lemma lost_input_reaches_safe_state_witness :
  FLM.currentState
    (FLM.FLM_State (Schedule.flm_run Samples.flm_cruising (replicate 14 Samples.lost_tick)))
  = FLM_STATE_SAFE.
Proof.
  pose proof (lost_input_reaches_safe_state Samples.flm_cruising
                (replicate 14 Samples.lost_tick)) as H.
  cbv zeta in H. apply H; clear H.
  - vm_compute. reflexivity.
  - vm_compute. reflexivity.
  - vm_compute. reflexivity.
  - vm_compute. reflexivity.
  - vm_compute. reflexivity.
  - apply Forall_replicate. split; vm_compute; reflexivity.
Defined.

(** A valid HighBeam request after two ticks without a valid switch
    report. *)
Lemma valid_inputs_give_normal_operation_witness :
  let s' := FLM.FLM_State (Schedule.flm_step Samples.flm_two_lost Samples.valid_tick) in
  FLM.currentState s' = FLM_STATE_NORMAL
  /\ FLM.consecutiveErrors s' = 0
  /\ FLM.headlightCommand s' = HEADLIGHT_CMD_HIGH_BEAM.
Proof.
  pose proof (valid_inputs_give_normal_operation Samples.flm_two_lost Samples.valid_tick)
    as H.
  cbv zeta in H |- *. destruct H as (Hst & Herr & _ & Hcmd).
  - vm_compute. reflexivity.
  - vm_compute. discriminate.
  - vm_compute. reflexivity.
  - vm_compute. reflexivity.
  - vm_compute. reflexivity.
  - vm_compute. reflexivity.
  - split; [exact Hst |]. split; [exact Herr |]. rewrite Hcmd. vm_compute. reflexivity.
Defined.

(** The third tick without a valid switch report, in daylight. *)
Lemma degraded_without_switch_follows_ambient_witness :
  FLM.headlightCommand
    (FLM.FLM_State
       (FLM.FLM_MainFunction Cases.sw_no_frames Cases.lr_valid Samples.flm_two_lost))
  = HEADLIGHT_CMD_OFF.
Proof.
  pose proof (degraded_without_switch_follows_ambient Cases.sw_no_frames Cases.lr_valid
                Samples.flm_two_lost) as H.
  cbv zeta in H. destruct H as (_ & _ & Hoff).
  - vm_compute. reflexivity.
  - vm_compute. reflexivity.
  - vm_compute. reflexivity.
  - vm_compute. reflexivity.
  - apply Hoff. vm_compute. reflexivity.
Defined.

(** A safe-state request while cruising with HighBeam in daylight. *)
Lemma safe_state_request_is_served_witness :
  FLM.FLM_GetHeadlightCommand
    (FLM.FLM_MainFunction (Bench.sw Cases.cruising_high_beam) Cases.lr_valid
       (FLM.FLM_MainFunction (Bench.sw Cases.cruising_high_beam) Cases.lr_valid
          (FLM.FLM_TriggerSafeState SAFE_STATE_REASON_MANUAL Samples.flm_cruising)))
  = HEADLIGHT_CMD_OFF.
Proof.
  pose proof (safe_state_request_is_served Samples.flm_cruising SAFE_STATE_REASON_MANUAL
                (Bench.sw Cases.cruising_high_beam) (Bench.sw Cases.cruising_high_beam)
                Cases.lr_valid Cases.lr_valid) as H.
  cbv zeta in H. destruct H as (_ & _ & Hcmd).
  - vm_compute. reflexivity.
  - rewrite Hcmd. vm_compute. reflexivity.
Defined.

(** Two ticks with LowBeam requested and 5000 mA sensed. *)
Lemma healthy_load_follows_commands_witness :
  Dio.level
    (Headlight.dio
       (Schedule.hl_run (Headlight.Headlight_Init Samples.hl_cold)
          ([Samples.hl_tick_lit] ++ [Samples.hl_tick_lit])))
    Headlight.HEADLIGHT_DIO_LOW_BEAM
  = Dio.STD_HIGH.
Proof.
  pose proof (healthy_load_follows_commands Samples.hl_cold [Samples.hl_tick_lit]
                Samples.hl_tick_lit) as H.
  cbv zeta in H. destruct H as (_ & _ & _ & Hlow & _).
  - split; vm_compute; reflexivity.
  - cbn [app].
    apply Forall_cons. split.
    { split; [reflexivity |]. exists 5000. split; [reflexivity |].
      unfold FLM_HEADLIGHT_OPEN_LOAD_MA, FLM_HEADLIGHT_MAX_CURRENT_MA. lia. }
    apply Forall_cons. split.
    { split; [reflexivity |]. exists 5000. split; [reflexivity |].
      unfold FLM_HEADLIGHT_OPEN_LOAD_MA, FLM_HEADLIGHT_MAX_CURRENT_MA. lia. }
    apply Forall_nil_2.
  - rewrite Hlow. vm_compute. reflexivity.
Defined.

(** Four ticks with LowBeam requested and no current sensed. *)
Lemma open_load_is_confirmed_at_fourth_tick_witness :
  Headlight.Headlight_GetFaultStatus
    (Schedule.hl_run (Headlight.Headlight_Init Samples.hl_cold)
       (replicate 4 Samples.hl_tick_dark))
  = HEADLIGHT_FAULT_OPEN_LOAD.
Proof.
  pose proof (open_load_is_confirmed_at_fourth_tick Samples.hl_cold HEADLIGHT_CMD_LOW_BEAM
                (replicate 4 Samples.hl_tick_dark)) as H.
  cbv zeta in H. destruct H as (Hst & _).
  - discriminate.
  - split; vm_compute; reflexivity.
  - apply Forall_replicate. split; [vm_compute; reflexivity |].
    split; [reflexivity |]. exists 0. split; [reflexivity |].
    unfold FLM_HEADLIGHT_OPEN_LOAD_MA. lia.
  - discriminate.
  - exact Hst.
Defined.


(** Forty-one ticks with the ambient reading invalid. *)
Lemma persistent_fault_times_out_witness :
  let gf' :=
    Runs.mon_run
      (SafetyMonitor.SafetyMonitor_Init SafetyMonitor.power_on, FLM.FLM_Init FLM.power_on)
      (replicate 41 Samples.mon_tick_one_fault) in
  SafetyMonitor.inSafeState (SafetyMonitor.SafetyMonitor_State (fst gf')) = true
  /\ SafetyMonitor.safeStateReason (SafetyMonitor.SafetyMonitor_State (fst gf'))
     = SAFE_STATE_REASON_TIMEOUT.
Proof.
  pose proof (persistent_fault_times_out SafetyMonitor.power_on (FLM.FLM_Init FLM.power_on)
                (replicate 41 Samples.mon_tick_one_fault)) as H.
  cbv zeta in H |- *. destruct H as (Hin & _ & Hlate).
  - apply Forall_replicate. split; [vm_compute; reflexivity |].
    split; [vm_compute; reflexivity |]. vm_compute. split; discriminate.
  - split; [exact Hin |]. apply Hlate. vm_compute. discriminate.
Defined.

(** The value 3 written to port 0, whose channels 0 and 1 are outputs. *)
Lemma port_write_reads_back_witness :
  Z.testbit (DioDriver.Dio_ReadPort 0 (DioDriver.Dio_WritePort 0 3 Samples.dio_ready)) 1
  = true.
Proof.
  pose proof (port_write_reads_back Samples.dio_ready 0 3) as H.
  cbv zeta in H. destruct H as (Hbits & _).
  - repeat split; reflexivity.
  - unfold DioDriver.DIO_NUM_PORTS. lia.
  - rewrite (Hbits 1) by (unfold DioDriver.DIO_CHANNELS_PER_PORT; lia).
    vm_compute. reflexivity.
Defined.

(** The level 7 written to the low-beam channel. *)
Lemma channel_write_reads_back_witness :
  DioDriver.Dio_ReadChannel 0 (DioDriver.Dio_WriteChannel 0 7 Samples.dio_ready)
  = Dio.STD_HIGH.
Proof.
  pose proof (channel_write_reads_back Samples.dio_ready 0 7) as H.
  cbv zeta in H. destruct H as (Hread & _).
  - repeat split; reflexivity.
  - unfold Dio.DIO_NUM_CHANNELS. lia.
  - rewrite Hread. vm_compute. reflexivity.
Defined.
